(** * Order-book replicas and work dispatch of the OKX market-data spider

    A shallow embedding of
    - [data_source/spiders/base_spider.py]: [FastOrderBook],
      [NewOrderBookManager] and the dispatcher of [BaseWSClient];
    - [data_source/spiders/okex_spider.py]: [OkexWSClient.handle_books];
    - [data_source/orderbook_manager.py]: the depth lookups of
      [OrderBookManager];
    - [common/topic.py]: the topics and their parsers;
    - [data_source/spiders/base_spider.py] and
      [data_source/spiders/okex_spider.py] again: the publication of marks,
      underlying prices and klines, the handlers of the mark-price and
      option-summary channels, the routing of messages and the batches of
      subscriptions;
    - [tools/instruments.py]: [get_subject_by], [get_subject_by_v2] and
      [parse_ee_instrument], over a matcher of regular expressions;
    - [tools/number.py]: the client order ids;
    - [strategy/spot_future_arbitrage/okx_strategy.py]:
      [get_arbitrage_rate].

    Python objects that are mutated in place are modelled by explicit state
    passing; a raised exception returns the state reached when it was
    raised. *)

From Stdlib Require Import ZArith List Bool Ascii String Lia SpecFloat Permutation Sorted DecimalString.
From stdpp Require Import gmap strings.

(** ** Python floats

    A Python [float] is an IEEE 754 binary64 number.  The Standard Library's
    [spec_float] with precision 53 and maximal exponent 1024 is that format
    with round-to-nearest-even arithmetic. *)
Module PyFloat.

Abbreviation float := spec_float.

Definition prec : Z := 53%Z.
Definition emax : Z := 1024%Z.

(** [x * y] *)
Definition mul (x y : float) : float := SFmul prec emax x y.

(** [x == y]: false as soon as one side is NaN, true on [0.0 == -0.0]. *)
Definition eqb (x y : float) : bool := SFeqb x y.

(** [x < y] *)
Definition ltb (x y : float) : bool := SFltb x y.

(** [float(z)] for a Python int [z]. *)
Definition of_int (z : Z) : float := binary_normalize prec emax z 0%Z false.

Definition is_nan (x : float) : bool :=
  match x with S754_nan => true | _ => false end.

(** Truthiness of a float: [bool(x)] is [x != 0]. *)
Definition truthy (x : float) : bool := negb (eqb x (of_int 0%Z)).

(** [rank] embeds the floats other than NaN into triples of integers
    ordered lexicographically, in the order of [<]. *)
Definition rank (x : float) : Z * Z * Z :=
  match x with
  | S754_nan => (0, 0, 0)%Z
  | S754_zero _ => (0, 0, 0)%Z
  | S754_infinity true => (-2, 0, 0)%Z
  | S754_infinity false => (2, 0, 0)%Z
  | S754_finite true m e => (-1, - e, - Z.pos m)%Z
  | S754_finite false m e => (1, e, Z.pos m)%Z
  end.

Definition rank_lt (a b : Z * Z * Z) : Prop :=
  let '(a1, a2, a3) := a in
  let '(b1, b2, b3) := b in
  (a1 < b1 \/ (a1 = b1 /\ (a2 < b2 \/ (a2 = b2 /\ a3 < b3))))%Z.

End PyFloat.

Import PyFloat.

Arguments mul : simpl never.
Arguments eqb : simpl never.
Arguments ltb : simpl never.
Arguments of_int : simpl never.

(** A value that is a Python [int] on one path and a [float] on another
    (the result of [x or 0]). *)
Inductive num : Type :=
| NInt (z : Z)
| NFloat (f : float).

(** A numeral string of the instrument table as [float()] reads it.  OKX
    sends the empty string for a field that does not apply to the
    instrument; the empty string (like [None]) is falsy. *)
Inductive numstr : Type :=
| Blank
| Numeral (v : float).

(** [float(s or 1)] *)
Definition float_or_1 (s : numstr) : float :=
  match s with
  | Blank => of_int 1%Z
  | Numeral v => v
  end.

(** ** Exceptions and the state-and-exception monad *)

Inductive exn : Type :=
| KeyError
| TypeError
| AttributeError
| IndexError
| ValueError
| RuntimeError.

Module Py.

(** A computation over a mutable object of type [S]: the outcome (an
    exception or a value) and the object as the computation left it. *)
Definition M (S A : Type) : Type := S -> (exn + A) * S.

Definition ret {S A} (a : A) : M S A := fun s => (inr a, s).

Definition raise {S A} (e : exn) : M S A := fun s => (inl e, s).

Definition bind {S A B} (c : M S A) (k : A -> M S B) : M S B :=
  fun s =>
    match c s with
    | (inr a, s') => k a s'
    | (inl e, s') => (inl e, s')
    end.

Definition get {S} : M S S := fun s => (inr s, s).

Definition modify {S} (f : S -> S) : M S unit := fun s => (inr tt, f s).

(** [for x in l: body(x)] *)
Fixpoint for_each {S A} (l : list A) (body : A -> M S unit) : M S unit :=
  match l with
  | [] => ret tt
  | x :: rest => bind (body x) (fun _ => for_each rest body)
  end.

(** [try: c  except Exception as e: h(e)] *)
Definition try_except {S A} (c : M S A) (h : exn -> M S A) : M S A :=
  fun s =>
    match c s with
    | (inr a, s') => (inr a, s')
    | (inl e, s') => h e s'
    end.

(** Run a computation on a component of the state. *)
Definition zoom {S T A} (proj : S -> T) (inj : T -> S -> S) (c : M T A) : M S A :=
  fun s =>
    match c (proj s) with
    | (r, t') => (r, inj t' s)
    end.

End Py.

Declare Scope py_scope.
Delimit Scope py_scope with py.
Notation "x <- c ;; k" := (Py.bind c (fun x => k))
  (at level 100, c at next level, right associativity) : py_scope.
Notation "c ;;; k" := (Py.bind c (fun _ => k))
  (at level 100, right associativity) : py_scope.

(** ** Python dicts keyed by floats

    A dict keeps its entries in insertion order and finds a key by [==].
    Storing under a key that is already present replaces the value and
    keeps the key object that was there. *)
Module PyDict.

Definition t : Type := list (float * float).

Fixpoint get (k : float) (d : t) : option float :=
  match d with
  | [] => None
  | (k', v) :: rest => if eqb k' k then Some v else get k rest
  end.

(** [k in d] *)
Definition contains (k : float) (d : t) : bool :=
  match get k d with Some _ => true | None => false end.

(** [d[k] = v] *)
Fixpoint set (k v : float) (d : t) : t :=
  match d with
  | [] => [(k, v)]
  | (k', v') :: rest =>
      if eqb k' k then (k', v) :: rest else (k', v') :: set k v rest
  end.

(** [del d[k]], for a key that is present.  A dict holds no two keys that
    are [==], so dropping the entries whose key is [== k] drops the one
    entry of [k]. *)
Definition del (k : float) (d : t) : t :=
  List.filter (fun kv => negb (eqb (fst kv) k)) d.

(** [{float(price): float(amount) * contract_size for price, amount, *_ in levels}] *)
Definition of_levels (contract_size : float) (levels : list (float * float)) : t :=
  fold_left (fun d lv => set (fst lv) (mul (snd lv) contract_size) d) levels [].

Definition keys (d : t) : list float := map fst d.

(** Keys that are pairwise different under [==], none of them NaN. *)
Fixpoint distinct_keys (ks : list float) : Prop :=
  match ks with
  | [] => True
  | k :: rest =>
      is_nan k = false /\ Forall (fun k' => eqb k k' = false) rest /\ distinct_keys rest
  end.

(** The shape of a dict whose keys were read from numerals: no key twice,
    no NaN. *)
Definition wf (d : t) : Prop := distinct_keys (keys d).

(** [k] is the key object under which a store of [k0] is kept: [k0] itself,
    or the equal key that was already there. *)
Definition same_key (k k0 : float) : Prop := k = k0 \/ eqb k k0 = true.

End PyDict.

(** ** Collaborators outside the embedded code

    [SPIDER_CONSUMER_WORKERS] is read from the process environment by
    [basis_alpha/settings.py].  [InstrumentConverter.to_system] lives in
    [common/okx_common.py], which is not part of the sources at hand, and is
    taken as a parameter.  [get_expired_from_instrument_name] and
    [get_subject_by] match the instrument name against regular expressions
    ([tools/time_parse.py], [tools/instruments.py]); the expiry date is
    carried as its POSIX timestamp ([datetime.timestamp()]), and building the
    date may raise [ValueError]. *)
Class Environment : Type := {
  SPIDER_CONSUMER_WORKERS : Z;
  InstrumentConverter_to_system : string -> string;
  get_expired_from_instrument_name : string -> exn + option float;
  get_subject_by : string -> option string;
}.

(** ** The sorted side of an order book *)
Module SortedDict.

Inductive ordering : Type := ASCENDING | DESCENDING.

(** Modelled from the spec: the sorted price-to-size map of the [order_book]
    package (class [OrderBook], the base class [C_OrderBook] of
    [FastOrderBook]), which is not under src/.  A side is a dict of price to
    size; its view is ordered by price, ascending for asks and descending
    for bids, and bounded by the configured depth ([0]: unbounded).  The
    depth bounds the view only, the dict keeps every level. *)
Record t : Type := {
  data : PyDict.t;
  order : ordering;
  depth : nat;
}.

(** Insert an entry before the first entry whose key is not smaller. *)
Fixpoint insert_sorted (kv : float * float) (l : list (float * float)) : list (float * float) :=
  match l with
  | [] => [kv]
  | kv' :: rest =>
      if ltb (fst kv') (fst kv) then kv' :: insert_sorted kv rest else kv :: l
  end.

(** The entries in ascending order of their keys (a stable sort that
    compares with [<] only, as [list.sort] does). *)
Definition sort (l : list (float * float)) : list (float * float) :=
  fold_right insert_sorted [] l.

Definition ordered (sd : t) : list (float * float) :=
  match order sd with
  | ASCENDING => sort (data sd)
  | DESCENDING => rev (sort (data sd))
  end.

(** [sd.to_list()]: the view as a list of (price, size) pairs. *)
Definition to_list (sd : t) : list (float * float) :=
  match depth sd with
  | O => ordered sd
  | n => firstn n (ordered sd)
  end.

(** [sd.to_list(level)] *)
Definition to_list_n (level : nat) (sd : t) : list (float * float) :=
  firstn level (to_list sd).

(** [price in sd] *)
Definition contains (price : float) (sd : t) : bool :=
  PyDict.contains price (data sd).

Definition with_data (d : PyDict.t) (sd : t) : t :=
  {| data := d; order := order sd; depth := depth sd |}.

(** [sd[price] = size] *)
Definition setitem (price size : float) (sd : t) : t :=
  with_data (PyDict.set price size (data sd)) sd.

(** [del sd[price]] *)
Definition delitem (price : float) (sd : t) : t :=
  with_data (PyDict.del price (data sd)) sd.

(** [sd[price]] as [dict.get] would return it. *)
Definition getitem (price : float) (sd : t) : option float :=
  PyDict.get price (data sd).

(** Neighbours of an ascending list: the second price is not below the
    first.  Of a descending list: the second is not above the first. *)
Definition price_le (a b : float * float) : Prop := ltb (fst b) (fst a) = false.
Definition price_ge (a b : float * float) : Prop := ltb (fst a) (fst b) = false.

(** The same for prices that are pairwise different and not NaN. *)
Definition price_lt (a b : float * float) : Prop := ltb (fst a) (fst b) = true.
Definition price_gt (a b : float * float) : Prop := ltb (fst b) (fst a) = true.

End SortedDict.

Inductive side : Type := Bids | Asks.

(** ** [FastOrderBook] *)
Module FastOrderBook.

Record greeks_t : Type := {
  vega : float;
  theta : float;
  gamma : float;
  delta : float;
}.

Record t : Type := {
  instrument_name : string;
  expired_date : option float;
  timestamp : Z;
  change_id : option Z;
  greeks : option greeks_t;
  mark_price : option float;
  mark_iv : option float;
  bid_iv : option float;
  ask_iv : option float;
  bids : SortedDict.t;
  asks : SortedDict.t;
  connection_id : option Z;
}.

(** [FastOrderBook(instrument_name, bids, asks, change_id, timestamp,
    connection_id=..., max_depth=...)]; the ticker annotations keep their
    default [None]. *)
Definition init `{Environment} (instrument_name : string) (bids asks : PyDict.t)
    (change_id : option Z) (timestamp : Z) (connection_id : option Z)
    (max_depth : option nat) : exn + t :=
  let depth := match max_depth with Some n => n | None => O end in
  match get_expired_from_instrument_name instrument_name with
  | inl e => inl e
  | inr expired =>
      inr {| instrument_name := instrument_name;
             expired_date := expired;
             timestamp := timestamp;
             change_id := change_id;
             greeks := None;
             mark_price := None;
             mark_iv := None;
             bid_iv := None;
             ask_iv := None;
             bids := {| SortedDict.data := bids;
                        SortedDict.order := SortedDict.DESCENDING;
                        SortedDict.depth := depth |};
             asks := {| SortedDict.data := asks;
                        SortedDict.order := SortedDict.ASCENDING;
                        SortedDict.depth := depth |};
             connection_id := connection_id |}
  end.

(** [orderbook[side]] *)
Definition getitem (s : side) (ob : t) : SortedDict.t :=
  match s with Bids => bids ob | Asks => asks ob end.

(** The book after an in-place change of [orderbook[side]]. *)
Definition with_side (s : side) (sd : SortedDict.t) (ob : t) : t :=
  {| instrument_name := instrument_name ob;
     expired_date := expired_date ob;
     timestamp := timestamp ob;
     change_id := change_id ob;
     greeks := greeks ob;
     mark_price := mark_price ob;
     mark_iv := mark_iv ob;
     bid_iv := bid_iv ob;
     ask_iv := ask_iv ob;
     bids := match s with Bids => sd | Asks => bids ob end;
     asks := match s with Bids => asks ob | Asks => sd end;
     connection_id := connection_id ob |}.

(** [orderbook.timestamp = ts] *)
Definition with_timestamp (ts : Z) (ob : t) : t :=
  {| instrument_name := instrument_name ob;
     expired_date := expired_date ob;
     timestamp := ts;
     change_id := change_id ob;
     greeks := greeks ob;
     mark_price := mark_price ob;
     mark_iv := mark_iv ob;
     bid_iv := bid_iv ob;
     ask_iv := ask_iv ob;
     bids := bids ob;
     asks := asks ob;
     connection_id := connection_id ob |}.

(** The five assignments of [change_ticker]. *)
Definition with_ticker (g : option greeks_t) (mp miv biv aiv : option float) (ob : t) : t :=
  {| instrument_name := instrument_name ob;
     expired_date := expired_date ob;
     timestamp := timestamp ob;
     change_id := change_id ob;
     greeks := g;
     mark_price := mp;
     mark_iv := miv;
     bid_iv := biv;
     ask_iv := aiv;
     bids := bids ob;
     asks := asks ob;
     connection_id := connection_id ob |}.

(** The dict [to_json] returns. *)
Record json : Type := {
  j_instrument_name : string;
  j_asks : list (float * float);
  j_bids : list (float * float);
  j_due_time : num;
  j_data_ms : Z;
  j_msg_ms : Z;
  j_greeks : option greeks_t;
  j_mark_price : option float;
  j_mark_iv : num;
  j_bid_iv : num;
  j_ask_iv : num;
  j_connection_id : option Z;
}.

(** [x or 0] for an annotation that is [None] or a float. *)
Definition or_0 (x : option float) : num :=
  match x with
  | Some f => if truthy f then NFloat f else NInt 0
  | None => NInt 0
  end.

(** [to_json(level)]; [msg_ms] is the clock reading
    [int(time.time() * 1000)] of the call. *)
Definition to_json (level : nat) (msg_ms : Z) (ob : t) : json :=
  let view sd :=
    match level with
    | O => SortedDict.to_list sd
    | _ => SortedDict.to_list_n level sd
    end in
  {| j_instrument_name := instrument_name ob;
     j_asks := view (asks ob);
     j_bids := view (bids ob);
     j_due_time := match expired_date ob with Some d => NFloat d | None => NInt 0 end;
     j_data_ms := timestamp ob;
     j_msg_ms := msg_ms;
     j_greeks := greeks ob;
     j_mark_price := mark_price ob;
     j_mark_iv := or_0 (mark_iv ob);
     j_bid_iv := or_0 (bid_iv ob);
     j_ask_iv := or_0 (ask_iv ob);
     j_connection_id := connection_id ob |}.

(** Two books that agree on everything but the entries of their sides and
    their timestamp: the instrument, the ticker annotations, the change id,
    the connection id, and the order and depth of either side. *)
Definition same_annotations (ob ob' : t) : Prop :=
  instrument_name ob' = instrument_name ob
  /\ expired_date ob' = expired_date ob
  /\ change_id ob' = change_id ob
  /\ greeks ob' = greeks ob
  /\ mark_price ob' = mark_price ob
  /\ mark_iv ob' = mark_iv ob
  /\ bid_iv ob' = bid_iv ob
  /\ ask_iv ob' = ask_iv ob
  /\ connection_id ob' = connection_id ob
  /\ (forall s, SortedDict.order (getitem s ob') = SortedDict.order (getitem s ob))
  /\ (forall s, SortedDict.depth (getitem s ob') = SortedDict.depth (getitem s ob)).

End FastOrderBook.

(** ** [NewOrderBookManager] *)
Module NewOrderBookManager.

(** The [tickers] dict is never read or written and is left out. *)
Record t : Type := {
  orderbook_max_depth : option nat;
  orderbooks : gmap string FastOrderBook.t;
  connection_id : Z;
}.

(** [NewOrderBookManager(orderbook_max_depth)], created at clock reading
    [now_ms]. *)
Definition init (orderbook_max_depth : option nat) (now_ms : Z) : t :=
  {| orderbook_max_depth := orderbook_max_depth;
     orderbooks := ∅;
     connection_id := now_ms |}.

Definition with_orderbooks (obs : gmap string FastOrderBook.t) (self : t) : t :=
  {| orderbook_max_depth := orderbook_max_depth self;
     orderbooks := obs;
     connection_id := connection_id self |}.

Definition snapshot `{Environment} (instrument_name : string) (pure_bids pure_asks : PyDict.t)
    (change_id : option Z) (timestamp : Z) : Py.M t unit :=
  fun self =>
    match FastOrderBook.init instrument_name pure_bids pure_asks change_id timestamp
            (Some (connection_id self)) (orderbook_max_depth self) with
    | inl e => (inl e, self)
    | inr ob => (inr tt, with_orderbooks (<[instrument_name := ob]> (orderbooks self)) self)
    end.

Definition change_ticker (instrument_name : string) (greeks : option FastOrderBook.greeks_t)
    (mark_price mark_iv bid_iv ask_iv : option float) : Py.M t unit :=
  fun self =>
    match orderbooks self !! instrument_name with
    | None => (inr tt, self)
    | Some orderbook =>
        (inr tt,
         with_orderbooks
           (<[instrument_name :=
                FastOrderBook.with_ticker greeks mark_price mark_iv bid_iv ask_iv orderbook]>
              (orderbooks self))
           self)
    end.

(** [self.orderbooks.get(key)] *)
Definition get (key : string) (self : t) : option FastOrderBook.t :=
  orderbooks self !! key.

End NewOrderBookManager.

(** ** Strings *)
Module PyStr.

(** [c.upper()] for an ASCII character. *)
Definition upper_ascii (c : ascii) : ascii :=
  let n := nat_of_ascii c in
  if (97 <=? n)%nat && (n <=? 122)%nat then ascii_of_nat (n - 32) else c.

(** [s.upper()]; instrument names and topics are ASCII. *)
Fixpoint upper (s : string) : string :=
  match s with
  | EmptyString => EmptyString
  | String c rest => String (upper_ascii c) (upper rest)
  end.

(** [s.split("-")[0]] *)
Fixpoint before_dash (s : string) : string :=
  match s with
  | EmptyString => EmptyString
  | String c rest => if Ascii.eqb c "-"%char then EmptyString else String c (before_dash rest)
  end.

(** [f"{x}"] for a value that is a string or [None]. *)
Definition format_opt (x : option string) : string :=
  match x with Some s => s | None => "None" end.

Definition concat (parts : list string) : string :=
  fold_right String.append EmptyString parts.

End PyStr.

(** [common/topic.py] *)
Definition generate_data_source_topic (exchange : string) (subject : option string)
    (currency instrument_name data_type : string) : string :=
  PyStr.upper
    (PyStr.concat ["EXECUTE_ENGINE.SPIDER."; exchange; "."; PyStr.format_opt subject; ".";
                   currency; "."; instrument_name; "."; data_type]).

(** ** [itertools.cycle] over a list of queues *)
Abbreviation qref := nat.

Module Cycle.

(** [it] is the position of the iterator over the source list ([None] once
    it is exhausted), [saved] the items handed out during the first pass,
    [index] the replay position. *)
Record t : Type := {
  it : option nat;
  saved : list qref;
  index : nat;
}.

(** [cycle(source)] *)
Definition init : t := {| it := Some O; saved := []; index := O |}.

Definition replay (c : t) : option qref * t :=
  match saved c !! index c with
  | None => (None, {| it := None; saved := saved c; index := index c |})
  | Some q =>
      (Some q,
       {| it := None;
          saved := saved c;
          index := if (S (index c) <? length (saved c))%nat then S (index c) else O |})
  end.

(** [next(c)]; [source] is the list the cycle was created over, as it is
    now.  [None] is [StopIteration]. *)
Definition next (source : list qref) (c : t) : option qref * t :=
  match it c with
  | Some pos =>
      match source !! pos with
      | Some q => (Some q, {| it := Some (S pos); saved := saved c ++ [q]; index := index c |})
      | None => replay c
      end
  | None => replay c
  end.

(** The cycle over the queues [0 .. n-1] once it has handed out [k] items:
    during the first pass it walks the list and saves what it hands out,
    afterwards it replays the saved items. *)
Definition after (n k : nat) : t :=
  if (k <=? n)%nat
  then {| it := Some k; saved := seq 0 k; index := O |}
  else {| it := None; saved := seq 0 n; index := k mod n |}.

End Cycle.

(** ** [BaseWSClient]: publishing and the dispatcher *)
Module BaseWSClient.

(** The payload of a published book: [to_json()] plus the two keys
    [publish_book] adds. *)
Record book_payload : Type := {
  body : FastOrderBook.json;
  p_expiration_at : option Z;
  p_expiration_days : option Z;
}.

(** The coroutine [fut_publish_book(topic, payload, instrument_name)]. *)
Record fut : Type := {
  fut_topic : string;
  fut_payload : book_payload;
}.

(** [queues] holds the items of every [asyncio.Queue] created so far; a
    queue object is referred to by its position there.  [workers] lists the
    queues for which a [consumer_worker] task was created, [log] the
    exceptions handed to [logger.exception], [redis] the keys set through
    [_set_cache]. *)
Record t : Type := {
  gen_cycle_queue_cache : option Cycle.t;
  queue_object_caches : list qref;
  map_instrument_queue : gmap string qref;
  orderbook_manager : NewOrderBookManager.t;
  last_updated_at : float;
  expiration_at : gmap string Z;
  expiration_days : gmap string Z;
  redis : gmap string book_payload;
  queues : list (list fut);
  workers : list qref;
  log : list exn;
}.

Definition EXCHANGE : string := "OKEX".

Definition with_gen_cycle_queue_cache (c : option Cycle.t) (self : t) : t :=
  {| gen_cycle_queue_cache := c;
     queue_object_caches := queue_object_caches self;
     map_instrument_queue := map_instrument_queue self;
     orderbook_manager := orderbook_manager self;
     last_updated_at := last_updated_at self;
     expiration_at := expiration_at self;
     expiration_days := expiration_days self;
     redis := redis self;
     queues := queues self;
     workers := workers self;
     log := log self |}.

Definition with_map_instrument_queue (m : gmap string qref) (self : t) : t :=
  {| gen_cycle_queue_cache := gen_cycle_queue_cache self;
     queue_object_caches := queue_object_caches self;
     map_instrument_queue := m;
     orderbook_manager := orderbook_manager self;
     last_updated_at := last_updated_at self;
     expiration_at := expiration_at self;
     expiration_days := expiration_days self;
     redis := redis self;
     queues := queues self;
     workers := workers self;
     log := log self |}.

Definition with_orderbook_manager (m : NewOrderBookManager.t) (self : t) : t :=
  {| gen_cycle_queue_cache := gen_cycle_queue_cache self;
     queue_object_caches := queue_object_caches self;
     map_instrument_queue := map_instrument_queue self;
     orderbook_manager := m;
     last_updated_at := last_updated_at self;
     expiration_at := expiration_at self;
     expiration_days := expiration_days self;
     redis := redis self;
     queues := queues self;
     workers := workers self;
     log := log self |}.

Definition with_last_updated_at (now : float) (self : t) : t :=
  {| gen_cycle_queue_cache := gen_cycle_queue_cache self;
     queue_object_caches := queue_object_caches self;
     map_instrument_queue := map_instrument_queue self;
     orderbook_manager := orderbook_manager self;
     last_updated_at := now;
     expiration_at := expiration_at self;
     expiration_days := expiration_days self;
     redis := redis self;
     queues := queues self;
     workers := workers self;
     log := log self |}.

Definition with_redis (r : gmap string book_payload) (self : t) : t :=
  {| gen_cycle_queue_cache := gen_cycle_queue_cache self;
     queue_object_caches := queue_object_caches self;
     map_instrument_queue := map_instrument_queue self;
     orderbook_manager := orderbook_manager self;
     last_updated_at := last_updated_at self;
     expiration_at := expiration_at self;
     expiration_days := expiration_days self;
     redis := r;
     queues := queues self;
     workers := workers self;
     log := log self |}.

Definition with_queues (qs : list (list fut)) (self : t) : t :=
  {| gen_cycle_queue_cache := gen_cycle_queue_cache self;
     queue_object_caches := queue_object_caches self;
     map_instrument_queue := map_instrument_queue self;
     orderbook_manager := orderbook_manager self;
     last_updated_at := last_updated_at self;
     expiration_at := expiration_at self;
     expiration_days := expiration_days self;
     redis := redis self;
     queues := qs;
     workers := workers self;
     log := log self |}.

Definition with_log (l : list exn) (self : t) : t :=
  {| gen_cycle_queue_cache := gen_cycle_queue_cache self;
     queue_object_caches := queue_object_caches self;
     map_instrument_queue := map_instrument_queue self;
     orderbook_manager := orderbook_manager self;
     last_updated_at := last_updated_at self;
     expiration_at := expiration_at self;
     expiration_days := expiration_days self;
     redis := redis self;
     queues := queues self;
     workers := workers self;
     log := l |}.

(** [queue = asyncio.Queue(...)], [asyncio.create_task(self.consumer_worker(queue))],
    [self.queue_object_caches.append(queue)] *)
Definition new_worker_queue : Py.M t qref :=
  fun self =>
    let queue := length (queues self) in
    (inr queue,
     {| gen_cycle_queue_cache := gen_cycle_queue_cache self;
        queue_object_caches := queue_object_caches self ++ [queue];
        map_instrument_queue := map_instrument_queue self;
        orderbook_manager := orderbook_manager self;
        last_updated_at := last_updated_at self;
        expiration_at := expiration_at self;
        expiration_days := expiration_days self;
        redis := redis self;
        queues := queues self ++ [[]];
        workers := workers self ++ [queue];
        log := log self |}).

(** The reuse branch: create the cycle on first use, then [next] it.  A
    [StopIteration] that escapes a coroutine surfaces as [RuntimeError]. *)
Definition next_cycled_queue : Py.M t qref :=
  fun self =>
    let gen :=
      match gen_cycle_queue_cache self with
      | Some c => c
      | None => Cycle.init
      end in
    match Cycle.next (queue_object_caches self) gen with
    | (Some queue, gen') => (inr queue, with_gen_cycle_queue_cache (Some gen') self)
    | (None, gen') => (inl RuntimeError, with_gen_cycle_queue_cache (Some gen') self)
    end.

(** [await queue.put(fut)].  A full queue suspends the caller until a
    consumer has taken an item; the model records the completed put. *)
Definition queue_put (queue : qref) (f : fut) : Py.M t unit :=
  Py.modify (fun self => with_queues (alter (fun items => items ++ [f]) queue (queues self)) self).

Definition task_dispatch `{Environment} (instrument_name : string) (f : fut) : Py.M t unit :=
  (self <- Py.get ;;
   match map_instrument_queue self !! instrument_name with
   | Some queue => queue_put queue f
   | None =>
       queue <- (if (Z.of_nat (length (queue_object_caches self)) <? SPIDER_CONSUMER_WORKERS)%Z
                 then new_worker_queue
                 else next_cycled_queue) ;;
       Py.modify (fun self =>
                    with_map_instrument_queue
                      (<[instrument_name := queue]> (map_instrument_queue self)) self) ;;;
       queue_put queue f
   end)%py.

(** [build_topic(instrument_name, subject_type=get_subject_by(instrument_name))]
    with the default [data_type="book"]. *)
Definition build_topic `{Environment} (instrument_name : string) : string :=
  generate_data_source_topic EXCHANGE (get_subject_by instrument_name)
    (PyStr.before_dash instrument_name) instrument_name "book".

Definition publish_book `{Environment} (topic : string) (payload : FastOrderBook.json) : Py.M t unit :=
  (self <- Py.get ;;
   let instrument_name := FastOrderBook.j_instrument_name payload in
   let payload' :=
     {| body := payload;
        p_expiration_at := expiration_at self !! instrument_name;
        p_expiration_days := expiration_days self !! instrument_name |} in
   task_dispatch instrument_name {| fut_topic := topic; fut_payload := payload' |})%py.

(** One turn of [consumer_worker(queue)] when the queue holds an item: take
    the oldest item and run it, which sets the cache key of its topic
    ([fut_publish_book], [_set_cache]).  On an empty queue the worker stays
    suspended. *)
Definition consumer_worker_turn (queue : qref) : Py.M t unit :=
  fun self =>
    match queues self !! queue with
    | Some (f :: rest) =>
        (inr tt,
         with_redis (<[fut_topic f := fut_payload f]> (redis self))
           (with_queues (<[queue := rest]> (queues self)) self))
    | _ => (inr tt, self)
    end.

(** The dispatcher of a client that has dispatched nothing yet
    ([BaseWSClient.__init__]). *)
Definition fresh (self : t) : Prop :=
  gen_cycle_queue_cache self = None
  /\ queue_object_caches self = []
  /\ map_instrument_queue self = ∅
  /\ queues self = []
  /\ workers self = [].

(** The attributes of the dispatcher, which only [task_dispatch] and the
    queue operations of the workers write. *)
Definition same_dispatcher (b b' : t) : Prop :=
  gen_cycle_queue_cache b' = gen_cycle_queue_cache b
  /\ queue_object_caches b' = queue_object_caches b
  /\ map_instrument_queue b' = map_instrument_queue b
  /\ queues b' = queues b
  /\ workers b' = workers b.

(** What happens to a client during its lifetime, as far as the dispatcher
    is concerned: a unit of work is dispatched (whether or not that
    raises), a worker takes an item off its queue, or something else
    happens that leaves the attributes of the dispatcher alone. *)
Inductive step `{Environment} : t -> t -> Prop :=
| step_dispatch (instrument_name : string) (f : fut) (b : t) :
    step b (snd (task_dispatch instrument_name f b))
| step_consume (queue : qref) (b : t) :
    step b (snd (consumer_worker_turn queue b))
| step_other (b b' : t) :
    same_dispatcher b b' -> step b b'.

(** The states of a client that started from a fresh dispatcher. *)
Definition reachable `{Environment} (b : t) : Prop :=
  exists b0, fresh b0 /\ rtc step b0 b.

(** Every reference to a queue, in the pool, in the bindings and in the
    cycle, is to a queue that exists. *)
Definition refs_ok (b : t) : Prop :=
  Forall (fun q => q < length (queues b))%nat (queue_object_caches b)
  /\ (forall name q, map_instrument_queue b !! name = Some q -> (q < length (queues b))%nat)
  /\ (forall c, gen_cycle_queue_cache b = Some c ->
        Forall (fun q => q < length (queues b))%nat (Cycle.saved c)).

(** The queues created so far: the pool lists them all, each has one
    worker, and they are no more than the configured number (none when that
    number is not positive). *)
Definition pool_bounded `{Environment} (b : t) : Prop :=
  length (queues b) = length (queue_object_caches b)
  /\ length (workers b) = length (queue_object_caches b)
  /\ (Z.of_nat (length (queue_object_caches b)) <= Z.max 0 SPIDER_CONSUMER_WORKERS)%Z.

(** The shape of the dispatcher of a client configured with at least one
    worker: the pool holds the queues [0 .. n-1], one worker each, with
    [n] at most the configured number; while the pool is not full every
    bound instrument has a queue of its own; once it is full the [k]
    instruments that came later were served by the cycle, in turn. *)
Definition pool_ok `{Environment} (b : t) : Prop :=
  let n := length (queue_object_caches b) in
  let bound := size (map_instrument_queue b) in
  queue_object_caches b = seq 0 n
  /\ workers b = seq 0 n
  /\ length (queues b) = n
  /\ (Z.of_nat n <= SPIDER_CONSUMER_WORKERS)%Z
  /\ (n <= bound)%nat
  /\ ((Z.of_nat n < SPIDER_CONSUMER_WORKERS)%Z -> bound = n)
  /\ (forall name q, map_instrument_queue b !! name = Some q -> (q < n)%nat)
  /\ gen_cycle_queue_cache b =
       (if (bound =? n)%nat then None else Some (Cycle.after n (bound - n))).

(** The attributes of the client that the dispatcher does not touch. *)
Definition same_books (b b' : t) : Prop :=
  orderbook_manager b' = orderbook_manager b /\
  last_updated_at b' = last_updated_at b /\
  expiration_at b' = expiration_at b /\
  expiration_days b' = expiration_days b /\
  redis b' = redis b /\
  log b' = log b.

End BaseWSClient.

(** ** [OkexWSClient]: the books channel *)
Module OkexWSClient.

(** An entry of the instrument table; of its fields only the contract
    multiplier and the contract value are read here. *)
Record instrument_item : Type := {
  ctMult : numstr;
  ctVal : numstr;
}.

(** An element of [message["data"]].  A level [[price, amount, ...]] is
    carried as the pair of floats that [float(price)] and [float(amount)]
    read from it, the timestamp as [int(item["ts"])]. *)
Record book_item : Type := {
  ts : Z;
  item_bids : list (float * float);
  item_asks : list (float * float);
}.

(** A decoded frame of a books channel; [action] is [None] when the frame
    has no ["action"] key. *)
Record books_message : Type := {
  action : option string;
  instId : string;
  data : list book_item;
}.

(** The client object: the attributes of [BaseWSClient] and those
    [OkexWSClient] adds. *)
Record t : Type := {
  base : BaseWSClient.t;
  orderbook_max_depth : nat;
  instruments_info : gmap string instrument_item;
}.

Definition with_base (b : BaseWSClient.t) (self : t) : t :=
  {| base := b;
     orderbook_max_depth := orderbook_max_depth self;
     instruments_info := instruments_info self |}.

(** A method of [BaseWSClient] called on the client. *)
Definition inherited {A} (c : Py.M BaseWSClient.t A) : Py.M t A :=
  Py.zoom base with_base c.

(** A method of [self.orderbook_manager]. *)
Definition on_manager {A} (c : Py.M NewOrderBookManager.t A) : Py.M t A :=
  inherited (Py.zoom BaseWSClient.orderbook_manager BaseWSClient.with_orderbook_manager c).

Definition levels_of (s : side) (update : book_item) : list (float * float) :=
  match s with Bids => item_bids update | Asks => item_asks update end.

(** The body of the innermost loop of the update branch, on the book the
    variable [orderbook] refers to. *)
Definition update_level (contract_size : float) (s : side) (level : float * float)
    (orderbook : FastOrderBook.t) : FastOrderBook.t :=
  let price := fst level in
  let amount := mul (snd level) contract_size in
  let sd := FastOrderBook.getitem s orderbook in
  if eqb amount (of_int 0%Z) then
    if SortedDict.contains price sd
    then FastOrderBook.with_side s (SortedDict.delitem price sd) orderbook
    else orderbook
  else FastOrderBook.with_side s (SortedDict.setitem price amount sd) orderbook.

(** What the body of the innermost loop does to the dict of its side. *)
Definition updated_data (contract_size : float) (level : float * float) (d : PyDict.t) : PyDict.t :=
  let price := fst level in
  let amount := mul (snd level) contract_size in
  if eqb amount (of_int 0%Z) then
    if PyDict.contains price d then PyDict.del price d else d
  else PyDict.set price amount d.

(** The dict of a side after the levels of one or more updates, in the
    order in which the loops visit them. *)
Definition apply_levels (contract_size : float) (levels : list (float * float)) (d : PyDict.t)
    : PyDict.t :=
  fold_left (fun d level => updated_data contract_size level d) levels d.

(** An access through the local variable [orderbook] of the update branch.
    The variable is bound once to [self.orderbook_manager.get(instrument_name)];
    nothing in the loop rebinds that entry of the manager, so the variable
    is the entry: a change of the object is a change of the entry, and the
    access raises [e] when the variable is [None]. *)
Definition on_orderbook (instrument_name : string) (e : exn)
    (f : FastOrderBook.t -> FastOrderBook.t) : Py.M t unit :=
  on_manager
    (fun manager =>
       match NewOrderBookManager.get instrument_name manager with
       | None => (inl e, manager)
       | Some orderbook =>
           (inr tt,
            NewOrderBookManager.with_orderbooks
              (<[instrument_name := f orderbook]> (NewOrderBookManager.orderbooks manager))
              manager)
       end).

(** The replica of an instrument, [self.orderbook_manager.get(name)]. *)
Definition replica (name : string) (self : t) : option FastOrderBook.t :=
  NewOrderBookManager.get name (BaseWSClient.orderbook_manager (base self)).

(** The client after [self.orderbook_manager.orderbooks[name]] has become,
    or has been changed into, [ob]. *)
Definition with_replica (name : string) (ob : FastOrderBook.t) (self : t) : t :=
  with_base
    (BaseWSClient.with_orderbook_manager
       (NewOrderBookManager.with_orderbooks
          (<[name := ob]>
             (NewOrderBookManager.orderbooks (BaseWSClient.orderbook_manager (base self))))
          (BaseWSClient.orderbook_manager (base self)))
       (base self))
    self.

(** The replica after the loops of the update branch have run over one
    element of [data], and over all of them. *)
Definition update_side (contract_size : float) (s : side) (levels : list (float * float))
    (orderbook : FastOrderBook.t) : FastOrderBook.t :=
  fold_left (fun ob level => update_level contract_size s level ob) levels orderbook.

Definition update_item (contract_size : float) (update : book_item)
    (orderbook : FastOrderBook.t) : FastOrderBook.t :=
  FastOrderBook.with_timestamp (ts update)
    (update_side contract_size Asks (item_asks update)
       (update_side contract_size Bids (item_bids update) orderbook)).

Definition update_items (contract_size : float) (data : list book_item)
    (orderbook : FastOrderBook.t) : FastOrderBook.t :=
  fold_left (fun ob update => update_item contract_size update ob) data orderbook.

(** The book the snapshot branch constructs from one element of [data],
    of which it keeps the first [top] levels of either side. *)
Definition snapshot_of `{Environment} (top : nat) (self : t) (contract_size : float)
    (instrument_name : string) (item : book_item) : exn + FastOrderBook.t :=
  FastOrderBook.init instrument_name
    (PyDict.of_levels contract_size (firstn top (item_bids item)))
    (PyDict.of_levels contract_size (firstn top (item_asks item)))
    None (ts item)
    (Some (NewOrderBookManager.connection_id (BaseWSClient.orderbook_manager (base self))))
    (NewOrderBookManager.orderbook_max_depth (BaseWSClient.orderbook_manager (base self))).

(** Whether [handle_books] takes the snapshot branch. *)
Definition is_snapshot (message : books_message) : bool :=
  String.eqb (match action message with Some a => a | None => "snapshot" end) "snapshot".

(** [contract_size] as [handle_books] computes it. *)
Definition contract_size_of (info : instrument_item) : float :=
  mul (float_or_1 (ctMult info)) (float_or_1 (ctVal info)).

(** The levels of one side of all elements of [data], in the order of the
    loops. *)
Definition all_levels (s : side) (data : list book_item) : list (float * float) :=
  flat_map (levels_of s) data.

(** An element of [data] that carries one level, on one side. *)
Definition one_level (s : side) (t : Z) (level : float * float) : book_item :=
  {| ts := t;
     item_bids := match s with Bids => [level] | Asks => [] end;
     item_asks := match s with Bids => [] | Asks => [level] end |}.

Definition other_side (s : side) : side :=
  match s with Bids => Asks | Asks => Bids end.

(** [entry] is a level of side [s] of the frame in canonical form: its
    size is the raw size of the level times the contract size, its price is
    the price of the level (the key object may be an equal key that the
    dict already held). *)
Definition canonical_level (contract_size : float) (s : side) (data : list book_item)
    (entry : float * float) : Prop :=
  exists item raw,
    In item data /\ In raw (levels_of s item) /\
    snd entry = mul (snd raw) contract_size /\ PyDict.same_key (fst entry) (fst raw).

(** Every size the book holds is some raw size times the contract size. *)
Definition scaled_book (contract_size : float) (ob : FastOrderBook.t) : Prop :=
  forall s entry,
    In entry (SortedDict.data (FastOrderBook.getitem s ob)) ->
    exists raw : float, snd entry = mul raw contract_size.

(** The sides of the dict [to_json] returns. *)
Definition json_side (s : side) (j : FastOrderBook.json) : list (float * float) :=
  match s with Bids => FastOrderBook.j_bids j | Asks => FastOrderBook.j_asks j end.

(** The client after [logger.exception] has been handed [e]. *)
Definition with_logged (e : exn) (self : t) : t :=
  with_base (BaseWSClient.with_log (BaseWSClient.log (base self) ++ [e]) (base self)) self.

(** [json_orderbook["instrument_name"] = instrument_name] *)
Definition with_instrument_name (name : string) (j : FastOrderBook.json) : FastOrderBook.json :=
  {| FastOrderBook.j_instrument_name := name;
     FastOrderBook.j_asks := FastOrderBook.j_asks j;
     FastOrderBook.j_bids := FastOrderBook.j_bids j;
     FastOrderBook.j_due_time := FastOrderBook.j_due_time j;
     FastOrderBook.j_data_ms := FastOrderBook.j_data_ms j;
     FastOrderBook.j_msg_ms := FastOrderBook.j_msg_ms j;
     FastOrderBook.j_greeks := FastOrderBook.j_greeks j;
     FastOrderBook.j_mark_price := FastOrderBook.j_mark_price j;
     FastOrderBook.j_mark_iv := FastOrderBook.j_mark_iv j;
     FastOrderBook.j_bid_iv := FastOrderBook.j_bid_iv j;
     FastOrderBook.j_ask_iv := FastOrderBook.j_ask_iv j;
     FastOrderBook.j_connection_id := FastOrderBook.j_connection_id j |}.

(** The body of the loop of the snapshot branch; [top] is
    [self.orderbook_max_depth]. *)
Definition snapshot_body `{Environment} (top : nat) (contract_size : float)
    (instrument_name : string) (item : book_item) : Py.M t unit :=
  let timestamp := ts item in
  let top_bids := firstn top (item_bids item) in
  let top_asks := firstn top (item_asks item) in
  let bids := PyDict.of_levels contract_size top_bids in
  let asks := PyDict.of_levels contract_size top_asks in
  on_manager (NewOrderBookManager.snapshot instrument_name bids asks None timestamp).

(** The body of the outer loop of the update branch. *)
Definition update_body (contract_size : float) (instrument_name : string)
    (update : book_item) : Py.M t unit :=
  (let timestamp := ts update in
   Py.for_each [Bids; Asks] (fun side =>
     Py.for_each (levels_of side update) (fun level =>
       on_orderbook instrument_name TypeError (update_level contract_size side level))) ;;;
   on_orderbook instrument_name AttributeError (FastOrderBook.with_timestamp timestamp))%py.

(** The first half of [handle_books]: the snapshot or the update is applied
    to the manager. *)
Definition apply_books `{Environment} (message : books_message) : Py.M t unit :=
  (let action := match action message with Some a => a | None => "snapshot" end in
   let instId := instId message in
   let instrument_name := InstrumentConverter_to_system instId in
   let data := data message in
   self <- Py.get ;;
   info <- match instruments_info self !! instId with
           | Some item => Py.ret item
           | None => Py.raise KeyError
           end ;;
   let contract_size := mul (float_or_1 (ctMult info)) (float_or_1 (ctVal info)) in
   if String.eqb action "snapshot" then
     Py.for_each data (snapshot_body (orderbook_max_depth self) contract_size instrument_name)
   else
     Py.for_each data (update_body contract_size instrument_name))%py.

(** The second half of [handle_books]: the replica is serialized and
    handed to [publish_book]. *)
Definition publish_books `{Environment} (msg_ms : Z) (message : books_message) : Py.M t unit :=
  (let instrument_name := InstrumentConverter_to_system (instId message) in
   self <- Py.get ;;
   match NewOrderBookManager.get instrument_name (BaseWSClient.orderbook_manager (base self)) with
   | None => Py.raise AttributeError
   | Some orderbook =>
       let topic := BaseWSClient.build_topic instrument_name in
       let json_orderbook := FastOrderBook.to_json 0 msg_ms orderbook in
       let json_orderbook := with_instrument_name instrument_name json_orderbook in
       inherited (BaseWSClient.publish_book topic json_orderbook)
   end)%py.

(** [handle_books(message)]; [msg_ms] is the clock reading of [to_json]. *)
Definition handle_books `{Environment} (msg_ms : Z) (message : books_message) : Py.M t unit :=
  (apply_books message ;;; publish_books msg_ms message)%py.

(** [dispatch_message] on a frame of a books channel; [now] is the clock
    reading [time.time()] after the handler has returned. *)
Definition dispatch_message `{Environment} (now : float) (msg_ms : Z) (message : books_message)
    : Py.M t unit :=
  (handle_books msg_ms message ;;;
   inherited (Py.modify (BaseWSClient.with_last_updated_at now)))%py.

(** One turn of the receive loop [handler]: an exception of the dispatch is
    logged and the loop goes on. *)
Definition handler_turn `{Environment} (now : float) (msg_ms : Z) (message : books_message)
    : Py.M t unit :=
  Py.try_except (dispatch_message now msg_ms message)
    (fun e => Py.modify (with_logged e)).

End OkexWSClient.

(** ** [OrderBookManager]: the depth lookups of the strategy *)
Module OrderBookManager.

Record OrderBookInfo : Type := {
  instrument_name : string;
  info_side : side;
  depth : Z;
  price : num;
  expire_days : option Z;
  data_ms : Z;
}.

(** [l[i]] with Python's negative indices. *)
Definition py_index {A} (l : list A) (i : Z) : exn + A :=
  let n := Z.of_nat (length l) in
  let j := if (i <? 0)%Z then (i + n)%Z else i in
  if (j <? 0)%Z then inl IndexError
  else match nth_error l (Z.to_nat j) with
       | Some x => inr x
       | None => inl IndexError
       end.

Definition orderbook_key `{Environment} (instrument_name : string) : string :=
  PyStr.concat ["EXECUTE_ENGINE.SPIDER.OKEX."; PyStr.format_opt (get_subject_by instrument_name);
                "."; PyStr.before_dash instrument_name; "."; instrument_name; ".BOOK"].

(** [get_orderbook]: the cached payload, unpacked.  [redis.get] of a key
    that was never set is [None], which [msgpack.unpackb] rejects with
    [TypeError]. *)
Definition get_orderbook `{Environment} (redis : gmap string BaseWSClient.book_payload)
    (instrument_name : string) : exn + BaseWSClient.book_payload :=
  match redis !! orderbook_key instrument_name with
  | Some data => inr data
  | None => inl TypeError
  end.

(** [data[side]] *)
Definition side_of (data : BaseWSClient.book_payload) (s : side) : list (float * float) :=
  match s with
  | Asks => FastOrderBook.j_asks (BaseWSClient.body data)
  | Bids => FastOrderBook.j_bids (BaseWSClient.body data)
  end.

Definition get_price `{Environment} (redis : gmap string BaseWSClient.book_payload)
    (instrument_name : string) (s : side) (depth : Z) : exn + float :=
  match get_orderbook redis instrument_name with
  | inl e => inl e
  | inr data =>
      let depth_index := (depth - 1)%Z in
      match py_index (side_of data s) depth_index with
      | inl e => inl e
      | inr level => inr (fst level)
      end
  end.

Definition get_orderbook_info `{Environment} (redis : gmap string BaseWSClient.book_payload)
    (instrument_name : string) (s : side) (depth : Z) : exn + OrderBookInfo :=
  match get_orderbook redis instrument_name with
  | inl e => inl e
  | inr data =>
      let depth_index := (depth - 1)%Z in
      let price :=
        match side_of data s with
        | [] => inr (NInt 0)
        | _ :: _ =>
            match py_index (side_of data s) depth_index with
            | inl e => inl e
            | inr level => inr (NFloat (fst level))
            end
        end in
      match price with
      | inl e => inl e
      | inr p =>
          inr {| instrument_name := instrument_name;
                 info_side := s;
                 depth := depth;
                 price := p;
                 expire_days := BaseWSClient.p_expiration_days data;
                 data_ms := FastOrderBook.j_data_ms (BaseWSClient.body data) |}
      end
  end.

End OrderBookManager.

(** ** Concrete data: the scenarios of the specification *)
Module Scenario.

(** Names pass through the converter unchanged, no instrument has an expiry
    date, every instrument is a spot pair, and two consumer workers are
    configured. *)
Definition env : Environment :=
  {| SPIDER_CONSUMER_WORKERS := 2%Z;
     InstrumentConverter_to_system := fun instId => instId;
     get_expired_from_instrument_name := fun _ => inr None;
     get_subject_by := fun _ => Some "SPOT" |}.

Definition f (z : Z) : float := of_int z.

Definition manager0 : NewOrderBookManager.t :=
  NewOrderBookManager.init (Some 5%nat) 1700000000000%Z.

Definition base0 : BaseWSClient.t :=
  {| BaseWSClient.gen_cycle_queue_cache := None;
     BaseWSClient.queue_object_caches := [];
     BaseWSClient.map_instrument_queue := ∅;
     BaseWSClient.orderbook_manager := manager0;
     BaseWSClient.last_updated_at := f 1700000000;
     BaseWSClient.expiration_at := ∅;
     BaseWSClient.expiration_days := ∅;
     BaseWSClient.redis := ∅;
     BaseWSClient.queues := [];
     BaseWSClient.workers := [];
     BaseWSClient.log := [] |}.

(** Instrument [X-USDT] is a spot pair (both factors blank), instrument
    [Y-USDT-SWAP] has contract value 10 and multiplier 1. *)
Definition client0 : OkexWSClient.t :=
  {| OkexWSClient.base := base0;
     OkexWSClient.orderbook_max_depth := 5%nat;
     OkexWSClient.instruments_info :=
       <["Y-USDT-SWAP" := {| OkexWSClient.ctMult := Numeral (f 1);
                             OkexWSClient.ctVal := Numeral (f 10) |}]>
         (<["X-USDT" := {| OkexWSClient.ctMult := Blank; OkexWSClient.ctVal := Blank |}]> ∅) |}.

Definition snapshot_X (t : Z) : OkexWSClient.books_message :=
  {| OkexWSClient.action := Some "snapshot";
     OkexWSClient.instId := "X-USDT";
     OkexWSClient.data :=
       [ {| OkexWSClient.ts := t;
            OkexWSClient.item_bids := [(f 100, f 1)];
            OkexWSClient.item_asks := [(f 101, f 2)] |} ] |}.

Definition update_of (inst : string) (t : Z) (bids asks : list (float * float))
    : OkexWSClient.books_message :=
  {| OkexWSClient.action := Some "update";
     OkexWSClient.instId := inst;
     OkexWSClient.data :=
       [ {| OkexWSClient.ts := t;
            OkexWSClient.item_bids := bids;
            OkexWSClient.item_asks := asks |} ] |}.

(** The state a client reaches by handling the given frames in turn
    ([handler]), each at the same clock reading. *)
Definition run (frames : list OkexWSClient.books_message) (self : OkexWSClient.t) : OkexWSClient.t :=
  fold_left
    (fun s m => snd (@OkexWSClient.handler_turn env (f 1700000001) 1700000001000%Z m s))
    frames self.

(** Every worker takes one item off its queue, [rounds] times over. *)
Definition drain (rounds : nat) (self : OkexWSClient.t) : OkexWSClient.t :=
  Nat.iter rounds
    (fun s0 =>
       fold_left
         (fun s q => snd (OkexWSClient.inherited (BaseWSClient.consumer_worker_turn q) s))
         (BaseWSClient.workers (OkexWSClient.base s0)) s0)
    self.

(** Instrument [Y-USDT-SWAP] with three bids. *)
Definition snapshot_Y (t : Z) : OkexWSClient.books_message :=
  {| OkexWSClient.action := None;
     OkexWSClient.instId := "Y-USDT-SWAP";
     OkexWSClient.data :=
       [ {| OkexWSClient.ts := t;
            OkexWSClient.item_bids := [(f 49, f 1); (f 48, f 2); (f 47, f 5)];
            OkexWSClient.item_asks := [(f 51, f 4)] |} ] |}.

(** The client after the snapshot of [X-USDT] at timestamp 10. *)
Definition client1 : OkexWSClient.t := run [snapshot_X 10] client0.

(** The same three levels in two frames: in one element of [data], and
    spread over two elements in another order. *)
Definition levels_once : OkexWSClient.books_message :=
  update_of "X-USDT" 20 [(f 99, f 1); (f 98, f 2)] [(f 102, f 3)].

Definition levels_twice : OkexWSClient.books_message :=
  {| OkexWSClient.action := Some "update";
     OkexWSClient.instId := "X-USDT";
     OkexWSClient.data :=
       [ {| OkexWSClient.ts := 21;
            OkexWSClient.item_bids := [(f 98, f 2)];
            OkexWSClient.item_asks := [] |};
         {| OkexWSClient.ts := 22;
            OkexWSClient.item_bids := [(f 99, f 1)];
            OkexWSClient.item_asks := [(f 102, f 3)] |} ] |}.

(** The book of [X-USDT] after its snapshot. *)
Definition book_X : FastOrderBook.t :=
  {| FastOrderBook.instrument_name := "X-USDT";
     FastOrderBook.expired_date := None;
     FastOrderBook.timestamp := 10;
     FastOrderBook.change_id := None;
     FastOrderBook.greeks := None;
     FastOrderBook.mark_price := None;
     FastOrderBook.mark_iv := None;
     FastOrderBook.bid_iv := None;
     FastOrderBook.ask_iv := None;
     FastOrderBook.bids := {| SortedDict.data := [(f 100, f 1)];
                              SortedDict.order := SortedDict.DESCENDING;
                              SortedDict.depth := 5 |};
     FastOrderBook.asks := {| SortedDict.data := [(f 101, f 2)];
                              SortedDict.order := SortedDict.ASCENDING;
                              SortedDict.depth := 5 |};
     FastOrderBook.connection_id := Some 1700000000000%Z |}.

(** What the cache holds for [X-USDT] once the snapshot was published. *)
Definition payload_X : BaseWSClient.book_payload :=
  {| BaseWSClient.body := FastOrderBook.to_json 0 1700000001000%Z book_X;
     BaseWSClient.p_expiration_at := None;
     BaseWSClient.p_expiration_days := None |}.

Definition redis_of (self : OkexWSClient.t) : gmap string BaseWSClient.book_payload :=
  BaseWSClient.redis (OkexWSClient.base self).

(** A manager whose replica of [X-USDT] carries ticker annotations. *)
Definition manager_with_ticker : NewOrderBookManager.t :=
  snd (NewOrderBookManager.change_ticker "X-USDT"
         (Some {| FastOrderBook.vega := f 1; FastOrderBook.theta := f 2;
                  FastOrderBook.gamma := f 3; FastOrderBook.delta := f 4 |})
         (Some (f 100)) (Some (f 55)) (Some (f 54)) (Some (f 56))
         (BaseWSClient.orderbook_manager (OkexWSClient.base client1))).

(** Units of work for the instruments A, B, C and D. *)
Definition work (name : string) : BaseWSClient.fut :=
  {| BaseWSClient.fut_topic := name; BaseWSClient.fut_payload := payload_X |}.

Definition dispatched (names : list string) : BaseWSClient.t :=
  fold_left (fun b name => snd (@BaseWSClient.task_dispatch env name (work name) b)) names base0.

Definition info_X : OkexWSClient.instrument_item :=
  {| OkexWSClient.ctMult := Blank; OkexWSClient.ctVal := Blank |}.

Definition info_Y : OkexWSClient.instrument_item :=
  {| OkexWSClient.ctMult := Numeral (f 1); OkexWSClient.ctVal := Numeral (f 10) |}.

Definition item_Y : OkexWSClient.book_item :=
  {| OkexWSClient.ts := 1;
     OkexWSClient.item_bids := [(f 49, f 1); (f 48, f 2); (f 47, f 5)];
     OkexWSClient.item_asks := [(f 51, f 4)] |}.

(** The client after the snapshot of [Y-USDT-SWAP]. *)
Definition client_Y : OkexWSClient.t :=
  snd (@OkexWSClient.handle_books env 1 (snapshot_Y 1) client0).

(** The client after the bid of [X-USDT] was deleted again, and its cache
    once everything was published. *)
Definition client_emptied : OkexWSClient.t :=
  run [snapshot_X 10; update_of "X-USDT" 11 [(f 100, f 0)] []] client0.

End Scenario.

(** ** More of Python's strings *)
Module PyText.

(** [s.split(sep)] for a separator of one character: the pieces between the
    occurrences of [sep]; there is always at least one piece. *)
Fixpoint split (sep : ascii) (s : string) : list string :=
  match s with
  | EmptyString => [EmptyString]
  | String c rest =>
      if Ascii.eqb c sep then EmptyString :: split sep rest
      else match split sep rest with
           | [] => [String c EmptyString]
           | piece :: pieces => String c piece :: pieces
           end
  end.

(** [s.startswith(prefix)] *)
Definition startswith (prefix s : string) : bool := String.prefix prefix s.

(** [c in s] for a character [c]. *)
Fixpoint has (c : ascii) (s : string) : bool :=
  match s with
  | EmptyString => false
  | String c' rest => Ascii.eqb c' c || has c rest
  end.

(** [sep.join(pieces)] for a separator of one character. *)
Fixpoint join (sep : ascii) (pieces : list string) : string :=
  match pieces with
  | [] => EmptyString
  | [piece] => piece
  | piece :: rest => piece ++ String sep (join sep rest)
  end.

(** Truthiness of a string: only the empty string is falsy. *)
Definition nonempty (s : string) : bool :=
  match s with EmptyString => false | String _ _ => true end.

(** [x or y] for strings that may be [None]. *)
Definition or_else (x : option string) (y : option string) : option string :=
  match x with
  | Some s => if nonempty s then Some s else y
  | None => y
  end.

End PyText.

(** ** [common/topic.py]: the other topics, and the parsers of topics *)
Module Topic.

(** [account_id], [order_id] and [bid] are formatted into the topic; they
    are carried as the strings [f"{...}"] makes of them. *)
Definition generate_exchange_hub_topic (account_id exchange method currency : string)
    (subject : option string) : string :=
  let topic :=
    PyStr.concat ["EXECUTE_ENGINE.ACCOUNT."; exchange; "."; account_id; "."; method; ".";
                  currency] in
  let topic :=
    match subject with
    | Some s => if PyText.nonempty s then PyStr.concat [topic; "."; s] else topic
    | None => topic
    end in
  PyStr.upper topic.

Definition generate_order_manager_topic
    (account_id exchange subject currency order_id method : string) : string :=
  PyStr.upper
    (PyStr.concat ["EXECUTE_ENGINE.ORDER_MANAGER."; method; "."; exchange; "."; subject; ".";
                   currency; "."; account_id; "."; order_id]).

Definition generate_raw_order_manager_topic
    (account_id exchange subject currency order_id method : string) : string :=
  PyStr.upper
    (PyStr.concat ["EXECUTE_ENGINE.RAW_ORDER_MANAGER."; method; "."; exchange; "."; subject; ".";
                   currency; "."; account_id; "."; order_id]).

Definition generate_book_order_manager_topic
    (bid exchange subject currency order_id method : string) : string :=
  PyStr.upper
    (PyStr.concat ["EXECUTE_ENGINE.BOOK_ORDER_MANAGER."; method; "."; exchange; "."; subject; ".";
                   currency; "."; bid; "."; order_id]).

(** [generate_fee_rate_topic(account_id, exchange, subject)] *)
Definition generate_fee_rate_topic (account_id exchange subject : string) : string :=
  PyStr.upper
    (PyStr.concat ["EXECUTE_ENGINE.ACCOUNT."; exchange; "."; subject; "."; account_id;
                   ".FEE_RATE"]).

Definition generate_open_order_manager_topic (bid subject currency order_id action : string)
    : string :=
  PyStr.upper
    (PyStr.concat ["EXECUTE_ENGINE.OPEN_ORDER_MANAGER."; subject; "."; currency; "."; bid; ".";
                   order_id; "."; action]).

(** [topic.split(".")[i]] *)
Definition component (i : Z) (topic : string) : exn + string :=
  OrderBookManager.py_index (PyText.split "." topic) i.

Definition parse_topic_type (topic : string) : exn + string :=
  if PyText.startswith "EXECUTE_ENGINE.ACCOUNT" topic then component 4 topic
  else if PyText.startswith "EXECUTE_ENGINE.SPIDER" topic then component 6 topic
  else if PyText.startswith "EXECUTE_ENGINE.ORDER_MANAGER" topic then component 2 topic
  else if PyText.startswith "EXECUTE_ENGINE.RAW_ORDER_MANAGER" topic then component 2 topic
  else inr "-"%string.

Definition parse_topic_get_exchange (topic : string) : exn + string :=
  if PyText.startswith "EXECUTE_ENGINE.ACCOUNT" topic then component 2 topic
  else inr "-"%string.

Definition parse_topic_get_currency (topic : string) : exn + string :=
  if PyText.startswith "EXECUTE_ENGINE.ACCOUNT" topic then component (-1) topic
  else inr "-"%string.

End Topic.

(** ** The consumer of a queue, turn after turn *)
Module Consumer.

(** [turns] turns of [consumer_worker(queue)] in a row, no other coroutine
    running in between. *)
Definition consumer_worker_turns (turns : nat) (queue : qref) (b : BaseWSClient.t)
    : BaseWSClient.t :=
  Nat.iter turns (fun b0 => snd (BaseWSClient.consumer_worker_turn queue b0)) b.

(** The cache after the payloads of the given units of work were set, in
    that order. *)
Definition cached (items : list BaseWSClient.fut)
    (redis : gmap string BaseWSClient.book_payload) : gmap string BaseWSClient.book_payload :=
  fold_left (fun r f => <[BaseWSClient.fut_topic f := BaseWSClient.fut_payload f]> r) items redis.

(** The last of the given units of work that has the given topic. *)
Definition last_for (topic : string) (items : list BaseWSClient.fut) : option BaseWSClient.fut :=
  List.find (fun f => String.eqb (BaseWSClient.fut_topic f) topic) (rev items).

(** What [publish_book] adds to the dict of [to_json] for instrument [name],
    in state [b]. *)
Definition payload_of (name : string) (j : FastOrderBook.json) (b : BaseWSClient.t)
    : BaseWSClient.book_payload :=
  {| BaseWSClient.body := j;
     BaseWSClient.p_expiration_at := BaseWSClient.expiration_at b !! name;
     BaseWSClient.p_expiration_days := BaseWSClient.expiration_days b !! name |}.

End Consumer.

(** ** The shape of a replica *)
Module Replica.

(** The shape of a book whose levels were read from numerals: the asks
    are kept in ascending and the bids in descending order, and neither side
    holds a price twice or a NaN. *)
Definition well_formed (ob : FastOrderBook.t) : Prop :=
  SortedDict.order (FastOrderBook.asks ob) = SortedDict.ASCENDING
  /\ SortedDict.order (FastOrderBook.bids ob) = SortedDict.DESCENDING
  /\ forall sd, PyDict.wf (SortedDict.data (FastOrderBook.getitem sd ob)).

(** [y] is at a better price than [x]: lower for an ask, higher for a bid. *)
Definition better (sd : side) (y x : float * float) : Prop :=
  match sd with
  | Asks => ltb (fst y) (fst x) = true
  | Bids => ltb (fst x) (fst y) = true
  end.

(** No price of the frame is NaN. *)
Definition prices_are_numbers (m : OkexWSClient.books_message) : Prop :=
  forall sd,
    Forall (fun lv => is_nan (fst lv) = false) (OkexWSClient.all_levels sd (OkexWSClient.data m)).

(** The number of levels [to_list()] shows of a side. *)
Definition shown (sd : SortedDict.t) : nat :=
  match SortedDict.depth sd with
  | O => length (SortedDict.data sd)
  | S d => Nat.min (S d) (length (SortedDict.data sd))
  end.

End Replica.

(** ** [OkexWSClient]: subscribing in batches *)
Module Subscribe.

(** The message [{"op": method, "args": params}] of [_build_message]. *)
Record message (A : Type) : Type := {
  op : string;
  args : list A;
}.

Arguments op {A} _.
Arguments args {A} _.

(** [send(method, params)]: the message is written to the socket.  The
    state is the list of the messages written so far. *)
Definition send {A} (method : string) (params : list A) : Py.M (list (message A)) unit :=
  Py.modify (fun sent => sent ++ [{| op := method; args := params |}]).

(** [l[i:j]] for indices that are not negative. *)
Definition slice {A} (i j : nat) (l : list A) : list A := firstn (j - i) (skipn i l).

Definition page_size : nat := 500.

(** [int(len(channels) / page_size)].  The quotient is a float; for a list
    of fewer than 2^53 entries it is the exact quotient rounded, which is
    an integer when the length is a multiple of the page size and is
    otherwise too far from the next integer to be rounded onto it: the
    truncation is the integer quotient. *)
Definition full_pages {A} (channels : list A) : nat :=
  Z.to_nat (Z.of_nat (length channels) / Z.of_nat page_size).

Definition batch_subscribe {A} (channels : list A) : Py.M (list (message A)) unit :=
  Py.for_each (seq 0 (full_pages channels + 1))
    (fun i =>
       let sub_list := slice (i * page_size) ((i + 1) * page_size) channels in
       match sub_list with
       | [] => Py.ret tt
       | _ :: _ => send "subscribe" sub_list
       end).

(** The messages the loop writes in the given turns. *)
Definition written {A} (channels : list A) (turns : list nat) : list (message A) :=
  flat_map
    (fun i =>
       match slice (i * page_size) ((i + 1) * page_size) channels with
       | [] => []
       | sub_list => [{| op := "subscribe"; args := sub_list |}]
       end)
    turns.

End Subscribe.

(** ** Arithmetic of Python numbers *)
Module PyNum.

(** [x - y] and [x / y] of floats, [x >= y]. *)
Definition sub (x y : float) : float := SFsub prec emax x y.
Definition div (x y : float) : float := SFdiv prec emax x y.
Definition geb (x y : float) : bool := SFleb y x.

(** The float an operation converts an operand to.  The ints at hand
    (sizes of zero, days, milliseconds) are far below 2^53 and convert
    exactly. *)
Definition to_float (n : num) : float :=
  match n with NInt z => of_int z | NFloat f => f end.

(** [n == 0] *)
Definition is_zero (n : num) : bool :=
  match n with NInt z => (z =? 0)%Z | NFloat f => eqb f (of_int 0%Z) end.

(** [x - y]: an int when both are ints, a float otherwise. *)
Definition minus (x y : num) : num :=
  match x, y with
  | NInt a, NInt b => NInt (a - b)
  | _, _ => NFloat (sub (to_float x) (to_float y))
  end.

(** [x / y]: true division gives a float; a zero divisor, int or float,
    raises [ZeroDivisionError] ([None] here). *)
Definition truediv (x y : num) : option float :=
  if is_zero y then None else Some (div (to_float x) (to_float y)).

(** [float(s or 0)] *)
Definition float_or_0 (s : numstr) : float :=
  match s with Blank => of_int 0%Z | Numeral v => v end.

End PyNum.

(** ** [BaseWSClient] and [OkexWSClient]: marks, summaries and klines *)
Module Feeds.

(** The client with the attributes that the handlers of the channels other
    than the books read and write.  [topic_cache] is the set [_publish]
    fills. *)
Record t : Type := {
  client : OkexWSClient.t;
  mark_price_cache : gmap string float;
  mark_price_at : gmap string float;
  underlying_price_at : gmap string float;
  kline_at : gmap string Z;
  topic_cache : gset string;
}.

Definition with_client (c : OkexWSClient.t) (self : t) : t :=
  {| client := c;
     mark_price_cache := mark_price_cache self;
     mark_price_at := mark_price_at self;
     underlying_price_at := underlying_price_at self;
     kline_at := kline_at self;
     topic_cache := topic_cache self |}.

Definition with_mark_price_cache (m : gmap string float) (self : t) : t :=
  {| client := client self;
     mark_price_cache := m;
     mark_price_at := mark_price_at self;
     underlying_price_at := underlying_price_at self;
     kline_at := kline_at self;
     topic_cache := topic_cache self |}.

Definition with_mark_price_at (m : gmap string float) (self : t) : t :=
  {| client := client self;
     mark_price_cache := mark_price_cache self;
     mark_price_at := m;
     underlying_price_at := underlying_price_at self;
     kline_at := kline_at self;
     topic_cache := topic_cache self |}.

Definition with_underlying_price_at (m : gmap string float) (self : t) : t :=
  {| client := client self;
     mark_price_cache := mark_price_cache self;
     mark_price_at := mark_price_at self;
     underlying_price_at := m;
     kline_at := kline_at self;
     topic_cache := topic_cache self |}.

Definition with_kline_at (m : gmap string Z) (self : t) : t :=
  {| client := client self;
     mark_price_cache := mark_price_cache self;
     mark_price_at := mark_price_at self;
     underlying_price_at := underlying_price_at self;
     kline_at := m;
     topic_cache := topic_cache self |}.

Definition with_topic_cache (c : gset string) (self : t) : t :=
  {| client := client self;
     mark_price_cache := mark_price_cache self;
     mark_price_at := mark_price_at self;
     underlying_price_at := underlying_price_at self;
     kline_at := kline_at self;
     topic_cache := c |}.

(** A method of [self.orderbook_manager]. *)
Definition on_manager {A} (c : Py.M NewOrderBookManager.t A) : Py.M t A :=
  Py.zoom client with_client (OkexWSClient.on_manager c).

(** [build_topic(instrument_name, data_type, subject_type)] *)
Definition build_topic `{Environment} (instrument_name data_type : string)
    (subject_type : option string) : string :=
  let currency :=
    if String.eqb data_type "index_price" && PyText.has "_" instrument_name
    then hd EmptyString (PyText.split "_" instrument_name)
    else hd EmptyString (PyText.split "-" instrument_name) in
  generate_data_source_topic BaseWSClient.EXCHANGE
    (PyText.or_else subject_type (get_subject_by instrument_name))
    currency instrument_name data_type.

Definition cache_topic (topic : string) : Py.M t unit :=
  Py.modify (fun self => with_topic_cache ({[topic]} ∪ topic_cache self) self).

(** [_publish(topic, payload)]: the sends to the message queue are
    commented out in the source, what remains caches the topic. *)
Definition _publish {P} (topic : string) (payload : P) : Py.M t unit :=
  cache_topic topic.

(** The payloads of the price publications. *)
Record price_payload : Type := {
  pp_instrument_name : string;
  pp_price : float;
  pp_ms : float;
  pp_expiration_at : option Z;
}.

(** [publish_mark_price(instrument_name, mark_price)] at clock reading
    [now = time.time()]. *)
Definition publish_mark_price `{Environment} (now : float) (instrument_name : string)
    (mark_price : float) : Py.M t unit :=
  (self <- Py.get ;;
   if match mark_price_at self !! instrument_name with
      | None => true
      | Some published_at => PyNum.geb (PyNum.sub now published_at) (of_int 1%Z)
      end
   then
     let topic := build_topic instrument_name "mark_price" None in
     let expiration_at :=
       BaseWSClient.expiration_at (OkexWSClient.base (client self)) !! instrument_name in
     let payload :=
       {| pp_instrument_name := instrument_name;
          pp_price := mark_price;
          pp_ms := mul now (of_int 1000%Z);
          pp_expiration_at := expiration_at |} in
     _publish topic payload ;;;
     Py.modify (fun self =>
                  with_mark_price_at (<[instrument_name := now]> (mark_price_at self)) self)
   else Py.ret tt)%py.

Definition publish_underlying_price `{Environment} (now : float) (instrument_name : string)
    (underlying_price : float) : Py.M t unit :=
  (self <- Py.get ;;
   if match underlying_price_at self !! instrument_name with
      | None => true
      | Some published_at => PyNum.geb (PyNum.sub now published_at) (of_int 1%Z)
      end
   then
     let topic := build_topic instrument_name "underlying_price" None in
     let expiration_at :=
       BaseWSClient.expiration_at (OkexWSClient.base (client self)) !! instrument_name in
     let payload :=
       {| pp_instrument_name := instrument_name;
          pp_price := underlying_price;
          pp_ms := mul now (of_int 1000%Z);
          pp_expiration_at := expiration_at |} in
     _publish topic payload ;;;
     Py.modify (fun self =>
                  with_underlying_price_at
                    (<[instrument_name := now]> (underlying_price_at self)) self)
   else Py.ret tt)%py.

(** [publish_kline(topic, payload)] at clock reading
    [now = int(time.time())]. *)
Definition publish_kline {P} (now : Z) (topic : string) (payload : P) : Py.M t unit :=
  (self <- Py.get ;;
   if match kline_at self !! topic with
      | None => true
      | Some published_at => (1 <=? now - published_at)%Z
      end
   then
     _publish topic payload ;;;
     Py.modify (fun self => with_kline_at (<[topic := now]> (kline_at self)) self)
   else Py.ret tt)%py.

(** An element of the data of a mark-price frame; [markPx] is carried as
    the float [float(item["markPx"])] reads. *)
Record mark_price_item : Type := {
  mp_instId : string;
  mp_instType : string;
  markPx : float;
}.

(** The body of the loop of [handle_mark_price], at clock reading [now]. *)
Definition handle_mark_price_item `{Environment} (now : float) (item : mark_price_item)
    : Py.M t unit :=
  (let instrument_name := mp_instId item in
   let inst_type := mp_instType item in
   let mark_price := markPx item in
   let instrument_name := InstrumentConverter_to_system instrument_name in
   Py.modify (fun self =>
                with_mark_price_cache
                  (<[instrument_name := mark_price]> (mark_price_cache self)) self) ;;;
   publish_mark_price now instrument_name mark_price ;;;
   if String.eqb inst_type "SWAP" || String.eqb inst_type "FUTURES"
   then on_manager
          (NewOrderBookManager.change_ticker instrument_name None (Some mark_price)
             None None None)
   else Py.ret tt)%py.

(** [handle_mark_price(message)]; [clock i] is the reading of the clock in
    the turn of the loop for the element at position [i]. *)
Definition handle_mark_price `{Environment} (clock : nat -> float)
    (data : list mark_price_item) : Py.M t unit :=
  Py.for_each (combine (seq 0 (length data)) data)
    (fun turn => handle_mark_price_item (clock (fst turn)) (snd turn)).

(** An element of the data of an option-summary frame, its numerals read
    by [float()]; [bidVol] and [askVol] are [None] when the key is
    missing, [fwdPx] may be the empty string. *)
Record opt_summary_item : Type := {
  os_instId : string;
  os_vega : float;
  os_theta : float;
  os_gamma : float;
  os_delta : float;
  markVol : float;
  bidVol : option float;
  askVol : option float;
  fwdPx : numstr;
}.

(** [float(data.get(key, 0))] *)
Definition float_get_0 (x : option float) : float :=
  match x with Some v => v | None => of_int 0%Z end.

(** The body of the loop of [handle_opt_summary], at clock reading [now]. *)
Definition handle_opt_summary_item `{Environment} (now : float) (data : opt_summary_item)
    : Py.M t unit :=
  (let greeks :=
     {| FastOrderBook.vega := os_vega data;
        FastOrderBook.theta := os_theta data;
        FastOrderBook.gamma := os_gamma data;
        FastOrderBook.delta := os_delta data |} in
   let instrument_name := os_instId data in
   let instrument_name := InstrumentConverter_to_system instrument_name in
   self <- Py.get ;;
   let mark_price := mark_price_cache self !! instrument_name in
   let mark_iv := mul (markVol data) (of_int 100%Z) in
   on_manager
     (NewOrderBookManager.change_ticker instrument_name (Some greeks) mark_price
        (Some mark_iv)
        (Some (mul (float_get_0 (bidVol data)) (of_int 100%Z)))
        (Some (mul (float_get_0 (askVol data)) (of_int 100%Z)))) ;;;
   let forward_price := PyNum.float_or_0 (fwdPx data) in
   if truthy forward_price
   then publish_underlying_price now instrument_name forward_price
   else Py.ret tt)%py.

Definition handle_opt_summary `{Environment} (clock : nat -> float)
    (data : list opt_summary_item) : Py.M t unit :=
  Py.for_each (combine (seq 0 (length data)) data)
    (fun turn => handle_opt_summary_item (clock (fst turn)) (snd turn)).

(** The replica of an instrument. *)
Definition replica (name : string) (self : t) : option FastOrderBook.t :=
  OkexWSClient.replica name (client self).

End Feeds.

(** ** [SpotFutureArbitrage]: the rate of a future against its spot pair *)
Module SpotFutureArbitrage.

Inductive failure : Type :=
| Raised (e : exn)
| ZeroDivisionError.

Record ArbitrageRate : Type := {
  currency : string;
  spot_instrument_name : string;
  future_instrument_name : string;
  basis : num;
  spread_rate : float;
  apy : float;
  future_expire_days : Z;
  timestamp : Z;
}.

(** [get_arbitrage_rate(instrument_name)], reading the cache [redis]. *)
Definition get_arbitrage_rate `{Environment} (redis : gmap string BaseWSClient.book_payload)
    (instrument_name : string) : failure + ArbitrageRate :=
  let currency := hd EmptyString (PyText.split "-" instrument_name) in
  let spot_instrument_name := (currency ++ "-USDT")%string in
  let future_instrument_name := instrument_name in
  match OrderBookManager.get_orderbook_info redis spot_instrument_name Asks 1 with
  | inl e => inl (Raised e)
  | inr spot_data =>
      let spot_price := OrderBookManager.price spot_data in
      match OrderBookManager.get_orderbook_info redis future_instrument_name Bids 1 with
      | inl e => inl (Raised e)
      | inr future_data =>
          let future_price := OrderBookManager.price future_data in
          let future_expire_days := OrderBookManager.expire_days future_data in
          let basis := PyNum.minus future_price spot_price in
          match PyNum.truediv basis spot_price with
          | None => inl ZeroDivisionError
          | Some quotient =>
              let spread_rate := mul quotient (of_int 100%Z) in
              match future_expire_days with
              | None => inl (Raised TypeError)
              | Some days =>
                  match PyNum.truediv (NFloat spread_rate) (NInt days) with
                  | None => inl ZeroDivisionError
                  | Some per_day =>
                      let apy := mul per_day (of_int 365%Z) in
                      let timestamp :=
                        Z.min (OrderBookManager.data_ms spot_data)
                          (OrderBookManager.data_ms future_data) in
                      inr {| currency := currency;
                             spot_instrument_name := spot_instrument_name;
                             future_instrument_name := future_instrument_name;
                             basis := basis;
                             spread_rate := spread_rate;
                             apy := apy;
                             future_expire_days := days;
                             timestamp := timestamp |}
                  end
              end
          end
      end
  end.

End SpotFutureArbitrage.

(** ** [OkexWSClient.dispatch_message]: the choice of the handler *)
Module Dispatch.

(** [s.replace(old, new)] for single characters. *)
Fixpoint replace (old new : ascii) (s : string) : string :=
  match s with
  | EmptyString => EmptyString
  | String c rest => String (if Ascii.eqb c old then new else c) (replace old new rest)
  end.

(** The methods of the client whose names begin with [handle_]. *)
Inductive handler : Type :=
| handle_open_interest
| handle_tickers
| handle_index_tickers
| handle_instruments
| handle_unknown
| handle_opt_summary
| handle_mark_price
| handle_funding_rate
| handle_candle
| handle_trades
| handle_books.

(** [getattr(self, name)]: the method of that name, and [handle_unknown]
    from [__getattr__] for a name the client has no attribute of.  The
    names the dispatcher asks for begin with [handle_]. *)
Definition getattr (name : string) : handler :=
  if String.eqb name "handle_open_interest" then handle_open_interest
  else if String.eqb name "handle_tickers" then handle_tickers
  else if String.eqb name "handle_index_tickers" then handle_index_tickers
  else if String.eqb name "handle_instruments" then handle_instruments
  else if String.eqb name "handle_opt_summary" then handle_opt_summary
  else if String.eqb name "handle_mark_price" then handle_mark_price
  else if String.eqb name "handle_funding_rate" then handle_funding_rate
  else if String.eqb name "handle_candle" then handle_candle
  else if String.eqb name "handle_trades" then handle_trades
  else if String.eqb name "handle_books" then handle_books
  else handle_unknown.

(** [message.get("event", None) or message.get("arg", {}).get("channel", None)
    or "unknown"]; [event] and [channel] are [None] for a missing key. *)
Definition event_of (event channel : option string) : string :=
  match PyText.or_else event (PyText.or_else channel (Some "unknown"%string)) with
  | Some e => e
  | None => "unknown"
  end.

(** The handler [dispatch_message] calls for a decoded message. *)
Definition route (event channel : option string) : handler :=
  let event := event_of event channel in
  let event :=
    if PyText.startswith "candle" event then "candle"%string
    else if PyText.startswith "books" event then "books"%string
    else event in
  getattr (replace "-" "_" ("handle_" ++ event)).

End Dispatch.

(** ** What a reader of the cache is told *)
Module Reader.

(** The price in the answer of [get_orderbook_info], or its exception. *)
Definition price_of (r : exn + OrderBookManager.OrderBookInfo) : exn + num :=
  match r with
  | inl e => inl e
  | inr info => inr (OrderBookManager.price info)
  end.

End Reader.

(** ** Regular expressions

    The patterns of [tools/instruments.py] use literals, character classes,
    [.], alternation, [+], counted repetition and a final [$].  [re.match]
    is asked for a match object or [None] only, so that what matters is
    whether some prefix of the string is in the language of the pattern. *)
Module Re.

Inductive t : Type :=
| Void
| Eps
| Class (p : ascii -> bool)
| Cat (r1 r2 : t)
| Alt (r1 r2 : t)
| Star (r : t).

(** The language of a pattern. *)
Inductive lang : t -> string -> Prop :=
| lang_eps : lang Eps EmptyString
| lang_class (p : ascii -> bool) (c : ascii) :
    p c = true -> lang (Class p) (String c EmptyString)
| lang_cat (r1 r2 : t) (s1 s2 : string) :
    lang r1 s1 -> lang r2 s2 -> lang (Cat r1 r2) (s1 ++ s2)
| lang_alt_l (r1 r2 : t) (s : string) : lang r1 s -> lang (Alt r1 r2) s
| lang_alt_r (r1 r2 : t) (s : string) : lang r2 s -> lang (Alt r1 r2) s
| lang_star_nil (r : t) : lang (Star r) EmptyString
| lang_star_cons (r : t) (s1 s2 : string) :
    lang r s1 -> lang (Star r) s2 -> lang (Star r) (s1 ++ s2).

(** Whether the empty string is in the language. *)
Fixpoint nullable (r : t) : bool :=
  match r with
  | Void => false
  | Eps => true
  | Class _ => false
  | Cat r1 r2 => nullable r1 && nullable r2
  | Alt r1 r2 => nullable r1 || nullable r2
  | Star _ => true
  end.

(** The pattern of what may follow the character [c]. *)
Fixpoint deriv (c : ascii) (r : t) : t :=
  match r with
  | Void => Void
  | Eps => Void
  | Class p => if p c then Eps else Void
  | Cat r1 r2 =>
      if nullable r1 then Alt (Cat (deriv c r1) r2) (deriv c r2) else Cat (deriv c r1) r2
  | Alt r1 r2 => Alt (deriv c r1) (deriv c r2)
  | Star r0 => Cat (deriv c r0) (Star r0)
  end.

(** The whole string is in the language. *)
Fixpoint fullmatch (r : t) (s : string) : bool :=
  match s with
  | EmptyString => nullable r
  | String c rest => fullmatch (deriv c r) rest
  end.

(** [re.match(pattern, s)] finds a match: a prefix of the string is in the
    language. *)
Fixpoint prefix_match (r : t) (s : string) : bool :=
  nullable r
  || match s with
     | EmptyString => false
     | String c rest => prefix_match (deriv c r) rest
     end.

(** A literal. *)
Fixpoint lit (s : string) : t :=
  match s with
  | EmptyString => Eps
  | String c rest => Cat (Class (Ascii.eqb c)) (lit rest)
  end.

Definition newline : ascii := "010"%char.

(** [.]: any character but the newline. *)
Definition dot : t := Class (fun c => negb (Ascii.eqb c newline)).

(** [r+] *)
Definition plus (r : t) : t := Cat r (Star r).

(** [r?] *)
Definition opt (r : t) : t := Alt r Eps.

(** [r{n}] *)
Fixpoint rep (n : nat) (r : t) : t :=
  match n with
  | O => Eps
  | S n' => Cat r (rep n' r)
  end.

(** [r{n,n+more}] *)
Fixpoint rep_upto (more : nat) (r : t) : t :=
  match more with
  | O => Eps
  | S m => opt (Cat r (rep_upto m r))
  end.

Definition rep_between (n more : nat) (r : t) : t := Cat (rep n r) (rep_upto more r).

Definition in_range (lo hi : ascii) (c : ascii) : bool :=
  (nat_of_ascii lo <=? nat_of_ascii c)%nat && (nat_of_ascii c <=? nat_of_ascii hi)%nat.

(** [\d] on ASCII text, [[A-Z]] and [[CP]]. *)
Definition digit : t := Class (in_range "0" "9").
Definition upper_letter : t := Class (in_range "A" "Z").
Definition one_of (s : string) : t := Class (fun c => PyText.has c s).

(** [re.match(pattern + "$", s)]: [$] is the end of the string, or the
    place before a newline that ends the string. *)
Definition match_end (r : t) (s : string) : bool :=
  fullmatch (Cat r (opt (Class (Ascii.eqb newline)))) s.

(** The strings that [.+] matches in full: not empty, and without a newline. *)
Definition line (s : string) : bool := PyText.nonempty s && negb (PyText.has newline s).

End Re.

(** ** [tools/instruments.py] *)
Module Instruments.

(** [\d{1,2}[A-Z]{3}\d{2}]: a date such as [29APR22]. *)
Definition date : Re.t :=
  Re.Cat (Re.rep_between 1 1 Re.digit) (Re.Cat (Re.rep 3 Re.upper_letter) (Re.rep 2 Re.digit)).

(** [.+] followed by the rest of the pattern. *)
Definition some_then (rest : Re.t) : Re.t := Re.Cat (Re.plus Re.dot) rest.

(** [CURRENCY.spot_quote_exp()]: the quote currencies of [SPOT_ACCURACY],
    joined by [|] in the order of a set; the order of the alternatives makes
    no difference to whether there is a match. *)
Definition spot_quote_exp : Re.t :=
  Re.Alt (Re.lit "USDT") (Re.Alt (Re.lit "BTC") (Re.lit "USDC")).

Definition get_subject_by (instrument_name : string) : option string :=
  if Re.match_end
       (some_then (Re.Cat (Re.lit "-")
                     (Re.Cat (Re.Alt (Re.lit "USDT") (Re.lit "BUSD")) (Re.lit "-PERPETUAL"))))
       instrument_name
  then Some "SWAP_USDT"%string
  else if Re.match_end (some_then (Re.lit "USDC-PERPETUAL")) instrument_name
  then Some "SWAP_USDC"%string
  else if Re.match_end (some_then (Re.lit "-PERPETUAL")) instrument_name
  then Some "SWAP_USD"%string
  else if Re.match_end
            (some_then (Re.Cat (Re.lit "-USDT-") (some_then (Re.Cat (Re.lit "-") (Re.one_of "CP")))))
            instrument_name
  then Some "OPTION_USDT"%string
  else if Re.match_end
            (some_then (Re.Cat (Re.lit "-USDC-") (some_then (Re.Cat (Re.lit "-") (Re.one_of "CP")))))
            instrument_name
  then Some "OPTION_USDC"%string
  else if Re.match_end (some_then (Re.Cat (Re.lit "-") (Re.one_of "CP"))) instrument_name
  then Some "OPTION"%string
  else if Re.match_end (some_then (Re.Cat (Re.lit "-") spot_quote_exp)) instrument_name
  then Some "SPOT"%string
  else if Re.prefix_match (some_then (Re.Cat (Re.lit "-USDC-") date)) instrument_name
  then Some "FUTURE_USDC"%string
  else if Re.prefix_match (some_then (Re.Cat (Re.lit "-USDT-") date)) instrument_name
  then Some "FUTURE_USDT"%string
  else if Re.prefix_match (some_then (Re.Cat (Re.lit "-") date)) instrument_name
  then Some "FUTURE_USD"%string
  else None.

(** [get_subject_by_v2]: a future settled in coin must be of the form
    [[A-Z]{2,6}-\d{1,2}[A-Z]{3}\d{2}$]. *)
Definition get_subject_by_v2 (instrument_name : string) : option string :=
  let subject := get_subject_by instrument_name in
  if match subject with Some s => String.eqb s "FUTURE_USD" | None => false end
     && negb (Re.match_end
                (Re.Cat (Re.rep_between 2 4 Re.upper_letter) (Re.Cat (Re.lit "-") date))
                instrument_name)
  then None
  else subject.

(** The names of [SUBJECT_TYPE] that [get_subject_by] can return. *)
Definition subjects : list string :=
  ["SWAP_USDT"; "SWAP_USDC"; "SWAP_USD"; "OPTION_USDT"; "OPTION_USDC"; "OPTION"; "SPOT";
   "FUTURE_USDC"; "FUTURE_USDT"; "FUTURE_USD"]%string.

(** [EEInstrument]; the fields after [quote] have defaults. *)
Record EEInstrument : Type := {
  name : string;
  subject : string;
  base : string;
  quote : string;
  price_tick : num;
  size_tick : num;
  size_min : num;
  contract_value_currency : string;
  contract_value : num;
  contract_mult : num;
  settlement_currency : string;
}.

(** [EEInstrument(name, subject, base, quote)] *)
Definition ee (name subject base quote : string) : EEInstrument :=
  {| name := name;
     subject := subject;
     base := base;
     quote := quote;
     price_tick := NInt (-1);
     size_tick := NInt (-1);
     size_min := NInt (-1);
     contract_value_currency := EmptyString;
     contract_value := NInt (-1);
     contract_mult := NInt (-1);
     settlement_currency := EmptyString |}.

(** [parse_ee_instrument(name)]; the [exchange] argument is not read. *)
Definition parse_ee_instrument (name : string) : option EEInstrument :=
  let items := PyText.split "-" name in
  match items with
  | [] | [_] => None
  | [base; second] =>
      if String.eqb second "PERPETUAL" then Some (ee name "SWAP_USD" base "USD")
      else if Re.prefix_match date second then Some (ee name "FUTURE_USD" base "USD")
      else Some (ee name "SPOT" base second)
  | [base; quote; third] =>
      if String.eqb third "PERPETUAL"
      then if String.eqb quote "USDC" then Some (ee name "SWAP_USDC" base quote)
           else Some (ee name "SWAP_USDT" base quote)
      else Some (ee name "FUTURE_USDT" base quote)
  | [base; _; _; fourth] =>
      if String.eqb fourth "PERPETUAL" then None
      else Some (ee name "OPTION" base base)
  | [base; quote; _; _; fifth] =>
      if String.eqb fifth "PERPETUAL" then None
      else if String.eqb quote "USDT" then Some (ee name "OPTION_USDT" base quote)
      else if String.eqb quote "USDC" then Some (ee name "OPTION_USDC" base quote)
      else None
  | _ => None
  end.

(** A component of an instrument name: a line without a dash. *)
Definition word (s : string) : bool := Re.line s && negb (PyText.has "-" s).

(** [get_quote_currency(instrument_name)] *)
Definition get_quote_currency (instrument_name : string) : string :=
  match parse_ee_instrument instrument_name with
  | Some instrument => quote instrument
  | None => "USD"
  end.

End Instruments.

(** The environment in which [get_subject_by] is the function of
    [tools/instruments.py], as [base_spider.py] and [orderbook_manager.py]
    import it. *)
Definition with_instruments (E : Environment) : Environment :=
  {| SPIDER_CONSUMER_WORKERS := @SPIDER_CONSUMER_WORKERS E;
     InstrumentConverter_to_system := @InstrumentConverter_to_system E;
     get_expired_from_instrument_name := @get_expired_from_instrument_name E;
     get_subject_by := Instruments.get_subject_by |}.

(** ** [tools/number.py]: client order ids *)
Module Number.

(** [SUBJECT_PREFIX_MAPPING]: the prefix of each subject that has one, in the
    order of the dict display.  A [PrefixObject] hashes and compares as its
    name, so that the name stands for it as a key. *)
Definition SUBJECT_PREFIX_MAPPING : list (string * Z) :=
  [("OPTION", 60); ("OPTION_USDT", 62); ("OPTION_USDC", 61); ("SPOT", 10); ("SWAP_USD", 20);
   ("FUTURE_USD", 40); ("FUTURE_USDT", 50); ("SWAP_USDT", 30); ("SWAP_USDC", 70)]%string%Z.

(** [{v: k for k, v in SUBJECT_PREFIX_MAPPING.items()}]: of two subjects
    with one prefix the later would stay. *)
Definition REVERSE_SUBJECT_PREFIX_MAP : gmap Z string :=
  fold_left (fun m kv => <[snd kv := fst kv]> m) SUBJECT_PREFIX_MAPPING ∅.

(** [items[key]] for a dict given by its items. *)
Fixpoint getitem (key : string) (items : list (string * Z)) : exn + Z :=
  match items with
  | [] => inl KeyError
  | (k, v) :: rest => if String.eqb k key then inr v else getitem key rest
  end.

(** [str(z)], which is also how an f-string formats an int. *)
Definition str (z : Z) : string := NilZero.string_of_int (Z.to_int z).

(** [generate_order_id(subject)]; [ts] is what [generate_digit_id()]
    returns, the clock reading in microseconds. *)
Definition generate_order_id (ts : Z) (subject : string) : exn + string :=
  let order_id := ts in
  let exchange_prefix := 1%Z in
  match getitem subject SUBJECT_PREFIX_MAPPING with
  | inl e => inl e
  | inr subject_suffix => inr (str order_id ++ str exchange_prefix ++ str subject_suffix)%string
  end.

(** [generate_sor_order_id(subject)], with [SOR_EXCHANGE_PREFIX = 0]. *)
Definition generate_sor_order_id (ts : Z) (subject : string) : exn + string :=
  let order_id := ts in
  match getitem subject SUBJECT_PREFIX_MAPPING with
  | inl e => inl e
  | inr subject_prefix => inr (str order_id ++ str 0 ++ str subject_prefix)%string
  end.

(** [s[-2:]]: the last two characters, or all of a shorter string. *)
Definition last_two (s : string) : string :=
  String.substring (String.length s - 2) 2 s.

(** The characters that [int()] skips around an ASCII string: [\t] to
    [\r] and the space. *)
Definition is_space (c : ascii) : bool :=
  let n := nat_of_ascii c in
  ((9 <=? n)%nat && (n <=? 13)%nat) || (n =? 32)%nat.

Fixpoint lstrip (s : string) : string :=
  match s with
  | EmptyString => EmptyString
  | String c rest => if is_space c then lstrip rest else s
  end.

Fixpoint rstrip (s : string) : string :=
  match s with
  | EmptyString => EmptyString
  | String c rest =>
      match rstrip rest with
      | EmptyString => if is_space c then EmptyString else String c EmptyString
      | kept => String c kept
      end
  end.

(** The digits of a decimal literal: an underscore may stand between two
    digits. *)
Fixpoint digits (acc : Z) (after_digit : bool) (s : string) : option Z :=
  match s with
  | EmptyString => if after_digit then Some acc else None
  | String c rest =>
      if Re.in_range "0" "9" c
      then digits (10 * acc + (Z.of_nat (nat_of_ascii c) - 48)) true rest
      else if Ascii.eqb c "_" && after_digit then digits acc false rest
      else None
  end.

(** [int(s)] for a string of ASCII characters: white space around an
    optional sign and the digits; anything else raises [ValueError]. *)
Definition int (s : string) : exn + Z :=
  let parse sign body :=
    match digits 0 false body with
    | Some n => inr (sign * n)%Z
    | None => inl ValueError
    end in
  match rstrip (lstrip s) with
  | String "-" body => parse (-1)%Z body
  | String "+" body => parse 1%Z body
  | body => parse 1%Z body
  end.

(** [get_subject_by_order_id(order_id)] for an order id that is a string. *)
Definition get_subject_by_order_id (order_id : string) : exn + option string :=
  match int (last_two order_id) with
  | inl e => inl e
  | inr subject_part => inr (REVERSE_SUBJECT_PREFIX_MAP !! subject_part)
  end.

End Number.

(** ** Scenarios of the feeds and of the readers *)
Module FeedScenario.

Import Scenario.

(** The client after the snapshot of [X-USDT], before any price was
    published. *)
Definition feeds1 : Feeds.t :=
  {| Feeds.client := client1;
     Feeds.mark_price_cache := ∅;
     Feeds.mark_price_at := ∅;
     Feeds.underlying_price_at := ∅;
     Feeds.kline_at := ∅;
     Feeds.topic_cache := ∅ |}.

(** An option summary for [X-USDT] without a bid volatility. *)
Definition summary_X : Feeds.opt_summary_item :=
  {| Feeds.os_instId := "X-USDT";
     Feeds.os_vega := f 1;
     Feeds.os_theta := f 2;
     Feeds.os_gamma := f 3;
     Feeds.os_delta := f 4;
     Feeds.markVol := f 5;
     Feeds.bidVol := None;
     Feeds.askVol := Some (f 6);
     Feeds.fwdPx := Blank |}.

(** The cache once the snapshot of [X-USDT] was published. *)
Definition redis_X : gmap string BaseWSClient.book_payload :=
  {[ @OrderBookManager.orderbook_key env "X-USDT" := payload_X ]}.

End FeedScenario.

(** * Properties *)

(** ** Comparison of floats

    [<] and [==] are read off the ranks of their arguments. *)
Module FloatFacts.

Ltac rank_cases ex ey mx my :=
  change (PosDef.Pos.compare_cont Eq mx my) with (Pos.compare mx my);
  destruct (Z.compare_spec ex ey), (Pos.compare_spec mx my); cbn;
  split; intros Hr; try discriminate; subst; try reflexivity;
  try (injection Hr; intros); try lia.

Lemma ltb_rank (x y : float) :
  is_nan x = false -> is_nan y = false ->
  (ltb x y = true <-> rank_lt (rank x) (rank y)).
Proof.
  unfold ltb, SFltb.
  destruct x as [sx | sx | | sx mx ex], y as [sy | sy | | sy my ey];
    cbn; try discriminate; intros _ _;
    repeat match goal with b : bool |- _ => destruct b end; cbn;
    try (split; intros Hr; try discriminate; try reflexivity; lia);
    rank_cases ex ey mx my.
Qed.

Lemma eqb_rank (x y : float) :
  is_nan x = false -> is_nan y = false ->
  (eqb x y = true <-> rank x = rank y).
Proof.
  unfold eqb, SFeqb.
  destruct x as [sx | sx | | sx mx ex], y as [sy | sy | | sy my ey];
    cbn; try discriminate; intros _ _;
    repeat match goal with b : bool |- _ => destruct b end; cbn;
    try (split; intros Hr; try discriminate; reflexivity);
    rank_cases ex ey mx my.
Qed.

Lemma eqb_nan_l (x y : float) : is_nan x = true -> eqb x y = false.
Proof. destruct x; try discriminate. reflexivity. Qed.

Lemma eqb_nan_r (x y : float) : is_nan y = true -> eqb x y = false.
Proof. destruct y; try discriminate. destruct x; reflexivity. Qed.

Lemma eqb_true_not_nan (x y : float) :
  eqb x y = true -> is_nan x = false /\ is_nan y = false.
Proof.
  intros H. split.
  - destruct (is_nan x) eqn:E; [|reflexivity]. rewrite (eqb_nan_l x y E) in H. discriminate.
  - destruct (is_nan y) eqn:E; [|reflexivity]. rewrite (eqb_nan_r x y E) in H. discriminate.
Qed.

Lemma eqb_refl (x : float) : is_nan x = false -> eqb x x = true.
Proof. intros H. apply eqb_rank; auto. Qed.

Lemma eqb_sym (x y : float) : eqb x y = eqb y x.
Proof.
  destruct (is_nan x) eqn:Hx.
  { rewrite (eqb_nan_l x y Hx), (eqb_nan_r y x Hx). reflexivity. }
  destruct (is_nan y) eqn:Hy.
  { rewrite (eqb_nan_r x y Hy), (eqb_nan_l y x Hy). reflexivity. }
  destruct (eqb x y) eqn:E1, (eqb y x) eqn:E2; try reflexivity.
  - apply eqb_rank in E1; auto. symmetry in E1. apply eqb_rank in E1; auto. congruence.
  - apply eqb_rank in E2; auto. symmetry in E2. apply eqb_rank in E2; auto. congruence.
Qed.

(** Keys that compare equal are interchangeable in a comparison. *)
Lemma eqb_true_eqb (x y z : float) : eqb x y = true -> eqb x z = eqb y z.
Proof.
  intros H. destruct (eqb_true_not_nan _ _ H) as [Hx Hy].
  destruct (is_nan z) eqn:Hz.
  { rewrite !(eqb_nan_r _ z Hz). reflexivity. }
  apply eqb_rank in H; auto.
  destruct (eqb x z) eqn:E1, (eqb y z) eqn:E2; try reflexivity.
  - apply eqb_rank in E1; auto. rewrite H in E1. apply eqb_rank in E1; auto. congruence.
  - apply eqb_rank in E2; auto. rewrite <- H in E2. apply eqb_rank in E2; auto. congruence.
Qed.

Lemma ltb_true_not_nan (x y : float) :
  ltb x y = true -> is_nan x = false /\ is_nan y = false.
Proof.
  unfold ltb, SFltb. destruct x, y; cbn; try discriminate; auto.
Qed.

Lemma ltb_trans (x y z : float) : ltb x y = true -> ltb y z = true -> ltb x z = true.
Proof.
  intros H1 H2.
  destruct (ltb_true_not_nan _ _ H1) as [Hx Hy].
  destruct (ltb_true_not_nan _ _ H2) as [_ Hz].
  apply ltb_rank in H1; auto. apply ltb_rank in H2; auto. apply ltb_rank; auto.
  destruct (rank x) as [[a1 a2] a3], (rank y) as [[b1 b2] b3], (rank z) as [[c1 c2] c3].
  cbn in *. lia.
Qed.

Lemma ltb_irrefl (x : float) : ltb x x = false.
Proof.
  destruct (ltb x x) eqn:E; [|reflexivity].
  destruct (ltb_true_not_nan _ _ E) as [Hx _].
  apply ltb_rank in E; auto.
  destruct (rank x) as [[a1 a2] a3]. cbn in E. lia.
Qed.

(** Of two floats other than NaN, one is below the other or they compare
    equal. *)
Lemma ltb_total (x y : float) :
  is_nan x = false -> is_nan y = false ->
  ltb x y = false -> ltb y x = false -> eqb x y = true.
Proof.
  intros Hx Hy H1 H2. apply eqb_rank; auto.
  assert (N1 : ~ rank_lt (rank x) (rank y)).
  { intros C. apply ltb_rank in C; auto. congruence. }
  assert (N2 : ~ rank_lt (rank y) (rank x)).
  { intros C. apply ltb_rank in C; auto. congruence. }
  destruct (rank x) as [[a1 a2] a3], (rank y) as [[b1 b2] b3].
  cbn in *. f_equal; [f_equal|]; lia.
Qed.

Lemma ltb_eqb_false (x y : float) : ltb x y = true -> eqb x y = false.
Proof.
  intros H. destruct (ltb_true_not_nan _ _ H) as [Hx Hy].
  destruct (eqb x y) eqn:E; [|reflexivity].
  apply eqb_rank in E; auto. apply ltb_rank in H; auto.
  rewrite E in H. destruct (rank y) as [[b1 b2] b3]. cbn in H. lia.
Qed.

Lemma ltb_asym (x y : float) : ltb x y = true -> ltb y x = false.
Proof.
  intros H. destruct (ltb y x) eqn:E; [|reflexivity].
  rewrite <- (ltb_irrefl x). symmetry. eapply ltb_trans; eauto.
Qed.

(** Two different keys are ordered one way or the other. *)
Lemma ltb_connex (x y : float) :
  is_nan x = false -> is_nan y = false -> eqb x y = false ->
  ltb x y = false -> ltb y x = true.
Proof.
  intros Hx Hy Hne H. destruct (ltb y x) eqn:E; [reflexivity|].
  rewrite (ltb_total x y Hx Hy H E) in Hne. discriminate.
Qed.

Lemma ltb_false_trans (h y x : float) :
  is_nan h = false -> is_nan y = false ->
  ltb h y = false -> ltb h x = true -> ltb y x = true.
Proof.
  intros Hh Hy H1 H2.
  destruct (ltb_true_not_nan _ _ H2) as [_ Hx].
  assert (N1 : ~ rank_lt (rank h) (rank y)).
  { intros C. apply ltb_rank in C; auto. congruence. }
  apply ltb_rank in H2; auto. apply ltb_rank; auto.
  destruct (rank x) as [[a1 a2] a3], (rank y) as [[b1 b2] b3], (rank h) as [[c1 c2] c3].
  cbn in *. lia.
Qed.

End FloatFacts.

(** ** Dicts keyed by floats *)
Module DictFacts.

Import FloatFacts.

Lemma get_set_same (k v : float) (d : PyDict.t) :
  is_nan k = false -> PyDict.get k (PyDict.set k v d) = Some v.
Proof.
  intros Hk. induction d as [|[k' v'] d IH]; cbn.
  - rewrite eqb_refl; auto.
  - destruct (eqb k' k) eqn:E; cbn; rewrite E; auto.
Qed.

Lemma get_set_other (q k v : float) (d : PyDict.t) :
  eqb q k = false -> PyDict.get q (PyDict.set k v d) = PyDict.get q d.
Proof.
  intros Hq. induction d as [|[k' v'] d IH]; cbn.
  - rewrite eqb_sym, Hq. reflexivity.
  - destruct (eqb k' k) eqn:E; cbn.
    + rewrite (eqb_true_eqb k' k q E), (eqb_sym k q), Hq. reflexivity.
    + rewrite IH. reflexivity.
Qed.

Lemma get_del_same (k : float) (d : PyDict.t) : PyDict.get k (PyDict.del k d) = None.
Proof.
  unfold PyDict.del. induction d as [|[k' v'] d IH]; cbn; auto.
  destruct (eqb k' k) eqn:E; cbn; auto. rewrite E. exact IH.
Qed.

Lemma get_del_other (q k : float) (d : PyDict.t) :
  eqb q k = false -> PyDict.get q (PyDict.del k d) = PyDict.get q d.
Proof.
  intros Hq. unfold PyDict.del. induction d as [|[k' v'] d IH]; cbn; auto.
  destruct (eqb k' k) eqn:E; cbn.
  - rewrite (eqb_true_eqb k' k q E), (eqb_sym k q), Hq. exact IH.
  - rewrite IH. reflexivity.
Qed.

Lemma del_absent (k : float) (d : PyDict.t) :
  PyDict.contains k d = false -> PyDict.del k d = d.
Proof.
  unfold PyDict.contains, PyDict.del. induction d as [|[k' v'] d IH]; cbn; auto.
  destruct (eqb k' k) eqn:E; cbn; [discriminate|].
  intros H. rewrite IH; auto.
Qed.

Lemma contains_del (k : float) (d : PyDict.t) :
  PyDict.contains k (PyDict.del k d) = false.
Proof. unfold PyDict.contains. rewrite get_del_same. reflexivity. Qed.

Lemma in_set (k v : float) (d : PyDict.t) (x : float * float) :
  In x (PyDict.set k v d) ->
  In x d \/ (snd x = v /\ PyDict.same_key (fst x) k).
Proof.
  unfold PyDict.same_key.
  induction d as [|[k' v'] d IH]; cbn.
  - intros [<-|[]]. right. cbn. auto.
  - destruct (eqb k' k) eqn:E; cbn.
    + intros [<-|H]; cbn; auto.
    + intros [<-|H]; auto. destruct (IH H); auto.
Qed.

Lemma in_del (k : float) (d : PyDict.t) (x : float * float) :
  In x (PyDict.del k d) -> In x d.
Proof. unfold PyDict.del. intros H. apply filter_In in H. tauto. Qed.

(** A stored key is found again, under the key object the dict holds. *)
Lemma set_stored (k v : float) (d : PyDict.t) :
  exists k', In (k', v) (PyDict.set k v d) /\ PyDict.same_key k' k.
Proof.
  unfold PyDict.same_key.
  induction d as [|[k1 v1] d IH]; cbn.
  - exists k. auto.
  - destruct (eqb k1 k) eqn:E; cbn.
    + exists k1. auto.
    + destruct IH as [k' [H1 H2]]. exists k'. auto.
Qed.

Lemma in_fold_set (cs : float) (levels : list (float * float)) (acc : PyDict.t)
    (x : float * float) :
  In x (fold_left (fun d lv => PyDict.set (fst lv) (mul (snd lv) cs) d) levels acc) ->
  In x acc \/
  exists lv, In lv levels /\ snd x = mul (snd lv) cs /\ PyDict.same_key (fst x) (fst lv).
Proof.
  revert acc. induction levels as [|lv levels IH]; cbn; intros acc H; auto.
  apply IH in H. destruct H as [H|[lv' [H1 H2]]].
  - apply in_set in H. destruct H as [H|[H1 H2]]; auto.
    right. exists lv. auto.
  - right. exists lv'. auto.
Qed.

Lemma in_of_levels (cs : float) (levels : list (float * float)) (x : float * float) :
  In x (PyDict.of_levels cs levels) ->
  exists lv, In lv levels /\ snd x = mul (snd lv) cs /\ PyDict.same_key (fst x) (fst lv).
Proof.
  unfold PyDict.of_levels. intros H. apply in_fold_set in H.
  destruct H as [[]|H]. exact H.
Qed.

(** *** Well-formed dicts *)

Lemma keys_set (k v : float) (d : PyDict.t) :
  PyDict.keys (PyDict.set k v d) = PyDict.keys d \/
  PyDict.keys (PyDict.set k v d) = PyDict.keys d ++ [k].
Proof.
  unfold PyDict.keys. induction d as [|[k' v'] d IH]; cbn; auto.
  destruct (eqb k' k); cbn; auto.
  destruct IH as [-> | ->]; auto.
Qed.

Lemma Forall_keys_del (P : float -> Prop) (k : float) (d : PyDict.t) :
  Forall P (PyDict.keys d) -> Forall P (PyDict.keys (PyDict.del k d)).
Proof.
  unfold PyDict.del, PyDict.keys. induction d as [|[k' v'] d IH]; cbn; auto.
  intros H. inversion H; subst. destruct (eqb k' k); cbn; auto.
Qed.

Lemma wf_set (k v : float) (d : PyDict.t) :
  PyDict.wf d -> is_nan k = false -> PyDict.wf (PyDict.set k v d).
Proof.
  unfold PyDict.wf. intros Hwf Hk.
  induction d as [|[k' v'] d IH]; cbn in *; auto.
  destruct Hwf as (Hn & Hall & Hd).
  destruct (eqb k' k) eqn:E; cbn; auto.
  repeat split; auto.
  fold (PyDict.keys (PyDict.set k v d)). fold (PyDict.keys d) in Hall.
  destruct (keys_set k v d) as [-> | ->]; auto.
  apply Forall_app. split; auto.
Qed.

Lemma wf_del (k : float) (d : PyDict.t) : PyDict.wf d -> PyDict.wf (PyDict.del k d).
Proof.
  unfold PyDict.wf. induction d as [|[k' v'] d IH]; cbn; auto.
  intros (Hn & Hall & Hd).
  assert (Hrec := IH Hd).
  unfold PyDict.del in *. destruct (eqb k' k); cbn; auto.
  repeat split; auto. apply (Forall_keys_del _ k d Hall).
Qed.

Lemma distinct_keys_not_nan (ks : list float) :
  PyDict.distinct_keys ks -> Forall (fun k => is_nan k = false) ks.
Proof.
  induction ks as [|k ks IH]; cbn; auto.
  intros (Hn & _ & Hd). auto.
Qed.

Lemma wf_not_nan (d : PyDict.t) :
  PyDict.wf d -> Forall (fun kv => is_nan (fst kv) = false) d.
Proof.
  unfold PyDict.wf, PyDict.keys. intros H.
  apply distinct_keys_not_nan in H. rewrite Forall_map in H. exact H.
Qed.

Lemma distinct_keys_perm (l l' : list float) :
  Permutation l l' -> PyDict.distinct_keys l -> PyDict.distinct_keys l'.
Proof.
  induction 1 as [| x l l' Hp IH | x y l | l l' l'' Hp1 IH1 Hp2 IH2]; cbn; auto.
  - intros (Hn & Hall & Hd). repeat split; auto.
    eapply Permutation_Forall; eauto.
  - intros (Hy & Hally & Hx & Hallx & Hd).
    inversion Hally; subst.
    repeat split; auto. constructor; auto. rewrite eqb_sym. assumption.
Qed.

Lemma wf_perm (d d' : PyDict.t) : Permutation d d' -> PyDict.wf d -> PyDict.wf d'.
Proof.
  unfold PyDict.wf, PyDict.keys. intros Hp. apply distinct_keys_perm.
  apply Permutation_map. exact Hp.
Qed.

Lemma wf_of_levels (cs : float) (levels : list (float * float)) :
  Forall (fun lv => is_nan (fst lv) = false) levels ->
  PyDict.wf (PyDict.of_levels cs levels).
Proof.
  unfold PyDict.of_levels.
  assert (G : forall acc, PyDict.wf acc ->
            Forall (fun lv => is_nan (fst lv) = false) levels ->
            PyDict.wf (fold_left (fun d lv => PyDict.set (fst lv) (mul (snd lv) cs) d) levels acc)).
  { induction levels as [|lv levels IH]; cbn; auto.
    intros acc Hacc Hall. inversion Hall; subst.
    apply IH; auto. apply wf_set; auto. }
  apply G. exact I.
Qed.

(** *** Dicts up to the order of their entries *)

Lemma set_perm (k v : float) (d1 d2 : PyDict.t) :
  Permutation d1 d2 -> PyDict.wf d1 ->
  Permutation (PyDict.set k v d1) (PyDict.set k v d2).
Proof.
  induction 1 as [| [kx vx] l l' Hp IH | [kx vx] [ky vy] l | l l' l'' Hp1 IH1 Hp2 IH2];
    intros Hwf.
  - apply Permutation_refl.
  - cbn. destruct Hwf as (Hn & Hall & Hd).
    destruct (eqb kx k); [apply perm_skip; auto | apply perm_skip; auto].
  - cbn in *. destruct Hwf as (Hy & Hally & Hx & Hallx & Hd).
    inversion Hally as [|? ? Hyx Hally']; subst.
    destruct (eqb ky k) eqn:Ey, (eqb kx k) eqn:Ex; try apply perm_swap.
    rewrite (eqb_true_eqb ky k kx Ey), eqb_sym, Ex in Hyx. discriminate.
  - eapply Permutation_trans; [apply IH1; auto|].
    apply IH2. eapply wf_perm; eauto.
Qed.

Lemma del_perm (k : float) (d1 d2 : PyDict.t) :
  Permutation d1 d2 -> Permutation (PyDict.del k d1) (PyDict.del k d2).
Proof.
  unfold PyDict.del.
  induction 1 as [| x l l' Hp IH | x y l | l l' l'' Hp1 IH1 Hp2 IH2]; cbn.
  - apply Permutation_refl.
  - destruct (negb (eqb (fst x) k)); auto.
  - destruct (negb (eqb (fst x) k)), (negb (eqb (fst y) k)); auto using perm_swap.
  - eapply Permutation_trans; eauto.
Qed.

Lemma set_set_comm (k1 v1 k2 v2 : float) (d : PyDict.t) :
  eqb k1 k2 = false ->
  Permutation (PyDict.set k1 v1 (PyDict.set k2 v2 d)) (PyDict.set k2 v2 (PyDict.set k1 v1 d)).
Proof.
  intros Hne. induction d as [|[k' v'] d IH]; cbn.
  - rewrite (eqb_sym k2 k1), Hne. apply perm_swap.
  - destruct (eqb k' k2) eqn:E2, (eqb k' k1) eqn:E1; cbn; rewrite ?E1, ?E2; auto.
    rewrite (eqb_true_eqb k' k1 k2 E1), Hne in E2. discriminate.
Qed.

Lemma set_del_comm (k1 v k2 : float) (d : PyDict.t) :
  eqb k1 k2 = false ->
  PyDict.set k1 v (PyDict.del k2 d) = PyDict.del k2 (PyDict.set k1 v d).
Proof.
  intros Hne. unfold PyDict.del. induction d as [|[k' v'] d IH]; cbn.
  - rewrite Hne. reflexivity.
  - destruct (eqb k' k2) eqn:E2, (eqb k' k1) eqn:E1; cbn; rewrite ?E1, ?E2; cbn; auto.
    + rewrite (eqb_true_eqb k' k1 k2 E1), Hne in E2. discriminate.
    + rewrite IH. reflexivity.
Qed.

Lemma del_del_comm (k1 k2 : float) (d : PyDict.t) :
  PyDict.del k1 (PyDict.del k2 d) = PyDict.del k2 (PyDict.del k1 d).
Proof.
  unfold PyDict.del. induction d as [|[k' v'] d IH]; cbn; auto.
  destruct (eqb k' k2) eqn:E2, (eqb k' k1) eqn:E1; cbn; rewrite ?E1, ?E2; cbn; auto.
  rewrite IH. reflexivity.
Qed.

Lemma get_perm (q : float) (d1 d2 : PyDict.t) :
  Permutation d1 d2 -> PyDict.wf d1 -> PyDict.get q d1 = PyDict.get q d2.
Proof.
  induction 1 as [| [kx vx] l l' Hp IH | [kx vx] [ky vy] l | l l' l'' Hp1 IH1 Hp2 IH2];
    intros Hwf; auto.
  - cbn. destruct Hwf as (Hn & Hall & Hd). rewrite IH; auto.
  - cbn in *. destruct Hwf as (Hy & Hally & Hx & Hallx & Hd).
    inversion Hally as [|? ? Hyx Hally']; subst.
    destruct (eqb ky q) eqn:Ey, (eqb kx q) eqn:Ex; auto.
    rewrite (eqb_true_eqb ky q kx Ey), eqb_sym, Ex in Hyx. discriminate.
  - rewrite IH1; auto. apply IH2. eapply wf_perm; eauto.
Qed.

Lemma get_set_eq (q k v : float) (d : PyDict.t) :
  eqb k q = true -> PyDict.get q (PyDict.set k v d) = Some v.
Proof.
  intros Hq. induction d as [|[k' v'] d IH]; cbn.
  - rewrite Hq. reflexivity.
  - destruct (eqb k' k) eqn:E; cbn.
    + rewrite (eqb_true_eqb k' k q E), Hq. reflexivity.
    + destruct (eqb k' q) eqn:E'; [|exact IH].
      rewrite (eqb_sym k' k), (eqb_true_eqb k q k' Hq), eqb_sym, E' in E. discriminate.
Qed.

(** Every price of the levels, NaN apart, is a key of the dict built from
    them, and maps to the scaled size of a level of that price. *)
Lemma get_of_levels (cs : float) (levels : list (float * float)) (raw : float * float) :
  In raw levels -> is_nan (fst raw) = false ->
  exists raw', In raw' levels /\ eqb (fst raw') (fst raw) = true /\
    PyDict.get (fst raw) (PyDict.of_levels cs levels) = Some (mul (snd raw') cs).
Proof.
  unfold PyDict.of_levels. intros Hin Hn.
  induction levels as [|x levels IH] using rev_ind; [contradiction|].
  rewrite fold_left_app. cbn [fold_left].
  destruct (eqb (fst x) (fst raw)) eqn:E.
  - exists x. split; [apply in_or_app; right; left; reflexivity|].
    split; [exact E|]. apply get_set_eq. exact E.
  - apply in_app_or in Hin. destruct Hin as [Hin|[->|[]]].
    + destruct (IH Hin) as (raw' & H1 & H2 & H3).
      exists raw'. split; [apply in_or_app; left; exact H1|]. split; [exact H2|].
      rewrite get_set_other; [exact H3|]. rewrite eqb_sym. exact E.
    + rewrite eqb_refl in E by exact Hn. discriminate.
Qed.

End DictFacts.

(** ** The levels of an update on the dict of a side *)
Module UpdateFacts.

Import FloatFacts DictFacts.

Lemma updated_data_zero (cs : float) (lv : float * float) (d : PyDict.t) :
  eqb (mul (snd lv) cs) (of_int 0%Z) = true ->
  OkexWSClient.updated_data cs lv d = PyDict.del (fst lv) d.
Proof.
  unfold OkexWSClient.updated_data. intros ->.
  destruct (PyDict.contains (fst lv) d) eqn:E; auto.
  symmetry. apply del_absent. exact E.
Qed.

Lemma updated_data_nonzero (cs : float) (lv : float * float) (d : PyDict.t) :
  eqb (mul (snd lv) cs) (of_int 0%Z) = false ->
  OkexWSClient.updated_data cs lv d = PyDict.set (fst lv) (mul (snd lv) cs) d.
Proof. unfold OkexWSClient.updated_data. intros ->. reflexivity. Qed.

Ltac updated_cases cs lv d :=
  let E := fresh "E" in
  destruct (eqb (mul (snd lv) cs) (of_int 0%Z)) eqn:E;
  [rewrite !(updated_data_zero cs lv) by exact E
  |rewrite !(updated_data_nonzero cs lv) by exact E].

Lemma wf_updated_data (cs : float) (lv : float * float) (d : PyDict.t) :
  PyDict.wf d -> is_nan (fst lv) = false -> PyDict.wf (OkexWSClient.updated_data cs lv d).
Proof.
  intros Hwf Hn. updated_cases cs lv d.
  - apply wf_del; auto.
  - apply wf_set; auto.
Qed.

Lemma updated_data_perm (cs : float) (lv : float * float) (d1 d2 : PyDict.t) :
  Permutation d1 d2 -> PyDict.wf d1 ->
  Permutation (OkexWSClient.updated_data cs lv d1) (OkexWSClient.updated_data cs lv d2).
Proof.
  intros Hp Hwf. updated_cases cs lv d1.
  - apply del_perm; auto.
  - apply set_perm; auto.
Qed.

Lemma updated_data_comm (cs : float) (a b : float * float) (d : PyDict.t) :
  eqb (fst a) (fst b) = false ->
  Permutation (OkexWSClient.updated_data cs a (OkexWSClient.updated_data cs b d))
              (OkexWSClient.updated_data cs b (OkexWSClient.updated_data cs a d)).
Proof.
  intros Hne.
  assert (Hne' : eqb (fst b) (fst a) = false) by (rewrite eqb_sym; exact Hne).
  updated_cases cs a d; updated_cases cs b d.
  - rewrite del_del_comm. apply Permutation_refl.
  - rewrite (set_del_comm _ _ _ _ Hne'). apply Permutation_refl.
  - rewrite (set_del_comm _ _ _ _ Hne). apply Permutation_refl.
  - apply set_set_comm. exact Hne.
Qed.

Lemma wf_apply_levels (cs : float) (levels : list (float * float)) (d : PyDict.t) :
  PyDict.wf d -> Forall (fun lv => is_nan (fst lv) = false) levels ->
  PyDict.wf (OkexWSClient.apply_levels cs levels d).
Proof.
  unfold OkexWSClient.apply_levels. revert d.
  induction levels as [|lv levels IH]; cbn; auto.
  intros d Hwf Hall. inversion Hall; subst.
  apply IH; auto. apply wf_updated_data; auto.
Qed.

Lemma apply_levels_congr (cs : float) (levels : list (float * float)) (d1 d2 : PyDict.t) :
  Permutation d1 d2 -> PyDict.wf d1 ->
  Forall (fun lv => is_nan (fst lv) = false) levels ->
  Permutation (OkexWSClient.apply_levels cs levels d1) (OkexWSClient.apply_levels cs levels d2).
Proof.
  unfold OkexWSClient.apply_levels. revert d1 d2.
  induction levels as [|lv levels IH]; cbn; auto.
  intros d1 d2 Hp Hwf Hall. inversion Hall; subst.
  apply IH; auto.
  - apply updated_data_perm; auto.
  - apply wf_updated_data; auto.
Qed.

Lemma levels_not_nan (levels : list (float * float)) :
  PyDict.distinct_keys (map fst levels) ->
  Forall (fun lv => is_nan (fst lv) = false) levels.
Proof.
  intros H. apply distinct_keys_not_nan in H.
  rewrite Forall_map in H. exact H.
Qed.

(** Levels with pairwise different prices may be applied in any order: the
    dict holds the same entries. *)
Lemma apply_levels_perm (cs : float) (l1 l2 : list (float * float)) :
  Permutation l1 l2 ->
  PyDict.distinct_keys (map fst l1) ->
  forall d1 d2, Permutation d1 d2 -> PyDict.wf d1 ->
  Permutation (OkexWSClient.apply_levels cs l1 d1) (OkexWSClient.apply_levels cs l2 d2).
Proof.
  induction 1 as [| x l l' Hp IH | x y l | l l' l'' Hp1 IH1 Hp2 IH2];
    intros Hd d1 d2 Hperm Hwf.
  - exact Hperm.
  - cbn in Hd. destruct Hd as (Hn & Hall & Hd).
    unfold OkexWSClient.apply_levels in *. cbn.
    apply IH; auto.
    + apply updated_data_perm; auto.
    + apply wf_updated_data; auto.
  - cbn in Hd. destruct Hd as (Hy & Hally & Hx & Hallx & Hd).
    inversion Hally as [|? ? Hyx Hally']; subst.
    change (OkexWSClient.apply_levels cs (y :: x :: l) d1)
      with (OkexWSClient.apply_levels cs l
              (OkexWSClient.updated_data cs x (OkexWSClient.updated_data cs y d1))).
    change (OkexWSClient.apply_levels cs (x :: y :: l) d2)
      with (OkexWSClient.apply_levels cs l
              (OkexWSClient.updated_data cs y (OkexWSClient.updated_data cs x d2))).
    apply apply_levels_congr.
    + eapply Permutation_trans.
      * apply updated_data_comm. rewrite eqb_sym. exact Hyx.
      * apply updated_data_perm; [|apply wf_updated_data; auto].
        apply updated_data_perm; auto.
    + apply wf_updated_data; auto. apply wf_updated_data; auto.
    + apply levels_not_nan. exact Hd.
  - eapply Permutation_trans.
    + apply (IH1 Hd d1 d1); auto.
    + apply IH2; auto.
      eapply distinct_keys_perm; [|exact Hd]. apply Permutation_map. exact Hp1.
Qed.

Lemma in_updated_data (cs : float) (lv : float * float) (d : PyDict.t) (x : float * float) :
  In x (OkexWSClient.updated_data cs lv d) ->
  In x d \/ (snd x = mul (snd lv) cs /\ PyDict.same_key (fst x) (fst lv)).
Proof.
  updated_cases cs lv d; intros Hin.
  - left. eapply in_del; eauto.
  - apply in_set in Hin. exact Hin.
Qed.

Lemma in_apply_levels (cs : float) (levels : list (float * float)) (d : PyDict.t)
    (x : float * float) :
  In x (OkexWSClient.apply_levels cs levels d) ->
  In x d \/
  exists lv, In lv levels /\ snd x = mul (snd lv) cs /\ PyDict.same_key (fst x) (fst lv).
Proof.
  unfold OkexWSClient.apply_levels. revert d.
  induction levels as [|lv levels IH]; cbn; intros d Hin; auto.
  apply IH in Hin. destruct Hin as [Hin|(lv' & H1 & H2)].
  - apply in_updated_data in Hin. destruct Hin as [Hin|Hin]; auto.
    right. exists lv. auto.
  - right. exists lv'. auto.
Qed.

Lemma apply_levels_app (cs : float) (l1 l2 : list (float * float)) (d : PyDict.t) :
  OkexWSClient.apply_levels cs (l1 ++ l2) d =
  OkexWSClient.apply_levels cs l2 (OkexWSClient.apply_levels cs l1 d).
Proof. unfold OkexWSClient.apply_levels. apply fold_left_app. Qed.

End UpdateFacts.

(** ** The sorted view of a side *)
Module SortFacts.

Import FloatFacts DictFacts.

Lemma insert_sorted_perm (x : float * float) (l : list (float * float)) :
  Permutation (SortedDict.insert_sorted x l) (x :: l).
Proof.
  induction l as [|h t IH]; cbn; auto.
  destruct (ltb (fst h) (fst x)); auto.
  eapply Permutation_trans; [apply perm_skip; exact IH | apply perm_swap].
Qed.

Lemma sort_perm (l : list (float * float)) : Permutation (SortedDict.sort l) l.
Proof.
  unfold SortedDict.sort. induction l as [|h t IH]; cbn; auto.
  eapply Permutation_trans; [apply insert_sorted_perm | apply perm_skip; exact IH].
Qed.

Lemma in_sort (x : float * float) (l : list (float * float)) :
  In x (SortedDict.sort l) <-> In x l.
Proof.
  split; apply Permutation_in; [| apply Permutation_sym]; apply sort_perm.
Qed.

Lemma Forall_sort (P : float * float -> Prop) (l : list (float * float)) :
  Forall P l -> Forall P (SortedDict.sort l).
Proof.
  intros H. eapply Permutation_Forall; [apply Permutation_sym, sort_perm | exact H].
Qed.

Lemma insert_sorted_comm (x y : float * float) (s : list (float * float)) :
  is_nan (fst x) = false -> is_nan (fst y) = false ->
  Forall (fun kv => is_nan (fst kv) = false) s ->
  eqb (fst x) (fst y) = false ->
  SortedDict.insert_sorted x (SortedDict.insert_sorted y s) =
  SortedDict.insert_sorted y (SortedDict.insert_sorted x s).
Proof.
  intros Hx Hy Hs Hne.
  assert (Hne' : eqb (fst y) (fst x) = false) by (rewrite eqb_sym; exact Hne).
  induction s as [|h t IH]; cbn.
  - destruct (ltb (fst y) (fst x)) eqn:E.
    + rewrite (ltb_asym _ _ E). reflexivity.
    + rewrite (ltb_connex _ _ Hy Hx Hne' E). reflexivity.
  - inversion Hs as [|? ? Hh Ht]; subst.
    destruct (ltb (fst h) (fst x)) eqn:Ehx, (ltb (fst h) (fst y)) eqn:Ehy; cbn;
      rewrite ?Ehx, ?Ehy.
    + rewrite IH; auto.
    + rewrite (ltb_false_trans (fst h) (fst y) (fst x) Hh Hy Ehy Ehx).
      cbn; rewrite ?Ehx, ?Ehy; reflexivity.
    + rewrite (ltb_false_trans (fst h) (fst x) (fst y) Hh Hx Ehx Ehy).
      cbn; rewrite ?Ehx, ?Ehy; reflexivity.
    + destruct (ltb (fst y) (fst x)) eqn:E.
      * rewrite (ltb_asym _ _ E). cbn; rewrite ?Ehx, ?Ehy; reflexivity.
      * rewrite (ltb_connex _ _ Hy Hx Hne' E). cbn; rewrite ?Ehx, ?Ehy; reflexivity.
Qed.

(** The sorted view does not depend on the order in which a well-formed
    dict holds its entries. *)
Lemma sort_perm_eq (d1 d2 : PyDict.t) :
  Permutation d1 d2 -> PyDict.wf d1 -> SortedDict.sort d1 = SortedDict.sort d2.
Proof.
  unfold SortedDict.sort.
  induction 1 as [| x l l' Hp IH | x y l | l l' l'' Hp1 IH1 Hp2 IH2]; intros Hwf; auto.
  - cbn. destruct Hwf as (Hn & Hall & Hd). rewrite IH; auto.
  - cbn. destruct Hwf as (Hy & Hally & Hx & Hallx & Hd).
    inversion Hally as [|? ? Hyx Hally']; subst.
    apply insert_sorted_comm; auto.
    apply (Forall_sort (fun kv => is_nan (fst kv) = false)).
    apply wf_not_nan. exact Hd.
  - rewrite IH1; auto. apply IH2. eapply wf_perm; eauto.
Qed.

Lemma to_list_perm_eq (sd1 sd2 : SortedDict.t) :
  Permutation (SortedDict.data sd1) (SortedDict.data sd2) ->
  PyDict.wf (SortedDict.data sd1) ->
  SortedDict.order sd1 = SortedDict.order sd2 ->
  SortedDict.depth sd1 = SortedDict.depth sd2 ->
  SortedDict.to_list sd1 = SortedDict.to_list sd2.
Proof.
  intros Hp Hwf Ho Hd. unfold SortedDict.to_list, SortedDict.ordered.
  rewrite <- Ho, <- Hd, (sort_perm_eq _ _ Hp Hwf). reflexivity.
Qed.

Lemma in_firstn (x : float * float) (n : nat) (l : list (float * float)) :
  In x (firstn n l) -> In x l.
Proof.
  intros H. rewrite <- (firstn_skipn n l). apply in_or_app. left. exact H.
Qed.

(** Every entry of the view is an entry of the dict. *)
Lemma in_to_list (x : float * float) (sd : SortedDict.t) :
  In x (SortedDict.to_list sd) -> In x (SortedDict.data sd).
Proof.
  unfold SortedDict.to_list, SortedDict.ordered. intros H.
  assert (G : In x (match SortedDict.order sd with
                    | SortedDict.ASCENDING => SortedDict.sort (SortedDict.data sd)
                    | SortedDict.DESCENDING => rev (SortedDict.sort (SortedDict.data sd))
                    end)).
  { destruct (SortedDict.depth sd); auto. eapply in_firstn; eauto. }
  destruct (SortedDict.order sd).
  - apply in_sort; auto.
  - apply in_rev in G. apply in_sort; auto.
Qed.

Lemma in_to_list_n (x : float * float) (n : nat) (sd : SortedDict.t) :
  In x (SortedDict.to_list_n n sd) -> In x (SortedDict.data sd).
Proof.
  unfold SortedDict.to_list_n. intros H. apply in_to_list. eapply in_firstn; eauto.
Qed.

End SortFacts.

(** ** Order of the view *)
Module OrderFacts.

Import FloatFacts DictFacts SortFacts.

Lemma HdRel_insert_sorted (R : float * float -> float * float -> Prop)
    (h x : float * float) (l : list (float * float)) :
  R h x -> HdRel R h l -> HdRel R h (SortedDict.insert_sorted x l).
Proof.
  intros Hx Hl. destruct l as [|h' t]; cbn; auto.
  inversion Hl; subst. destruct (ltb (fst h') (fst x)); auto.
Qed.

Lemma insert_sorted_Sorted (x : float * float) (l : list (float * float)) :
  Sorted SortedDict.price_le l -> Sorted SortedDict.price_le (SortedDict.insert_sorted x l).
Proof.
  induction l as [|h t IH]; cbn; intros Hs; auto.
  inversion Hs as [|? ? Ht Hh]; subst.
  destruct (ltb (fst h) (fst x)) eqn:E.
  - constructor; [apply IH; exact Ht|].
    apply HdRel_insert_sorted; [|exact Hh].
    unfold SortedDict.price_le. apply ltb_asym. exact E.
  - constructor; [exact Hs|]. constructor. exact E.
Qed.

Lemma sort_Sorted (l : list (float * float)) : Sorted SortedDict.price_le (SortedDict.sort l).
Proof.
  unfold SortedDict.sort. induction l as [|h t IH]; cbn; auto.
  apply insert_sorted_Sorted. exact IH.
Qed.

(** With pairwise different prices other than NaN the order is strict. *)
Lemma Sorted_strict (l : list (float * float)) :
  PyDict.wf l -> Sorted SortedDict.price_le l -> Sorted SortedDict.price_lt l.
Proof.
  induction l as [|h t IH]; intros Hwf Hs; auto.
  inversion Hs as [|? ? Ht Hh]; subst.
  destruct Hwf as (Hn & Hall & Hd).
  constructor; [apply IH; auto|].
  destruct t as [|h' t']; constructor.
  inversion Hh as [|? ? Hle]; subst.
  inversion Hall as [|? ? Hne _]; subst.
  destruct Hd as (Hn' & _ & _).
  unfold SortedDict.price_lt, SortedDict.price_le in *.
  apply ltb_connex; auto. rewrite eqb_sym. exact Hne.
Qed.

Lemma sort_Sorted_strict (d : PyDict.t) :
  PyDict.wf d -> Sorted SortedDict.price_lt (SortedDict.sort d).
Proof.
  intros Hwf. apply Sorted_strict; [|apply sort_Sorted].
  eapply wf_perm; [apply Permutation_sym, sort_perm | exact Hwf].
Qed.

Lemma Sorted_firstn {A} (R : A -> A -> Prop) (n : nat) (l : list A) :
  Sorted R l -> Sorted R (firstn n l).
Proof.
  revert l. induction n as [|n IH]; intros [|h t] Hs; cbn; auto.
  inversion Hs as [|? ? Ht Hh]; subst.
  constructor; auto.
  destruct t as [|h' t']; destruct n; cbn; auto.
  inversion Hh; subst. constructor. assumption.
Qed.

Lemma Sorted_snoc {A} (R : A -> A -> Prop) (l : list A) (x : A) :
  Sorted R l -> (forall y, List.last l x = y -> l <> [] -> R y x) -> Sorted R (l ++ [x]).
Proof.
  induction l as [|h t IH]; cbn; intros Hs Hlast.
  - constructor; auto.
  - inversion Hs as [|? ? Ht Hh]; subst. constructor.
    + apply IH; auto. intros y Hy Hne. apply Hlast; [|discriminate].
      destruct t; [contradiction|exact Hy].
    + destruct t as [|h' t']; cbn.
      * constructor. apply Hlast; [reflexivity|discriminate].
      * inversion Hh; subst. constructor. assumption.
Qed.

Lemma Sorted_rev {A} (R : A -> A -> Prop) (l : list A) :
  Sorted R l -> Sorted (fun a b => R b a) (rev l).
Proof.
  induction l as [|h t IH]; cbn; intros Hs; auto.
  inversion Hs as [|? ? Ht Hh]; subst.
  apply Sorted_snoc; auto.
  intros y Hy Hne.
  destruct t as [|h' t']; [cbn in Hne; contradiction|].
  inversion Hh; subst.
  cbn [rev]. rewrite List.last_last. assumption.
Qed.

(** The view of asks ascends and the view of bids descends. *)
Lemma to_list_sorted (sd : SortedDict.t) :
  match SortedDict.order sd with
  | SortedDict.ASCENDING => Sorted SortedDict.price_le (SortedDict.to_list sd)
  | SortedDict.DESCENDING => Sorted SortedDict.price_ge (SortedDict.to_list sd)
  end.
Proof.
  unfold SortedDict.to_list, SortedDict.ordered.
  destruct (SortedDict.order sd); destruct (SortedDict.depth sd);
    try apply Sorted_firstn;
    try apply sort_Sorted;
    apply (Sorted_rev SortedDict.price_le), sort_Sorted.
Qed.

Lemma to_list_sorted_strict (sd : SortedDict.t) :
  PyDict.wf (SortedDict.data sd) ->
  match SortedDict.order sd with
  | SortedDict.ASCENDING => Sorted SortedDict.price_lt (SortedDict.to_list sd)
  | SortedDict.DESCENDING => Sorted SortedDict.price_gt (SortedDict.to_list sd)
  end.
Proof.
  intros Hwf. unfold SortedDict.to_list, SortedDict.ordered.
  destruct (SortedDict.order sd); destruct (SortedDict.depth sd);
    try apply Sorted_firstn;
    try (apply sort_Sorted_strict; exact Hwf);
    apply (Sorted_rev SortedDict.price_lt), sort_Sorted_strict; exact Hwf.
Qed.

End OrderFacts.

(** ** The books handler on the replica *)
Module BookFacts.

Import FloatFacts DictFacts UpdateFacts SortFacts.

Ltac run_py :=
  unfold Py.bind, Py.get, Py.ret, Py.raise, Py.modify, Py.zoom, Py.try_except; cbn.

Lemma with_orderbooks_id (m : NewOrderBookManager.t) :
  NewOrderBookManager.with_orderbooks (NewOrderBookManager.orderbooks m) m = m.
Proof. destruct m; reflexivity. Qed.

Lemma with_orderbook_manager_id (b : BaseWSClient.t) :
  BaseWSClient.with_orderbook_manager (BaseWSClient.orderbook_manager b) b = b.
Proof. destruct b; reflexivity. Qed.

Lemma with_base_id (s : OkexWSClient.t) : OkexWSClient.with_base (OkexWSClient.base s) s = s.
Proof. destruct s; reflexivity. Qed.

Lemma replica_with_replica (name : string) (ob : FastOrderBook.t) (s : OkexWSClient.t) :
  OkexWSClient.replica name (OkexWSClient.with_replica name ob s) = Some ob.
Proof.
  unfold OkexWSClient.replica, OkexWSClient.with_replica, NewOrderBookManager.get. cbn.
  apply lookup_insert_eq.
Qed.

Lemma replica_with_replica_ne (name name' : string) (ob : FastOrderBook.t) (s : OkexWSClient.t) :
  name <> name' ->
  OkexWSClient.replica name' (OkexWSClient.with_replica name ob s) = OkexWSClient.replica name' s.
Proof.
  intros Hne.
  unfold OkexWSClient.replica, OkexWSClient.with_replica, NewOrderBookManager.get. cbn.
  apply lookup_insert_ne. exact Hne.
Qed.

Lemma with_replica_twice (name : string) (ob1 ob2 : FastOrderBook.t) (s : OkexWSClient.t) :
  OkexWSClient.with_replica name ob2 (OkexWSClient.with_replica name ob1 s) =
  OkexWSClient.with_replica name ob2 s.
Proof.
  unfold OkexWSClient.with_replica. cbn.
  unfold NewOrderBookManager.with_orderbooks. cbn.
  rewrite insert_insert_eq. reflexivity.
Qed.

Lemma with_replica_id (name : string) (ob : FastOrderBook.t) (s : OkexWSClient.t) :
  OkexWSClient.replica name s = Some ob -> OkexWSClient.with_replica name ob s = s.
Proof.
  unfold OkexWSClient.replica, OkexWSClient.with_replica, NewOrderBookManager.get.
  intros H. rewrite (insert_id _ _ _ H).
  rewrite with_orderbooks_id, with_orderbook_manager_id, with_base_id. reflexivity.
Qed.

Lemma on_orderbook_some (name : string) (e : exn) (f : FastOrderBook.t -> FastOrderBook.t)
    (s : OkexWSClient.t) (ob : FastOrderBook.t) :
  OkexWSClient.replica name s = Some ob ->
  OkexWSClient.on_orderbook name e f s = (inr tt, OkexWSClient.with_replica name (f ob) s).
Proof.
  unfold OkexWSClient.replica. intros H.
  unfold OkexWSClient.on_orderbook, OkexWSClient.on_manager, OkexWSClient.inherited.
  run_py. rewrite H. reflexivity.
Qed.

Lemma on_orderbook_none (name : string) (e : exn) (f : FastOrderBook.t -> FastOrderBook.t)
    (s : OkexWSClient.t) :
  OkexWSClient.replica name s = None ->
  OkexWSClient.on_orderbook name e f s = (inl e, s).
Proof.
  unfold OkexWSClient.replica. intros H.
  unfold OkexWSClient.on_orderbook, OkexWSClient.on_manager, OkexWSClient.inherited.
  run_py. rewrite H.
  rewrite with_orderbook_manager_id, with_base_id. reflexivity.
Qed.

(** *** The update branch on an existing replica *)

Lemma update_side_run (name : string) (cs : float) (sd : side)
    (levels : list (float * float)) :
  forall (s : OkexWSClient.t) (ob : FastOrderBook.t),
  OkexWSClient.replica name s = Some ob ->
  Py.for_each levels
    (fun level => OkexWSClient.on_orderbook name TypeError (OkexWSClient.update_level cs sd level)) s
  = (inr tt, OkexWSClient.with_replica name (OkexWSClient.update_side cs sd levels ob) s).
Proof.
  induction levels as [|lv levels IH]; intros s ob Hob; cbn.
  - unfold Py.ret. rewrite with_replica_id; auto.
  - unfold Py.bind. rewrite (on_orderbook_some _ _ _ _ _ Hob).
    rewrite (IH _ _ (replica_with_replica _ _ _)).
    rewrite with_replica_twice. reflexivity.
Qed.

Lemma for_each_cons {S A} (x : A) (l : list A) (body : A -> Py.M S unit) (s : S) :
  Py.for_each (x :: l) body s =
  match body x s with
  | (inr _, s') => Py.for_each l body s'
  | (inl e, s') => (inl e, s')
  end.
Proof. reflexivity. Qed.

Lemma update_body_run (name : string) (cs : float) (update : OkexWSClient.book_item)
    (s : OkexWSClient.t) (ob : FastOrderBook.t) :
  OkexWSClient.replica name s = Some ob ->
  OkexWSClient.update_body cs name update s
  = (inr tt, OkexWSClient.with_replica name (OkexWSClient.update_item cs update ob) s).
Proof.
  intros Hob. unfold OkexWSClient.update_body.
  unfold Py.bind. rewrite for_each_cons.
  rewrite (update_side_run _ _ _ _ _ _ Hob). rewrite for_each_cons.
  rewrite (update_side_run _ _ _ _ _ _ (replica_with_replica _ _ _)).
  cbn [Py.for_each]. unfold Py.ret.
  rewrite (on_orderbook_some _ _ _ _ _ (replica_with_replica _ _ _)).
  rewrite !with_replica_twice. reflexivity.
Qed.

Lemma update_items_run (name : string) (cs : float) (data : list OkexWSClient.book_item) :
  forall (s : OkexWSClient.t) (ob : FastOrderBook.t),
  OkexWSClient.replica name s = Some ob ->
  Py.for_each data (OkexWSClient.update_body cs name) s
  = (inr tt, OkexWSClient.with_replica name (OkexWSClient.update_items cs data ob) s).
Proof.
  induction data as [|u data IH]; intros s ob Hob.
  - cbn. unfold Py.ret. rewrite with_replica_id; auto.
  - rewrite for_each_cons. rewrite (update_body_run _ _ _ _ _ Hob).
    rewrite (IH _ _ (replica_with_replica _ _ _)).
    rewrite with_replica_twice. reflexivity.
Qed.

Lemma apply_books_no_info `{Environment} (m : OkexWSClient.books_message) (s : OkexWSClient.t) :
  OkexWSClient.instruments_info s !! OkexWSClient.instId m = None ->
  OkexWSClient.apply_books m s = (inl KeyError, s).
Proof.
  intros Hinfo. unfold OkexWSClient.apply_books. run_py. rewrite Hinfo. reflexivity.
Qed.

Lemma apply_books_snapshot `{Environment} (m : OkexWSClient.books_message) (s : OkexWSClient.t)
    (info : OkexWSClient.instrument_item) :
  OkexWSClient.instruments_info s !! OkexWSClient.instId m = Some info ->
  OkexWSClient.is_snapshot m = true ->
  OkexWSClient.apply_books m s =
  Py.for_each (OkexWSClient.data m)
    (OkexWSClient.snapshot_body (OkexWSClient.orderbook_max_depth s)
       (OkexWSClient.contract_size_of info)
       (InstrumentConverter_to_system (OkexWSClient.instId m))) s.
Proof.
  intros Hinfo Hsnap. unfold OkexWSClient.apply_books, OkexWSClient.is_snapshot in *.
  run_py. rewrite Hinfo, Hsnap. reflexivity.
Qed.

Lemma apply_books_update `{Environment} (m : OkexWSClient.books_message) (s : OkexWSClient.t)
    (info : OkexWSClient.instrument_item) :
  OkexWSClient.instruments_info s !! OkexWSClient.instId m = Some info ->
  OkexWSClient.is_snapshot m = false ->
  OkexWSClient.apply_books m s =
  Py.for_each (OkexWSClient.data m)
    (OkexWSClient.update_body (OkexWSClient.contract_size_of info)
       (InstrumentConverter_to_system (OkexWSClient.instId m))) s.
Proof.
  intros Hinfo Hsnap. unfold OkexWSClient.apply_books, OkexWSClient.is_snapshot in *.
  run_py. rewrite Hinfo, Hsnap. reflexivity.
Qed.

(** An update of an instrument that has a replica: every element of [data]
    is applied, none raises. *)
Lemma apply_books_update_some `{Environment} (m : OkexWSClient.books_message)
    (s : OkexWSClient.t) (info : OkexWSClient.instrument_item) (ob : FastOrderBook.t) :
  OkexWSClient.instruments_info s !! OkexWSClient.instId m = Some info ->
  OkexWSClient.is_snapshot m = false ->
  OkexWSClient.replica (InstrumentConverter_to_system (OkexWSClient.instId m)) s = Some ob ->
  OkexWSClient.apply_books m s =
  (inr tt,
   OkexWSClient.with_replica (InstrumentConverter_to_system (OkexWSClient.instId m))
     (OkexWSClient.update_items (OkexWSClient.contract_size_of info) (OkexWSClient.data m) ob) s).
Proof.
  intros Hinfo Hsnap Hob. rewrite (apply_books_update _ _ _ Hinfo Hsnap).
  apply update_items_run. exact Hob.
Qed.

(** *** The update branch without a replica *)

Lemma update_side_none (name : string) (cs : float) (sd : side)
    (levels : list (float * float)) (s : OkexWSClient.t) :
  OkexWSClient.replica name s = None ->
  Py.for_each levels
    (fun level => OkexWSClient.on_orderbook name TypeError (OkexWSClient.update_level cs sd level)) s
  = match levels with
    | [] => (inr tt, s)
    | _ :: _ => (inl TypeError, s)
    end.
Proof.
  intros Hob. destruct levels as [|lv levels]; [reflexivity|].
  rewrite for_each_cons. rewrite (on_orderbook_none _ _ _ _ Hob). reflexivity.
Qed.

Lemma update_body_none (name : string) (cs : float) (update : OkexWSClient.book_item)
    (s : OkexWSClient.t) :
  OkexWSClient.replica name s = None ->
  exists e, OkexWSClient.update_body cs name update s = (inl e, s).
Proof.
  intros Hob. unfold OkexWSClient.update_body, Py.bind.
  rewrite for_each_cons, (update_side_none _ _ _ _ _ Hob).
  destruct (OkexWSClient.levels_of Bids update); [|eauto].
  rewrite for_each_cons, (update_side_none _ _ _ _ _ Hob).
  destruct (OkexWSClient.levels_of Asks update); [|eauto].
  cbn [Py.for_each]. unfold Py.ret.
  rewrite (on_orderbook_none _ _ _ _ Hob). eauto.
Qed.

(** *** The snapshot branch *)

Lemma snapshot_body_run `{Environment} (top : nat) (cs : float) (name : string)
    (item : OkexWSClient.book_item) (s : OkexWSClient.t) :
  OkexWSClient.snapshot_body top cs name item s =
  match OkexWSClient.snapshot_of top s cs name item with
  | inl e => (inl e, s)
  | inr ob => (inr tt, OkexWSClient.with_replica name ob s)
  end.
Proof.
  unfold OkexWSClient.snapshot_body, OkexWSClient.snapshot_of, OkexWSClient.on_manager,
    OkexWSClient.inherited, NewOrderBookManager.snapshot.
  run_py.
  destruct (FastOrderBook.init _ _ _ _ _ _ _) as [e|ob]; cbn.
  - rewrite with_orderbook_manager_id, with_base_id. reflexivity.
  - reflexivity.
Qed.

Lemma snapshot_of_with_replica `{Environment} (top : nat) (cs : float) (name name' : string)
    (item : OkexWSClient.book_item) (ob : FastOrderBook.t) (s : OkexWSClient.t) :
  OkexWSClient.snapshot_of top (OkexWSClient.with_replica name' ob s) cs name item =
  OkexWSClient.snapshot_of top s cs name item.
Proof. reflexivity. Qed.

Lemma snapshot_of_raises `{Environment} (top : nat) (cs : float) (name : string)
    (item item' : OkexWSClient.book_item) (s : OkexWSClient.t) (e : exn) :
  OkexWSClient.snapshot_of top s cs name item = inl e ->
  OkexWSClient.snapshot_of top s cs name item' = inl e.
Proof.
  unfold OkexWSClient.snapshot_of, FastOrderBook.init.
  destruct (get_expired_from_instrument_name name); [auto|discriminate].
Qed.

(** The snapshot branch leaves the book of the last element of [data], or
    raises at the first element and leaves the client as it was. *)
Lemma snapshot_items_run `{Environment} (top : nat) (cs : float) (name : string)
    (items : list OkexWSClient.book_item) (item : OkexWSClient.book_item) :
  forall s : OkexWSClient.t,
  Py.for_each (items ++ [item]) (OkexWSClient.snapshot_body top cs name) s =
  match OkexWSClient.snapshot_of top s cs name item with
  | inl e => (inl e, s)
  | inr ob => (inr tt, OkexWSClient.with_replica name ob s)
  end.
Proof.
  induction items as [|i items IH]; intros s.
  - cbn [app]. rewrite for_each_cons, snapshot_body_run.
    destruct (OkexWSClient.snapshot_of top s cs name item); reflexivity.
  - cbn [app]. rewrite for_each_cons, snapshot_body_run.
    destruct (OkexWSClient.snapshot_of top s cs name i) as [e|ob] eqn:Ei.
    + rewrite (snapshot_of_raises _ _ _ _ item _ _ Ei). reflexivity.
    + rewrite IH, snapshot_of_with_replica.
      destruct (OkexWSClient.snapshot_of top s cs name item) as [e'|ob'] eqn:El.
      * rewrite (snapshot_of_raises _ _ _ _ i _ _ El) in Ei. discriminate.
      * rewrite with_replica_twice. reflexivity.
Qed.

(** *** The body of the innermost loop *)

Lemma update_level_data (cs : float) (sd : side) (lv : float * float) (ob : FastOrderBook.t) :
  SortedDict.data (FastOrderBook.getitem sd (OkexWSClient.update_level cs sd lv ob)) =
  OkexWSClient.updated_data cs lv (SortedDict.data (FastOrderBook.getitem sd ob)).
Proof.
  unfold OkexWSClient.update_level, OkexWSClient.updated_data, SortedDict.contains.
  destruct (eqb (mul (snd lv) cs) (of_int 0%Z)).
  - destruct (PyDict.contains (fst lv) (SortedDict.data (FastOrderBook.getitem sd ob)));
      destruct sd; reflexivity.
  - destruct sd; reflexivity.
Qed.

Lemma update_level_other (cs : float) (sd : side) (lv : float * float) (ob : FastOrderBook.t) :
  FastOrderBook.getitem (OkexWSClient.other_side sd) (OkexWSClient.update_level cs sd lv ob) =
  FastOrderBook.getitem (OkexWSClient.other_side sd) ob.
Proof.
  unfold OkexWSClient.update_level.
  destruct (eqb (mul (snd lv) cs) (of_int 0%Z));
    [destruct (SortedDict.contains _ _)|]; destruct sd; reflexivity.
Qed.

(** Everything of the book but the dict of the side is as it was. *)
Lemma update_level_frame (cs : float) (sd sd' : side) (lv : float * float)
    (ob : FastOrderBook.t) :
  let ob' := OkexWSClient.update_level cs sd lv ob in
  SortedDict.order (FastOrderBook.getitem sd' ob') = SortedDict.order (FastOrderBook.getitem sd' ob)
  /\ SortedDict.depth (FastOrderBook.getitem sd' ob') = SortedDict.depth (FastOrderBook.getitem sd' ob)
  /\ FastOrderBook.instrument_name ob' = FastOrderBook.instrument_name ob
  /\ FastOrderBook.expired_date ob' = FastOrderBook.expired_date ob
  /\ FastOrderBook.timestamp ob' = FastOrderBook.timestamp ob
  /\ FastOrderBook.change_id ob' = FastOrderBook.change_id ob
  /\ FastOrderBook.greeks ob' = FastOrderBook.greeks ob
  /\ FastOrderBook.mark_price ob' = FastOrderBook.mark_price ob
  /\ FastOrderBook.mark_iv ob' = FastOrderBook.mark_iv ob
  /\ FastOrderBook.bid_iv ob' = FastOrderBook.bid_iv ob
  /\ FastOrderBook.ask_iv ob' = FastOrderBook.ask_iv ob
  /\ FastOrderBook.connection_id ob' = FastOrderBook.connection_id ob.
Proof.
  cbv zeta. unfold OkexWSClient.update_level.
  destruct (eqb (mul (snd lv) cs) (of_int 0%Z));
    [destruct (SortedDict.contains _ _)|]; destruct sd, sd'; cbn; tauto.
Qed.

(** *** The loops of the update branch on the dicts of the two sides *)

Lemma update_side_data (cs : float) (sd : side) (levels : list (float * float)) :
  forall ob : FastOrderBook.t,
  SortedDict.data (FastOrderBook.getitem sd (OkexWSClient.update_side cs sd levels ob)) =
  OkexWSClient.apply_levels cs levels (SortedDict.data (FastOrderBook.getitem sd ob)).
Proof.
  unfold OkexWSClient.update_side, OkexWSClient.apply_levels.
  induction levels as [|lv levels IH]; intros ob; cbn; [reflexivity|].
  rewrite IH, update_level_data. reflexivity.
Qed.

Lemma update_side_other (cs : float) (sd : side) (levels : list (float * float)) :
  forall ob : FastOrderBook.t,
  FastOrderBook.getitem (OkexWSClient.other_side sd) (OkexWSClient.update_side cs sd levels ob) =
  FastOrderBook.getitem (OkexWSClient.other_side sd) ob.
Proof.
  unfold OkexWSClient.update_side.
  induction levels as [|lv levels IH]; intros ob; cbn; [reflexivity|].
  rewrite IH, update_level_other. reflexivity.
Qed.

Lemma update_item_data (cs : float) (sd : side) (u : OkexWSClient.book_item)
    (ob : FastOrderBook.t) :
  SortedDict.data (FastOrderBook.getitem sd (OkexWSClient.update_item cs u ob)) =
  OkexWSClient.apply_levels cs (OkexWSClient.levels_of sd u)
    (SortedDict.data (FastOrderBook.getitem sd ob)).
Proof.
  unfold OkexWSClient.update_item.
  change (FastOrderBook.getitem sd (FastOrderBook.with_timestamp ?t ?b))
    with (FastOrderBook.getitem sd b).
  destruct sd; cbn [OkexWSClient.levels_of].
  - rewrite (update_side_other cs Asks), update_side_data. reflexivity.
  - rewrite update_side_data, (update_side_other cs Bids). reflexivity.
Qed.

Lemma update_items_data (cs : float) (sd : side) (data : list OkexWSClient.book_item) :
  forall ob : FastOrderBook.t,
  SortedDict.data (FastOrderBook.getitem sd (OkexWSClient.update_items cs data ob)) =
  OkexWSClient.apply_levels cs (OkexWSClient.all_levels sd data)
    (SortedDict.data (FastOrderBook.getitem sd ob)).
Proof.
  unfold OkexWSClient.update_items, OkexWSClient.all_levels.
  induction data as [|u data IH]; intros ob; cbn [fold_left flat_map]; [reflexivity|].
  rewrite IH, update_item_data, apply_levels_app. reflexivity.
Qed.

(** *** What the update branch leaves alone in the book *)

Lemma same_annotations_refl (ob : FastOrderBook.t) : FastOrderBook.same_annotations ob ob.
Proof. unfold FastOrderBook.same_annotations. tauto. Qed.

Lemma same_annotations_trans (a b c : FastOrderBook.t) :
  FastOrderBook.same_annotations a b -> FastOrderBook.same_annotations b c ->
  FastOrderBook.same_annotations a c.
Proof.
  unfold FastOrderBook.same_annotations.
  intros (A1 & A2 & A3 & A4 & A5 & A6 & A7 & A8 & A9 & A10 & A11)
         (B1 & B2 & B3 & B4 & B5 & B6 & B7 & B8 & B9 & B10 & B11).
  repeat split; try congruence;
    intros sd; first [rewrite B10; apply A10 | rewrite B11; apply A11].
Qed.

Lemma same_annotations_sym (a b : FastOrderBook.t) :
  FastOrderBook.same_annotations a b -> FastOrderBook.same_annotations b a.
Proof.
  unfold FastOrderBook.same_annotations.
  intros (A1 & A2 & A3 & A4 & A5 & A6 & A7 & A8 & A9 & A10 & A11).
  repeat split; try congruence; intros sd; symmetry; auto.
Qed.

Lemma update_level_annotations (cs : float) (sd : side) (lv : float * float)
    (ob : FastOrderBook.t) :
  FastOrderBook.same_annotations ob (OkexWSClient.update_level cs sd lv ob).
Proof.
  unfold FastOrderBook.same_annotations.
  pose proof (fun sd' => update_level_frame cs sd sd' lv ob) as F. cbv zeta in F.
  destruct (F Bids) as (_ & _ & F3 & F4 & _ & F6 & F7 & F8 & F9 & F10 & F11 & F12).
  repeat split; auto; intros sd'; apply (F sd').
Qed.

Lemma with_timestamp_annotations (t : Z) (ob : FastOrderBook.t) :
  FastOrderBook.same_annotations ob (FastOrderBook.with_timestamp t ob).
Proof.
  unfold FastOrderBook.same_annotations. repeat split; intros []; reflexivity.
Qed.

Lemma update_side_annotations (cs : float) (sd : side) (levels : list (float * float)) :
  forall ob : FastOrderBook.t,
  FastOrderBook.same_annotations ob (OkexWSClient.update_side cs sd levels ob).
Proof.
  unfold OkexWSClient.update_side.
  induction levels as [|lv levels IH]; intros ob; cbn.
  - apply same_annotations_refl.
  - eapply same_annotations_trans; [apply update_level_annotations | apply IH].
Qed.

Lemma update_items_annotations (cs : float) (data : list OkexWSClient.book_item) :
  forall ob : FastOrderBook.t,
  FastOrderBook.same_annotations ob (OkexWSClient.update_items cs data ob).
Proof.
  unfold OkexWSClient.update_items.
  induction data as [|u data IH]; intros ob; cbn.
  - apply same_annotations_refl.
  - eapply same_annotations_trans; [|apply IH].
    unfold OkexWSClient.update_item.
    eapply same_annotations_trans; [|apply with_timestamp_annotations].
    eapply same_annotations_trans; apply update_side_annotations.
Qed.

(** Books with the same annotations and the same views serialize alike,
    the timestamp apart. *)
Lemma to_json_congr (level : nat) (ms t : Z) (ob1 ob2 : FastOrderBook.t) :
  FastOrderBook.same_annotations ob1 ob2 ->
  (forall sd, SortedDict.to_list (FastOrderBook.getitem sd ob1) =
              SortedDict.to_list (FastOrderBook.getitem sd ob2)) ->
  FastOrderBook.to_json level ms (FastOrderBook.with_timestamp t ob1) =
  FastOrderBook.to_json level ms (FastOrderBook.with_timestamp t ob2).
Proof.
  unfold FastOrderBook.same_annotations.
  intros (A1 & A2 & A3 & A4 & A5 & A6 & A7 & A8 & A9 & _ & _) Hv.
  pose proof (Hv Bids) as Hb. pose proof (Hv Asks) as Ha. cbn in Hb, Ha.
  unfold FastOrderBook.to_json, SortedDict.to_list_n. cbn.
  rewrite A1, A2, A4, A5, A6, A7, A8, A9, Hb, Ha. reflexivity.
Qed.

Lemma snapshot_of_data `{Environment} (top : nat) (s : OkexWSClient.t) (cs : float)
    (name : string) (item : OkexWSClient.book_item) (ob : FastOrderBook.t) (sd : side) :
  OkexWSClient.snapshot_of top s cs name item = inr ob ->
  SortedDict.data (FastOrderBook.getitem sd ob) =
  PyDict.of_levels cs (firstn top (OkexWSClient.levels_of sd item)).
Proof.
  unfold OkexWSClient.snapshot_of, FastOrderBook.init.
  destruct (get_expired_from_instrument_name name); [discriminate|].
  intros Hob. injection Hob as <-. destruct sd; reflexivity.
Qed.

(** The dicts of a book built from a snapshot whose prices are not NaN are
    well formed. *)
Lemma snapshot_of_wf `{Environment} (top : nat) (s : OkexWSClient.t) (cs : float)
    (name : string) (item : OkexWSClient.book_item) (ob : FastOrderBook.t) (sd : side) :
  OkexWSClient.snapshot_of top s cs name item = inr ob ->
  Forall (fun lv => is_nan (fst lv) = false) (OkexWSClient.levels_of sd item) ->
  PyDict.wf (SortedDict.data (FastOrderBook.getitem sd ob)).
Proof.
  intros Hob Hall. rewrite (snapshot_of_data _ _ _ _ _ _ sd Hob).
  apply wf_of_levels.
  rewrite <- (firstn_skipn top (OkexWSClient.levels_of sd item)) in Hall.
  apply Forall_app in Hall. apply Hall.
Qed.

(** A snapshot frame that is applied leaves the book built from the last
    element of its [data]. *)
Lemma apply_books_snapshot_some `{Environment} (m : OkexWSClient.books_message)
    (s s1 : OkexWSClient.t) (info : OkexWSClient.instrument_item)
    (items : list OkexWSClient.book_item) (last : OkexWSClient.book_item) :
  OkexWSClient.instruments_info s !! OkexWSClient.instId m = Some info ->
  OkexWSClient.is_snapshot m = true ->
  OkexWSClient.data m = items ++ [last] ->
  OkexWSClient.apply_books m s = (inr tt, s1) ->
  exists ob,
    OkexWSClient.snapshot_of (OkexWSClient.orderbook_max_depth s) s
      (OkexWSClient.contract_size_of info)
      (InstrumentConverter_to_system (OkexWSClient.instId m)) last = inr ob
    /\ s1 = OkexWSClient.with_replica (InstrumentConverter_to_system (OkexWSClient.instId m)) ob s.
Proof.
  intros Hi Hsnap Hd Hrun.
  rewrite (apply_books_snapshot _ _ _ Hi Hsnap), Hd, snapshot_items_run in Hrun.
  destruct (OkexWSClient.snapshot_of _ _ _ _ _) as [e|ob]; [discriminate|].
  exists ob. split; [reflexivity|]. congruence.
Qed.

(** Where the entries of the replica come from once the first half of
    [handle_books] has run: from the levels of the frame, scaled, or from
    the replica as it was. *)
Lemma apply_books_provenance `{Environment} (m : OkexWSClient.books_message)
    (s : OkexWSClient.t) (info : OkexWSClient.instrument_item) (ob' : FastOrderBook.t)
    (sd : side) (entry : float * float) :
  let name := InstrumentConverter_to_system (OkexWSClient.instId m) in
  OkexWSClient.instruments_info s !! OkexWSClient.instId m = Some info ->
  OkexWSClient.replica name (snd (OkexWSClient.apply_books m s)) = Some ob' ->
  In entry (SortedDict.data (FastOrderBook.getitem sd ob')) ->
  OkexWSClient.canonical_level (OkexWSClient.contract_size_of info) sd (OkexWSClient.data m) entry
  \/ exists ob, OkexWSClient.replica name s = Some ob
               /\ In entry (SortedDict.data (FastOrderBook.getitem sd ob)).
Proof.
  intros name Hi Hob' Hin.
  destruct (OkexWSClient.is_snapshot m) eqn:Hsnap.
  - rewrite (apply_books_snapshot _ _ _ Hi Hsnap) in Hob'. fold name in Hob'.
    destruct (OkexWSClient.data m) as [|last items _] eqn:Hd using rev_ind.
    { right. exists ob'. auto. }
    rewrite snapshot_items_run in Hob'.
    destruct (OkexWSClient.snapshot_of _ _ _ _ _) as [e|ob] eqn:Hsn.
    { right. exists ob'. auto. }
    cbn [snd] in Hob'. rewrite replica_with_replica in Hob'. injection Hob' as <-.
    rewrite (snapshot_of_data _ _ _ _ _ _ sd Hsn) in Hin.
    apply in_of_levels in Hin. destruct Hin as (lv & H1 & H2 & H3).
    left. exists last, lv. repeat split; auto.
    + apply in_or_app. right. left. reflexivity.
    + eapply in_firstn; eauto.
  - destruct (OkexWSClient.replica name s) as [ob0|] eqn:Hob0.
    + rewrite (apply_books_update_some _ _ _ _ Hi Hsnap Hob0) in Hob'.
      cbn [snd] in Hob'. fold name in Hob'.
      rewrite replica_with_replica in Hob'. injection Hob' as <-.
      rewrite update_items_data in Hin. apply in_apply_levels in Hin.
      destruct Hin as [Hin|(lv & H1 & H2 & H3)].
      * right. exists ob0. auto.
      * left. unfold OkexWSClient.all_levels in H1. apply in_flat_map in H1.
        destruct H1 as (item & Hitem & Hlv). exists item, lv. auto.
    + exfalso.
      rewrite (apply_books_update _ _ _ Hi Hsnap) in Hob'. fold name in Hob'.
      destruct (OkexWSClient.data m) as [|u data].
      * cbn in Hob'. congruence.
      * rewrite for_each_cons in Hob'.
        destruct (update_body_none name (OkexWSClient.contract_size_of info) u s Hob0) as [e He].
        rewrite He in Hob'. cbn in Hob'. congruence.
Qed.

(** *** What publishing leaves alone *)

Lemma task_dispatch_frame `{Environment} (name : string) (f : BaseWSClient.fut)
    (b : BaseWSClient.t) :
  BaseWSClient.same_books b (snd (BaseWSClient.task_dispatch name f b)).
Proof.
  unfold BaseWSClient.same_books, BaseWSClient.task_dispatch, BaseWSClient.queue_put,
    BaseWSClient.new_worker_queue, BaseWSClient.next_cycled_queue.
  run_py.
  destruct (BaseWSClient.map_instrument_queue b !! name); cbn; [tauto|].
  destruct (Z.of_nat (length (BaseWSClient.queue_object_caches b)) <? SPIDER_CONSUMER_WORKERS)%Z;
    cbn; [tauto|].
  destruct (Cycle.next _ _) as [[q|] gen]; cbn; tauto.
Qed.

Lemma publish_books_some `{Environment} (msg_ms : Z) (m : OkexWSClient.books_message)
    (s : OkexWSClient.t) (ob : FastOrderBook.t) :
  let name := InstrumentConverter_to_system (OkexWSClient.instId m) in
  OkexWSClient.replica name s = Some ob ->
  OkexWSClient.publish_books msg_ms m s =
  let payload :=
    {| BaseWSClient.body :=
         OkexWSClient.with_instrument_name name (FastOrderBook.to_json 0 msg_ms ob);
       BaseWSClient.p_expiration_at :=
         BaseWSClient.expiration_at (OkexWSClient.base s) !! name;
       BaseWSClient.p_expiration_days :=
         BaseWSClient.expiration_days (OkexWSClient.base s) !! name |} in
  let r :=
    BaseWSClient.task_dispatch name
      {| BaseWSClient.fut_topic := BaseWSClient.build_topic name;
         BaseWSClient.fut_payload := payload |}
      (OkexWSClient.base s) in
  (fst r, OkexWSClient.with_base (snd r) s).
Proof.
  intros name Hob. unfold OkexWSClient.replica in Hob.
  unfold OkexWSClient.publish_books, OkexWSClient.inherited, BaseWSClient.publish_book.
  unfold Py.bind, Py.get, Py.zoom. cbv beta iota zeta.
  fold name. rewrite Hob. cbv beta iota zeta.
  destruct (BaseWSClient.task_dispatch _ _ _). reflexivity.
Qed.

Lemma publish_books_none `{Environment} (msg_ms : Z) (m : OkexWSClient.books_message)
    (s : OkexWSClient.t) :
  OkexWSClient.replica (InstrumentConverter_to_system (OkexWSClient.instId m)) s = None ->
  OkexWSClient.publish_books msg_ms m s = (inl AttributeError, s).
Proof.
  intros Hob. unfold OkexWSClient.replica in Hob.
  unfold OkexWSClient.publish_books.
  unfold Py.bind, Py.get. cbv beta iota zeta. rewrite Hob. reflexivity.
Qed.

Lemma publish_books_frame `{Environment} (msg_ms : Z) (m : OkexWSClient.books_message)
    (s : OkexWSClient.t) :
  let s' := snd (OkexWSClient.publish_books msg_ms m s) in
  BaseWSClient.same_books (OkexWSClient.base s) (OkexWSClient.base s') /\
  OkexWSClient.orderbook_max_depth s' = OkexWSClient.orderbook_max_depth s /\
  OkexWSClient.instruments_info s' = OkexWSClient.instruments_info s.
Proof.
  cbv zeta.
  destruct (OkexWSClient.replica (InstrumentConverter_to_system (OkexWSClient.instId m)) s)
    as [ob|] eqn:Hob.
  - rewrite (publish_books_some _ _ _ _ Hob). cbv zeta. cbn [snd].
    split; [|split; reflexivity]. apply task_dispatch_frame.
  - rewrite (publish_books_none _ _ _ Hob). cbn [snd].
    unfold BaseWSClient.same_books. tauto.
Qed.

Lemma handle_books_unfold `{Environment} (msg_ms : Z) (m : OkexWSClient.books_message)
    (s : OkexWSClient.t) :
  OkexWSClient.handle_books msg_ms m s =
  match OkexWSClient.apply_books m s with
  | (inr _, s1) => OkexWSClient.publish_books msg_ms m s1
  | (inl e, s1) => (inl e, s1)
  end.
Proof. reflexivity. Qed.

Lemma replica_same_books (name : string) (s s' : OkexWSClient.t) :
  BaseWSClient.same_books (OkexWSClient.base s) (OkexWSClient.base s') ->
  OkexWSClient.replica name s' = OkexWSClient.replica name s.
Proof. unfold OkexWSClient.replica. intros (-> & _). reflexivity. Qed.

(** [handle_books] leaves the manager as its first half left it. *)
Lemma handle_books_manager `{Environment} (msg_ms : Z) (m : OkexWSClient.books_message)
    (s : OkexWSClient.t) :
  let s1 := snd (OkexWSClient.apply_books m s) in
  let s' := snd (OkexWSClient.handle_books msg_ms m s) in
  BaseWSClient.same_books (OkexWSClient.base s1) (OkexWSClient.base s') /\
  OkexWSClient.orderbook_max_depth s' = OkexWSClient.orderbook_max_depth s1 /\
  OkexWSClient.instruments_info s' = OkexWSClient.instruments_info s1.
Proof.
  cbn zeta. rewrite handle_books_unfold.
  destruct (OkexWSClient.apply_books m s) as [[e|[]] s1]; cbn [snd].
  - unfold BaseWSClient.same_books. tauto.
  - apply publish_books_frame.
Qed.

(** The first half of [handle_books] changes nothing, or the replica of
    the instrument of the frame and nothing else. *)
Lemma apply_books_cases `{Environment} (m : OkexWSClient.books_message) (s : OkexWSClient.t) :
  snd (OkexWSClient.apply_books m s) = s \/
  exists ob,
    snd (OkexWSClient.apply_books m s) =
    OkexWSClient.with_replica (InstrumentConverter_to_system (OkexWSClient.instId m)) ob s.
Proof.
  set (name := InstrumentConverter_to_system (OkexWSClient.instId m)).
  destruct (OkexWSClient.instruments_info s !! OkexWSClient.instId m) as [info|] eqn:Hi.
  2: { left. rewrite (apply_books_no_info _ _ Hi). reflexivity. }
  destruct (OkexWSClient.is_snapshot m) eqn:Hsnap.
  - rewrite (apply_books_snapshot _ _ _ Hi Hsnap). fold name.
    destruct (OkexWSClient.data m) as [|i0 items0 _] using rev_ind; [left; reflexivity|].
    rewrite snapshot_items_run.
    destruct (OkexWSClient.snapshot_of _ _ _ _ _) as [e|ob]; [left; reflexivity|].
    right. exists ob. reflexivity.
  - destruct (OkexWSClient.replica name s) as [ob|] eqn:Hob.
    + right. rewrite (apply_books_update_some _ _ _ _ Hi Hsnap Hob). eexists. reflexivity.
    + left. rewrite (apply_books_update _ _ _ Hi Hsnap). fold name.
      destruct (OkexWSClient.data m) as [|u data]; [reflexivity|].
      rewrite for_each_cons.
      destruct (update_body_none name (OkexWSClient.contract_size_of info) u s Hob) as [e ->].
      reflexivity.
Qed.

(** The attributes of the client and of its manager that [handle_books]
    only reads. *)
Lemma handle_books_static `{Environment} (msg_ms : Z) (m : OkexWSClient.books_message)
    (s : OkexWSClient.t) :
  let s' := snd (OkexWSClient.handle_books msg_ms m s) in
  OkexWSClient.orderbook_max_depth s' = OkexWSClient.orderbook_max_depth s /\
  OkexWSClient.instruments_info s' = OkexWSClient.instruments_info s /\
  NewOrderBookManager.connection_id (BaseWSClient.orderbook_manager (OkexWSClient.base s')) =
    NewOrderBookManager.connection_id (BaseWSClient.orderbook_manager (OkexWSClient.base s)) /\
  NewOrderBookManager.orderbook_max_depth (BaseWSClient.orderbook_manager (OkexWSClient.base s')) =
    NewOrderBookManager.orderbook_max_depth (BaseWSClient.orderbook_manager (OkexWSClient.base s)).
Proof.
  cbv zeta.
  destruct (handle_books_manager msg_ms m s) as ((Hmgr & _) & Htop & Hinfo).
  rewrite Htop, Hinfo, Hmgr.
  destruct (apply_books_cases m s) as [-> | [ob ->]]; repeat split; reflexivity.
Qed.

End BookFacts.

(** ** The dispatcher *)
Module DispatchFacts.

Lemma mod_succ (n k : nat) :
  (1 <= n)%nat ->
  (S k mod n = if (S (k mod n) <? n)%nat then S (k mod n) else O)%nat.
Proof.
  intros Hn.
  assert (Hlt : (k mod n < n)%nat) by (apply Nat.mod_upper_bound; lia).
  assert (Hk : (k = n * (k / n) + k mod n)%nat) by (apply Nat.div_mod_eq).
  destruct (S (k mod n) <? n)%nat eqn:E.
  - apply Nat.ltb_lt in E. symmetry.
    apply (Nat.mod_unique (S k) n (k / n) (S (k mod n))); lia.
  - apply Nat.ltb_ge in E. symmetry.
    apply (Nat.mod_unique (S k) n (S (k / n)) 0); lia.
Qed.

(** The cycle over a full pool of [n] queues serves them round robin: its
    [k]-th item, counted from zero, is queue [k mod n]. *)
Lemma cycle_next_after (n k : nat) :
  (1 <= n)%nat ->
  Cycle.next (seq 0 n) (Cycle.after n k) = (Some (k mod n)%nat, Cycle.after n (S k)).
Proof.
  intros Hn. unfold Cycle.after.
  destruct (Nat.leb_spec k n) as [Hle|Hgt].
  - destruct (Nat.eq_dec k n) as [->|Hne].
    + unfold Cycle.next. cbn [Cycle.it].
      rewrite lookup_seq_ge by lia.
      unfold Cycle.replay. cbn [Cycle.saved Cycle.index].
      rewrite lookup_seq_lt by lia. rewrite length_seq.
      rewrite Nat.Div0.mod_same.
      destruct (Nat.leb_spec (S n) n) as [?|_]; [lia|].
      rewrite (mod_succ n n Hn), Nat.Div0.mod_same. reflexivity.
    + unfold Cycle.next. cbn [Cycle.it Cycle.saved Cycle.index].
      rewrite lookup_seq_lt by lia. cbn [Nat.add].
      rewrite Nat.mod_small by lia.
      destruct (Nat.leb_spec (S k) n) as [_|?]; [|lia].
      rewrite seq_S. reflexivity.
  - unfold Cycle.next. cbn [Cycle.it].
    unfold Cycle.replay. cbn [Cycle.saved Cycle.index].
    assert (Hlt : (k mod n < n)%nat) by (apply Nat.mod_upper_bound; lia).
    rewrite lookup_seq_lt by lia. rewrite length_seq. cbn [Nat.add].
    destruct (Nat.leb_spec (S k) n) as [?|_]; [lia|].
    rewrite (mod_succ n k Hn). reflexivity.
Qed.

(** What [task_dispatch] does to the dispatcher, branch by branch. *)
Lemma task_dispatch_fields `{Environment} (name : string) (f : BaseWSClient.fut)
    (b : BaseWSClient.t) :
  let r := BaseWSClient.task_dispatch name f b in
  let put q qs := alter (fun items => items ++ [f]) q qs in
  match BaseWSClient.map_instrument_queue b !! name with
  | Some q =>
      fst r = inr tt
      /\ BaseWSClient.gen_cycle_queue_cache (snd r) = BaseWSClient.gen_cycle_queue_cache b
      /\ BaseWSClient.queue_object_caches (snd r) = BaseWSClient.queue_object_caches b
      /\ BaseWSClient.map_instrument_queue (snd r) = BaseWSClient.map_instrument_queue b
      /\ BaseWSClient.queues (snd r) = put q (BaseWSClient.queues b)
      /\ BaseWSClient.workers (snd r) = BaseWSClient.workers b
  | None =>
      if (Z.of_nat (length (BaseWSClient.queue_object_caches b)) <? SPIDER_CONSUMER_WORKERS)%Z
      then
        let q := length (BaseWSClient.queues b) in
        fst r = inr tt
        /\ BaseWSClient.gen_cycle_queue_cache (snd r) = BaseWSClient.gen_cycle_queue_cache b
        /\ BaseWSClient.queue_object_caches (snd r) = BaseWSClient.queue_object_caches b ++ [q]
        /\ BaseWSClient.map_instrument_queue (snd r) =
             <[name := q]> (BaseWSClient.map_instrument_queue b)
        /\ BaseWSClient.queues (snd r) = put q (BaseWSClient.queues b ++ [[]])
        /\ BaseWSClient.workers (snd r) = BaseWSClient.workers b ++ [q]
      else
        let gen := match BaseWSClient.gen_cycle_queue_cache b with
                   | Some c => c
                   | None => Cycle.init
                   end in
        match Cycle.next (BaseWSClient.queue_object_caches b) gen with
        | (Some q, gen') =>
            fst r = inr tt
            /\ BaseWSClient.gen_cycle_queue_cache (snd r) = Some gen'
            /\ BaseWSClient.queue_object_caches (snd r) = BaseWSClient.queue_object_caches b
            /\ BaseWSClient.map_instrument_queue (snd r) =
                 <[name := q]> (BaseWSClient.map_instrument_queue b)
            /\ BaseWSClient.queues (snd r) = put q (BaseWSClient.queues b)
            /\ BaseWSClient.workers (snd r) = BaseWSClient.workers b
        | (None, gen') =>
            fst r = inl RuntimeError
            /\ BaseWSClient.gen_cycle_queue_cache (snd r) = Some gen'
            /\ BaseWSClient.queue_object_caches (snd r) = BaseWSClient.queue_object_caches b
            /\ BaseWSClient.map_instrument_queue (snd r) = BaseWSClient.map_instrument_queue b
            /\ BaseWSClient.queues (snd r) = BaseWSClient.queues b
            /\ BaseWSClient.workers (snd r) = BaseWSClient.workers b
        end
  end.
Proof.
  cbv zeta.
  unfold BaseWSClient.task_dispatch, BaseWSClient.queue_put,
    BaseWSClient.new_worker_queue, BaseWSClient.next_cycled_queue.
  unfold Py.bind, Py.get, Py.modify. cbv beta iota.
  destruct (BaseWSClient.map_instrument_queue b !! name) as [q|]; cbn.
  { repeat split; reflexivity. }
  destruct (Z.of_nat (length (BaseWSClient.queue_object_caches b)) <? SPIDER_CONSUMER_WORKERS)%Z;
    cbn.
  { repeat split; reflexivity. }
  destruct (Cycle.next _ _) as [[q|] gen']; cbn; repeat split; reflexivity.
Qed.

Lemma consumer_worker_turn_fields (q : qref) (b : BaseWSClient.t) :
  let b' := snd (BaseWSClient.consumer_worker_turn q b) in
  BaseWSClient.gen_cycle_queue_cache b' = BaseWSClient.gen_cycle_queue_cache b
  /\ BaseWSClient.queue_object_caches b' = BaseWSClient.queue_object_caches b
  /\ BaseWSClient.map_instrument_queue b' = BaseWSClient.map_instrument_queue b
  /\ length (BaseWSClient.queues b') = length (BaseWSClient.queues b)
  /\ BaseWSClient.workers b' = BaseWSClient.workers b.
Proof.
  cbv zeta. unfold BaseWSClient.consumer_worker_turn.
  destruct (BaseWSClient.queues b !! q) as [[|f rest]|]; cbn; repeat split; try reflexivity.
  apply length_insert.
Qed.

(** *** References to queues stay valid *)

Lemma cycle_next_refs (P : qref -> Prop) (source : list qref) (c c' : Cycle.t)
    (r : option qref) :
  Forall P source -> Forall P (Cycle.saved c) ->
  Cycle.next source c = (r, c') ->
  (forall q, r = Some q -> P q) /\ Forall P (Cycle.saved c').
Proof.
  intros Hsrc Hsaved. unfold Cycle.next, Cycle.replay.
  destruct (Cycle.it c) as [pos|].
  - destruct (source !! pos) as [q|] eqn:Hq.
    + intros [= <- <-]. cbn. split.
      * intros q' [= <-]. exact (Forall_lookup_1 _ _ _ _ Hsrc Hq).
      * apply Forall_app. split; auto. constructor; auto.
        exact (Forall_lookup_1 _ _ _ _ Hsrc Hq).
    + destruct (Cycle.saved c !! Cycle.index c) as [q|] eqn:Hq'; intros [= <- <-]; cbn.
      * split; auto. intros q' [= <-]. exact (Forall_lookup_1 _ _ _ _ Hsaved Hq').
      * split; auto. discriminate.
  - destruct (Cycle.saved c !! Cycle.index c) as [q|] eqn:Hq'; intros [= <- <-]; cbn.
    + split; auto. intros q' [= <-]. exact (Forall_lookup_1 _ _ _ _ Hsaved Hq').
    + split; auto. discriminate.
Qed.

Lemma Forall_lt_weaken (n m : nat) (l : list qref) :
  (n <= m)%nat -> Forall (fun q => q < n)%nat l -> Forall (fun q => q < m)%nat l.
Proof.
  intros Hle Hl. eapply Forall_impl; [exact Hl|]. intros q Hq. cbn in *. lia.
Qed.

Lemma refs_ok_dispatch `{Environment} (name : string) (f : BaseWSClient.fut)
    (b : BaseWSClient.t) :
  BaseWSClient.refs_ok b -> BaseWSClient.refs_ok (snd (BaseWSClient.task_dispatch name f b)).
Proof.
  intros (Hc & Hm & Hg).
  pose proof (task_dispatch_fields name f b) as F. cbv zeta in F.
  unfold BaseWSClient.refs_ok.
  destruct (BaseWSClient.map_instrument_queue b !! name) as [q|] eqn:Hname.
  { destruct F as (_ & -> & -> & -> & -> & _). rewrite length_alter. auto. }
  destruct (Z.of_nat (length (BaseWSClient.queue_object_caches b)) <? SPIDER_CONSUMER_WORKERS)%Z.
  { destruct F as (_ & -> & -> & -> & -> & _).
    rewrite length_alter, length_app. cbn [length].
    split; [|split].
    - apply Forall_app. split.
      + eapply Forall_lt_weaken; [|exact Hc]. lia.
      + constructor; [lia|constructor].
    - intros name' q'. rewrite lookup_insert.
      destruct (decide (name = name')); [intros [= <-]; lia|].
      intros Hq. apply Hm in Hq. lia.
    - intros c Hgc. eapply Forall_lt_weaken; [|apply (Hg c Hgc)]. lia. }
  assert (Hsaved : Forall (fun q => q < length (BaseWSClient.queues b))%nat
                     (Cycle.saved match BaseWSClient.gen_cycle_queue_cache b with
                                  | Some c => c
                                  | None => Cycle.init
                                  end)).
  { destruct (BaseWSClient.gen_cycle_queue_cache b) as [c|]; [apply Hg; reflexivity|].
    constructor. }
  destruct (Cycle.next _ _) as [[q|] gen'] eqn:Hnext;
    destruct (cycle_next_refs _ _ _ _ _ Hc Hsaved Hnext) as (Hq & Hsaved').
  - destruct F as (_ & -> & -> & -> & -> & _). rewrite length_alter.
    split; [auto|split].
    + intros name' q'. rewrite lookup_insert.
      destruct (decide (name = name')); [intros [= <-]; auto|]. apply Hm.
    + intros c [= <-]. exact Hsaved'.
  - destruct F as (_ & -> & -> & -> & -> & _).
    split; [auto|split; auto]. intros c [= <-]. exact Hsaved'.
Qed.

Lemma refs_ok_step `{Environment} (b b' : BaseWSClient.t) :
  BaseWSClient.step b b' -> BaseWSClient.refs_ok b -> BaseWSClient.refs_ok b'.
Proof.
  intros [name f b0 | q b0 | b0 b1 Hsame] Hok.
  - apply refs_ok_dispatch. exact Hok.
  - destruct (consumer_worker_turn_fields q b0) as (Hg & Hc & Hm & Hlen & _).
    destruct Hok as (Hc0 & Hm0 & Hg0).
    unfold BaseWSClient.refs_ok. rewrite Hg, Hc, Hm, Hlen. auto.
  - destruct Hsame as (Hg & Hc & Hm & Hq & _).
    destruct Hok as (Hc0 & Hm0 & Hg0).
    unfold BaseWSClient.refs_ok. rewrite Hg, Hc, Hm, Hq. auto.
Qed.

Lemma refs_ok_fresh (b : BaseWSClient.t) : BaseWSClient.fresh b -> BaseWSClient.refs_ok b.
Proof.
  intros (Hg & Hc & Hm & Hq & _). unfold BaseWSClient.refs_ok.
  rewrite Hg, Hc, Hm, Hq. split; [constructor|split].
  - intros name q Hq'. rewrite lookup_empty in Hq'. discriminate.
  - discriminate.
Qed.

Lemma refs_ok_steps `{Environment} (b b' : BaseWSClient.t) :
  rtc BaseWSClient.step b b' -> BaseWSClient.refs_ok b -> BaseWSClient.refs_ok b'.
Proof.
  induction 1 as [|b0 b1 b2 Hstep _ IH]; auto.
  intros Hok. apply IH. eapply refs_ok_step; eauto.
Qed.

Lemma refs_ok_reachable `{Environment} (b : BaseWSClient.t) :
  BaseWSClient.reachable b -> BaseWSClient.refs_ok b.
Proof.
  intros (b0 & Hfresh & Hsteps). eapply refs_ok_steps; eauto. apply refs_ok_fresh; auto.
Qed.

(** *** The shape of the pool *)

Lemma pool_ok_dispatch `{Environment} (name : string) (f : BaseWSClient.fut)
    (b : BaseWSClient.t) :
  (0 < SPIDER_CONSUMER_WORKERS)%Z ->
  BaseWSClient.pool_ok b -> BaseWSClient.pool_ok (snd (BaseWSClient.task_dispatch name f b)).
Proof.
  intros HW Hok. unfold BaseWSClient.pool_ok in *. cbv zeta in *.
  pose proof (task_dispatch_fields name f b) as F. cbv zeta in F.
  remember (length (BaseWSClient.queue_object_caches b)) as n eqn:Hn.
  remember (size (BaseWSClient.map_instrument_queue b)) as bound eqn:Hb.
  destruct Hok as (Hc & Hw & Hq & Hle & Hnb & Hfull & Hm & Hg).
  destruct (BaseWSClient.map_instrument_queue b !! name) as [q|] eqn:Hname.
  { destruct F as (_ & -> & -> & -> & -> & ->).
    rewrite length_alter, <- Hn, <- Hb. repeat split; auto. }
  destruct (Z.ltb_spec (Z.of_nat n) SPIDER_CONSUMER_WORKERS) as [Hlt|Hge].
  { destruct F as (_ & -> & -> & -> & -> & ->).
    rewrite length_alter, !length_app, <- Hn, Hq. cbn [length].
    rewrite (map_size_insert_None _ _ _ Hname), <- Hb.
    specialize (Hfull Hlt). rewrite Hfull in Hg |- *.
    rewrite Nat.eqb_refl in Hg.
    replace (n + 1)%nat with (S n) by lia. rewrite Nat.eqb_refl.
    rewrite seq_S, Hc, Hw. cbn [Nat.add].
    repeat split; auto; try lia.
    intros name' q'. rewrite lookup_insert.
    destruct (decide (name = name')); [intros [= <-]; lia|].
    intros Hq'. apply Hm in Hq'. lia. }
  assert (Hn1 : (1 <= n)%nat) by lia.
  assert (Hgen : match BaseWSClient.gen_cycle_queue_cache b with
                 | Some c => c
                 | None => Cycle.init
                 end = Cycle.after n (bound - n)).
  { rewrite Hg. destruct (Nat.eqb_spec bound n) as [->|Hne]; [|reflexivity].
    rewrite Nat.sub_diag. unfold Cycle.after, Cycle.init. reflexivity. }
  rewrite Hgen, Hc, (cycle_next_after n (bound - n) Hn1) in F.
  destruct F as (_ & -> & -> & -> & -> & ->).
  rewrite length_alter, length_seq.
  rewrite (map_size_insert_None _ _ _ Hname), <- Hb.
  destruct (Nat.eqb_spec (S bound) n) as [Heq|_]; [lia|].
  replace (S bound - n)%nat with (S (bound - n)) by lia.
  repeat split; auto; try lia.
  intros name' q'. rewrite lookup_insert.
  destruct (decide (name = name')); [intros [= <-]|apply Hm].
  apply Nat.mod_upper_bound. lia.
Qed.

Lemma pool_ok_step `{Environment} (b b' : BaseWSClient.t) :
  (0 < SPIDER_CONSUMER_WORKERS)%Z ->
  BaseWSClient.step b b' -> BaseWSClient.pool_ok b -> BaseWSClient.pool_ok b'.
Proof.
  intros HW [name f b0 | q b0 | b0 b1 Hsame] Hok.
  - apply pool_ok_dispatch; auto.
  - destruct (consumer_worker_turn_fields q b0) as (Hg & Hc & Hm & Hlen & Hw).
    unfold BaseWSClient.pool_ok in *. rewrite Hg, Hc, Hm, Hlen, Hw. exact Hok.
  - destruct Hsame as (Hg & Hc & Hm & Hq & Hw).
    unfold BaseWSClient.pool_ok in *. rewrite Hg, Hc, Hm, Hq, Hw. exact Hok.
Qed.

Lemma pool_ok_fresh `{Environment} (b : BaseWSClient.t) :
  (0 < SPIDER_CONSUMER_WORKERS)%Z -> BaseWSClient.fresh b -> BaseWSClient.pool_ok b.
Proof.
  intros HW (Hg & Hc & Hm & Hq & Hw). unfold BaseWSClient.pool_ok.
  rewrite Hg, Hc, Hm, Hq, Hw, map_size_empty. cbn.
  repeat split; auto; try lia.
  intros name q Hq'. rewrite lookup_empty in Hq'. discriminate.
Qed.

Lemma pool_ok_reachable `{Environment} (b : BaseWSClient.t) :
  (0 < SPIDER_CONSUMER_WORKERS)%Z -> BaseWSClient.reachable b -> BaseWSClient.pool_ok b.
Proof.
  intros HW (b0 & Hfresh & Hsteps).
  assert (Hok : BaseWSClient.pool_ok b0) by (apply pool_ok_fresh; auto).
  clear Hfresh. induction Hsteps as [|b0 b1 b2 Hstep _ IH]; auto.
  apply IH. eapply pool_ok_step; eauto.
Qed.

(** The bindings are never changed: a step only adds a binding for an
    instrument that had none. *)
Lemma sticky_step `{Environment} (b b' : BaseWSClient.t) (name : string) (q : qref) :
  BaseWSClient.step b b' ->
  BaseWSClient.map_instrument_queue b !! name = Some q ->
  BaseWSClient.map_instrument_queue b' !! name = Some q.
Proof.
  intros [name' f b0 | q' b0 | b0 b1 Hsame] Hq.
  - pose proof (task_dispatch_fields name' f b0) as F. cbv zeta in F.
    destruct (BaseWSClient.map_instrument_queue b0 !! name') as [q0|] eqn:Hname.
    { destruct F as (_ & _ & _ & -> & _). exact Hq. }
    assert (Hne : name' <> name) by congruence.
    destruct (Z.of_nat _ <? _)%Z.
    { destruct F as (_ & _ & _ & -> & _). rewrite lookup_insert_ne; auto. }
    destruct (Cycle.next _ _) as [[q0|] gen'];
      destruct F as (_ & _ & _ & -> & _); [rewrite lookup_insert_ne; auto|exact Hq].
  - destruct (consumer_worker_turn_fields q' b0) as (_ & _ & -> & _). exact Hq.
  - destruct Hsame as (_ & _ & -> & _). exact Hq.
Qed.

Lemma sticky_steps `{Environment} (b b' : BaseWSClient.t) (name : string) (q : qref) :
  rtc BaseWSClient.step b b' ->
  BaseWSClient.map_instrument_queue b !! name = Some q ->
  BaseWSClient.map_instrument_queue b' !! name = Some q.
Proof.
  induction 1 as [|b0 b1 b2 Hstep _ IH]; auto.
  intros Hq. apply IH. eapply sticky_step; eauto.
Qed.

(** *** The number of queues, for any configured number of workers *)

Lemma pool_bounded_dispatch `{Environment} (name : string) (f : BaseWSClient.fut)
    (b : BaseWSClient.t) :
  BaseWSClient.pool_bounded b ->
  BaseWSClient.pool_bounded (snd (BaseWSClient.task_dispatch name f b)).
Proof.
  intros (Hq & Hw & Hle).
  pose proof (task_dispatch_fields name f b) as F. cbv zeta in F.
  unfold BaseWSClient.pool_bounded.
  destruct (BaseWSClient.map_instrument_queue b !! name) as [q|].
  { destruct F as (_ & _ & -> & _ & -> & ->). rewrite length_alter. auto. }
  destruct (Z.ltb_spec (Z.of_nat (length (BaseWSClient.queue_object_caches b)))
              SPIDER_CONSUMER_WORKERS) as [Hlt|Hge].
  { destruct F as (_ & _ & -> & _ & -> & ->).
    rewrite length_alter, !length_app. cbn [length]. repeat split; lia. }
  destruct (Cycle.next _ _) as [[q|] gen'];
    destruct F as (_ & _ & -> & _ & -> & ->); rewrite ?length_alter; auto.
Qed.

Lemma pool_bounded_step `{Environment} (b b' : BaseWSClient.t) :
  BaseWSClient.step b b' -> BaseWSClient.pool_bounded b -> BaseWSClient.pool_bounded b'.
Proof.
  intros [name f b0 | q b0 | b0 b1 Hsame] Hok.
  - apply pool_bounded_dispatch. exact Hok.
  - destruct (consumer_worker_turn_fields q b0) as (_ & Hc & _ & Hlen & Hw).
    unfold BaseWSClient.pool_bounded in *. rewrite Hc, Hlen, Hw. exact Hok.
  - destruct Hsame as (_ & Hc & _ & Hq & Hw).
    unfold BaseWSClient.pool_bounded in *. rewrite Hc, Hq, Hw. exact Hok.
Qed.

Lemma pool_bounded_reachable `{Environment} (b : BaseWSClient.t) :
  BaseWSClient.reachable b -> BaseWSClient.pool_bounded b.
Proof.
  intros (b0 & (_ & Hc & _ & Hq & Hw) & Hsteps).
  assert (Hok : BaseWSClient.pool_bounded b0).
  { unfold BaseWSClient.pool_bounded. rewrite Hc, Hq, Hw. cbn. repeat split; lia. }
  clear Hc Hq Hw. induction Hsteps as [|b0 b1 b2 Hstep _ IH]; auto.
  apply IH. eapply pool_bounded_step; eauto.
Qed.

(** On a full pool the cycle hands out queue [k mod n], where [k] counts
    the instruments it has served so far. *)
Lemma pool_ok_cycle `{Environment} (b : BaseWSClient.t) :
  let n := length (BaseWSClient.queue_object_caches b) in
  let k := (size (BaseWSClient.map_instrument_queue b) - n)%nat in
  BaseWSClient.pool_ok b -> (1 <= n)%nat ->
  Cycle.next (BaseWSClient.queue_object_caches b)
    match BaseWSClient.gen_cycle_queue_cache b with
    | Some c => c
    | None => Cycle.init
    end
  = (Some (k mod n)%nat, Cycle.after n (S k)).
Proof.
  cbv zeta. intros (Hc & _ & _ & _ & Hnb & _ & _ & Hg) Hn1.
  rewrite Hg.
  set (n := length (BaseWSClient.queue_object_caches b)) in *.
  set (bound := size (BaseWSClient.map_instrument_queue b)) in *.
  rewrite Hc.
  destruct (Nat.eqb_spec bound n) as [Heq|Hne].
  - rewrite Heq, Nat.sub_diag. apply (cycle_next_after n 0 Hn1).
  - apply cycle_next_after. exact Hn1.
Qed.

End DispatchFacts.

(** ** Lookups after the levels of an update *)
Module LookupFacts.

Import FloatFacts DictFacts UpdateFacts SortFacts OrderFacts BookFacts.

(** The level just applied decides what its price maps to. *)
Lemma get_updated_data_same (cs : float) (lv : float * float) (d : PyDict.t) :
  is_nan (fst lv) = false ->
  PyDict.get (fst lv) (OkexWSClient.updated_data cs lv d)
  = if eqb (mul (snd lv) cs) (of_int 0%Z) then None else Some (mul (snd lv) cs).
Proof.
  intros Hn. destruct (eqb (mul (snd lv) cs) (of_int 0%Z)) eqn:Hz.
  - rewrite updated_data_zero by exact Hz. apply get_del_same.
  - rewrite updated_data_nonzero by exact Hz. apply get_set_same. exact Hn.
Qed.

Lemma get_updated_data_other (cs : float) (lv : float * float) (d : PyDict.t) (q : float) :
  eqb (fst lv) q = false ->
  PyDict.get q (OkexWSClient.updated_data cs lv d) = PyDict.get q d.
Proof.
  intros Hq. rewrite eqb_sym in Hq. destruct (eqb (mul (snd lv) cs) (of_int 0%Z)) eqn:Hz.
  - rewrite updated_data_zero by exact Hz. apply get_del_other. exact Hq.
  - rewrite updated_data_nonzero by exact Hz. apply get_set_other. exact Hq.
Qed.

Lemma get_apply_levels_other (cs : float) (levels : list (float * float)) (q : float) :
  Forall (fun lv => eqb (fst lv) q = false) levels ->
  forall d, PyDict.get q (OkexWSClient.apply_levels cs levels d) = PyDict.get q d.
Proof.
  induction 1 as [|lv levels Hlv _ IH]; intros d; [reflexivity|].
  cbn [OkexWSClient.apply_levels fold_left].
  change (PyDict.get q (OkexWSClient.apply_levels cs levels (OkexWSClient.updated_data cs lv d))
          = PyDict.get q d).
  rewrite IH. apply get_updated_data_other. exact Hlv.
Qed.

(** Of the levels of one price, the last one applied counts. *)
Lemma get_apply_levels_last (cs : float) (before after : list (float * float))
    (lv : float * float) (d : PyDict.t) :
  is_nan (fst lv) = false ->
  Forall (fun later => eqb (fst later) (fst lv) = false) after ->
  PyDict.get (fst lv) (OkexWSClient.apply_levels cs (before ++ lv :: after) d)
  = if eqb (mul (snd lv) cs) (of_int 0%Z) then None else Some (mul (snd lv) cs).
Proof.
  intros Hn Hafter. rewrite apply_levels_app.
  change (OkexWSClient.apply_levels cs (lv :: after) ?x)
    with (OkexWSClient.apply_levels cs after (OkexWSClient.updated_data cs lv x)).
  rewrite get_apply_levels_other by exact Hafter.
  apply get_updated_data_same. exact Hn.
Qed.

(** An update frame for an instrument without a replica leaves the client
    as it was. *)
Lemma apply_books_update_none `{Environment} (m : OkexWSClient.books_message)
    (s : OkexWSClient.t) (info : OkexWSClient.instrument_item) :
  OkexWSClient.instruments_info s !! OkexWSClient.instId m = Some info ->
  OkexWSClient.is_snapshot m = false ->
  OkexWSClient.replica (InstrumentConverter_to_system (OkexWSClient.instId m)) s = None ->
  snd (OkexWSClient.apply_books m s) = s.
Proof.
  intros Hi Hsnap Hob. rewrite (apply_books_update _ _ _ Hi Hsnap).
  destruct (OkexWSClient.data m) as [|u data]; [reflexivity|].
  rewrite for_each_cons.
  destruct (update_body_none _ (OkexWSClient.contract_size_of info) u s Hob) as [e He].
  rewrite He. reflexivity.
Qed.

(** The timestamp after the elements of an update. *)
Lemma update_items_timestamp (cs : float) (items : list OkexWSClient.book_item)
    (last : OkexWSClient.book_item) (ob : FastOrderBook.t) :
  FastOrderBook.timestamp (OkexWSClient.update_items cs (items ++ [last]) ob)
  = OkexWSClient.ts last.
Proof. unfold OkexWSClient.update_items. rewrite fold_left_app. reflexivity. Qed.

(** Writing the timestamp a book already carries changes nothing. *)
Lemma with_timestamp_same (ob : FastOrderBook.t) :
  FastOrderBook.with_timestamp (FastOrderBook.timestamp ob) ob = ob.
Proof. destruct ob. reflexivity. Qed.

End LookupFacts.

(** * The claims *)

Section Claims.

Context `{Environment}.

Import FloatFacts DictFacts UpdateFacts SortFacts OrderFacts BookFacts LookupFacts.

(** C10.  A call of [NewOrderBookManager.snapshot] that returns (the expiry
    date of the instrument name can be built) replaces the replica of the
    instrument by a fresh [FastOrderBook]: whatever the manager held
    before, also annotations set by [change_ticker], the new replica has
    [greeks], [mark_price], [mark_iv], [bid_iv] and [ask_iv] all [None]; it
    carries the two sides, the change id and the timestamp of the call; and
    [to_json] reports the three implied-vol fields as the integer 0. *)
Theorem C10_snapshot_resets_ticker (m : NewOrderBookManager.t) (name : string)
    (pure_bids pure_asks : PyDict.t) (cid : option Z) (timestamp : Z)
    (expired : option float) :
  get_expired_from_instrument_name name = inr expired ->
  exists ob,
    NewOrderBookManager.snapshot name pure_bids pure_asks cid timestamp m =
      (inr tt,
       NewOrderBookManager.with_orderbooks (<[name := ob]> (NewOrderBookManager.orderbooks m)) m)
    /\ FastOrderBook.greeks ob = None
    /\ FastOrderBook.mark_price ob = None
    /\ FastOrderBook.mark_iv ob = None
    /\ FastOrderBook.bid_iv ob = None
    /\ FastOrderBook.ask_iv ob = None
    /\ SortedDict.data (FastOrderBook.bids ob) = pure_bids
    /\ SortedDict.data (FastOrderBook.asks ob) = pure_asks
    /\ FastOrderBook.change_id ob = cid
    /\ FastOrderBook.timestamp ob = timestamp
    /\ forall level msg_ms,
         FastOrderBook.j_mark_iv (FastOrderBook.to_json level msg_ms ob) = NInt 0
         /\ FastOrderBook.j_bid_iv (FastOrderBook.to_json level msg_ms ob) = NInt 0
         /\ FastOrderBook.j_ask_iv (FastOrderBook.to_json level msg_ms ob) = NInt 0
         /\ FastOrderBook.j_greeks (FastOrderBook.to_json level msg_ms ob) = None
         /\ FastOrderBook.j_mark_price (FastOrderBook.to_json level msg_ms ob) = None.
Proof.
  intros Hexp.
  unfold NewOrderBookManager.snapshot, FastOrderBook.init. rewrite Hexp.
  eexists. split; [reflexivity|].
  cbn. repeat split; reflexivity.
Qed.

(** C8.  Applying the same snapshot twice in succession leaves the manager
    exactly as applying it once does, so every serialized view [to_json] of
    the replica, taken at the same clock reading, is the same.  This holds
    for the call [NewOrderBookManager.snapshot] and for a snapshot frame
    handled by [handle_books]. *)
Theorem C8_snapshot_idempotent (m : NewOrderBookManager.t) (name : string)
    (pure_bids pure_asks : PyDict.t) (cid : option Z) (timestamp : Z)
    (s : OkexWSClient.t) (message : OkexWSClient.books_message) (ms1 ms2 : Z) :
  let once := NewOrderBookManager.snapshot name pure_bids pure_asks cid timestamp m in
  let twice := NewOrderBookManager.snapshot name pure_bids pure_asks cid timestamp (snd once) in
  let s1 := snd (OkexWSClient.handle_books ms1 message s) in
  let s2 := snd (OkexWSClient.handle_books ms2 message s1) in
  twice = once
  /\ (forall level msg_ms,
        FastOrderBook.to_json level msg_ms <$> NewOrderBookManager.get name (snd twice) =
        FastOrderBook.to_json level msg_ms <$> NewOrderBookManager.get name (snd once))
  /\ (OkexWSClient.is_snapshot message = true ->
      BaseWSClient.orderbook_manager (OkexWSClient.base s2) =
        BaseWSClient.orderbook_manager (OkexWSClient.base s1)
      /\ forall instrument level msg_ms,
           FastOrderBook.to_json level msg_ms <$> OkexWSClient.replica instrument s2 =
           FastOrderBook.to_json level msg_ms <$> OkexWSClient.replica instrument s1).
Proof.
  cbv zeta.
  assert (Hm : NewOrderBookManager.snapshot name pure_bids pure_asks cid timestamp
                 (snd (NewOrderBookManager.snapshot name pure_bids pure_asks cid timestamp m))
               = NewOrderBookManager.snapshot name pure_bids pure_asks cid timestamp m).
  { unfold NewOrderBookManager.snapshot, FastOrderBook.init.
    destruct (get_expired_from_instrument_name name) as [e|d]; cbn; [reflexivity|].
    unfold NewOrderBookManager.with_orderbooks. cbn.
    rewrite insert_insert_eq. reflexivity. }
  split; [exact Hm|]. split; [intros; rewrite Hm; reflexivity|].
  intros Hsnap.
  assert (G : BaseWSClient.orderbook_manager
                (OkexWSClient.base
                   (snd (OkexWSClient.handle_books ms2 message
                           (snd (OkexWSClient.handle_books ms1 message s))))) =
              BaseWSClient.orderbook_manager
                (OkexWSClient.base (snd (OkexWSClient.handle_books ms1 message s)))).
  { destruct (handle_books_manager ms1 message s) as ((Hmgr1 & _) & _).
    destruct (handle_books_static ms1 message s) as (Htop1 & Hinfo1 & Hconn1 & Hmax1).
    set (s1 := snd (OkexWSClient.handle_books ms1 message s)) in *.
    destruct (handle_books_manager ms2 message s1) as ((Hmgr2 & _) & _).
    rewrite Hmgr2. clear Hmgr2.
    set (name' := InstrumentConverter_to_system (OkexWSClient.instId message)).
    destruct (OkexWSClient.instruments_info s !! OkexWSClient.instId message) as [info|] eqn:Hi.
    2: { rewrite <- Hinfo1 in Hi. rewrite (apply_books_no_info _ _ Hi). reflexivity. }
    assert (Hi1 : OkexWSClient.instruments_info s1 !! OkexWSClient.instId message = Some info)
      by (rewrite Hinfo1; exact Hi).
    rewrite (apply_books_snapshot _ _ _ Hi1 Hsnap).
    rewrite (apply_books_snapshot _ _ _ Hi Hsnap) in Hmgr1.
    fold name' in Hmgr1 |- *.
    destruct (OkexWSClient.data message) as [|i0 items0 _] using rev_ind; [reflexivity|].
    rewrite snapshot_items_run in Hmgr1 |- *.
    assert (Heq : OkexWSClient.snapshot_of (OkexWSClient.orderbook_max_depth s1) s1
                    (OkexWSClient.contract_size_of info) name' i0 =
                  OkexWSClient.snapshot_of (OkexWSClient.orderbook_max_depth s) s
                    (OkexWSClient.contract_size_of info) name' i0).
    { unfold OkexWSClient.snapshot_of. rewrite Htop1, Hconn1, Hmax1. reflexivity. }
    rewrite Heq.
    destruct (OkexWSClient.snapshot_of (OkexWSClient.orderbook_max_depth s) s
                (OkexWSClient.contract_size_of info) name' i0) as [e|ob]; [reflexivity|].
    cbn [snd] in *. unfold OkexWSClient.with_replica in *. cbn in *.
    rewrite Hmgr1. unfold NewOrderBookManager.with_orderbooks. cbn.
    rewrite insert_insert_eq. reflexivity. }
  split; [exact G|].
  intros instrument level msg_ms. unfold OkexWSClient.replica. rewrite G. reflexivity.
Qed.

(** C4 (as amended).  An incremental update for an instrument that has no
    replica makes [handle_books] raise ([KeyError], [TypeError] or
    [AttributeError]) and leaves the client, its manager included, exactly
    as it was; the receive loop [handler] catches the exception, hands it to
    the logger and goes on. *)
Theorem C4_update_without_replica_raises (s : OkexWSClient.t)
    (message : OkexWSClient.books_message) (now : float) (msg_ms : Z) :
  OkexWSClient.is_snapshot message = false ->
  OkexWSClient.replica (InstrumentConverter_to_system (OkexWSClient.instId message)) s = None ->
  exists e,
    (e = KeyError \/ e = TypeError \/ e = AttributeError)
    /\ OkexWSClient.handle_books msg_ms message s = (inl e, s)
    /\ OkexWSClient.handler_turn now msg_ms message s = (inr tt, OkexWSClient.with_logged e s)
    /\ BaseWSClient.orderbook_manager (OkexWSClient.base (OkexWSClient.with_logged e s)) =
       BaseWSClient.orderbook_manager (OkexWSClient.base s).
Proof.
  intros Hsnap Hob.
  set (name := InstrumentConverter_to_system (OkexWSClient.instId message)) in *.
  assert (G : exists e, (e = KeyError \/ e = TypeError \/ e = AttributeError)
                /\ OkexWSClient.handle_books msg_ms message s = (inl e, s)).
  { rewrite handle_books_unfold.
    destruct (OkexWSClient.instruments_info s !! OkexWSClient.instId message) as [info|] eqn:Hi.
    2: { exists KeyError. rewrite (apply_books_no_info _ _ Hi). auto. }
    rewrite (apply_books_update _ _ _ Hi Hsnap). fold name.
    destruct (OkexWSClient.data message) as [|u data].
    - exists AttributeError. cbn [Py.for_each]. unfold Py.ret.
      rewrite (publish_books_none _ _ _ Hob). auto.
    - rewrite for_each_cons.
      unfold OkexWSClient.update_body, Py.bind.
      rewrite for_each_cons, (update_side_none _ _ _ _ _ Hob).
      destruct (OkexWSClient.levels_of Bids u); [|exists TypeError; auto].
      rewrite for_each_cons, (update_side_none _ _ _ _ _ Hob).
      destruct (OkexWSClient.levels_of Asks u); [|exists TypeError; auto].
      cbn [Py.for_each]. unfold Py.ret.
      rewrite (on_orderbook_none _ _ _ _ Hob). exists AttributeError. auto. }
  destruct G as (e & He & Hrun). exists e.
  repeat split; auto.
  unfold OkexWSClient.handler_turn, OkexWSClient.dispatch_message, Py.try_except, Py.bind.
  rewrite Hrun. reflexivity.
Qed.

(** C6 (as amended).  A books frame that [handle_books] handles without an
    exception leaves, as the stored timestamp of the replica, the timestamp
    of the last element of its [data], whatever the timestamp stored before:
    the timestamp is overwritten, not compared, so a frame with an older
    timestamp is applied and lowers it. *)
Theorem C6_timestamp_is_last_applied (s s' : OkexWSClient.t)
    (message : OkexWSClient.books_message) (msg_ms : Z)
    (items : list OkexWSClient.book_item) (last : OkexWSClient.book_item) :
  OkexWSClient.data message = items ++ [last] ->
  OkexWSClient.handle_books msg_ms message s = (inr tt, s') ->
  exists ob,
    OkexWSClient.replica (InstrumentConverter_to_system (OkexWSClient.instId message)) s' = Some ob
    /\ FastOrderBook.timestamp ob = OkexWSClient.ts last.
Proof.
  intros Hdata Hrun.
  set (name := InstrumentConverter_to_system (OkexWSClient.instId message)) in *.
  destruct (handle_books_manager msg_ms message s) as (Hframe & _).
  rewrite Hrun in Hframe. cbn [snd] in Hframe.
  rewrite (replica_same_books name _ _ Hframe).
  rewrite handle_books_unfold in Hrun.
  destruct (OkexWSClient.instruments_info s !! OkexWSClient.instId message) as [info|] eqn:Hi.
  2: { rewrite (apply_books_no_info _ _ Hi) in Hrun. discriminate. }
  destruct (OkexWSClient.is_snapshot message) eqn:Hsnap.
  - rewrite (apply_books_snapshot _ _ _ Hi Hsnap) in Hrun |- *.
    fold name in Hrun |- *. rewrite Hdata in *.
    rewrite snapshot_items_run in Hrun |- *.
    destruct (OkexWSClient.snapshot_of _ _ _ _ _) as [e|ob] eqn:Hob; [discriminate|].
    exists ob. cbn [snd]. split; [apply replica_with_replica|].
    unfold OkexWSClient.snapshot_of, FastOrderBook.init in Hob.
    destruct (get_expired_from_instrument_name name); [discriminate|].
    injection Hob as <-. reflexivity.
  - destruct (OkexWSClient.replica name s) as [ob0|] eqn:Hob.
    + rewrite (apply_books_update_some _ _ _ _ Hi Hsnap Hob). cbn [snd].
      eexists. split; [apply replica_with_replica|].
      rewrite Hdata. unfold OkexWSClient.update_items. rewrite fold_left_app. reflexivity.
    + exfalso.
      rewrite (apply_books_update _ _ _ Hi Hsnap) in Hrun. fold name in Hrun.
      rewrite Hdata in Hrun.
      destruct (items ++ [last]) as [|u data] eqn:E.
      { destruct items; discriminate. }
      rewrite for_each_cons in Hrun.
      destruct (update_body_none name (OkexWSClient.contract_size_of info) u s Hob) as [e He].
      rewrite He in Hrun. discriminate.
Qed.

(** C7.  The body of the innermost loop of the update branch, on a level
    [(price, raw)] of side [sd] and the book [ob]: when the scaled size
    [raw * contract_size] is zero, the price is not in the side afterwards,
    the book is left untouched when the price was not there, and every other
    price keeps its size; when the scaled size is not zero, the price maps
    to the scaled size afterwards (inserted or overwritten) and every other
    price keeps its size.  The other side is never touched, and this body
    is what [handle_books] applies to the replica for a level of an update
    frame. *)
Theorem C7_zero_size_removal (cs : float) (sd : side) (price raw : float)
    (ob : FastOrderBook.t) :
  let amount := mul raw cs in
  let before := FastOrderBook.getitem sd ob in
  let ob' := OkexWSClient.update_level cs sd (price, raw) ob in
  let after := FastOrderBook.getitem sd ob' in
  (eqb amount (of_int 0%Z) = true ->
     SortedDict.contains price after = false
     /\ (SortedDict.contains price before = false -> ob' = ob)
     /\ (forall q, eqb q price = false ->
           SortedDict.getitem q after = SortedDict.getitem q before))
  /\ (eqb amount (of_int 0%Z) = false ->
        (is_nan price = false -> SortedDict.getitem price after = Some amount)
        /\ (exists k, In (k, amount) (SortedDict.data after) /\ PyDict.same_key k price)
        /\ (forall q, eqb q price = false ->
              SortedDict.getitem q after = SortedDict.getitem q before))
  /\ FastOrderBook.getitem (OkexWSClient.other_side sd) ob' =
     FastOrderBook.getitem (OkexWSClient.other_side sd) ob
  /\ (forall (s : OkexWSClient.t) (message : OkexWSClient.books_message)
        (info : OkexWSClient.instrument_item) (t msg_ms : Z),
        OkexWSClient.instruments_info s !! OkexWSClient.instId message = Some info ->
        OkexWSClient.contract_size_of info = cs ->
        OkexWSClient.is_snapshot message = false ->
        OkexWSClient.data message = [OkexWSClient.one_level sd t (price, raw)] ->
        OkexWSClient.replica (InstrumentConverter_to_system (OkexWSClient.instId message)) s
          = Some ob ->
        OkexWSClient.replica (InstrumentConverter_to_system (OkexWSClient.instId message))
          (snd (OkexWSClient.handle_books msg_ms message s))
          = Some (FastOrderBook.with_timestamp t ob')).
Proof.
  cbv zeta.
  pose proof (update_level_data cs sd (price, raw) ob) as Hdata.
  unfold SortedDict.contains, SortedDict.getitem.
  split; [|split; [|split]].
  - intros Hzero.
    rewrite Hdata, (updated_data_zero cs (price, raw)) by exact Hzero.
    split; [apply contains_del|]. split.
    + intros Habsent. unfold OkexWSClient.update_level. cbn [fst snd].
      unfold SortedDict.contains. rewrite Hzero, Habsent. reflexivity.
    + intros q Hq. apply get_del_other. exact Hq.
  - intros Hnonzero.
    rewrite Hdata, (updated_data_nonzero cs (price, raw)) by exact Hnonzero.
    split; [|split].
    + intros Hn. apply get_set_same. exact Hn.
    + apply set_stored.
    + intros q Hq. apply get_set_other. exact Hq.
  - apply update_level_other.
  - intros s message info t msg_ms Hi Hcs Hsnap Hd Hob.
    destruct (handle_books_manager msg_ms message s) as (Hframe & _).
    rewrite (replica_same_books _ _ _ Hframe).
    rewrite (apply_books_update_some _ _ _ _ Hi Hsnap Hob). cbn [snd].
    rewrite replica_with_replica, Hd, Hcs. destruct sd; reflexivity.
Qed.

(** C1.  [handle_books] scales every size it stores by
    [contract_size = float(ctMult or 1) * float(ctVal or 1)].  Once a books
    frame, snapshot or update, has been handled for an instrument with such
    a table entry, every (price, size) entry of the replica is a level of
    the frame with size [rawSize * contract_size], or an entry the replica
    already held; after a snapshot frame every entry is a scaled level of
    the frame, and every price among the retained top levels of the frame
    is stored with the scaled size of a level of that price.  After an
    update frame (which needs a replica to be there), the price of every
    level of the frame maps to the scaled size [rawSize * contract_size] of
    the last level of the frame with that price, or to nothing when that
    scaled size is zero, and every price the frame does not mention maps
    to what it mapped to before.  So a book whose sizes are all scaled
    keeps that property, and the serialized view lists entries of the
    replica only: no raw size reaches it. *)
Theorem C1_scaling (s s' : OkexWSClient.t) (message : OkexWSClient.books_message)
    (msg_ms : Z) (info : OkexWSClient.instrument_item) (r : exn + unit)
    (ob' : FastOrderBook.t) :
  let name := InstrumentConverter_to_system (OkexWSClient.instId message) in
  let cs := mul (float_or_1 (OkexWSClient.ctMult info)) (float_or_1 (OkexWSClient.ctVal info)) in
  OkexWSClient.instruments_info s !! OkexWSClient.instId message = Some info ->
  OkexWSClient.handle_books msg_ms message s = (r, s') ->
  OkexWSClient.replica name s' = Some ob' ->
  (forall sd entry,
     In entry (SortedDict.data (FastOrderBook.getitem sd ob')) ->
     OkexWSClient.canonical_level cs sd (OkexWSClient.data message) entry
     \/ exists ob, OkexWSClient.replica name s = Some ob
                  /\ In entry (SortedDict.data (FastOrderBook.getitem sd ob)))
  /\ (OkexWSClient.is_snapshot message = true -> r = inr tt ->
      forall items last, OkexWSClient.data message = items ++ [last] ->
        (forall sd entry,
           In entry (SortedDict.data (FastOrderBook.getitem sd ob')) ->
           OkexWSClient.canonical_level cs sd [last] entry)
        /\ (forall sd raw,
              In raw (firstn (OkexWSClient.orderbook_max_depth s) (OkexWSClient.levels_of sd last)) ->
              is_nan (fst raw) = false ->
              exists raw',
                In raw' (OkexWSClient.levels_of sd last)
                /\ eqb (fst raw') (fst raw) = true
                /\ SortedDict.getitem (fst raw) (FastOrderBook.getitem sd ob')
                   = Some (mul (snd raw') cs)))
  /\ (OkexWSClient.is_snapshot message = false ->
      exists ob,
        OkexWSClient.replica name s = Some ob
        /\ (forall sd before level after,
              OkexWSClient.all_levels sd (OkexWSClient.data message) = before ++ level :: after ->
              is_nan (fst level) = false ->
              Forall (fun later => eqb (fst later) (fst level) = false) after ->
              SortedDict.getitem (fst level) (FastOrderBook.getitem sd ob')
              = if eqb (mul (snd level) cs) (of_int 0%Z) then None
                else Some (mul (snd level) cs))
        /\ (forall sd price,
              Forall (fun level => eqb (fst level) price = false)
                (OkexWSClient.all_levels sd (OkexWSClient.data message)) ->
              SortedDict.getitem price (FastOrderBook.getitem sd ob')
              = SortedDict.getitem price (FastOrderBook.getitem sd ob)))
  /\ ((forall ob, OkexWSClient.replica name s = Some ob -> OkexWSClient.scaled_book cs ob) ->
      OkexWSClient.scaled_book cs ob')
  /\ (forall level ms sd entry,
        In entry (OkexWSClient.json_side sd (FastOrderBook.to_json level ms ob')) ->
        In entry (SortedDict.data (FastOrderBook.getitem sd ob'))).
Proof.
  intros name cs Hi Hrun Hob'.
  destruct (handle_books_manager msg_ms message s) as (Hframe & _).
  rewrite Hrun in Hframe. cbn [snd] in Hframe.
  assert (Hob1 : OkexWSClient.replica name (snd (OkexWSClient.apply_books message s)) = Some ob').
  { rewrite <- (replica_same_books name _ _ Hframe). exact Hob'. }
  assert (P1 : forall sd entry,
     In entry (SortedDict.data (FastOrderBook.getitem sd ob')) ->
     OkexWSClient.canonical_level cs sd (OkexWSClient.data message) entry
     \/ exists ob, OkexWSClient.replica name s = Some ob
                  /\ In entry (SortedDict.data (FastOrderBook.getitem sd ob))).
  { intros sd entry Hin. eapply apply_books_provenance; eauto. }
  split; [exact P1|]. split; [|split; [|split]].
  - intros Hsnap -> items last Hd.
    rewrite handle_books_unfold in Hrun.
    destruct (OkexWSClient.apply_books message s) as [[e|[]] s1] eqn:Happ; [discriminate|].
    destruct (apply_books_snapshot_some _ _ _ _ _ _ Hi Hsnap Hd Happ) as (ob & Hsn & ->).
    cbn [snd] in Hob1. fold name in Hob1. rewrite replica_with_replica in Hob1.
    injection Hob1 as <-. split.
    + intros sd entry Hin.
      rewrite (snapshot_of_data _ _ _ _ _ _ sd Hsn) in Hin.
      apply in_of_levels in Hin. destruct Hin as (lv & H1 & H2 & H3).
      exists last, lv. repeat split; auto.
      * left. reflexivity.
      * eapply in_firstn; eauto.
    + intros sd raw Hin Hn.
      destruct (get_of_levels (OkexWSClient.contract_size_of info) _ raw Hin Hn)
        as (raw' & H1 & H2 & H3).
      exists raw'. split; [eapply in_firstn; eauto|]. split; [exact H2|].
      unfold SortedDict.getitem. rewrite (snapshot_of_data _ _ _ _ _ _ sd Hsn). exact H3.
  - intros Hsnap.
    destruct (OkexWSClient.replica name s) as [ob|] eqn:Hob.
    2: { rewrite (apply_books_update_none _ _ _ Hi Hsnap Hob) in Hob1. congruence. }
    exists ob. split; [reflexivity|].
    rewrite (apply_books_update_some _ _ _ _ Hi Hsnap Hob) in Hob1. cbn [snd] in Hob1.
    fold name in Hob1. rewrite replica_with_replica in Hob1. injection Hob1 as <-.
    split.
    + intros sd before level after Hlevels Hn Hafter.
      unfold SortedDict.getitem. rewrite update_items_data, Hlevels.
      apply get_apply_levels_last; assumption.
    + intros sd price Hnone.
      unfold SortedDict.getitem. rewrite update_items_data.
      apply get_apply_levels_other. exact Hnone.
  - intros Hold sd entry Hin.
    destruct (P1 sd entry Hin) as [(item & raw & _ & _ & Hsz & _)|(ob & Hob & Hin')].
    + exists (snd raw). exact Hsz.
    + exact (Hold ob Hob sd entry Hin').
  - intros level ms sd entry Hin.
    unfold OkexWSClient.json_side, FastOrderBook.to_json in Hin.
    destruct sd, level; cbn in Hin;
      first [apply in_to_list; exact Hin | eapply in_to_list_n; exact Hin].
Qed.

(** C9 (as amended).  Two update frames for the same instrument whose
    levels are, side by side, the same levels in a different order, with
    prices that are pairwise different (and not NaN), applied to the same
    client, whose replica holds no price twice and no NaN (as every replica
    built from such frames does, and still does afterwards), leave replicas
    with the same bid and ask maps: the dicts are permutations of one
    another, every price has the same size, and the sorted views are
    equal.  The ticker annotations and the other auxiliary fields are equal
    too, but for the timestamp: each replica carries the [ts] of the
    element of [data] its frame lists last, which is published as
    [data_ms].  So the serialized views agree up to [data_ms]; they are
    equal when the two last elements carry the same [ts], and the replicas
    and the published [data_ms] differ when they do not. *)
Theorem C9_update_commutativity (s : OkexWSClient.t) (m1 m2 : OkexWSClient.books_message)
    (info : OkexWSClient.instrument_item) (ob : FastOrderBook.t) :
  let name := InstrumentConverter_to_system (OkexWSClient.instId m1) in
  OkexWSClient.instId m2 = OkexWSClient.instId m1 ->
  OkexWSClient.instruments_info s !! OkexWSClient.instId m1 = Some info ->
  OkexWSClient.is_snapshot m1 = false ->
  OkexWSClient.is_snapshot m2 = false ->
  OkexWSClient.replica name s = Some ob ->
  (forall sd, PyDict.wf (SortedDict.data (FastOrderBook.getitem sd ob))) ->
  (forall sd, Permutation (OkexWSClient.all_levels sd (OkexWSClient.data m1))
                          (OkexWSClient.all_levels sd (OkexWSClient.data m2))) ->
  (forall sd, PyDict.distinct_keys (map fst (OkexWSClient.all_levels sd (OkexWSClient.data m1)))) ->
  exists ob1 ob2,
    OkexWSClient.apply_books m1 s = (inr tt, OkexWSClient.with_replica name ob1 s)
    /\ OkexWSClient.apply_books m2 s = (inr tt, OkexWSClient.with_replica name ob2 s)
    /\ (forall sd, Permutation (SortedDict.data (FastOrderBook.getitem sd ob1))
                               (SortedDict.data (FastOrderBook.getitem sd ob2)))
    /\ (forall sd price,
          SortedDict.getitem price (FastOrderBook.getitem sd ob1) =
          SortedDict.getitem price (FastOrderBook.getitem sd ob2))
    /\ (forall sd, SortedDict.to_list (FastOrderBook.getitem sd ob1) =
                   SortedDict.to_list (FastOrderBook.getitem sd ob2))
    /\ FastOrderBook.same_annotations ob1 ob2
    /\ (forall level ms t,
          FastOrderBook.to_json level ms (FastOrderBook.with_timestamp t ob1) =
          FastOrderBook.to_json level ms (FastOrderBook.with_timestamp t ob2))
    /\ (forall sd, PyDict.wf (SortedDict.data (FastOrderBook.getitem sd ob1)))
    /\ (forall items1 last1 items2 last2,
          OkexWSClient.data m1 = items1 ++ [last1] ->
          OkexWSClient.data m2 = items2 ++ [last2] ->
          FastOrderBook.timestamp ob1 = OkexWSClient.ts last1
          /\ FastOrderBook.timestamp ob2 = OkexWSClient.ts last2
          /\ (OkexWSClient.ts last1 = OkexWSClient.ts last2 ->
              forall level ms,
                FastOrderBook.to_json level ms ob1 = FastOrderBook.to_json level ms ob2)
          /\ (OkexWSClient.ts last1 <> OkexWSClient.ts last2 ->
              ob1 <> ob2
              /\ forall level ms,
                   FastOrderBook.j_data_ms (FastOrderBook.to_json level ms ob1)
                   <> FastOrderBook.j_data_ms (FastOrderBook.to_json level ms ob2))).
Proof.
  intros name Hid Hi Hs1 Hs2 Hob Hwf Hperm Hdist.
  assert (Hi2 : OkexWSClient.instruments_info s !! OkexWSClient.instId m2 = Some info)
    by (rewrite Hid; exact Hi).
  assert (Hob2 : OkexWSClient.replica
                   (InstrumentConverter_to_system (OkexWSClient.instId m2)) s = Some ob)
    by (rewrite Hid; exact Hob).
  set (cs := OkexWSClient.contract_size_of info).
  exists (OkexWSClient.update_items cs (OkexWSClient.data m1) ob),
         (OkexWSClient.update_items cs (OkexWSClient.data m2) ob).
  assert (P : forall sd,
            Permutation
              (SortedDict.data (FastOrderBook.getitem sd
                 (OkexWSClient.update_items cs (OkexWSClient.data m1) ob)))
              (SortedDict.data (FastOrderBook.getitem sd
                 (OkexWSClient.update_items cs (OkexWSClient.data m2) ob)))).
  { intros sd. rewrite !update_items_data.
    apply apply_levels_perm; auto. }
  assert (W : forall sd,
            PyDict.wf (SortedDict.data (FastOrderBook.getitem sd
                 (OkexWSClient.update_items cs (OkexWSClient.data m1) ob)))).
  { intros sd. rewrite update_items_data.
    apply wf_apply_levels; auto. apply levels_not_nan. apply Hdist. }
  assert (A : FastOrderBook.same_annotations
                (OkexWSClient.update_items cs (OkexWSClient.data m1) ob)
                (OkexWSClient.update_items cs (OkexWSClient.data m2) ob)).
  { eapply same_annotations_trans;
      [apply same_annotations_sym, update_items_annotations
      |apply update_items_annotations]. }
  assert (V : forall sd,
            SortedDict.to_list (FastOrderBook.getitem sd
                 (OkexWSClient.update_items cs (OkexWSClient.data m1) ob)) =
            SortedDict.to_list (FastOrderBook.getitem sd
                 (OkexWSClient.update_items cs (OkexWSClient.data m2) ob))).
  { intros sd. apply to_list_perm_eq; auto.
    - symmetry. apply A.
    - symmetry. apply A. }
  assert (J : forall level ms t,
            FastOrderBook.to_json level ms
              (FastOrderBook.with_timestamp t
                 (OkexWSClient.update_items cs (OkexWSClient.data m1) ob)) =
            FastOrderBook.to_json level ms
              (FastOrderBook.with_timestamp t
                 (OkexWSClient.update_items cs (OkexWSClient.data m2) ob))).
  { intros level ms t. apply to_json_congr; auto. }
  split; [apply (apply_books_update_some _ _ _ _ Hi Hs1 Hob)|].
  split.
  { rewrite (apply_books_update_some _ _ _ _ Hi2 Hs2 Hob2). unfold name. rewrite Hid.
    reflexivity. }
  split; [exact P|]. split.
  { intros sd price. unfold SortedDict.getitem. apply get_perm; auto. }
  split; [exact V|]. split; [exact A|]. split; [exact J|]. split; [exact W|].
  intros items1 last1 items2 last2 Hd1 Hd2.
  assert (T1 : FastOrderBook.timestamp (OkexWSClient.update_items cs (OkexWSClient.data m1) ob)
               = OkexWSClient.ts last1) by (rewrite Hd1; apply update_items_timestamp).
  assert (T2 : FastOrderBook.timestamp (OkexWSClient.update_items cs (OkexWSClient.data m2) ob)
               = OkexWSClient.ts last2) by (rewrite Hd2; apply update_items_timestamp).
  split; [exact T1|]. split; [exact T2|]. split.
  - intros Hts level ms.
    rewrite <- (with_timestamp_same (OkexWSClient.update_items cs (OkexWSClient.data m1) ob)).
    rewrite <- (with_timestamp_same (OkexWSClient.update_items cs (OkexWSClient.data m2) ob)).
    rewrite T1, T2, Hts. apply J.
  - intros Hts. split.
    + intros Heq. apply Hts. rewrite <- T1, <- T2, Heq. reflexivity.
    + intros level ms.
      change (FastOrderBook.timestamp (OkexWSClient.update_items cs (OkexWSClient.data m1) ob)
              <> FastOrderBook.timestamp
                   (OkexWSClient.update_items cs (OkexWSClient.data m2) ob)).
      rewrite T1, T2. exact Hts.
Qed.

Import DispatchFacts.

(** C2.  Once [task_dispatch] has bound an instrument to a queue (the
    binding is in [map_instrument_queue]), the binding stays whatever the
    client does afterwards: other dispatches, raising ones included, turns
    of the workers, anything else.  A later unit of work dispatched for the
    instrument is put at the end of that same queue, and of no other queue;
    the dispatch creates no queue and changes no binding. *)
Theorem C2_sticky_queue (b b' : BaseWSClient.t) (name : string) (q : qref)
    (f : BaseWSClient.fut) :
  BaseWSClient.reachable b ->
  BaseWSClient.map_instrument_queue b !! name = Some q ->
  rtc BaseWSClient.step b b' ->
  BaseWSClient.map_instrument_queue b' !! name = Some q
  /\ exists items,
       BaseWSClient.queues b' !! q = Some items
       /\ fst (BaseWSClient.task_dispatch name f b') = inr tt
       /\ BaseWSClient.queues (snd (BaseWSClient.task_dispatch name f b')) !! q
          = Some (items ++ [f])
       /\ (forall q', q' <> q ->
             BaseWSClient.queues (snd (BaseWSClient.task_dispatch name f b')) !! q'
             = BaseWSClient.queues b' !! q')
       /\ BaseWSClient.map_instrument_queue (snd (BaseWSClient.task_dispatch name f b'))
          = BaseWSClient.map_instrument_queue b'
       /\ BaseWSClient.queue_object_caches (snd (BaseWSClient.task_dispatch name f b'))
          = BaseWSClient.queue_object_caches b'.
Proof.
  intros Hreach Hq Hsteps.
  assert (Hq' : BaseWSClient.map_instrument_queue b' !! name = Some q)
    by (eapply sticky_steps; eauto).
  split; [exact Hq'|].
  assert (Hok : BaseWSClient.refs_ok b').
  { eapply refs_ok_steps; [exact Hsteps|]. apply refs_ok_reachable. exact Hreach. }
  destruct Hok as (_ & Hm & _).
  destruct (lookup_lt_is_Some_2 _ _ (Hm _ _ Hq')) as [items Hitems].
  exists items. split; [exact Hitems|].
  pose proof (task_dispatch_fields name f b') as F. cbv zeta in F.
  rewrite Hq' in F. destruct F as (F1 & _ & F3 & F4 & F5 & _).
  rewrite F5. repeat split; auto.
  - rewrite list_lookup_alter_eq, Hitems. reflexivity.
  - intros q0 Hne. apply list_lookup_alter_ne. congruence.
Qed.

(** C3.  In every state a client reaches from its start at most
    [W = SPIDER_CONSUMER_WORKERS] queues, and as many workers, have been
    created (none when [W] is not positive), however many instruments were
    dispatched.  With [W] at least one, a unit of work for an instrument
    that is not bound yet creates a queue of its own while fewer than [W]
    exist; once [W] exist it creates none: the instrument is bound to the
    existing queue at position [k mod W] of the pool, where [k] counts the
    instruments bound since the pool became full, which is round robin over
    the queues created. *)
Theorem C3_bounded_workers (b : BaseWSClient.t) :
  BaseWSClient.reachable b ->
  let n := length (BaseWSClient.queue_object_caches b) in
  (Z.of_nat n <= Z.max 0 SPIDER_CONSUMER_WORKERS)%Z
  /\ length (BaseWSClient.queues b) = n
  /\ length (BaseWSClient.workers b) = n
  /\ ((0 < SPIDER_CONSUMER_WORKERS)%Z ->
      forall name f,
        BaseWSClient.map_instrument_queue b !! name = None ->
        let r := BaseWSClient.task_dispatch name f b in
        if (Z.of_nat n <? SPIDER_CONSUMER_WORKERS)%Z
        then
          fst r = inr tt
          /\ BaseWSClient.queue_object_caches (snd r) = BaseWSClient.queue_object_caches b ++ [n]
          /\ BaseWSClient.map_instrument_queue (snd r) !! name = Some n
        else
          let k := (size (BaseWSClient.map_instrument_queue b) - n)%nat in
          Z.of_nat n = SPIDER_CONSUMER_WORKERS
          /\ fst r = inr tt
          /\ BaseWSClient.queue_object_caches (snd r) = BaseWSClient.queue_object_caches b
          /\ length (BaseWSClient.queues (snd r)) = length (BaseWSClient.queues b)
          /\ BaseWSClient.workers (snd r) = BaseWSClient.workers b
          /\ BaseWSClient.queue_object_caches b !! (k mod n)%nat = Some (k mod n)%nat
          /\ BaseWSClient.map_instrument_queue (snd r) !! name = Some (k mod n)%nat).
Proof.
  intros Hreach. cbv zeta.
  destruct (pool_bounded_reachable b Hreach) as (Hq & Hw & Hle).
  split; [exact Hle|]. split; [exact Hq|]. split; [exact Hw|].
  intros HW name f Hname.
  pose proof (pool_ok_reachable b HW Hreach) as Hok.
  pose proof Hok as (Hc & _ & _ & Hle' & _).
  pose proof (task_dispatch_fields name f b) as F. cbv zeta in F.
  rewrite Hname in F.
  destruct (Z.ltb_spec (Z.of_nat (length (BaseWSClient.queue_object_caches b)))
              SPIDER_CONSUMER_WORKERS) as [Hlt|Hge].
  - destruct F as (F1 & _ & F3 & F4 & _). rewrite Hq in F3, F4.
    repeat split; auto. rewrite F4. apply lookup_insert_eq.
  - assert (Hn1 : (1 <= length (BaseWSClient.queue_object_caches b))%nat) by lia.
    rewrite (pool_ok_cycle b Hok Hn1) in F.
    destruct F as (F1 & _ & F3 & F4 & F5 & F6).
    repeat split; auto; try lia.
    + rewrite F5. apply length_alter.
    + match goal with
      | |- ?l !! ?i = _ =>
          replace (l !! i) with (seq 0 (length l) !! i) by (rewrite <- Hc; reflexivity)
      end.
      rewrite lookup_seq_lt; [reflexivity|].
      apply Nat.mod_upper_bound. lia.
    + rewrite F4. apply lookup_insert_eq.
Qed.

(** C5 (as amended).  For an order book stored in the cache, a side and a
    depth N with 1 <= N <= number of levels of the side, [get_price] and
    [get_orderbook_info] return the price of the N-th level of the side.
    On an empty side [get_orderbook_info] returns the price 0 ("no data");
    [get_price] raises [IndexError] whenever N exceeds the number of levels,
    the empty side included.  The levels of a payload that [handle_books]
    published are the sorted view of the replica: asks ascending, bids
    descending. *)
Theorem C5_depth_lookup (redis : gmap string BaseWSClient.book_payload) (name : string)
    (data : BaseWSClient.book_payload) (sd : side) (depth : Z) :
  redis !! OrderBookManager.orderbook_key name = Some data ->
  let levels := OrderBookManager.side_of data sd in
  let info_with price :=
    {| OrderBookManager.instrument_name := name;
       OrderBookManager.info_side := sd;
       OrderBookManager.depth := depth;
       OrderBookManager.price := price;
       OrderBookManager.expire_days := BaseWSClient.p_expiration_days data;
       OrderBookManager.data_ms := FastOrderBook.j_data_ms (BaseWSClient.body data) |} in
  ((1 <= depth <= Z.of_nat (length levels))%Z ->
     exists level,
       nth_error levels (Z.to_nat (depth - 1)) = Some level
       /\ OrderBookManager.get_price redis name sd depth = inr (fst level)
       /\ OrderBookManager.get_orderbook_info redis name sd depth
          = inr (info_with (NFloat (fst level))))
  /\ (levels = [] ->
      OrderBookManager.get_orderbook_info redis name sd depth = inr (info_with (NInt 0)))
  /\ ((Z.of_nat (length levels) < depth)%Z ->
      OrderBookManager.get_price redis name sd depth = inl IndexError)
  /\ (forall ob ms nm,
        BaseWSClient.body data = OkexWSClient.with_instrument_name nm (FastOrderBook.to_json 0 ms ob) ->
        levels = SortedDict.to_list (FastOrderBook.getitem sd ob)
        /\ match SortedDict.order (FastOrderBook.getitem sd ob) with
           | SortedDict.ASCENDING => Sorted SortedDict.price_le levels
           | SortedDict.DESCENDING => Sorted SortedDict.price_ge levels
           end).
Proof.
  intros Hdata. cbv zeta.
  unfold OrderBookManager.get_price, OrderBookManager.get_orderbook_info,
    OrderBookManager.get_orderbook.
  rewrite Hdata.
  set (levels := OrderBookManager.side_of data sd).
  split; [|split; [|split]].
  - intros Hrange. unfold OrderBookManager.py_index.
    destruct (Z.ltb_spec (depth - 1) 0) as [?|_]; [lia|].
    destruct (Z.ltb_spec (depth - 1) 0) as [?|_]; [lia|].
    destruct (nth_error levels (Z.to_nat (depth - 1))) as [level|] eqn:Hn.
    + exists level. repeat split.
      destruct levels as [|l0 ls]; [destruct (Z.to_nat (depth - 1)); discriminate|].
      reflexivity.
    + apply nth_error_None in Hn. lia.
  - intros ->. reflexivity.
  - intros Hlong. unfold OrderBookManager.py_index.
    destruct (Z.ltb_spec (depth - 1) 0) as [?|_]; [lia|].
    destruct (Z.ltb_spec (depth - 1) 0) as [?|_]; [lia|].
    destruct (nth_error levels (Z.to_nat (depth - 1))) as [level|] eqn:Hn; [|reflexivity].
    assert (Hlt : (Z.to_nat (depth - 1) < length levels)%nat).
    { apply nth_error_Some. rewrite Hn. discriminate. }
    lia.
  - intros ob ms nm Hbody.
    assert (Hl : levels = SortedDict.to_list (FastOrderBook.getitem sd ob)).
    { unfold levels, OrderBookManager.side_of. rewrite Hbody. destruct sd; reflexivity. }
    split; [exact Hl|]. rewrite Hl. apply to_list_sorted.
Qed.

End Claims.

(** * The claims on the scenarios *)

Import Scenario.

(** C10 at a manager whose replica of X-USDT carries annotations: the
    snapshot leaves a replica without them. *)
Lemma C10_witness :
  @get_expired_from_instrument_name env "X-USDT" = inr None
  /\ (FastOrderBook.mark_iv <$> NewOrderBookManager.get "X-USDT" manager_with_ticker
      = Some (Some (f 55)))
  /\ exists ob,
       @NewOrderBookManager.snapshot env "X-USDT" [(f 100, f 1)] [(f 101, f 2)] None 11
         manager_with_ticker
       = (inr tt,
          NewOrderBookManager.with_orderbooks
            (<["X-USDT" := ob]> (NewOrderBookManager.orderbooks manager_with_ticker))
            manager_with_ticker)
       /\ FastOrderBook.greeks ob = None
       /\ FastOrderBook.mark_price ob = None
       /\ FastOrderBook.mark_iv ob = None
       /\ FastOrderBook.bid_iv ob = None
       /\ FastOrderBook.ask_iv ob = None
       /\ FastOrderBook.j_mark_iv (FastOrderBook.to_json 0 12 ob) = NInt 0.
Proof.
  split; [reflexivity|]. split; [vm_compute; reflexivity|].
  destruct (@C10_snapshot_resets_ticker env manager_with_ticker "X-USDT"
              [(f 100, f 1)] [(f 101, f 2)] None 11 None eq_refl)
    as (ob & Hrun & Hg & Hmp & Hmiv & Hbiv & Haiv & _ & _ & _ & _ & Hjson).
  exists ob. repeat split; auto. apply (Hjson 0%nat 12%Z).
Defined.

(** C8 on the snapshot frame of X-USDT, handled twice by the client. *)
Lemma C8_witness :
  OkexWSClient.is_snapshot (snapshot_X 10) = true
  /\ BaseWSClient.orderbook_manager
       (OkexWSClient.base
          (snd (@OkexWSClient.handle_books env 2 (snapshot_X 10)
                  (snd (@OkexWSClient.handle_books env 1 (snapshot_X 10) client0)))))
     = BaseWSClient.orderbook_manager
         (OkexWSClient.base (snd (@OkexWSClient.handle_books env 1 (snapshot_X 10) client0))).
Proof.
  split; [reflexivity|].
  apply (@C8_snapshot_idempotent env manager0 "X-USDT" [] [] None 0 client0 (snapshot_X 10) 1 2).
  reflexivity.
Defined.

(** The claim C4 as stated fails: an update for X-USDT, which has no
    replica yet, makes [handle_books] raise [TypeError]. *)
Lemma C4_counterexample :
  OkexWSClient.replica "X-USDT" client0 = None
  /\ OkexWSClient.is_snapshot (update_of "X-USDT" 5 [(f 100, f 0)] []) = false
  /\ fst (@OkexWSClient.handle_books env 1 (update_of "X-USDT" 5 [(f 100, f 0)] []) client0)
     = inl TypeError.
Proof. repeat split; vm_compute; reflexivity. Qed.

Lemma C4_witness :
  OkexWSClient.is_snapshot (update_of "X-USDT" 5 [(f 100, f 0)] []) = false
  /\ OkexWSClient.replica (@InstrumentConverter_to_system env "X-USDT") client0 = None
  /\ exists e,
       @OkexWSClient.handle_books env 1 (update_of "X-USDT" 5 [(f 100, f 0)] []) client0
         = (inl e, client0)
       /\ @OkexWSClient.handler_turn env (f 2) 1 (update_of "X-USDT" 5 [(f 100, f 0)] []) client0
          = (inr tt, OkexWSClient.with_logged e client0).
Proof.
  split; [reflexivity|]. split; [reflexivity|].
  destruct (@C4_update_without_replica_raises env client0
              (update_of "X-USDT" 5 [(f 100, f 0)] []) (f 2) 1 eq_refl eq_refl)
    as (e & _ & Hrun & Hturn & _).
  exists e. split; assumption.
Defined.

(** The claim C6 as stated fails: after the snapshot with timestamp 10 an
    update with timestamp 5 is applied and the stored timestamp drops to
    5. *)
Lemma C6_counterexample :
  FastOrderBook.timestamp <$> OkexWSClient.replica "X-USDT" (run [snapshot_X 10] client0)
    = Some 10%Z
  /\ FastOrderBook.timestamp <$>
       OkexWSClient.replica "X-USDT"
         (run [snapshot_X 10; update_of "X-USDT" 5 [(f 99, f 1)] []] client0)
     = Some 5%Z
  /\ SortedDict.getitem (f 99)
       <$> (FastOrderBook.bids <$>
              OkexWSClient.replica "X-USDT"
                (run [snapshot_X 10; update_of "X-USDT" 5 [(f 99, f 1)] []] client0))
     = Some (Some (f 1))
  /\ (5 < 10)%Z.
Proof. repeat split; vm_compute; reflexivity. Qed.

Lemma C6_witness :
  OkexWSClient.data (update_of "X-USDT" 5 [(f 99, f 1)] [])
    = [] ++ [ {| OkexWSClient.ts := 5;
                 OkexWSClient.item_bids := [(f 99, f 1)];
                 OkexWSClient.item_asks := [] |} ]
  /\ fst (@OkexWSClient.handle_books env 1 (update_of "X-USDT" 5 [(f 99, f 1)] []) client1)
     = inr tt
  /\ exists ob,
       OkexWSClient.replica "X-USDT"
         (snd (@OkexWSClient.handle_books env 1 (update_of "X-USDT" 5 [(f 99, f 1)] []) client1))
         = Some ob
       /\ FastOrderBook.timestamp ob = 5%Z.
Proof.
  split; [reflexivity|]. split; [vm_compute; reflexivity|].
  apply (@C6_timestamp_is_last_applied env client1
           (snd (@OkexWSClient.handle_books env 1 (update_of "X-USDT" 5 [(f 99, f 1)] []) client1))
           (update_of "X-USDT" 5 [(f 99, f 1)] []) 1 []
           {| OkexWSClient.ts := 5;
              OkexWSClient.item_bids := [(f 99, f 1)];
              OkexWSClient.item_asks := [] |}).
  - reflexivity.
  - vm_compute. reflexivity.
Defined.

(** C7 on the book of X-USDT: a bid at 100 with raw size 0 removes the
    level. *)
Lemma C7_witness :
  eqb (mul (f 0) (f 1)) (of_int 0%Z) = true
  /\ SortedDict.contains (f 100) (FastOrderBook.getitem Bids book_X) = true
  /\ SortedDict.contains (f 100)
       (FastOrderBook.getitem Bids (OkexWSClient.update_level (f 1) Bids (f 100, f 0) book_X))
     = false.
Proof.
  split; [reflexivity|]. split; [reflexivity|].
  destruct (@C7_zero_size_removal env (f 1) Bids (f 100) (f 0) book_X) as (Hzero & _).
  destruct (Hzero eq_refl) as (Hgone & _). exact Hgone.
Defined.

(** C1 on Y-USDT-SWAP, whose contract size is 1 * 10.  After the snapshot
    every stored entry is a level of the frame with its size times 10; an
    update with 3 at 48 and 0 at 47 then leaves 30 at 48, nothing at 47 and
    the 10 that 49 held. *)
Lemma C1_witness :
  OkexWSClient.instruments_info client0 !! OkexWSClient.instId (snapshot_Y 1) = Some info_Y
  /\ @OkexWSClient.handle_books env 1 (snapshot_Y 1) client0 = (inr tt, client_Y)
  /\ OkexWSClient.is_snapshot (snapshot_Y 1) = true
  /\ OkexWSClient.data (snapshot_Y 1) = [] ++ [item_Y]
  /\ (exists ob',
       OkexWSClient.replica "Y-USDT-SWAP" client_Y = Some ob'
       /\ (forall sd entry,
             In entry (SortedDict.data (FastOrderBook.getitem sd ob')) ->
             OkexWSClient.canonical_level (mul (f 1) (f 10)) sd [item_Y] entry)
       /\ SortedDict.getitem (f 48) (FastOrderBook.getitem Bids ob') = Some (f 20))
  /\ OkexWSClient.instruments_info client_Y
       !! OkexWSClient.instId (update_of "Y-USDT-SWAP" 2 [(f 48, f 3); (f 47, f 0)] [])
     = Some info_Y
  /\ OkexWSClient.is_snapshot (update_of "Y-USDT-SWAP" 2 [(f 48, f 3); (f 47, f 0)] []) = false
  /\ exists ob'',
       OkexWSClient.replica "Y-USDT-SWAP"
         (snd (@OkexWSClient.handle_books env 2
                 (update_of "Y-USDT-SWAP" 2 [(f 48, f 3); (f 47, f 0)] []) client_Y))
       = Some ob''
       /\ SortedDict.getitem (f 48) (FastOrderBook.getitem Bids ob'') = Some (f 30)
       /\ SortedDict.getitem (f 47) (FastOrderBook.getitem Bids ob'') = None
       /\ SortedDict.getitem (f 49) (FastOrderBook.getitem Bids ob'') = Some (f 10).
Proof.
  split; [vm_compute; reflexivity|]. split; [vm_compute; reflexivity|].
  split; [reflexivity|]. split; [reflexivity|].
  split.
  { eexists. split; [vm_compute; reflexivity|].
    match goal with
    | |- (forall sd entry, In entry (SortedDict.data (FastOrderBook.getitem sd ?ob)) -> _) /\ _ =>
        destruct (@C1_scaling env client0 client_Y (snapshot_Y 1) 1 info_Y (inr tt) ob)
          as (_ & Hsnap & _);
          [vm_compute; reflexivity | vm_compute; reflexivity | vm_compute; reflexivity |]
    end.
    destruct (Hsnap eq_refl eq_refl [] item_Y eq_refl) as (Hcanon & _).
    split; [exact Hcanon|]. vm_compute. reflexivity. }
  split; [vm_compute; reflexivity|]. split; [reflexivity|].
  eexists. split; [vm_compute; reflexivity|].
  match goal with
  | |- SortedDict.getitem _ (FastOrderBook.getitem Bids ?ob) = _ /\ _ =>
      destruct (@C1_scaling env client_Y
                  (snd (@OkexWSClient.handle_books env 2
                          (update_of "Y-USDT-SWAP" 2 [(f 48, f 3); (f 47, f 0)] []) client_Y))
                  (update_of "Y-USDT-SWAP" 2 [(f 48, f 3); (f 47, f 0)] []) 2 info_Y (inr tt) ob)
        as (_ & _ & Hupd & _);
        [vm_compute; reflexivity | vm_compute; reflexivity | vm_compute; reflexivity |]
  end.
  destruct (Hupd eq_refl) as (ob & Hob & Hlast & Hother).
  split.
  { apply (Hlast Bids [] (f 48, f 3) [(f 47, f 0)]); [reflexivity | reflexivity|].
    repeat constructor. }
  split.
  { apply (Hlast Bids [(f 48, f 3)] (f 47, f 0) []); [reflexivity | reflexivity|].
    constructor. }
  rewrite (Hother Bids (f 49)) by (repeat constructor).
  vm_compute in Hob. injection Hob as <-. vm_compute. reflexivity.
Defined.

(** C9 on the book of X-USDT: three levels in one element of [data], and
    the same levels spread over two elements in another order.  The sides
    and the annotations agree; the timestamps are those of the last
    elements, 20 and 22, so that the replicas differ. *)
Lemma C9_witness :
  OkexWSClient.instId levels_twice = OkexWSClient.instId levels_once
  /\ OkexWSClient.instruments_info client1 !! OkexWSClient.instId levels_once = Some info_X
  /\ OkexWSClient.is_snapshot levels_once = false
  /\ OkexWSClient.is_snapshot levels_twice = false
  /\ OkexWSClient.replica "X-USDT" client1 = Some book_X
  /\ (forall sd, PyDict.wf (SortedDict.data (FastOrderBook.getitem sd book_X)))
  /\ (forall sd, Permutation (OkexWSClient.all_levels sd (OkexWSClient.data levels_once))
                             (OkexWSClient.all_levels sd (OkexWSClient.data levels_twice)))
  /\ (forall sd, PyDict.distinct_keys
                   (map fst (OkexWSClient.all_levels sd (OkexWSClient.data levels_once))))
  /\ exists ob1 ob2,
       @OkexWSClient.apply_books env levels_once client1
         = (inr tt, OkexWSClient.with_replica "X-USDT" ob1 client1)
       /\ @OkexWSClient.apply_books env levels_twice client1
          = (inr tt, OkexWSClient.with_replica "X-USDT" ob2 client1)
       /\ (forall sd, SortedDict.to_list (FastOrderBook.getitem sd ob1) =
                      SortedDict.to_list (FastOrderBook.getitem sd ob2))
       /\ FastOrderBook.same_annotations ob1 ob2
       /\ FastOrderBook.timestamp ob1 = 20%Z
       /\ FastOrderBook.timestamp ob2 = 22%Z
       /\ ob1 <> ob2.
Proof.
  assert (Hwf : forall sd, PyDict.wf (SortedDict.data (FastOrderBook.getitem sd book_X))).
  { intros []; cbn; repeat split; constructor. }
  assert (Hperm : forall sd,
            Permutation (OkexWSClient.all_levels sd (OkexWSClient.data levels_once))
                        (OkexWSClient.all_levels sd (OkexWSClient.data levels_twice))).
  { intros []; cbn; [apply perm_swap | apply Permutation_refl]. }
  assert (Hdist : forall sd, PyDict.distinct_keys
                    (map fst (OkexWSClient.all_levels sd (OkexWSClient.data levels_once)))).
  { intros []; cbn; repeat split; repeat constructor. }
  split; [reflexivity|]. split; [vm_compute; reflexivity|].
  split; [reflexivity|]. split; [reflexivity|]. split; [vm_compute; reflexivity|].
  split; [exact Hwf|]. split; [exact Hperm|]. split; [exact Hdist|].
  destruct (@C9_update_commutativity env client1 levels_once levels_twice info_X book_X)
    as (ob1 & ob2 & H1 & H2 & _ & _ & Hview & Hann & _ & _ & Hts);
    [reflexivity | vm_compute; reflexivity | reflexivity | reflexivity
    | vm_compute; reflexivity | exact Hwf | exact Hperm | exact Hdist |].
  destruct (Hts [] _ [_] _ eq_refl eq_refl) as (T1 & T2 & _ & Hdiff).
  exists ob1, ob2.
  split; [exact H1|]. split; [exact H2|]. split; [exact Hview|]. split; [exact Hann|].
  split; [exact T1|]. split; [exact T2|]. apply Hdiff. discriminate.
Defined.

(** Against C9 as stated: a bid at 99 and an ask at 102, two updates with
    different prices, applied to the book of X-USDT in either order.  The
    replica keeps the timestamp of the update handled last, 2 or 1, so the
    final states differ, as do the payloads published from them; the same
    happens inside one frame whose two elements are exchanged. *)
Lemma C9_counterexample :
  eqb (f 99) (f 102) = false
  /\ FastOrderBook.timestamp <$>
       OkexWSClient.replica "X-USDT"
         (run [update_of "X-USDT" 1 [(f 99, f 1)] []; update_of "X-USDT" 2 [] [(f 102, f 3)]]
            client1)
     = Some 2%Z
  /\ FastOrderBook.timestamp <$>
       OkexWSClient.replica "X-USDT"
         (run [update_of "X-USDT" 2 [] [(f 102, f 3)]; update_of "X-USDT" 1 [(f 99, f 1)] []]
            client1)
     = Some 1%Z
  /\ OkexWSClient.replica "X-USDT"
       (run [update_of "X-USDT" 1 [(f 99, f 1)] []; update_of "X-USDT" 2 [] [(f 102, f 3)]]
          client1)
     <> OkexWSClient.replica "X-USDT"
          (run [update_of "X-USDT" 2 [] [(f 102, f 3)]; update_of "X-USDT" 1 [(f 99, f 1)] []]
             client1)
  /\ FastOrderBook.timestamp <$>
       OkexWSClient.replica "X-USDT"
         (snd (@OkexWSClient.apply_books env
                 {| OkexWSClient.action := Some "update";
                    OkexWSClient.instId := "X-USDT";
                    OkexWSClient.data := [OkexWSClient.one_level Bids 1 (f 99, f 1);
                                          OkexWSClient.one_level Asks 2 (f 102, f 3)] |}
                 client1))
     = Some 2%Z
  /\ FastOrderBook.timestamp <$>
       OkexWSClient.replica "X-USDT"
         (snd (@OkexWSClient.apply_books env
                 {| OkexWSClient.action := Some "update";
                    OkexWSClient.instId := "X-USDT";
                    OkexWSClient.data := [OkexWSClient.one_level Asks 2 (f 102, f 3);
                                          OkexWSClient.one_level Bids 1 (f 99, f 1)] |}
                 client1))
     = Some 1%Z
  /\ FastOrderBook.j_data_ms <$>
       (FastOrderBook.to_json 0 1700000001000 <$>
          OkexWSClient.replica "X-USDT"
            (run [update_of "X-USDT" 1 [(f 99, f 1)] []; update_of "X-USDT" 2 [] [(f 102, f 3)]]
               client1))
     = Some 2%Z
  /\ FastOrderBook.j_data_ms <$>
       (FastOrderBook.to_json 0 1700000001000 <$>
          OkexWSClient.replica "X-USDT"
            (run [update_of "X-USDT" 2 [] [(f 102, f 3)]; update_of "X-USDT" 1 [(f 99, f 1)] []]
               client1))
     = Some 1%Z.
Proof.
  split; [reflexivity|]. split; [vm_compute; reflexivity|]. split; [vm_compute; reflexivity|].
  split; [vm_compute; discriminate|].
  split; [vm_compute; reflexivity|]. split; [vm_compute; reflexivity|].
  split; vm_compute; reflexivity.
Qed.

(** C2 with two workers: A keeps queue 0 while B and C are dispatched, and
    a later unit of work for A goes to the end of queue 0. *)
Lemma C2_witness :
  @BaseWSClient.reachable env (dispatched ["A"])
  /\ BaseWSClient.map_instrument_queue (dispatched ["A"]) !! "A" = Some 0%nat
  /\ rtc (@BaseWSClient.step env) (dispatched ["A"]) (dispatched ["A"; "B"; "C"])
  /\ BaseWSClient.map_instrument_queue (dispatched ["A"; "B"; "C"]) !! "A" = Some 0%nat
  /\ exists items,
       BaseWSClient.queues (dispatched ["A"; "B"; "C"]) !! 0%nat = Some items
       /\ BaseWSClient.queues
            (snd (@BaseWSClient.task_dispatch env "A" (work "A") (dispatched ["A"; "B"; "C"])))
            !! 0%nat
          = Some (items ++ [work "A"]).
Proof.
  assert (Hreach : @BaseWSClient.reachable env (dispatched ["A"])).
  { exists base0. split; [repeat split; reflexivity|].
    eapply rtc_l; [apply (@BaseWSClient.step_dispatch env "A" (work "A") base0)|].
    apply rtc_refl. }
  assert (Hsteps : rtc (@BaseWSClient.step env) (dispatched ["A"]) (dispatched ["A"; "B"; "C"])).
  { eapply rtc_l;
      [apply (@BaseWSClient.step_dispatch env "B" (work "B") (dispatched ["A"]))|].
    eapply rtc_l;
      [apply (@BaseWSClient.step_dispatch env "C" (work "C") (dispatched ["A"; "B"]))|].
    apply rtc_refl. }
  split; [exact Hreach|]. split; [vm_compute; reflexivity|]. split; [exact Hsteps|].
  destruct (@C2_sticky_queue env (dispatched ["A"]) (dispatched ["A"; "B"; "C"]) "A" 0%nat
              (work "A") Hreach) as (Hkept & items & Hitems & _ & Hput & _);
    [vm_compute; reflexivity | exact Hsteps |].
  split; [exact Hkept|]. exists items. split; assumption.
Defined.

(** C3 with two workers: A and B have filled the pool; C creates no queue
    and is bound to queue 0, the first of the cycle. *)
Lemma C3_witness :
  @BaseWSClient.reachable env (dispatched ["A"; "B"])
  /\ (0 < @SPIDER_CONSUMER_WORKERS env)%Z
  /\ BaseWSClient.map_instrument_queue (dispatched ["A"; "B"]) !! "C" = None
  /\ (Z.of_nat (length (BaseWSClient.queue_object_caches (dispatched ["A"; "B"])))
      <= Z.max 0 (@SPIDER_CONSUMER_WORKERS env))%Z
  /\ length (BaseWSClient.queues (dispatched ["A"; "B"])) = 2%nat
  /\ BaseWSClient.queue_object_caches
       (snd (@BaseWSClient.task_dispatch env "C" (work "C") (dispatched ["A"; "B"])))
     = BaseWSClient.queue_object_caches (dispatched ["A"; "B"])
  /\ BaseWSClient.map_instrument_queue
       (snd (@BaseWSClient.task_dispatch env "C" (work "C") (dispatched ["A"; "B"]))) !! "C"
     = Some 0%nat.
Proof.
  assert (Hreach : @BaseWSClient.reachable env (dispatched ["A"; "B"])).
  { exists base0. split; [repeat split; reflexivity|].
    eapply rtc_l; [apply (@BaseWSClient.step_dispatch env "A" (work "A") base0)|].
    eapply rtc_l;
      [apply (@BaseWSClient.step_dispatch env "B" (work "B") (dispatched ["A"]))|].
    apply rtc_refl. }
  split; [exact Hreach|]. split; [reflexivity|]. split; [vm_compute; reflexivity|].
  destruct (@C3_bounded_workers env (dispatched ["A"; "B"]) Hreach)
    as (Hle & Hqueues & _ & Hnew).
  split; [exact Hle|]. split; [exact Hqueues|].
  pose proof (Hnew eq_refl "C" (work "C") eq_refl) as Hc.
  change (Z.of_nat (length (BaseWSClient.queue_object_caches (dispatched ["A"; "B"])))
          <? @SPIDER_CONSUMER_WORKERS env)%Z with false in Hc.
  cbv zeta iota in Hc.
  destruct Hc as (_ & _ & Hcaches & _ & _ & _ & Hbound).
  split; [exact Hcaches|]. exact Hbound.
Defined.

(** The claim C5 as stated fails: on the emptied bid side of X-USDT
    [get_price] raises [IndexError] instead of reporting no data, and a
    depth beyond the single ask makes [get_orderbook_info] raise too. *)
Lemma C5_counterexample :
  (fun data => OrderBookManager.side_of data Bids)
    <$> (redis_of (drain 2 client_emptied) !! @OrderBookManager.orderbook_key env "X-USDT")
    = Some []
  /\ @OrderBookManager.get_price env (redis_of (drain 2 client_emptied)) "X-USDT" Bids 1
     = inl IndexError
  /\ @OrderBookManager.get_orderbook_info env (redis_of (drain 2 client_emptied)) "X-USDT" Asks 2
     = inl IndexError.
Proof. repeat split; vm_compute; reflexivity. Qed.

(** C5 on the published snapshot of X-USDT: the first bid is at 100. *)
Lemma C5_witness :
  redis_of (drain 1 client1) !! @OrderBookManager.orderbook_key env "X-USDT" = Some payload_X
  /\ (1 <= 1 <= Z.of_nat (length (OrderBookManager.side_of payload_X Bids)))%Z
  /\ exists level,
       nth_error (OrderBookManager.side_of payload_X Bids) (Z.to_nat (1 - 1)) = Some level
       /\ @OrderBookManager.get_price env (redis_of (drain 1 client1)) "X-USDT" Bids 1
          = inr (fst level)
       /\ fst level = f 100.
Proof.
  assert (Hredis : redis_of (drain 1 client1) !! @OrderBookManager.orderbook_key env "X-USDT"
                   = Some payload_X) by (vm_compute; reflexivity).
  assert (Hrange : (1 <= 1 <= Z.of_nat (length (OrderBookManager.side_of payload_X Bids)))%Z)
    by (vm_compute; split; discriminate).
  split; [exact Hredis|]. split; [exact Hrange|].
  destruct (@C5_depth_lookup env (redis_of (drain 1 client1)) "X-USDT" payload_X Bids 1 Hredis)
    as (Hin & _).
  destruct (Hin Hrange) as (level & Hnth & Hprice & _).
  exists level. repeat split; auto.
  vm_compute in Hnth. injection Hnth as <-. reflexivity.
Defined.

(** ** The scenarios of the specification *)

(** Scenario 1: after the snapshot bids=[(100,1)], asks=[(101,2)] with
    contract value and multiplier 1, the best bid is 100 with size 1 and
    the best ask 101 with size 2. *)
Example scenario_best_levels :
  @OrderBookManager.get_price env (redis_of (drain 1 client1)) "X-USDT" Bids 1 = inr (f 100)
  /\ @OrderBookManager.get_price env (redis_of (drain 1 client1)) "X-USDT" Asks 1 = inr (f 101)
  /\ OrderBookManager.side_of payload_X Bids = [(f 100, f 1)]
  /\ OrderBookManager.side_of payload_X Asks = [(f 101, f 2)].
Proof. repeat split; vm_compute; reflexivity. Qed.

(** Scenario 2: the update bids=[(100,0)] empties the bid side; the lookup
    of the record then reports the price 0. *)
Example scenario_deleted_level :
  SortedDict.to_list <$> (FastOrderBook.bids <$> OkexWSClient.replica "X-USDT" client_emptied)
    = Some []
  /\ OrderBookManager.price
       <$> (match @OrderBookManager.get_orderbook_info env (redis_of (drain 2 client_emptied))
                    "X-USDT" Bids 1 with
            | inr info => Some info
            | inl _ => None
            end)
     = Some (NInt 0).
Proof. repeat split; vm_compute; reflexivity. Qed.

(** Scenario 3: with contract value 10 and multiplier 1 the raw update
    (price 50, size 3) is stored with size 30. *)
Example scenario_contract_value :
  SortedDict.getitem (f 50)
    <$> (FastOrderBook.bids <$>
           OkexWSClient.replica "Y-USDT-SWAP"
             (run [snapshot_Y 1; update_of "Y-USDT-SWAP" 2 [(f 50, f 3)] []] client0))
  = Some (Some (f 30)).
Proof. vm_compute. reflexivity. Qed.

(** Scenario 4: with two workers A and B get a queue each, C and D are
    bound to the queues of A and B in turn, and no third queue exists. *)
Example scenario_round_robin :
  let b := dispatched ["A"; "B"; "C"; "D"; "E"] in
  BaseWSClient.map_instrument_queue b !! "A" = Some 0%nat
  /\ BaseWSClient.map_instrument_queue b !! "B" = Some 1%nat
  /\ BaseWSClient.map_instrument_queue b !! "C" = Some 0%nat
  /\ BaseWSClient.map_instrument_queue b !! "D" = Some 1%nat
  /\ BaseWSClient.map_instrument_queue b !! "E" = Some 0%nat
  /\ BaseWSClient.queue_object_caches b = [0%nat; 1%nat]
  /\ BaseWSClient.workers b = [0%nat; 1%nat]
  /\ length (BaseWSClient.queues b) = 2%nat.
Proof. repeat split; vm_compute; reflexivity. Qed.

(** With no worker configured nothing can be dispatched: the cycle over the
    empty pool is exhausted at once. *)
Example dispatch_without_workers :
  let env0 :=
    {| SPIDER_CONSUMER_WORKERS := 0%Z;
       InstrumentConverter_to_system := fun instId => instId;
       get_expired_from_instrument_name := fun _ => inr None;
       get_subject_by := fun _ => Some "SPOT" |} in
  fst (@BaseWSClient.task_dispatch env0 "A" (work "A") base0) = inl RuntimeError
  /\ BaseWSClient.queue_object_caches (snd (@BaseWSClient.task_dispatch env0 "A" (work "A") base0))
     = [].
Proof. split; vm_compute; reflexivity. Qed.

(** * Further properties of the spider and of its readers *)

Import FeedScenario.

(** ** Strings and topics *)
Module TextFacts.

Lemma append_cons (c : ascii) (a b : string) :
  (String c a ++ b)%string = String c (a ++ b)%string.
Proof. reflexivity. Qed.

Lemma append_nil_l (b : string) : (EmptyString ++ b)%string = b.
Proof. reflexivity. Qed.

Lemma append_assoc (a b c : string) : ((a ++ b) ++ c)%string = (a ++ (b ++ c))%string.
Proof. induction a as [|x a IH]; [reflexivity | now rewrite !append_cons, IH]. Qed.

(** Appends to a literal are computed. *)
Ltac str_simpl := repeat (rewrite ?append_cons, ?append_nil_l; simpl).

Lemma upper_app (a b : string) : PyStr.upper (a ++ b) = (PyStr.upper a ++ PyStr.upper b)%string.
Proof.
  induction a as [|c a IH]; [reflexivity|].
  rewrite append_cons. simpl. now rewrite IH, append_cons.
Qed.

Lemma append_nil_r (a : string) : (a ++ EmptyString)%string = a.
Proof. induction a as [|c a IH]; [reflexivity | now rewrite append_cons, IH]. Qed.

Lemma upper_ascii_dot (c : ascii) :
  Ascii.eqb (PyStr.upper_ascii c) "." = Ascii.eqb c ".".
Proof. destruct c as [[] [] [] [] [] [] [] []]; reflexivity. Qed.

Lemma has_dot_upper (s : string) : PyText.has "." (PyStr.upper s) = PyText.has "." s.
Proof.
  induction s as [|c s IH]; simpl; [reflexivity|].
  now rewrite upper_ascii_dot, IH.
Qed.

Lemma split_cons (sep : ascii) (s : string) : exists piece pieces, PyText.split sep s = piece :: pieces.
Proof.
  destruct s as [|c s]; simpl; [eauto|].
  destruct (Ascii.eqb c sep); [eauto|].
  destruct (PyText.split sep s); eauto.
Qed.

Lemma split_without (sep : ascii) (s : string) :
  PyText.has sep s = false -> PyText.split sep s = [s].
Proof.
  induction s as [|c s IH]; simpl; [reflexivity|].
  intros Hs. apply orb_false_iff in Hs as [Hc Hs].
  rewrite Hc, (IH Hs). reflexivity.
Qed.

Lemma split_app (sep : ascii) (a b : string) :
  PyText.has sep a = false ->
  PyText.split sep (a ++ String sep b) = a :: PyText.split sep b.
Proof.
  induction a as [|c a IH]; simpl.
  - intros _. now rewrite Ascii.eqb_refl.
  - intros Hs. apply orb_false_iff in Hs as [Hc Hs].
    rewrite Hc, (IH Hs). reflexivity.
Qed.

(** Splitting undoes joining when no piece holds the separator. *)
Lemma split_join (sep : ascii) (pieces : list string) :
  pieces <> [] ->
  Forall (fun piece => PyText.has sep piece = false) pieces ->
  PyText.split sep (PyText.join sep pieces) = pieces.
Proof.
  induction pieces as [|p ps IH]; [congruence|].
  intros _ Hall. inversion Hall as [|? ? Hp Hps]; subst.
  destruct ps as [|p' ps].
  - simpl. now apply split_without.
  - change (PyText.join sep (p :: p' :: ps))
      with (p ++ String sep (PyText.join sep (p' :: ps)))%string.
    rewrite split_app by exact Hp.
    rewrite IH by (congruence || assumption). reflexivity.
Qed.

Lemma before_dash_split (s : string) :
  PyStr.before_dash s = hd EmptyString (PyText.split "-" s).
Proof.
  induction s as [|c s IH]; simpl; [reflexivity|].
  destruct (Ascii.eqb c "-"); [reflexivity|].
  destruct (split_cons "-" s) as (p & ps & E). rewrite E in *. simpl in *. now rewrite IH.
Qed.

Lemma has_before_dash (c : ascii) (s : string) :
  PyText.has c s = false -> PyText.has c (PyStr.before_dash s) = false.
Proof.
  induction s as [|c' s IH]; simpl; [reflexivity|].
  intros Hs. apply orb_false_iff in Hs as [Hc Hs].
  destruct (Ascii.eqb c' "-"); simpl; [reflexivity|].
  now rewrite Hc, IH.
Qed.

Lemma upper_ascii_idem (c : ascii) :
  PyStr.upper_ascii (PyStr.upper_ascii c) = PyStr.upper_ascii c.
Proof. destruct c as [[] [] [] [] [] [] [] []]; reflexivity. Qed.

Lemma upper_idem (s : string) : PyStr.upper (PyStr.upper s) = PyStr.upper s.
Proof. induction s as [|c s IH]; simpl; [reflexivity | now rewrite upper_ascii_idem, IH]. Qed.

Lemma upper_ascii_dash (c : ascii) :
  Ascii.eqb (PyStr.upper_ascii c) "-" = Ascii.eqb c "-".
Proof. destruct c as [[] [] [] [] [] [] [] []]; reflexivity. Qed.

Lemma upper_before_dash (s : string) :
  PyStr.upper (PyStr.before_dash s) = PyStr.before_dash (PyStr.upper s).
Proof.
  induction s as [|c s IH]; simpl; [reflexivity|].
  rewrite upper_ascii_dash. destruct (Ascii.eqb c "-"); simpl; [reflexivity | now rewrite IH].
Qed.

(** The topics as lists of components. *)
Lemma data_source_topic_pieces (exchange : string) (subject : option string)
    (currency instrument_name data_type : string) :
  generate_data_source_topic exchange subject currency instrument_name data_type =
  PyText.join "."
    ["EXECUTE_ENGINE"; "SPIDER"; PyStr.upper exchange; PyStr.upper (PyStr.format_opt subject);
     PyStr.upper currency; PyStr.upper instrument_name; PyStr.upper data_type]%string.
Proof.
  unfold generate_data_source_topic, PyStr.concat. simpl fold_right.
  rewrite !upper_app. str_simpl. rewrite append_nil_r. reflexivity.
Qed.

Ltac topic_pieces :=
  unfold PyStr.concat; simpl fold_right;
  rewrite ?upper_app; rewrite ?append_assoc; str_simpl; rewrite ?append_nil_r; reflexivity.

Lemma exchange_hub_topic_pieces (account_id exchange method currency : string)
    (subject : option string) :
  Topic.generate_exchange_hub_topic account_id exchange method currency subject =
  PyText.join "."
    (["EXECUTE_ENGINE"; "ACCOUNT"; PyStr.upper exchange; PyStr.upper account_id;
      PyStr.upper method; PyStr.upper currency]%string
     ++ match subject with
        | Some s => if PyText.nonempty s then [PyStr.upper s] else []
        | None => []
        end).
Proof.
  unfold Topic.generate_exchange_hub_topic.
  destruct subject as [s|]; [destruct (PyText.nonempty s)|]; topic_pieces.
Qed.

Lemma order_manager_topic_pieces (account_id exchange subject currency order_id method : string) :
  Topic.generate_order_manager_topic account_id exchange subject currency order_id method =
  PyText.join "."
    ["EXECUTE_ENGINE"; "ORDER_MANAGER"; PyStr.upper method; PyStr.upper exchange;
     PyStr.upper subject; PyStr.upper currency; PyStr.upper account_id;
     PyStr.upper order_id]%string.
Proof. unfold Topic.generate_order_manager_topic. topic_pieces. Qed.

Lemma raw_order_manager_topic_pieces
    (account_id exchange subject currency order_id method : string) :
  Topic.generate_raw_order_manager_topic account_id exchange subject currency order_id method =
  PyText.join "."
    ["EXECUTE_ENGINE"; "RAW_ORDER_MANAGER"; PyStr.upper method; PyStr.upper exchange;
     PyStr.upper subject; PyStr.upper currency; PyStr.upper account_id;
     PyStr.upper order_id]%string.
Proof. unfold Topic.generate_raw_order_manager_topic. topic_pieces. Qed.

Lemma fee_rate_topic_pieces (account_id exchange subject : string) :
  Topic.generate_fee_rate_topic account_id exchange subject =
  PyText.join "."
    ["EXECUTE_ENGINE"; "ACCOUNT"; PyStr.upper exchange; PyStr.upper subject;
     PyStr.upper account_id; "FEE_RATE"]%string.
Proof. unfold Topic.generate_fee_rate_topic. topic_pieces. Qed.

(** What [startswith] finds at the head of a joined topic. *)
Lemma join_cons2 (p q : string) (rest : list string) :
  PyText.join "." (p :: q :: rest) = (p ++ String "." (PyText.join "." (q :: rest)))%string.
Proof. reflexivity. Qed.

Ltac no_dots :=
  repeat constructor; rewrite ?has_dot_upper; try assumption; try reflexivity.

End TextFacts.

Import TextFacts.

(** X1.  A data-source topic whose exchange, subject, currency and
    instrument name hold no dot splits into its seven upper-cased
    components, and [parse_topic_type] reads the data type back from it.
    The parsers of account topics answer ["-"] on it. *)
Theorem data_source_topic_round_trip (exchange : string) (subject : option string)
    (currency instrument_name data_type : string) :
  PyText.has "." exchange = false ->
  PyText.has "." (PyStr.format_opt subject) = false ->
  PyText.has "." currency = false ->
  PyText.has "." instrument_name = false ->
  PyText.has "." data_type = false ->
  let topic := generate_data_source_topic exchange subject currency instrument_name data_type in
  PyText.split "." topic =
    ["EXECUTE_ENGINE"; "SPIDER"; PyStr.upper exchange; PyStr.upper (PyStr.format_opt subject);
     PyStr.upper currency; PyStr.upper instrument_name; PyStr.upper data_type]%string
  /\ Topic.parse_topic_type topic = inr (PyStr.upper data_type)
  /\ Topic.parse_topic_get_exchange topic = inr "-"%string
  /\ Topic.parse_topic_get_currency topic = inr "-"%string.
Proof.
  intros He Hs Hc Hn Hd topic.
  assert (Hsplit : PyText.split "." topic =
    ["EXECUTE_ENGINE"; "SPIDER"; PyStr.upper exchange; PyStr.upper (PyStr.format_opt subject);
     PyStr.upper currency; PyStr.upper instrument_name; PyStr.upper data_type]%string).
  { subst topic. rewrite data_source_topic_pieces. apply split_join; [congruence|]. no_dots. }
  split; [exact Hsplit|].
  unfold Topic.parse_topic_type, Topic.parse_topic_get_exchange, Topic.parse_topic_get_currency,
    Topic.component.
  rewrite Hsplit. subst topic. rewrite data_source_topic_pieces.
  rewrite !join_cons2. str_simpl. repeat split; reflexivity.
Qed.

Lemma data_source_topic_round_trip_witness :
  Topic.parse_topic_type
    (generate_data_source_topic "okex" (Some "SPOT") "btc" "btc-usdt" "book")
  = inr "BOOK"%string.
Proof.
  apply (data_source_topic_round_trip "okex" (Some "SPOT") "btc" "btc-usdt" "book");
    reflexivity.
Defined.

(** X2.  An account topic made by [generate_exchange_hub_topic] from
    an exchange, an account id and a method that hold no dot gives the
    exchange back to [parse_topic_get_exchange] and the method to
    [parse_topic_type].  [parse_topic_get_currency] reads the last
    component: the currency when no subject was given (or an empty one), the
    subject otherwise. *)
Theorem exchange_hub_topic_round_trip (account_id exchange method currency : string)
    (subject : option string) :
  PyText.has "." exchange = false ->
  PyText.has "." account_id = false ->
  PyText.has "." method = false ->
  PyText.has "." currency = false ->
  let topic := Topic.generate_exchange_hub_topic account_id exchange method currency subject in
  Topic.parse_topic_get_exchange topic = inr (PyStr.upper exchange)
  /\ Topic.parse_topic_type topic = inr (PyStr.upper method)
  /\ match subject with
     | None => Topic.parse_topic_get_currency topic = inr (PyStr.upper currency)
     | Some s =>
         if PyText.nonempty s
         then PyText.has "." s = false ->
              Topic.parse_topic_get_currency topic = inr (PyStr.upper s)
         else Topic.parse_topic_get_currency topic = inr (PyStr.upper currency)
     end.
Proof.
  intros He Ha Hm Hc topic.
  assert (Hhead : PyText.startswith "EXECUTE_ENGINE.ACCOUNT" topic = true).
  { subst topic. rewrite exchange_hub_topic_pieces. cbn [app]. rewrite !join_cons2.
    str_simpl. reflexivity. }
  unfold Topic.parse_topic_get_exchange, Topic.parse_topic_type,
    Topic.parse_topic_get_currency, Topic.component.
  rewrite Hhead. subst topic. rewrite exchange_hub_topic_pieces.
  destruct subject as [s|]; [destruct (PyText.nonempty s) eqn:Es|]; cbn [app].
  - split; [|split].
    + rewrite !join_cons2, !split_app by (rewrite ?has_dot_upper; assumption || reflexivity).
      reflexivity.
    + rewrite !join_cons2, !split_app by (rewrite ?has_dot_upper; assumption || reflexivity).
      reflexivity.
    + intros Hs. rewrite split_join by (congruence || no_dots). reflexivity.
  - rewrite split_join by (congruence || no_dots). repeat split; reflexivity.
  - rewrite split_join by (congruence || no_dots). repeat split; reflexivity.
Qed.

Lemma exchange_hub_topic_round_trip_witness :
  PyText.has "." "okex" = false
  /\ PyText.has "." "acct7" = false
  /\ PyText.has "." "position" = false
  /\ PyText.has "." "btc" = false
  /\ Topic.parse_topic_get_exchange
       (Topic.generate_exchange_hub_topic "acct7" "okex" "position" "btc" (Some "SWAP_USD"))
     = inr "OKEX"%string
  /\ Topic.parse_topic_type
       (Topic.generate_exchange_hub_topic "acct7" "okex" "position" "btc" (Some "SWAP_USD"))
     = inr "POSITION"%string
  /\ Topic.parse_topic_get_currency
       (Topic.generate_exchange_hub_topic "acct7" "okex" "position" "btc" (Some "SWAP_USD"))
     = inr "SWAP_USD"%string.
Proof.
  do 4 (split; [reflexivity|]).
  pose proof (exchange_hub_topic_round_trip "acct7" "okex" "position" "btc" (Some "SWAP_USD")
                eq_refl eq_refl eq_refl eq_refl) as (A & B & C).
  split; [exact A|]. split; [exact B|]. exact (C eq_refl).
Defined.

(** X3.  Of the other topics, [parse_topic_type] reads the method of
    an order-manager topic and of a raw order-manager topic; the topics of
    the book order manager and of the open order manager are not among the
    prefixes it knows and give ["-"]; a fee-rate topic is an account topic,
    so that its fifth component is returned, which is the account id. *)
Theorem parse_topic_type_of_topics (account_id exchange subject currency order_id method : string) :
  (PyText.has "." method = false ->
   Topic.parse_topic_type
     (Topic.generate_order_manager_topic account_id exchange subject currency order_id method)
   = inr (PyStr.upper method)
   /\ Topic.parse_topic_type
        (Topic.generate_raw_order_manager_topic account_id exchange subject currency order_id
           method)
      = inr (PyStr.upper method))
  /\ Topic.parse_topic_type
       (Topic.generate_book_order_manager_topic account_id exchange subject currency order_id
          method)
     = inr "-"%string
  /\ Topic.parse_topic_type
       (Topic.generate_open_order_manager_topic account_id subject currency order_id method)
     = inr "-"%string
  /\ (PyText.has "." exchange = false -> PyText.has "." subject = false ->
      PyText.has "." account_id = false ->
      Topic.parse_topic_type (Topic.generate_fee_rate_topic account_id exchange subject)
      = inr (PyStr.upper account_id)).
Proof.
  split; [|split; [|split]].
  - intros Hm. unfold Topic.parse_topic_type, Topic.component.
    rewrite order_manager_topic_pieces, raw_order_manager_topic_pieces.
    rewrite !join_cons2.
    rewrite !(split_app "." "EXECUTE_ENGINE") by reflexivity.
    rewrite (split_app "." "ORDER_MANAGER"), (split_app "." "RAW_ORDER_MANAGER") by reflexivity.
    rewrite !(split_app "." (PyStr.upper method)) by (rewrite has_dot_upper; assumption).
    str_simpl. split; reflexivity.
  - unfold Topic.parse_topic_type, Topic.generate_book_order_manager_topic, PyStr.concat.
    simpl fold_right. rewrite upper_app. str_simpl. reflexivity.
  - unfold Topic.parse_topic_type, Topic.generate_open_order_manager_topic, PyStr.concat.
    simpl fold_right. rewrite upper_app. str_simpl. reflexivity.
  - intros He Hs Ha. unfold Topic.parse_topic_type, Topic.component.
    rewrite fee_rate_topic_pieces.
    rewrite split_join by (congruence || no_dots).
    rewrite !join_cons2. str_simpl. reflexivity.
Qed.

Lemma parse_topic_type_of_topics_witness :
  Topic.parse_topic_type
    (Topic.generate_order_manager_topic "acct7" "okex" "spot" "btc" "1700000000000000110" "parent")
  = inr "PARENT"%string
  /\ Topic.parse_topic_type (Topic.generate_fee_rate_topic "acct7" "okex" "All")
     = inr "ACCT7"%string.
Proof.
  pose proof (parse_topic_type_of_topics "acct7" "okex" "All" "btc" "1700000000000000110" "parent")
    as (A & _ & _ & D).
  split; [exact (proj1 (A eq_refl)) | exact (D eq_refl eq_refl eq_refl)].
Defined.

(** ** The shape of the replicas and of their published view *)
Module ReplicaFacts.

Import FloatFacts DictFacts UpdateFacts SortFacts OrderFacts BookFacts.

(** What the first half of [handle_books] leaves: the client as it was, the
    book of the last element of a snapshot, or the replica after all
    elements of an update. *)
Lemma apply_books_result `{Environment} (m : OkexWSClient.books_message) (s : OkexWSClient.t) :
  let name := InstrumentConverter_to_system (OkexWSClient.instId m) in
  snd (OkexWSClient.apply_books m s) = s
  \/ (exists info items last ob,
        OkexWSClient.instruments_info s !! OkexWSClient.instId m = Some info
        /\ OkexWSClient.data m = items ++ [last]
        /\ OkexWSClient.snapshot_of (OkexWSClient.orderbook_max_depth s) s
             (OkexWSClient.contract_size_of info) name last = inr ob
        /\ snd (OkexWSClient.apply_books m s) = OkexWSClient.with_replica name ob s)
  \/ (exists info ob,
        OkexWSClient.instruments_info s !! OkexWSClient.instId m = Some info
        /\ OkexWSClient.replica name s = Some ob
        /\ snd (OkexWSClient.apply_books m s) =
           OkexWSClient.with_replica name
             (OkexWSClient.update_items (OkexWSClient.contract_size_of info)
                (OkexWSClient.data m) ob) s).
Proof.
  intros name.
  destruct (OkexWSClient.instruments_info s !! OkexWSClient.instId m) as [info|] eqn:Hi.
  2: { left. rewrite (apply_books_no_info _ _ Hi). reflexivity. }
  destruct (OkexWSClient.is_snapshot m) eqn:Hsnap.
  - rewrite (apply_books_snapshot _ _ _ Hi Hsnap). fold name.
    destruct (OkexWSClient.data m) as [|i0 items0 _] using rev_ind; [left; reflexivity|].
    rewrite snapshot_items_run.
    destruct (OkexWSClient.snapshot_of _ _ _ _ _) as [e|ob] eqn:E; [left; reflexivity|].
    right; left. exists info, items0, i0, ob. auto.
  - destruct (OkexWSClient.replica name s) as [ob|] eqn:Hob.
    + right; right. rewrite (apply_books_update_some _ _ _ _ Hi Hsnap Hob). eauto.
    + left. rewrite (apply_books_update _ _ _ Hi Hsnap). fold name.
      destruct (OkexWSClient.data m) as [|u data]; [reflexivity|].
      rewrite for_each_cons.
      destruct (update_body_none name (OkexWSClient.contract_size_of info) u s Hob) as [e ->].
      reflexivity.
Qed.

Lemma snapshot_of_order `{Environment} (top : nat) (s : OkexWSClient.t) (cs : float)
    (name : string) (item : OkexWSClient.book_item) (ob : FastOrderBook.t) :
  OkexWSClient.snapshot_of top s cs name item = inr ob ->
  SortedDict.order (FastOrderBook.asks ob) = SortedDict.ASCENDING
  /\ SortedDict.order (FastOrderBook.bids ob) = SortedDict.DESCENDING.
Proof.
  unfold OkexWSClient.snapshot_of, FastOrderBook.init.
  destruct (get_expired_from_instrument_name name); [discriminate|].
  intros [= <-]. split; reflexivity.
Qed.

Lemma Forall_levels_of (P : float * float -> Prop) (sd : side)
    (items : list OkexWSClient.book_item) (item : OkexWSClient.book_item) :
  Forall P (OkexWSClient.all_levels sd items) -> In item items ->
  Forall P (OkexWSClient.levels_of sd item).
Proof.
  unfold OkexWSClient.all_levels. intros Hall Hin.
  apply List.Forall_forall. intros x Hx.
  rewrite List.Forall_forall in Hall. apply Hall.
  apply in_flat_map. exists item. split; assumption.
Qed.

Lemma well_formed_update_items (cs : float) (data : list OkexWSClient.book_item)
    (ob : FastOrderBook.t) :
  (forall sd, Forall (fun lv => is_nan (fst lv) = false) (OkexWSClient.all_levels sd data)) ->
  Replica.well_formed ob ->
  Replica.well_formed (OkexWSClient.update_items cs data ob).
Proof.
  intros Hnum (Ha & Hb & Hwf).
  destruct (update_items_annotations cs data ob) as (_ & _ & _ & _ & _ & _ & _ & _ & _ & Ho & _).
  split; [|split].
  - rewrite <- Ha. apply (Ho Asks).
  - rewrite <- Hb. apply (Ho Bids).
  - intros sd. rewrite update_items_data. apply wf_apply_levels; [apply Hwf | apply Hnum].
Qed.

Lemma length_sort (l : list (float * float)) : length (SortedDict.sort l) = length l.
Proof. apply Permutation_length, sort_perm. Qed.

Lemma length_ordered (sd : SortedDict.t) :
  length (SortedDict.ordered sd) = length (SortedDict.data sd).
Proof.
  unfold SortedDict.ordered. destruct (SortedDict.order sd);
    rewrite ?length_rev, length_sort; reflexivity.
Qed.

Lemma length_to_list (sd : SortedDict.t) : length (SortedDict.to_list sd) = Replica.shown sd.
Proof.
  unfold SortedDict.to_list, Replica.shown.
  destruct (SortedDict.depth sd) as [|d].
  - apply length_ordered.
  - rewrite length_firstn, length_ordered. reflexivity.
Qed.

Lemma in_ordered (x : float * float) (sd : SortedDict.t) :
  In x (SortedDict.ordered sd) <-> In x (SortedDict.data sd).
Proof.
  unfold SortedDict.ordered. destruct (SortedDict.order sd).
  - apply in_sort.
  - rewrite <- in_rev. apply in_sort.
Qed.

Lemma StronglySorted_app {A} (R : A -> A -> Prop) (l1 l2 : list A) :
  StronglySorted R (l1 ++ l2) -> forall a b, In a l1 -> In b l2 -> R a b.
Proof.
  induction l1 as [|h l1 IH]; cbn [app]; intros Hs a b Ha Hb; [destruct Ha|].
  inversion Hs as [|? ? Hs' Hall]; subst.
  destruct Ha as [<- | Ha].
  - rewrite List.Forall_forall in Hall. apply Hall. apply in_or_app. right. exact Hb.
  - eapply IH; eauto.
Qed.

Lemma price_lt_trans : Relations_1.Transitive SortedDict.price_lt.
Proof. intros a b c. unfold SortedDict.price_lt. apply ltb_trans. Qed.

Lemma price_gt_trans : Relations_1.Transitive SortedDict.price_gt.
Proof. intros a b c Hab Hbc. unfold SortedDict.price_gt in *. eapply ltb_trans; eauto. Qed.

Lemma ordered_sorted_strict (sd : SortedDict.t) :
  PyDict.wf (SortedDict.data sd) ->
  match SortedDict.order sd with
  | SortedDict.ASCENDING => Sorted SortedDict.price_lt (SortedDict.ordered sd)
  | SortedDict.DESCENDING => Sorted SortedDict.price_gt (SortedDict.ordered sd)
  end.
Proof.
  intros Hwf. unfold SortedDict.ordered. destruct (SortedDict.order sd).
  - apply sort_Sorted_strict, Hwf.
  - apply (Sorted_rev SortedDict.price_lt), sort_Sorted_strict, Hwf.
Qed.

(** A level that the view leaves out is behind every level it shows. *)
Lemma to_list_best (sd : SortedDict.t) (x y : float * float) :
  PyDict.wf (SortedDict.data sd) ->
  In x (SortedDict.data sd) -> ~ In x (SortedDict.to_list sd) -> In y (SortedDict.to_list sd) ->
  match SortedDict.order sd with
  | SortedDict.ASCENDING => SortedDict.price_lt y x
  | SortedDict.DESCENDING => SortedDict.price_gt y x
  end.
Proof.
  intros Hwf Hx Hnot Hy.
  pose proof (ordered_sorted_strict sd Hwf) as Hsorted.
  apply in_ordered in Hx.
  unfold SortedDict.to_list in *.
  destruct (SortedDict.depth sd) as [|d]; [contradiction|].
  rewrite <- (firstn_skipn (S d) (SortedDict.ordered sd)) in Hx, Hsorted.
  apply in_app_or in Hx as [Hx|Hx]; [contradiction|].
  destruct (SortedDict.order sd).
  - apply (Sorted_StronglySorted price_lt_trans) in Hsorted.
    eapply StronglySorted_app; eauto.
  - apply (Sorted_StronglySorted price_gt_trans) in Hsorted.
    eapply StronglySorted_app; eauto.
Qed.

End ReplicaFacts.

Import FloatFacts DictFacts UpdateFacts SortFacts OrderFacts BookFacts ReplicaFacts.

(** X4.  The dict [to_json()] returns for a replica of the usual shape
    lists the asks by strictly ascending and the bids by strictly descending
    price; each side shows as many levels as the replica holds, up to the
    configured depth; every level shown is a level of the replica, and a
    level of the replica that is not shown is at a worse price than every
    level shown. *)
Theorem published_view_is_best_first (ob : FastOrderBook.t) (msg_ms : Z) :
  Replica.well_formed ob ->
  let j := FastOrderBook.to_json 0 msg_ms ob in
  Sorted SortedDict.price_lt (FastOrderBook.j_asks j)
  /\ Sorted SortedDict.price_gt (FastOrderBook.j_bids j)
  /\ (forall sd,
        length (OkexWSClient.json_side sd j) = Replica.shown (FastOrderBook.getitem sd ob))
  /\ (forall sd x,
        In x (OkexWSClient.json_side sd j) ->
        In x (SortedDict.data (FastOrderBook.getitem sd ob)))
  /\ (forall sd x y,
        In x (SortedDict.data (FastOrderBook.getitem sd ob)) ->
        ~ In x (OkexWSClient.json_side sd j) ->
        In y (OkexWSClient.json_side sd j) ->
        Replica.better sd y x).
Proof.
  intros (Ha & Hb & Hwf) j.
  assert (Hside : forall sd,
            OkexWSClient.json_side sd j = SortedDict.to_list (FastOrderBook.getitem sd ob)).
  { intros []; reflexivity. }
  split; [|split; [|split; [|split]]].
  - pose proof (to_list_sorted_strict (FastOrderBook.asks ob) (Hwf Asks)) as Hs.
    rewrite Ha in Hs. exact Hs.
  - pose proof (to_list_sorted_strict (FastOrderBook.bids ob) (Hwf Bids)) as Hs.
    rewrite Hb in Hs. exact Hs.
  - intros sd. rewrite Hside. apply length_to_list.
  - intros sd x. rewrite Hside. apply in_to_list.
  - intros sd x y Hx Hnot Hy. rewrite Hside in Hnot, Hy.
    pose proof (to_list_best _ x y (Hwf sd) Hx Hnot Hy) as Hbest.
    destruct sd; cbn [FastOrderBook.getitem] in Hbest.
    + rewrite Hb in Hbest. exact Hbest.
    + rewrite Ha in Hbest. exact Hbest.
Qed.

(** X4 on the book of X-USDT. *)
Lemma published_view_is_best_first_witness :
  Replica.well_formed book_X
  /\ Sorted SortedDict.price_lt (FastOrderBook.j_asks (FastOrderBook.to_json 0 5 book_X))
  /\ length (OkexWSClient.json_side Bids (FastOrderBook.to_json 0 5 book_X))
     = Replica.shown (FastOrderBook.getitem Bids book_X).
Proof.
  assert (Hwf : Replica.well_formed book_X).
  { split; [reflexivity|]. split; [reflexivity|]. intros []; cbn; repeat split; constructor. }
  split; [exact Hwf|].
  destruct (published_view_is_best_first book_X 5 Hwf) as (Ha & _ & Hl & _).
  split; [exact Ha | apply Hl].
Defined.

(** X5.  Handling a frame of a books channel whose prices are numbers
    keeps the shape of every replica: asks ascending, bids descending, no
    price twice on a side.  This holds whether the handler returns or
    raises. *)
Theorem handle_books_keeps_shape `{Environment} (s : OkexWSClient.t)
    (m : OkexWSClient.books_message) (msg_ms : Z) :
  (forall name ob, OkexWSClient.replica name s = Some ob -> Replica.well_formed ob) ->
  Replica.prices_are_numbers m ->
  forall name ob,
    OkexWSClient.replica name (snd (OkexWSClient.handle_books msg_ms m s)) = Some ob ->
    Replica.well_formed ob.
Proof.
  intros Hinv Hnum name ob.
  destruct (handle_books_manager msg_ms m s) as (Hsame & _).
  rewrite (replica_same_books name _ _ Hsame).
  set (n := InstrumentConverter_to_system (OkexWSClient.instId m)).
  destruct (apply_books_result m s)
    as [-> | [(info & items & last & ob1 & Hi & Hd & Hsnap & ->)
             | (info & ob0 & Hi & Hob0 & ->)]].
  - apply Hinv.
  - fold n. destruct (String.eqb_spec n name) as [<- | Hne].
    + rewrite replica_with_replica. intros [= <-].
      destruct (snapshot_of_order _ _ _ _ _ _ Hsnap) as (Ha & Hb).
      split; [exact Ha|]. split; [exact Hb|].
      intros sd. eapply snapshot_of_wf; [exact Hsnap|].
      apply (Forall_levels_of _ sd (OkexWSClient.data m)); [apply Hnum|].
      rewrite Hd. apply in_or_app. right. left. reflexivity.
    + rewrite replica_with_replica_ne by exact Hne. apply Hinv.
  - fold n. destruct (String.eqb_spec n name) as [<- | Hne].
    + rewrite replica_with_replica. intros [= <-].
      apply well_formed_update_items; [apply Hnum | eapply Hinv; exact Hob0].
    + rewrite replica_with_replica_ne by exact Hne. apply Hinv.
Qed.

(** X5 on an update of X-USDT, for the client that holds its snapshot. *)
Lemma handle_books_keeps_shape_witness :
  (forall name ob, OkexWSClient.replica name client1 = Some ob -> Replica.well_formed ob)
  /\ Replica.prices_are_numbers levels_once
  /\ exists ob,
       OkexWSClient.replica "X-USDT" (snd (@OkexWSClient.handle_books env 1 levels_once client1))
       = Some ob
       /\ Replica.well_formed ob.
Proof.
  assert (Hinv : forall name ob,
            OkexWSClient.replica name client1 = Some ob -> Replica.well_formed ob).
  { intros name ob.
    replace (OkexWSClient.replica name client1)
      with (({[ "X-USDT"%string := book_X ]} : gmap string FastOrderBook.t) !! name)
      by (vm_compute; reflexivity).
    intros [_ <-]%lookup_singleton_Some.
    split; [reflexivity|]. split; [reflexivity|]. intros []; cbn; repeat split; constructor. }
  assert (Hnum : Replica.prices_are_numbers levels_once).
  { intros []; cbn; repeat constructor. }
  split; [exact Hinv|]. split; [exact Hnum|].
  eexists. split; [vm_compute; reflexivity|].
  apply (@handle_books_keeps_shape env client1 levels_once 1 Hinv Hnum "X-USDT").
  vm_compute. reflexivity.
Defined.

(** X6.  [handle_books] writes to the replica of the instrument of its
    frame and to the dispatcher, and to nothing else: the replicas of the
    other instruments, the cache, the log, the expiry tables, the freshness
    mark and the instrument table are as they were, whether it returns or
    raises. *)
Theorem handle_books_touches_one_replica `{Environment} (s : OkexWSClient.t)
    (m : OkexWSClient.books_message) (msg_ms : Z) :
  let s' := snd (OkexWSClient.handle_books msg_ms m s) in
  (forall name, name <> InstrumentConverter_to_system (OkexWSClient.instId m) ->
     OkexWSClient.replica name s' = OkexWSClient.replica name s)
  /\ BaseWSClient.redis (OkexWSClient.base s') = BaseWSClient.redis (OkexWSClient.base s)
  /\ BaseWSClient.log (OkexWSClient.base s') = BaseWSClient.log (OkexWSClient.base s)
  /\ BaseWSClient.expiration_at (OkexWSClient.base s')
     = BaseWSClient.expiration_at (OkexWSClient.base s)
  /\ BaseWSClient.expiration_days (OkexWSClient.base s')
     = BaseWSClient.expiration_days (OkexWSClient.base s)
  /\ BaseWSClient.last_updated_at (OkexWSClient.base s')
     = BaseWSClient.last_updated_at (OkexWSClient.base s)
  /\ OkexWSClient.instruments_info s' = OkexWSClient.instruments_info s
  /\ OkexWSClient.orderbook_max_depth s' = OkexWSClient.orderbook_max_depth s.
Proof.
  intros s'.
  destruct (handle_books_manager msg_ms m s) as (Hsame & _).
  destruct (handle_books_static msg_ms m s) as (Htop & Hinfo & _).
  fold s' in Hsame, Htop, Hinfo.
  pose proof Hsame as (_ & Hl & Hea & Hed & Hr & Hlog).
  split.
  { intros name Hne. rewrite (replica_same_books name _ _ Hsame).
    destruct (apply_books_cases m s) as [-> | [ob ->]]; [reflexivity|].
    apply replica_with_replica_ne. congruence. }
  rewrite Hr, Hlog, Hea, Hed, Hl.
  destruct (apply_books_cases m s) as [-> | [ob ->]]; repeat split; assumption.
Qed.

(** ** The consumers and the reader of the cache *)
Module ConsumerFacts.

Lemma iter_shift {A} (f : A -> A) (n : nat) (x : A) : Nat.iter (S n) f x = Nat.iter n f (f x).
Proof.
  induction n as [|n IH]; [reflexivity|].
  change (Nat.iter (S (S n)) f x) with (f (Nat.iter (S n) f x)).
  rewrite IH. reflexivity.
Qed.

Lemma consumer_worker_turn_some (queue : qref) (b : BaseWSClient.t) (f : BaseWSClient.fut)
    (rest : list BaseWSClient.fut) :
  BaseWSClient.queues b !! queue = Some (f :: rest) ->
  BaseWSClient.consumer_worker_turn queue b =
  (inr tt,
   BaseWSClient.with_redis
     (<[BaseWSClient.fut_topic f := BaseWSClient.fut_payload f]> (BaseWSClient.redis b))
     (BaseWSClient.with_queues (<[queue := rest]> (BaseWSClient.queues b)) b)).
Proof. intros Hq. unfold BaseWSClient.consumer_worker_turn. rewrite Hq. reflexivity. Qed.

Lemma cached_snoc (items : list BaseWSClient.fut) (f : BaseWSClient.fut)
    (redis : gmap string BaseWSClient.book_payload) :
  Consumer.cached (items ++ [f]) redis =
  <[BaseWSClient.fut_topic f := BaseWSClient.fut_payload f]> (Consumer.cached items redis).
Proof. unfold Consumer.cached. rewrite fold_left_app. reflexivity. Qed.

Lemma cached_lookup (items : list BaseWSClient.fut)
    (redis : gmap string BaseWSClient.book_payload) (topic : string) :
  Consumer.cached items redis !! topic =
  match Consumer.last_for topic items with
  | Some f => Some (BaseWSClient.fut_payload f)
  | None => redis !! topic
  end.
Proof.
  induction items as [|f items IH] using rev_ind; [reflexivity|].
  rewrite cached_snoc. unfold Consumer.last_for in *. rewrite rev_unit. cbn [List.find].
  destruct (String.eqb_spec (BaseWSClient.fut_topic f) topic) as [<- | Hne].
  - apply lookup_insert_eq.
  - rewrite lookup_insert_ne by exact Hne. exact IH.
Qed.

Lemma consumer_worker_turns_run (queue : qref) (items rest : list BaseWSClient.fut) :
  forall b : BaseWSClient.t,
  BaseWSClient.queues b !! queue = Some (items ++ rest) ->
  Consumer.consumer_worker_turns (length items) queue b =
  BaseWSClient.with_redis (Consumer.cached items (BaseWSClient.redis b))
    (BaseWSClient.with_queues (<[queue := rest]> (BaseWSClient.queues b)) b).
Proof.
  unfold Consumer.consumer_worker_turns.
  induction items as [|f items IH]; intros b Hq.
  - cbn [length Nat.iter Consumer.cached fold_left].
    rewrite list_insert_id by exact Hq. destruct b; reflexivity.
  - cbn [length]. rewrite iter_shift.
    rewrite (consumer_worker_turn_some queue b f (items ++ rest) Hq). cbn [snd].
    rewrite IH.
    + cbn. rewrite list_insert_insert_eq. reflexivity.
    + cbn. apply list_lookup_insert_eq. eapply lookup_lt_Some; exact Hq.
Qed.

End ConsumerFacts.

Import ConsumerFacts.

(** X7.  A consumer that takes the first [n] units of work off its
    queue sets their cache keys in the order in which they were queued:
    afterwards a topic holds the payload of the last of these units that
    was published under it (and what it held before when there is none),
    the queue holds the remaining units, and the other queues, the
    dispatcher and the replicas are as they were. *)
Theorem worker_publishes_in_order (queue : qref) (b : BaseWSClient.t)
    (items rest : list BaseWSClient.fut) :
  BaseWSClient.queues b !! queue = Some (items ++ rest) ->
  let b' := Consumer.consumer_worker_turns (length items) queue b in
  BaseWSClient.redis b' = Consumer.cached items (BaseWSClient.redis b)
  /\ (forall topic,
        BaseWSClient.redis b' !! topic =
        match Consumer.last_for topic items with
        | Some f => Some (BaseWSClient.fut_payload f)
        | None => BaseWSClient.redis b !! topic
        end)
  /\ BaseWSClient.queues b' !! queue = Some rest
  /\ (forall queue', queue' <> queue ->
        BaseWSClient.queues b' !! queue' = BaseWSClient.queues b !! queue')
  /\ BaseWSClient.map_instrument_queue b' = BaseWSClient.map_instrument_queue b
  /\ BaseWSClient.queue_object_caches b' = BaseWSClient.queue_object_caches b
  /\ BaseWSClient.orderbook_manager b' = BaseWSClient.orderbook_manager b.
Proof.
  intros Hq b'. subst b'. rewrite (consumer_worker_turns_run queue items rest b Hq).
  cbn. split; [reflexivity|]. split; [apply cached_lookup|].
  split; [apply list_lookup_insert_eq; eapply lookup_lt_Some; exact Hq|].
  split; [|auto].
  intros queue' Hne. apply list_lookup_insert_ne. congruence.
Qed.

(** X7 with two workers: A, B and A again were dispatched, and the worker of
    queue 0 takes the first unit of A. *)
Lemma worker_publishes_in_order_witness :
  BaseWSClient.queues (dispatched ["A"; "B"; "A"]%string) !! 0%nat
    = Some ([work "A"] ++ [work "A"])
  /\ BaseWSClient.redis (Consumer.consumer_worker_turns 1 0 (dispatched ["A"; "B"; "A"]%string))
       !! "A"%string
     = Some payload_X
  /\ BaseWSClient.queues (Consumer.consumer_worker_turns 1 0 (dispatched ["A"; "B"; "A"]%string))
       !! 0%nat
     = Some [work "A"].
Proof.
  split; [vm_compute; reflexivity|].
  destruct (worker_publishes_in_order 0 (dispatched ["A"; "B"; "A"]%string)
              [work "A"] [work "A"])
    as (_ & Hcache & Hrest & _); [vm_compute; reflexivity|].
  split; [exact (Hcache "A"%string) | exact Hrest].
Defined.

Module ReaderFacts.

Lemma upper_length (s : string) : String.length (PyStr.upper s) = String.length s.
Proof. induction s as [|c s IH]; simpl; [reflexivity | now rewrite IH]. Qed.

(** An appended string is its own upper case exactly when both parts are. *)
Lemma upper_fixed_app (a b : string) :
  PyStr.upper (a ++ b) = (a ++ b)%string <-> PyStr.upper a = a /\ PyStr.upper b = b.
Proof.
  rewrite upper_app. split.
  - induction a as [|c a IH]; rewrite ?append_nil_l, ?append_cons; simpl.
    + auto.
    + rewrite append_cons. intros [= Hc Hrest]. destruct (IH Hrest) as [Ha Hb].
      split; [congruence | exact Hb].
  - intros [-> ->]. reflexivity.
Qed.

Lemma orderbook_key_unfold `{Environment} (name : string) :
  OrderBookManager.orderbook_key name =
  ("EXECUTE_ENGINE.SPIDER.OKEX." ++
   (PyStr.format_opt (get_subject_by name) ++
    ("." ++ (PyStr.before_dash name ++ ("." ++ (name ++ ".BOOK"))))))%string.
Proof.
  reflexivity.
Qed.

Lemma build_topic_upper_key `{Environment} (name : string) :
  BaseWSClient.build_topic name = PyStr.upper (OrderBookManager.orderbook_key name).
Proof.
  rewrite orderbook_key_unfold.
  unfold BaseWSClient.build_topic, generate_data_source_topic, BaseWSClient.EXCHANGE,
    PyStr.concat.
  simpl fold_right. rewrite !upper_app. str_simpl. rewrite ?append_nil_r. reflexivity.
Qed.

(** The key of the reader is the topic of the writer when name and subject
    are in upper case, and only then. *)
Lemma key_is_topic_iff `{Environment} (name : string) :
  OrderBookManager.orderbook_key name = BaseWSClient.build_topic name
  <-> PyStr.upper name = name
      /\ PyStr.upper (PyStr.format_opt (get_subject_by name))
         = PyStr.format_opt (get_subject_by name).
Proof.
  rewrite build_topic_upper_key.
  split.
  - intros Heq. symmetry in Heq. rewrite orderbook_key_unfold in Heq.
    apply upper_fixed_app in Heq as (_ & Heq).
    apply upper_fixed_app in Heq as (Hs & Heq).
    apply upper_fixed_app in Heq as (_ & Heq).
    apply upper_fixed_app in Heq as (_ & Heq).
    apply upper_fixed_app in Heq as (_ & Heq).
    apply upper_fixed_app in Heq as (Hn & _).
    split; assumption.
  - intros (Hn & Hs). symmetry. rewrite orderbook_key_unfold.
    repeat (apply upper_fixed_app; split); try assumption; try reflexivity.
    rewrite upper_before_dash, Hn. reflexivity.
Qed.

Lemma same_dispatcher_apply_books `{Environment} (m : OkexWSClient.books_message)
    (s : OkexWSClient.t) :
  BaseWSClient.same_dispatcher (OkexWSClient.base s)
    (OkexWSClient.base (snd (OkexWSClient.apply_books m s))).
Proof.
  destruct (BookFacts.apply_books_cases m s) as [-> | [ob ->]];
    repeat split; reflexivity.
Qed.

Lemma reachable_apply_books `{Environment} (m : OkexWSClient.books_message)
    (s : OkexWSClient.t) :
  BaseWSClient.reachable (OkexWSClient.base s) ->
  BaseWSClient.reachable (OkexWSClient.base (snd (OkexWSClient.apply_books m s))).
Proof.
  intros (b0 & Hfresh & Hsteps). exists b0. split; [exact Hfresh|].
  eapply rtc_r; [exact Hsteps|].
  apply BaseWSClient.step_other, same_dispatcher_apply_books.
Qed.

(** A dispatch that returns has put the unit of work at the end of the
    queue the instrument is bound to afterwards. *)
Lemma task_dispatch_queued `{Environment} (name : string) (f : BaseWSClient.fut)
    (b : BaseWSClient.t) :
  BaseWSClient.refs_ok b ->
  fst (BaseWSClient.task_dispatch name f b) = inr tt ->
  exists queue items,
    BaseWSClient.map_instrument_queue (snd (BaseWSClient.task_dispatch name f b)) !! name
      = Some queue
    /\ BaseWSClient.queues (snd (BaseWSClient.task_dispatch name f b)) !! queue
       = Some (items ++ [f]).
Proof.
  intros (Hpool & Hmap & Hcyc) Hok.
  pose proof (DispatchFacts.task_dispatch_fields name f b) as F. cbv zeta in F.
  destruct (BaseWSClient.map_instrument_queue b !! name) as [q|] eqn:Hq.
  - destruct F as (_ & _ & _ & Fm & Fq & _).
    destruct (lookup_lt_is_Some_2 _ _ (Hmap _ _ Hq)) as [items Hitems].
    exists q, items. rewrite Fm, Fq. split; [exact Hq|].
    rewrite list_lookup_alter, decide_True by reflexivity. rewrite Hitems. reflexivity.
  - destruct (Z.of_nat (length (BaseWSClient.queue_object_caches b)) <? SPIDER_CONSUMER_WORKERS)%Z.
    + destruct F as (_ & _ & _ & Fm & Fq & _).
      exists (length (BaseWSClient.queues b)), []. rewrite Fm, Fq.
      split; [apply lookup_insert_eq|].
      rewrite list_lookup_alter, decide_True by reflexivity.
      rewrite lookup_app_r by reflexivity. rewrite Nat.sub_diag. reflexivity.
    + destruct (Cycle.next (BaseWSClient.queue_object_caches b) _) as [[q|] gen'] eqn:Hnext.
      * destruct F as (_ & _ & _ & Fm & Fq & _).
        assert (Hlt : (q < length (BaseWSClient.queues b))%nat).
        { eapply (DispatchFacts.cycle_next_refs
                    (fun q => q < length (BaseWSClient.queues b))%nat);
            [exact Hpool | | exact Hnext | reflexivity].
          destruct (BaseWSClient.gen_cycle_queue_cache b) as [c|] eqn:Hc;
            [apply (Hcyc c eq_refl) | constructor]. }
        destruct (lookup_lt_is_Some_2 _ _ Hlt) as [items Hitems].
        exists q, items. rewrite Fm, Fq. split; [apply lookup_insert_eq|].
        rewrite list_lookup_alter, decide_True by reflexivity. rewrite Hitems. reflexivity.
      * destruct F as (Fe & _). rewrite Fe in Hok. discriminate.
Qed.

End ReaderFacts.

Import ReaderFacts.

(** X8.  The topic under which the spider caches the book of an
    instrument is the upper case of the key the strategy reads; the two are
    the same string exactly when the instrument name and its subject, as
    text, are in upper case already.  For an instrument without a known
    subject they differ, since the writer formats [None] and upper-cases
    it. *)
Theorem reader_key_and_writer_topic `{Environment} (name : string) :
  BaseWSClient.build_topic name = PyStr.upper (OrderBookManager.orderbook_key name)
  /\ (OrderBookManager.orderbook_key name = BaseWSClient.build_topic name
      <-> PyStr.upper name = name
          /\ PyStr.upper (PyStr.format_opt (get_subject_by name))
             = PyStr.format_opt (get_subject_by name))
  /\ (get_subject_by name = None ->
      OrderBookManager.orderbook_key name <> BaseWSClient.build_topic name).
Proof.
  split; [apply build_topic_upper_key|]. split; [apply key_is_topic_iff|].
  intros Hnone Heq. apply key_is_topic_iff in Heq as (_ & Hs). rewrite Hnone in Hs.
  discriminate.
Qed.

(** X9.  When [handle_books] returns, the book it published is the
    last unit of work in the queue of its instrument.  Once the consumer of
    that queue has worked the queue off, and provided the key of the reader
    is the topic of the writer, [OrderBookManager.get_orderbook] returns
    that book: the view of the replica as the frame left it, with the expiry
    of the instrument. *)
Theorem handled_book_reaches_reader `{Environment} (s s' : OkexWSClient.t)
    (m : OkexWSClient.books_message) (msg_ms : Z) :
  let name := InstrumentConverter_to_system (OkexWSClient.instId m) in
  BaseWSClient.reachable (OkexWSClient.base s) ->
  OkexWSClient.handle_books msg_ms m s = (inr tt, s') ->
  OrderBookManager.orderbook_key name = BaseWSClient.build_topic name ->
  exists ob queue items,
    OkexWSClient.replica name s' = Some ob
    /\ BaseWSClient.map_instrument_queue (OkexWSClient.base s') !! name = Some queue
    /\ let payload :=
         Consumer.payload_of name
           (OkexWSClient.with_instrument_name name (FastOrderBook.to_json 0 msg_ms ob))
           (OkexWSClient.base s') in
       BaseWSClient.queues (OkexWSClient.base s') !! queue
       = Some (items ++ [{| BaseWSClient.fut_topic := BaseWSClient.build_topic name;
                            BaseWSClient.fut_payload := payload |}])
       /\ let b :=
            Consumer.consumer_worker_turns (S (length items)) queue (OkexWSClient.base s') in
          OrderBookManager.get_orderbook (BaseWSClient.redis b) name = inr payload
          /\ forall sd,
               OrderBookManager.side_of payload sd
               = SortedDict.to_list (FastOrderBook.getitem sd ob).
Proof.
  intros name Hreach Hrun Hkey.
  rewrite handle_books_unfold in Hrun.
  pose proof (reachable_apply_books m s Hreach) as Hreach1.
  destruct (OkexWSClient.apply_books m s) as [[e|[]] s1] eqn:Happly; [discriminate|].
  cbn [snd] in Hreach1.
  destruct (OkexWSClient.replica name s1) as [ob|] eqn:Hob.
  2: { rewrite (publish_books_none _ _ _ Hob) in Hrun. discriminate. }
  rewrite (publish_books_some _ _ _ _ Hob) in Hrun. cbv zeta in Hrun. fold name in Hrun.
  set (payload1 := {| BaseWSClient.body := _ |}) in Hrun.
  set (f := {| BaseWSClient.fut_topic := _ |}) in Hrun.
  injection Hrun as Hfst Hs'.
  pose proof (task_dispatch_frame name f (OkexWSClient.base s1)) as Hsame.
  destruct (task_dispatch_queued name f (OkexWSClient.base s1)
              (DispatchFacts.refs_ok_reachable _ Hreach1) Hfst) as (queue & items & Hq & Hitems).
  assert (Hbase : OkexWSClient.base s' = snd (BaseWSClient.task_dispatch name f (OkexWSClient.base s1))).
  { rewrite <- Hs'. reflexivity. }
  exists ob, queue, items.
  split.
  { rewrite <- Hob. apply replica_same_books. rewrite Hbase. exact Hsame. }
  split; [rewrite Hbase; exact Hq|].
  assert (Hpay : Consumer.payload_of name
                   (OkexWSClient.with_instrument_name name (FastOrderBook.to_json 0 msg_ms ob))
                   (OkexWSClient.base s') = payload1).
  { unfold Consumer.payload_of, payload1. rewrite Hbase.
    destruct Hsame as (_ & _ & -> & -> & _). reflexivity. }
  cbv zeta. rewrite Hpay. fold f.
  split; [rewrite Hbase; exact Hitems|].
  split.
  - assert (Hq' : BaseWSClient.queues (OkexWSClient.base s') !! queue
                  = Some ((items ++ [f]) ++ [])).
    { rewrite app_nil_r, Hbase. exact Hitems. }
    pose proof (consumer_worker_turns_run queue (items ++ [f]) [] _ Hq') as Hturns.
    rewrite length_app, Nat.add_1_r in Hturns. rewrite Hturns.
    unfold OrderBookManager.get_orderbook. cbn [BaseWSClient.redis BaseWSClient.with_redis].
    rewrite cached_snoc, Hkey. cbn [BaseWSClient.fut_topic f].
    unfold f at 1. cbn [BaseWSClient.fut_topic].
    rewrite lookup_insert_eq. reflexivity.
  - intros []; reflexivity.
Qed.

(** X9 on the snapshot of X-USDT, handled by a client that has dispatched
    nothing yet. *)
Lemma handled_book_reaches_reader_witness :
  @BaseWSClient.reachable env base0
  /\ @OrderBookManager.orderbook_key env "X-USDT" = @BaseWSClient.build_topic env "X-USDT"
  /\ exists ob queue,
       OkexWSClient.replica "X-USDT"
         (snd (@OkexWSClient.handle_books env 1 (snapshot_X 10) client0)) = Some ob
       /\ BaseWSClient.map_instrument_queue
            (OkexWSClient.base (snd (@OkexWSClient.handle_books env 1 (snapshot_X 10) client0)))
            !! "X-USDT"%string = Some queue.
Proof.
  assert (Hreach : @BaseWSClient.reachable env base0).
  { exists base0. split; [repeat split|]. apply rtc_refl. }
  split; [exact Hreach|]. split; [reflexivity|].
  destruct (@handled_book_reaches_reader env client0
              (snd (@OkexWSClient.handle_books env 1 (snapshot_X 10) client0))
              (snapshot_X 10) 1 Hreach)
    as (ob & queue & items & Hob & Hq & _); [vm_compute; reflexivity | reflexivity |].
  exists ob, queue. split; [exact Hob | exact Hq].
Defined.

(** ** Subscribing in batches *)
Module SubscribeFacts.

Import BookFacts.

Section Pages.

Context {A : Type}.

Implicit Types channels : list A.

Lemma slice_page (i : nat) channels :
  Subscribe.slice (i * Subscribe.page_size) ((i + 1) * Subscribe.page_size) channels =
  firstn Subscribe.page_size (skipn (i * Subscribe.page_size) channels).
Proof. unfold Subscribe.slice. f_equal. lia. Qed.

Lemma batch_subscribe_run channels (turns : list nat) :
  forall sent : list (Subscribe.message A),
  Py.for_each turns
    (fun i =>
       let sub_list :=
         Subscribe.slice (i * Subscribe.page_size) ((i + 1) * Subscribe.page_size) channels in
       match sub_list with
       | [] => Py.ret tt
       | _ :: _ => Subscribe.send "subscribe" sub_list
       end) sent
  = (inr tt, sent ++ Subscribe.written channels turns).
Proof.
  induction turns as [|i turns IH]; intros sent.
  - cbn. rewrite app_nil_r. reflexivity.
  - rewrite for_each_cons. cbv zeta. cbn [Subscribe.written flat_map].
    destruct (Subscribe.slice _ _ channels) as [|c sub].
    + cbn [Py.ret]. rewrite IH. reflexivity.
    + cbn [Subscribe.send Py.modify]. rewrite IH.
      cbn [app]. rewrite <- app_assoc. reflexivity.
Qed.

Lemma written_app channels (t1 t2 : list nat) :
  Subscribe.written channels (t1 ++ t2) =
  Subscribe.written channels t1 ++ Subscribe.written channels t2.
Proof. unfold Subscribe.written. apply flat_map_app. Qed.

Lemma written_one_args channels (i : nat) :
  concat (List.map Subscribe.args (Subscribe.written channels [i])) =
  firstn Subscribe.page_size (skipn (i * Subscribe.page_size) channels).
Proof.
  cbn [Subscribe.written flat_map]. rewrite slice_page.
  destruct (firstn _ _); cbn; rewrite ?app_nil_r; reflexivity.
Qed.

Lemma written_args channels (k : nat) :
  concat (List.map Subscribe.args (Subscribe.written channels (seq 0 k))) =
  firstn (k * Subscribe.page_size) channels.
Proof.
  induction k as [|k IH]; [reflexivity|].
  rewrite seq_S, written_app, List.map_app, concat_app, IH, written_one_args.
  cbn [plus]. rewrite take_take_drop. f_equal. lia.
Qed.

Lemma written_shape channels (turns : list nat) :
  Forall (fun msg => Subscribe.op msg = "subscribe"%string
                     /\ (1 <= length (Subscribe.args msg) <= Subscribe.page_size)%nat)
    (Subscribe.written channels turns).
Proof.
  induction turns as [|i turns IH]; [constructor|].
  change (i :: turns) with ([i] ++ turns). rewrite written_app.
  apply Forall_app. split; [|exact IH].
  cbn [Subscribe.written flat_map]. rewrite slice_page.
  destruct (firstn _ _) as [|c sub] eqn:E; [constructor|].
  cbn [app]. constructor; [|constructor].
  cbn [Subscribe.args Subscribe.op]. split; [reflexivity|].
  split; [cbn [length]; lia|].
  rewrite <- E. rewrite length_firstn. lia.
Qed.

Lemma full_pages_div channels :
  Subscribe.full_pages channels = (length channels / Subscribe.page_size)%nat.
Proof.
  unfold Subscribe.full_pages. rewrite <- Nat2Z.inj_div. apply Nat2Z.id.
Qed.

Lemma written_full channels (k : nat) :
  (k * Subscribe.page_size <= length channels)%nat ->
  length (Subscribe.written channels (seq 0 k)) = k
  /\ Forall (fun msg => length (Subscribe.args msg) = Subscribe.page_size)
       (Subscribe.written channels (seq 0 k)).
Proof.
  induction k as [|k IH]; intros Hk; [split; [reflexivity | constructor]|].
  destruct IH as [IHlen IHall]; [lia|].
  rewrite seq_S, written_app, length_app, IHlen. cbn [plus].
  assert (Hone : length (firstn Subscribe.page_size
                           (skipn (k * Subscribe.page_size) channels))
                 = Subscribe.page_size).
  { rewrite length_firstn, length_skipn. unfold Subscribe.page_size in *. lia. }
  cbn [Subscribe.written flat_map]. rewrite slice_page.
  destruct (firstn _ _) as [|c sub] eqn:E; [discriminate Hone|].
  cbn [app length]. split; [lia|].
  apply Forall_app. split; [exact IHall|].
  constructor; [exact Hone | constructor].
Qed.

Lemma written_last channels :
  length (Subscribe.written channels [Subscribe.full_pages channels]) =
  if (length channels mod Subscribe.page_size =? 0)%nat then 0%nat else 1%nat.
Proof.
  cbn [Subscribe.written flat_map]. rewrite slice_page, full_pages_div.
  assert (Hlen : length (firstn Subscribe.page_size
                           (skipn (length channels / Subscribe.page_size * Subscribe.page_size)
                              channels))
                 = (length channels mod Subscribe.page_size)%nat).
  { rewrite length_firstn, length_skipn.
    pose proof (Nat.div_mod_eq (length channels) Subscribe.page_size) as Hdm.
    assert (Hub : (length channels mod Subscribe.page_size < Subscribe.page_size)%nat)
      by (apply Nat.mod_upper_bound; discriminate).
    unfold Subscribe.page_size in *. lia. }
  destruct (firstn _ _) as [|c sub]; cbn [length] in Hlen; rewrite <- Hlen; reflexivity.
Qed.

End Pages.

End SubscribeFacts.

Import SubscribeFacts.

(** X10.  [batch_subscribe] writes every channel to the socket once and
    in order, in [subscribe] messages of at most 500 channels, none of them
    empty; all messages but the last carry exactly 500 channels, so that
    their number is the number of channels over 500, rounded up. *)
Theorem batch_subscribe_pages {A : Type} (channels : list A)
    (sent : list (Subscribe.message A)) :
  exists batches,
    Subscribe.batch_subscribe channels sent = (inr tt, sent ++ batches)
    /\ concat (List.map Subscribe.args batches) = channels
    /\ Forall (fun msg => Subscribe.op msg = "subscribe"%string
                          /\ (1 <= length (Subscribe.args msg) <= 500)%nat) batches
    /\ (forall i msg, batches !! i = Some msg -> (S i < length batches)%nat ->
          length (Subscribe.args msg) = 500%nat)
    /\ length batches = ((length channels + 499) / 500)%nat.
Proof.
  exists (Subscribe.written channels (seq 0 (Subscribe.full_pages channels + 1))).
  assert (Hle : (Subscribe.full_pages channels * Subscribe.page_size <= length channels)%nat).
  { rewrite full_pages_div. unfold Subscribe.page_size.
    pose proof (Nat.div_mod_eq (length channels) 500). lia. }
  destruct (written_full channels _ Hle) as [Hfull Hall].
  pose proof (written_last channels) as Hlast.
  split; [apply batch_subscribe_run|].
  split.
  { rewrite written_args. apply firstn_all2.
    rewrite full_pages_div. unfold Subscribe.page_size.
    pose proof (Nat.div_mod_eq (length channels) 500).
    assert ((length channels mod 500 < 500)%nat) by (apply Nat.mod_upper_bound; lia). lia. }
  split; [apply written_shape|].
  rewrite Nat.add_1_r, seq_S, written_app. cbn [plus].
  split.
  - intros i msg Hi Hlt. rewrite length_app, Hfull in Hlt.
    assert (Hi' : (i < Subscribe.full_pages channels)%nat).
    { destruct (length channels mod Subscribe.page_size =? 0)%nat; lia. }
    rewrite lookup_app_l in Hi by lia.
    rewrite Forall_lookup in Hall. exact (Hall i msg Hi).
  - rewrite length_app, Hfull, Hlast, full_pages_div. unfold Subscribe.page_size.
    pose proof (Nat.div_mod_eq (length channels) 500) as Hdm.
    assert (Hub : (length channels mod 500 < 500)%nat) by (apply Nat.mod_upper_bound; lia).
    destruct (length channels mod 500 =? 0)%nat eqn:E.
    + apply Nat.eqb_eq in E. apply (Nat.div_unique _ 500 _ 499); lia.
    + apply Nat.eqb_neq in E.
      apply (Nat.div_unique _ 500 _ (length channels mod 500 - 1)); lia.
Qed.

(** ** Marks, summaries and klines *)
Module FeedsFacts.

Import BookFacts.

Lemma with_client_id (self : Feeds.t) : Feeds.with_client (Feeds.client self) self = self.
Proof. destruct self; reflexivity. Qed.

(** [change_ticker] through the client: the replica gets the five
    annotations, a missing replica leaves the client as it was. *)
Lemma change_ticker_run (name : string) (g : option FastOrderBook.greeks_t)
    (mp miv biv aiv : option float) (self : Feeds.t) :
  Feeds.on_manager (NewOrderBookManager.change_ticker name g mp miv biv aiv) self =
  (inr tt,
   match Feeds.replica name self with
   | None => self
   | Some ob =>
       Feeds.with_client
         (OkexWSClient.with_replica name (FastOrderBook.with_ticker g mp miv biv aiv ob)
            (Feeds.client self))
         self
   end).
Proof.
  unfold Feeds.on_manager, OkexWSClient.on_manager, OkexWSClient.inherited,
    NewOrderBookManager.change_ticker, Feeds.replica, OkexWSClient.replica,
    NewOrderBookManager.get, Py.zoom.
  destruct (NewOrderBookManager.orderbooks _ !! name) as [ob|] eqn:E; cbn [fst snd].
  - reflexivity.
  - rewrite with_orderbook_manager_id, with_base_id, with_client_id. reflexivity.
Qed.

Lemma publish_mark_price_run `{Environment} (now : float) (name : string) (p : float)
    (self : Feeds.t) :
  exists at_ cache,
    Feeds.publish_mark_price now name p self =
    (inr tt, Feeds.with_topic_cache cache (Feeds.with_mark_price_at at_ self)).
Proof.
  unfold Feeds.publish_mark_price, Feeds._publish, Feeds.cache_topic.
  unfold Py.bind, Py.get, Py.modify, Py.ret.
  destruct (match Feeds.mark_price_at self !! name with
            | Some published_at => _
            | None => true
            end).
  - eexists _, _. reflexivity.
  - exists (Feeds.mark_price_at self), (Feeds.topic_cache self). destruct self; reflexivity.
Qed.

Lemma publish_underlying_price_run `{Environment} (now : float) (name : string) (p : float)
    (self : Feeds.t) :
  exists at_ cache,
    Feeds.publish_underlying_price now name p self =
    (inr tt, Feeds.with_topic_cache cache (Feeds.with_underlying_price_at at_ self)).
Proof.
  unfold Feeds.publish_underlying_price, Feeds._publish, Feeds.cache_topic.
  unfold Py.bind, Py.get, Py.modify, Py.ret.
  destruct (match Feeds.underlying_price_at self !! name with
            | Some published_at => _
            | None => true
            end).
  - eexists _, _. reflexivity.
  - exists (Feeds.underlying_price_at self), (Feeds.topic_cache self).
    destruct self; reflexivity.
Qed.

(** What an element of a mark-price frame does. *)
Lemma handle_mark_price_item_run `{Environment} (now : float) (item : Feeds.mark_price_item)
    (self : Feeds.t) :
  let name := InstrumentConverter_to_system (Feeds.mp_instId item) in
  exists at_ cache,
    let self2 :=
      Feeds.with_topic_cache cache
        (Feeds.with_mark_price_at at_
           (Feeds.with_mark_price_cache
              (<[name := Feeds.markPx item]> (Feeds.mark_price_cache self)) self)) in
    Feeds.handle_mark_price_item now item self =
    (inr tt,
     if String.eqb (Feeds.mp_instType item) "SWAP"
        || String.eqb (Feeds.mp_instType item) "FUTURES"
     then match Feeds.replica name self with
          | None => self2
          | Some ob =>
              Feeds.with_client
                (OkexWSClient.with_replica name
                   (FastOrderBook.with_ticker None (Some (Feeds.markPx item)) None None None ob)
                   (Feeds.client self))
                self2
          end
     else self2).
Proof.
  intros name. unfold Feeds.handle_mark_price_item. fold name.
  unfold Py.bind at 1. unfold Py.modify at 1.
  set (self1 := Feeds.with_mark_price_cache _ self).
  unfold Py.bind at 1.
  destruct (publish_mark_price_run now name (Feeds.markPx item) self1) as (at_ & cache & ->).
  exists at_, cache. cbv zeta.
  destruct (String.eqb (Feeds.mp_instType item) "SWAP"
            || String.eqb (Feeds.mp_instType item) "FUTURES").
  - rewrite change_ticker_run. reflexivity.
  - reflexivity.
Qed.

Lemma mark_price_cache_after `{Environment} (now : float) (item : Feeds.mark_price_item)
    (self : Feeds.t) :
  Feeds.mark_price_cache (snd (Feeds.handle_mark_price_item now item self))
    !! InstrumentConverter_to_system (Feeds.mp_instId item)
  = Some (Feeds.markPx item).
Proof.
  destruct (handle_mark_price_item_run now item self) as (at_ & cache & Hrun).
  cbv zeta in Hrun. rewrite Hrun. cbn [snd].
  destruct (String.eqb (Feeds.mp_instType item) "SWAP"
            || String.eqb (Feeds.mp_instType item) "FUTURES");
    [destruct (Feeds.replica _ self)|]; cbn; apply lookup_insert_eq.
Qed.

End FeedsFacts.

Import FeedsFacts.

(** X11.  [publish_kline] lets one kline per topic and second through:
    after a call at second [now] the topic is marked with a second that is
    not before [now]; every further call for the topic at a second up to
    the marked one changes nothing, and the first call at a later second
    publishes and moves the mark there.  The marks of the other topics, the
    replicas and the price marks are left alone. *)
Theorem publish_kline_once_per_second {P : Type} (now : Z) (topic : string) (payload : P)
    (self : Feeds.t) :
  let r := Feeds.publish_kline now topic payload self in
  fst r = inr tt
  /\ (exists published_at,
        Feeds.kline_at (snd r) !! topic = Some published_at
        /\ (now <= published_at)%Z
        /\ (forall now' (payload' : P),
              (now' <= published_at)%Z ->
              Feeds.publish_kline now' topic payload' (snd r) = (inr tt, snd r))
        /\ (forall now' (payload' : P),
              (published_at < now')%Z ->
              let r' := Feeds.publish_kline now' topic payload' (snd r) in
              Feeds.kline_at (snd r') !! topic = Some now'
              /\ topic ∈ Feeds.topic_cache (snd r')))
  /\ (forall topic', topic' <> topic ->
        Feeds.kline_at (snd r) !! topic' = Feeds.kline_at self !! topic')
  /\ Feeds.client (snd r) = Feeds.client self
  /\ Feeds.mark_price_cache (snd r) = Feeds.mark_price_cache self
  /\ Feeds.mark_price_at (snd r) = Feeds.mark_price_at self
  /\ Feeds.underlying_price_at (snd r) = Feeds.underlying_price_at self.
Proof.
  assert (Hlater : forall (s0 : Feeds.t) (t0 now' : Z) (payload' : P),
            Feeds.kline_at s0 !! topic = Some t0 ->
            ((now' <= t0)%Z ->
             Feeds.publish_kline now' topic payload' s0 = (inr tt, s0))
            /\ ((t0 < now')%Z ->
                Feeds.kline_at (snd (Feeds.publish_kline now' topic payload' s0)) !! topic
                = Some now'
                /\ topic ∈ Feeds.topic_cache (snd (Feeds.publish_kline now' topic payload' s0)))).
  { intros s0 t0 now' payload' Ht0.
    unfold Feeds.publish_kline, Feeds._publish, Feeds.cache_topic.
    unfold Py.bind, Py.get, Py.modify, Py.ret. rewrite Ht0.
    split; intros Hcmp.
    - replace (1 <=? now' - t0)%Z with false by (symmetry; apply Z.leb_gt; lia). reflexivity.
    - replace (1 <=? now' - t0)%Z with true by (symmetry; apply Z.leb_le; lia).
      cbn. split; [apply lookup_insert_eq | set_solver]. }
  intros r.
  assert (Hrun : r = (inr tt,
                      if match Feeds.kline_at self !! topic with
                         | None => true
                         | Some published_at => (1 <=? now - published_at)%Z
                         end
                      then Feeds.with_kline_at (<[topic := now]> (Feeds.kline_at self))
                             (Feeds.with_topic_cache ({[topic]} ∪ Feeds.topic_cache self) self)
                      else self)).
  { subst r. unfold Feeds.publish_kline, Feeds._publish, Feeds.cache_topic.
    unfold Py.bind, Py.get, Py.modify, Py.ret.
    destruct (match Feeds.kline_at self !! topic with
              | None => true
              | Some published_at => (1 <=? now - published_at)%Z
              end); reflexivity. }
  rewrite Hrun. clear Hrun r. cbn [fst snd].
  split; [reflexivity|].
  destruct (Feeds.kline_at self !! topic) as [t0|] eqn:Ht0.
  - destruct (1 <=? now - t0)%Z eqn:Hcmp.
    + split.
      * exists now. split; [cbn; apply lookup_insert_eq|]. split; [lia|].
        split; intros now' payload' Hn;
          apply (Hlater _ now now' payload'); try exact Hn; cbn; apply lookup_insert_eq.
      * split; [intros topic' Hne; cbn; apply lookup_insert_ne; congruence|].
        repeat split; reflexivity.
    + apply Z.leb_gt in Hcmp. split.
      * exists t0. split; [exact Ht0|]. split; [lia|].
        split; intros now' payload' Hn; apply (Hlater _ t0 now' payload'); assumption.
      * repeat split; reflexivity.
  - split.
    + exists now. split; [cbn; apply lookup_insert_eq|]. split; [lia|].
      split; intros now' payload' Hn;
        apply (Hlater _ now now' payload'); try exact Hn; cbn; apply lookup_insert_eq.
    + split; [intros topic' Hne; cbn; apply lookup_insert_ne; congruence|].
      repeat split; reflexivity.
Qed.

(** X12.  A mark-price element never raises and always leaves its price
    in the cache of mark prices.  For a swap or a future that has a replica
    the replica gets the price as its mark price and loses its greeks and
    its three volatilities, its levels and its timestamp staying as they
    were; for another type of instrument the replica is not touched.  No
    replica is created, and the replicas and cached marks of the other
    instruments are as before. *)
Theorem mark_price_frame_effect `{Environment} (now : float) (item : Feeds.mark_price_item)
    (self : Feeds.t) :
  let name := InstrumentConverter_to_system (Feeds.mp_instId item) in
  let r := Feeds.handle_mark_price_item now item self in
  fst r = inr tt
  /\ Feeds.mark_price_cache (snd r) !! name = Some (Feeds.markPx item)
  /\ (forall name', name' <> name ->
        Feeds.replica name' (snd r) = Feeds.replica name' self
        /\ Feeds.mark_price_cache (snd r) !! name' = Feeds.mark_price_cache self !! name')
  /\ match Feeds.replica name self with
     | None => Feeds.replica name (snd r) = None
     | Some ob =>
         exists ob',
           Feeds.replica name (snd r) = Some ob'
           /\ FastOrderBook.bids ob' = FastOrderBook.bids ob
           /\ FastOrderBook.asks ob' = FastOrderBook.asks ob
           /\ FastOrderBook.timestamp ob' = FastOrderBook.timestamp ob
           /\ if String.eqb (Feeds.mp_instType item) "SWAP"
                 || String.eqb (Feeds.mp_instType item) "FUTURES"
              then FastOrderBook.mark_price ob' = Some (Feeds.markPx item)
                   /\ FastOrderBook.greeks ob' = None
                   /\ FastOrderBook.mark_iv ob' = None
                   /\ FastOrderBook.bid_iv ob' = None
                   /\ FastOrderBook.ask_iv ob' = None
              else ob' = ob
     end.
Proof.
  intros name r.
  destruct (handle_mark_price_item_run now item self) as (at_ & cache & Hrun).
  cbv zeta in Hrun. fold name in Hrun. subst r. rewrite Hrun. clear Hrun. cbn [fst snd].
  split; [reflexivity|].
  destruct (String.eqb (Feeds.mp_instType item) "SWAP"
            || String.eqb (Feeds.mp_instType item) "FUTURES").
  - destruct (Feeds.replica name self) as [ob|] eqn:Hob.
    + split; [cbn; apply lookup_insert_eq|].
      split.
      * intros name' Hne. split.
        -- unfold Feeds.replica. cbn [Feeds.with_client Feeds.client].
           apply replica_with_replica_ne. congruence.
        -- cbn. apply lookup_insert_ne. congruence.
      * eexists. split.
        -- unfold Feeds.replica. cbn [Feeds.with_client Feeds.client].
           apply replica_with_replica.
        -- repeat split; reflexivity.
    + split; [cbn; apply lookup_insert_eq|].
      split.
      * intros name' Hne. split; [reflexivity|].
        cbn. apply lookup_insert_ne. congruence.
      * exact Hob.
  - split; [cbn; apply lookup_insert_eq|].
    split.
    + intros name' Hne. split; [reflexivity|].
      cbn. apply lookup_insert_ne. congruence.
    + destruct (Feeds.replica name self) as [ob|] eqn:Hob; [|exact Hob].
      exists ob. split; [exact Hob|]. repeat split; reflexivity.
Qed.

(** X13.  An option-summary element never raises.  A replica of its
    instrument gets the greeks of the element, a hundred times its three
    volatilities (a missing bid or ask volatility counting as zero), and as
    mark price the price that the last mark-price element of the instrument
    left in the cache, or [None] when there was none; its levels and its
    timestamp stay as they were.  In particular a mark price of an option,
    which [handle_mark_price] only caches, reaches the replica with the
    next summary. *)
Theorem opt_summary_frame_effect `{Environment} (now : float) (data : Feeds.opt_summary_item)
    (self : Feeds.t) (ob : FastOrderBook.t) :
  let name := InstrumentConverter_to_system (Feeds.os_instId data) in
  Feeds.replica name self = Some ob ->
  let r := Feeds.handle_opt_summary_item now data self in
  fst r = inr tt
  /\ (exists ob',
        Feeds.replica name (snd r) = Some ob'
        /\ FastOrderBook.mark_price ob' = Feeds.mark_price_cache self !! name
        /\ FastOrderBook.greeks ob'
           = Some {| FastOrderBook.vega := Feeds.os_vega data;
                     FastOrderBook.theta := Feeds.os_theta data;
                     FastOrderBook.gamma := Feeds.os_gamma data;
                     FastOrderBook.delta := Feeds.os_delta data |}
        /\ FastOrderBook.mark_iv ob' = Some (mul (Feeds.markVol data) (of_int 100%Z))
        /\ FastOrderBook.bid_iv ob'
           = Some (mul (Feeds.float_get_0 (Feeds.bidVol data)) (of_int 100%Z))
        /\ FastOrderBook.ask_iv ob'
           = Some (mul (Feeds.float_get_0 (Feeds.askVol data)) (of_int 100%Z))
        /\ FastOrderBook.bids ob' = FastOrderBook.bids ob
        /\ FastOrderBook.asks ob' = FastOrderBook.asks ob
        /\ FastOrderBook.timestamp ob' = FastOrderBook.timestamp ob)
  /\ (forall name', name' <> name -> Feeds.replica name' (snd r) = Feeds.replica name' self)
  /\ Feeds.mark_price_cache (snd r) = Feeds.mark_price_cache self
  /\ (forall now0 item self0,
        InstrumentConverter_to_system (Feeds.mp_instId item) = name ->
        self = snd (Feeds.handle_mark_price_item now0 item self0) ->
        exists ob',
          Feeds.replica name (snd r) = Some ob'
          /\ FastOrderBook.mark_price ob' = Some (Feeds.markPx item)).
Proof.
  intros name Hob r.
  assert (Hrun : exists at_ cache,
             r = (inr tt,
                  Feeds.with_topic_cache cache
                    (Feeds.with_underlying_price_at at_
                       (Feeds.with_client
                          (OkexWSClient.with_replica name
                             (FastOrderBook.with_ticker
                                (Some {| FastOrderBook.vega := Feeds.os_vega data;
                                         FastOrderBook.theta := Feeds.os_theta data;
                                         FastOrderBook.gamma := Feeds.os_gamma data;
                                         FastOrderBook.delta := Feeds.os_delta data |})
                                (Feeds.mark_price_cache self !! name)
                                (Some (mul (Feeds.markVol data) (of_int 100%Z)))
                                (Some (mul (Feeds.float_get_0 (Feeds.bidVol data))
                                         (of_int 100%Z)))
                                (Some (mul (Feeds.float_get_0 (Feeds.askVol data))
                                         (of_int 100%Z)))
                                ob)
                             (Feeds.client self))
                          self)))).
  { subst r. unfold Feeds.handle_opt_summary_item. fold name.
    unfold Py.bind at 1. unfold Py.get at 1.
    unfold Py.bind at 1. rewrite change_ticker_run, Hob.
    destruct (truthy (PyNum.float_or_0 (Feeds.fwdPx data))).
    - apply publish_underlying_price_run.
    - unfold Py.ret. eexists (Feeds.underlying_price_at self), (Feeds.topic_cache self).
      destruct self; reflexivity. }
  destruct Hrun as (at_ & cache & Hrun). rewrite Hrun. cbn [fst snd].
  assert (Hmine : forall n,
            Feeds.replica n
              (Feeds.with_topic_cache cache
                 (Feeds.with_underlying_price_at at_
                    (Feeds.with_client
                       (OkexWSClient.with_replica name
                          (FastOrderBook.with_ticker
                             (Some {| FastOrderBook.vega := Feeds.os_vega data;
                                      FastOrderBook.theta := Feeds.os_theta data;
                                      FastOrderBook.gamma := Feeds.os_gamma data;
                                      FastOrderBook.delta := Feeds.os_delta data |})
                             (Feeds.mark_price_cache self !! name)
                             (Some (mul (Feeds.markVol data) (of_int 100%Z)))
                             (Some (mul (Feeds.float_get_0 (Feeds.bidVol data))
                                      (of_int 100%Z)))
                             (Some (mul (Feeds.float_get_0 (Feeds.askVol data))
                                      (of_int 100%Z)))
                             ob)
                          (Feeds.client self))
                       self)))
            = OkexWSClient.replica n
                (OkexWSClient.with_replica name
                   (FastOrderBook.with_ticker
                      (Some {| FastOrderBook.vega := Feeds.os_vega data;
                               FastOrderBook.theta := Feeds.os_theta data;
                               FastOrderBook.gamma := Feeds.os_gamma data;
                               FastOrderBook.delta := Feeds.os_delta data |})
                      (Feeds.mark_price_cache self !! name)
                      (Some (mul (Feeds.markVol data) (of_int 100%Z)))
                      (Some (mul (Feeds.float_get_0 (Feeds.bidVol data)) (of_int 100%Z)))
                      (Some (mul (Feeds.float_get_0 (Feeds.askVol data)) (of_int 100%Z)))
                      ob)
                   (Feeds.client self))) by reflexivity.
  split; [reflexivity|].
  split.
  { eexists. split; [rewrite Hmine; apply replica_with_replica|].
    repeat split; reflexivity. }
  split.
  { intros name' Hne. rewrite Hmine. apply replica_with_replica_ne. congruence. }
  split; [reflexivity|].
  intros now0 item self0 Hname Hself.
  eexists. split; [rewrite Hmine; apply replica_with_replica|].
  cbn [FastOrderBook.with_ticker FastOrderBook.mark_price].
  rewrite Hself, <- Hname.
  apply (mark_price_cache_after now0 item self0).
Qed.

(** X13 on a summary for X-USDT that carries no bid volatility. *)
Lemma opt_summary_frame_effect_witness :
  Feeds.replica "X-USDT" feeds1 = Some book_X
  /\ fst (@Feeds.handle_opt_summary_item env (f 7) summary_X feeds1) = inr tt
  /\ exists ob',
       Feeds.replica "X-USDT" (snd (@Feeds.handle_opt_summary_item env (f 7) summary_X feeds1))
       = Some ob'
       /\ FastOrderBook.bid_iv ob' = Some (mul (of_int 0%Z) (of_int 100%Z))
       /\ FastOrderBook.bids ob' = FastOrderBook.bids book_X.
Proof.
  split; [vm_compute; reflexivity|].
  destruct (@opt_summary_frame_effect env (f 7) summary_X feeds1 book_X)
    as (Hret & (ob' & Hob & _ & _ & _ & Hbid & _ & Hbids & _) & _);
    [vm_compute; reflexivity|].
  split; [exact Hret|]. exists ob'. split; [exact Hob|]. split; [exact Hbid | exact Hbids].
Defined.

(** ** Frames that carry nothing to apply *)

(** X14.  A frame of a books channel for an instrument that is not in
    the instrument table raises [KeyError] and leaves the client as it was,
    a snapshot as well as an update; [handler] logs the exception and goes
    on.  A frame of a known instrument whose data list is empty applies
    nothing: the replica is published again as it is, and when there is no
    replica the frame raises [AttributeError], the client again staying as
    it was. *)
Theorem handle_books_nothing_to_apply `{Environment} (s : OkexWSClient.t)
    (m : OkexWSClient.books_message) (now : float) (msg_ms : Z) :
  let name := InstrumentConverter_to_system (OkexWSClient.instId m) in
  (OkexWSClient.instruments_info s !! OkexWSClient.instId m = None ->
   OkexWSClient.handle_books msg_ms m s = (inl KeyError, s)
   /\ OkexWSClient.handler_turn now msg_ms m s = (inr tt, OkexWSClient.with_logged KeyError s))
  /\ (forall info,
        OkexWSClient.instruments_info s !! OkexWSClient.instId m = Some info ->
        OkexWSClient.data m = [] ->
        OkexWSClient.handle_books msg_ms m s = OkexWSClient.publish_books msg_ms m s
        /\ OkexWSClient.replica name (snd (OkexWSClient.handle_books msg_ms m s))
           = OkexWSClient.replica name s
        /\ match OkexWSClient.replica name s with
           | None => OkexWSClient.handle_books msg_ms m s = (inl AttributeError, s)
           | Some ob =>
               let f :=
                 {| BaseWSClient.fut_topic := BaseWSClient.build_topic name;
                    BaseWSClient.fut_payload :=
                      Consumer.payload_of name
                        (OkexWSClient.with_instrument_name name
                           (FastOrderBook.to_json 0 msg_ms ob))
                        (OkexWSClient.base s) |} in
               OkexWSClient.handle_books msg_ms m s =
               (fst (BaseWSClient.task_dispatch name f (OkexWSClient.base s)),
                OkexWSClient.with_base
                  (snd (BaseWSClient.task_dispatch name f (OkexWSClient.base s))) s)
           end).
Proof.
  intros name. split.
  - intros Hi.
    assert (Hrun : OkexWSClient.handle_books msg_ms m s = (inl KeyError, s)).
    { rewrite handle_books_unfold, (apply_books_no_info _ _ Hi). reflexivity. }
    split; [exact Hrun|].
    unfold OkexWSClient.handler_turn, OkexWSClient.dispatch_message, Py.try_except, Py.bind.
    rewrite Hrun. reflexivity.
  - intros info Hi Hd.
    assert (Happly : OkexWSClient.apply_books m s = (inr tt, s)).
    { destruct (OkexWSClient.is_snapshot m) eqn:Hsnap.
      - rewrite (apply_books_snapshot _ _ _ Hi Hsnap), Hd. reflexivity.
      - rewrite (apply_books_update _ _ _ Hi Hsnap), Hd. reflexivity. }
    assert (Hrun : OkexWSClient.handle_books msg_ms m s = OkexWSClient.publish_books msg_ms m s).
    { rewrite handle_books_unfold, Happly. reflexivity. }
    split; [exact Hrun|]. split.
    + rewrite Hrun. apply replica_same_books. apply publish_books_frame.
    + rewrite Hrun. destruct (OkexWSClient.replica name s) as [ob|] eqn:Hob.
      * rewrite (publish_books_some _ _ _ _ Hob). reflexivity.
      * apply publish_books_none. exact Hob.
Qed.

(** ** The rate of a future against its spot pair *)

Lemma py_index_head {A} (x : A) (l : list A) :
  OrderBookManager.py_index (x :: l) (1 - 1) = inr x.
Proof. reflexivity. Qed.

(** X15.  [get_arbitrage_rate] with both books in the cache: when the
    spot book shows no ask, the price [get_orderbook_info] reports for it is
    zero and the rate fails with [ZeroDivisionError], as it does for a best
    ask of zero.  With a best ask that is not zero it fails with
    [TypeError] when the future carries no days to expiry, with
    [ZeroDivisionError] when these are zero, and otherwise returns the rate
    of the pair [currency-USDT], stamped with the older of the two data
    times: its basis is the float difference of the best bid of the future
    (zero when the future shows no bid) and the best ask of the spot, its
    spread rate is that basis divided by the best ask and multiplied by 100,
    and its APY is the spread rate divided by the days and multiplied by
    365.  A book that is missing from the cache makes it fail with the
    [TypeError] of the lookup. *)
Theorem get_arbitrage_rate_outcomes `{Environment}
    (redis : gmap string BaseWSClient.book_payload) (instrument_name : string) :
  let currency := PyStr.before_dash instrument_name in
  let spot_name := (currency ++ "-USDT")%string in
  let spot_key := OrderBookManager.orderbook_key spot_name in
  let future_key := OrderBookManager.orderbook_key instrument_name in
  (redis !! spot_key = None ->
   SpotFutureArbitrage.get_arbitrage_rate redis instrument_name
   = inl (SpotFutureArbitrage.Raised TypeError))
  /\ (forall spot, redis !! spot_key = Some spot -> redis !! future_key = None ->
        SpotFutureArbitrage.get_arbitrage_rate redis instrument_name
        = inl (SpotFutureArbitrage.Raised TypeError))
  /\ (forall spot future,
        redis !! spot_key = Some spot -> redis !! future_key = Some future ->
        match OrderBookManager.side_of spot Asks with
        | [] =>
            SpotFutureArbitrage.get_arbitrage_rate redis instrument_name
            = inl SpotFutureArbitrage.ZeroDivisionError
        | ask :: _ =>
            if eqb (fst ask) (of_int 0%Z)
            then SpotFutureArbitrage.get_arbitrage_rate redis instrument_name
                 = inl SpotFutureArbitrage.ZeroDivisionError
            else match BaseWSClient.p_expiration_days future with
                 | None =>
                     SpotFutureArbitrage.get_arbitrage_rate redis instrument_name
                     = inl (SpotFutureArbitrage.Raised TypeError)
                 | Some days =>
                     if (days =? 0)%Z
                     then SpotFutureArbitrage.get_arbitrage_rate redis instrument_name
                          = inl SpotFutureArbitrage.ZeroDivisionError
                     else exists rate,
                            SpotFutureArbitrage.get_arbitrage_rate redis instrument_name
                            = inr rate
                            /\ SpotFutureArbitrage.currency rate = currency
                            /\ SpotFutureArbitrage.spot_instrument_name rate = spot_name
                            /\ SpotFutureArbitrage.future_instrument_name rate
                               = instrument_name
                            /\ SpotFutureArbitrage.future_expire_days rate = days
                            /\ SpotFutureArbitrage.timestamp rate
                               = Z.min (FastOrderBook.j_data_ms (BaseWSClient.body spot))
                                   (FastOrderBook.j_data_ms (BaseWSClient.body future))
                            /\ SpotFutureArbitrage.basis rate
                               = NFloat (PyNum.sub
                                           match OrderBookManager.side_of future Bids with
                                           | [] => of_int 0%Z
                                           | bid :: _ => fst bid
                                           end
                                           (fst ask))
                            /\ SpotFutureArbitrage.spread_rate rate
                               = mul (PyNum.div
                                        (PyNum.sub
                                           match OrderBookManager.side_of future Bids with
                                           | [] => of_int 0%Z
                                           | bid :: _ => fst bid
                                           end
                                           (fst ask))
                                        (fst ask))
                                   (of_int 100%Z)
                            /\ SpotFutureArbitrage.apy rate
                               = mul (PyNum.div (SpotFutureArbitrage.spread_rate rate)
                                        (of_int days))
                                   (of_int 365%Z)
                 end
        end).
Proof.
  intros currency spot_name spot_key future_key.
  assert (Hcur : hd EmptyString (PyText.split "-" instrument_name) = currency).
  { symmetry. apply before_dash_split. }
  unfold SpotFutureArbitrage.get_arbitrage_rate. rewrite Hcur. fold spot_name.
  unfold OrderBookManager.get_orderbook_info, OrderBookManager.get_orderbook.
  fold spot_key future_key.
  split; [intros ->; reflexivity|].
  split; [intros spot -> ->|intros spot future -> ->].
  - destruct (OrderBookManager.side_of spot Asks) as [|ask asks]; reflexivity.
  - destruct (OrderBookManager.side_of spot Asks) as [|ask asks];
      destruct (OrderBookManager.side_of future Bids) as [|bid bids];
      try reflexivity.
    + rewrite !py_index_head. cbn.
      unfold PyNum.truediv. cbn [PyNum.is_zero PyNum.to_float].
      destruct (eqb (fst ask) (of_int 0%Z)); [reflexivity|].
      destruct (BaseWSClient.p_expiration_days future) as [days|]; [|reflexivity].
      destruct (days =? 0)%Z; [reflexivity|].
      eexists. split; [reflexivity|]. repeat split; reflexivity.
    + rewrite !py_index_head. cbn.
      unfold PyNum.truediv. cbn [PyNum.is_zero PyNum.to_float].
      destruct (eqb (fst ask) (of_int 0%Z)); [reflexivity|].
      destruct (BaseWSClient.p_expiration_days future) as [days|]; [|reflexivity].
      destruct (days =? 0)%Z; [reflexivity|].
      eexists. split; [reflexivity|]. repeat split; reflexivity.
Qed.

(** ** The choice of the handler *)
Module DispatchRouteFacts.

Lemma replace_books (s : string) :
  Dispatch.replace "-" "_" s = "books"%string -> s = "books"%string.
Proof.
  intros Hs.
  do 5 (destruct s as [|c s]; [discriminate|];
        cbn [Dispatch.replace] in Hs; injection Hs as Hc Hs;
        destruct (Ascii.eqb_spec c "-") as [->|_]; [discriminate|]; subst c).
  destruct s; [reflexivity | discriminate].
Qed.

Lemma getattr_books (name : string) :
  Dispatch.getattr name = Dispatch.handle_books <-> name = "handle_books"%string.
Proof.
  unfold Dispatch.getattr. split.
  - repeat match goal with
           | |- context [String.eqb name ?lit] =>
               destruct (String.eqb_spec name lit); [subst; try discriminate; auto|]
           end.
    discriminate.
  - intros ->. reflexivity.
Qed.

Lemma replace_cons (old new c : ascii) (s : string) :
  Dispatch.replace old new (String c s) =
  String (if Ascii.eqb c old then new else c) (Dispatch.replace old new s).
Proof. reflexivity. Qed.

End DispatchRouteFacts.

Import DispatchRouteFacts.

(** X16.  [dispatch_message] reads the event of a message before the
    channel of its argument: with an event that is not empty the channel
    plays no part.  The message goes to [handle_books] exactly when that
    word (the event, else the channel, else [unknown]) begins with [books],
    and to [handle_candle] when it begins with [candle]. *)
Theorem route_to_handle_books (event channel : option string) :
  (forall e, event = Some e -> PyText.nonempty e = true ->
     forall channel', Dispatch.route event channel' = Dispatch.route event channel)
  /\ (Dispatch.route event channel = Dispatch.handle_books
      <-> PyText.startswith "candle" (Dispatch.event_of event channel) = false
          /\ PyText.startswith "books" (Dispatch.event_of event channel) = true)
  /\ (PyText.startswith "candle" (Dispatch.event_of event channel) = true ->
      Dispatch.route event channel = Dispatch.handle_candle).
Proof.
  split; [|split].
  - intros e -> He channel'. unfold Dispatch.route, Dispatch.event_of, PyText.or_else.
    rewrite He. reflexivity.
  - unfold Dispatch.route. set (ev := Dispatch.event_of event channel).
    destruct (PyText.startswith "candle" ev) eqn:Hc.
    + split; [discriminate | intros [? _]; discriminate].
    + destruct (PyText.startswith "books" ev) eqn:Hb.
      * split; [auto | reflexivity].
      * split; [|intros [_ ?]; discriminate].
        intros Hroute. apply getattr_books in Hroute.
        rewrite !append_cons, append_nil_l, !replace_cons in Hroute.
        cbn [Ascii.eqb Bool.eqb] in Hroute.
        injection Hroute as Hroute. apply replace_books in Hroute.
        rewrite Hroute in Hb. discriminate.
  - intros Hc. unfold Dispatch.route. rewrite Hc. reflexivity.
Qed.

(** ** Depths that are not positive *)

Lemma py_index_negative {A} (l : list A) (i : Z) :
  (i < 0)%Z ->
  OrderBookManager.py_index l i =
  if (i + Z.of_nat (length l) <? 0)%Z then inl IndexError
  else match nth_error l (Z.to_nat (i + Z.of_nat (length l))) with
       | Some x => inr x
       | None => inl IndexError
       end.
Proof.
  intros Hi. unfold OrderBookManager.py_index.
  replace (i <? 0)%Z with true by (symmetry; apply Z.ltb_lt; exact Hi). reflexivity.
Qed.

(** X17.  The depth is turned into an index by subtracting one, and the
    index is a Python index: a depth of zero or below counts from the far
    end of the side.  Depth 0 reads the last level shown, depth [-k] the
    level [k] places before it, and a depth at or below minus the number of
    levels raises [IndexError]; on an empty side [get_orderbook_info]
    reports the price 0 for every depth. *)
Theorem depth_counts_from_the_far_end `{Environment}
    (redis : gmap string BaseWSClient.book_payload) (name : string)
    (data : BaseWSClient.book_payload) (sd : side) (depth : Z) :
  redis !! OrderBookManager.orderbook_key name = Some data ->
  (depth <= 0)%Z ->
  let levels := OrderBookManager.side_of data sd in
  let n := Z.of_nat (length levels) in
  ((- n < depth)%Z ->
   exists level,
     nth_error levels (Z.to_nat (n + depth - 1)) = Some level
     /\ OrderBookManager.get_price redis name sd depth = inr (fst level)
     /\ Reader.price_of (OrderBookManager.get_orderbook_info redis name sd depth)
        = inr (NFloat (fst level)))
  /\ ((depth <= - n)%Z ->
      OrderBookManager.get_price redis name sd depth = inl IndexError
      /\ Reader.price_of (OrderBookManager.get_orderbook_info redis name sd depth)
         = match levels with [] => inr (NInt 0) | _ :: _ => inl IndexError end).
Proof.
  intros Hdata Hdepth levels n.
  unfold OrderBookManager.get_price, OrderBookManager.get_orderbook_info,
    OrderBookManager.get_orderbook.
  rewrite Hdata. fold levels.
  rewrite (py_index_negative levels (depth - 1)) by lia. fold n.
  split.
  - intros Hin.
    replace (depth - 1 + n <? 0)%Z with false by (symmetry; apply Z.ltb_ge; lia).
    replace (depth - 1 + n)%Z with (n + depth - 1)%Z by lia.
    destruct (nth_error levels (Z.to_nat (n + depth - 1))) as [level|] eqn:Hnth.
    + exists level. split; [reflexivity|]. split; [reflexivity|].
      destruct levels; [destruct (Z.to_nat _); discriminate | reflexivity].
    + apply nth_error_None in Hnth. subst n. lia.
  - intros Hout.
    replace (depth - 1 + n <? 0)%Z with true by (symmetry; apply Z.ltb_lt; lia).
    split; [reflexivity|]. destruct levels; reflexivity.
Qed.

(** X17 on the cached book of X-USDT, which shows one ask: depth 0 reads it,
    depth -1 is out of range. *)
Lemma depth_counts_from_the_far_end_witness :
  redis_X !! @OrderBookManager.orderbook_key env "X-USDT" = Some payload_X
  /\ (0 <= 0)%Z
  /\ @OrderBookManager.get_price env redis_X "X-USDT" Asks 0 = inr (f 101)
  /\ (-1 <= 0)%Z
  /\ @OrderBookManager.get_price env redis_X "X-USDT" Asks (-1) = inl IndexError.
Proof.
  assert (Hdata : redis_X !! @OrderBookManager.orderbook_key env "X-USDT" = Some payload_X)
    by apply lookup_singleton_eq.
  split; [exact Hdata|]. split; [lia|].
  destruct (@depth_counts_from_the_far_end env redis_X "X-USDT" payload_X Asks 0 Hdata)
    as (Hin & _); [lia|].
  destruct Hin as (level & Hnth & Hprice & _); [cbn; lia|].
  cbn in Hnth. injection Hnth as <-.
  split; [exact Hprice|]. split; [lia|].
  destruct (@depth_counts_from_the_far_end env redis_X "X-USDT" payload_X Asks (-1) Hdata)
    as (_ & Hout); [lia|].
  apply Hout. cbn. lia.
Defined.

(** ** Regular expressions: the matcher decides the language *)
Module ReFacts.

Import TextFacts.

Lemma app_eq_nil (a b : string) :
  (a ++ b)%string = EmptyString -> a = EmptyString /\ b = EmptyString.
Proof. destruct a; [intros; split; [reflexivity | assumption] | discriminate]. Qed.

Lemma app_eq_cons (c : ascii) (s a b : string) :
  (a ++ b)%string = String c s ->
  (a = EmptyString /\ b = String c s) \/ exists a', a = String c a' /\ s = (a' ++ b)%string.
Proof.
  destruct a as [|c' a]; [left; split; [reflexivity | assumption]|].
  rewrite append_cons. intros [= -> <-]. right. eauto.
Qed.

Lemma lang_eps_inv (s : string) : Re.lang Re.Eps s -> s = EmptyString.
Proof. now inversion 1. Qed.

Lemma lang_class_inv (p : ascii -> bool) (s : string) :
  Re.lang (Re.Class p) s -> exists c, s = String c EmptyString /\ p c = true.
Proof. inversion 1; subst; eauto. Qed.

Lemma lang_cat_inv (r1 r2 : Re.t) (s : string) :
  Re.lang (Re.Cat r1 r2) s ->
  exists s1 s2, s = (s1 ++ s2)%string /\ Re.lang r1 s1 /\ Re.lang r2 s2.
Proof. inversion 1; subst; eauto. Qed.

Lemma lang_alt_inv (r1 r2 : Re.t) (s : string) :
  Re.lang (Re.Alt r1 r2) s -> Re.lang r1 s \/ Re.lang r2 s.
Proof. inversion 1; subst; eauto. Qed.

Lemma nullable_lang (r : Re.t) : Re.nullable r = true <-> Re.lang r EmptyString.
Proof.
  split.
  - induction r as [| |p|r1 IH1 r2 IH2|r1 IH1 r2 IH2|r IH]; simpl; try discriminate.
    + constructor.
    + intros (H1 & H2)%andb_true_iff.
      change EmptyString with (EmptyString ++ EmptyString)%string. constructor; auto.
    + intros [H1|H2]%orb_true_iff; [apply Re.lang_alt_l | apply Re.lang_alt_r]; auto.
    + constructor.
  - remember EmptyString as s eqn:Es. intros H. revert Es.
    induction H as [|p c Hc|r1 r2 s1 s2 _ IH1 _ IH2|r1 r2 s _ IH|r1 r2 s _ IH| |r s1 s2 _ _ _ _];
      intros Es; simpl; try reflexivity; try discriminate.
    + apply app_eq_nil in Es as [-> ->]. now rewrite IH1, IH2.
    + now rewrite IH.
    + rewrite IH by assumption. apply orb_true_r.
Qed.

Lemma deriv_lang (c : ascii) (r : Re.t) (s : string) :
  Re.lang (Re.deriv c r) s <-> Re.lang r (String c s).
Proof.
  split.
  - revert s.
    induction r as [| |p|r1 IH1 r2 IH2|r1 IH1 r2 IH2|r IH]; simpl; intros s H.
    + inversion H.
    + inversion H.
    + destruct (p c) eqn:Hc; [|inversion H].
      apply lang_eps_inv in H as ->. now constructor.
    + destruct (Re.nullable r1) eqn:Hn.
      * apply lang_alt_inv in H as [H|H].
        -- apply lang_cat_inv in H as (s1 & s2 & -> & H1 & H2).
           change (String c (s1 ++ s2)) with (String c s1 ++ s2)%string.
           constructor; auto.
        -- change (String c s) with (EmptyString ++ String c s)%string.
           constructor; [now apply nullable_lang | auto].
      * apply lang_cat_inv in H as (s1 & s2 & -> & H1 & H2).
        change (String c (s1 ++ s2)) with (String c s1 ++ s2)%string.
        constructor; auto.
    + apply lang_alt_inv in H as [H|H]; [apply Re.lang_alt_l | apply Re.lang_alt_r]; auto.
    + apply lang_cat_inv in H as (s1 & s2 & -> & H1 & H2).
      change (String c (s1 ++ s2)) with (String c s1 ++ s2)%string.
      constructor; auto.
  - remember (String c s) as s' eqn:Es. intros H. revert c s Es.
    induction H as [|p c0 Hc|r1 r2 s1 s2 H1 IH1 H2 IH2|r1 r2 s0 _ IH|r1 r2 s0 _ IH|
                    |r s1 s2 H1 IH1 H2 IH2];
      intros c s Es; simpl; try discriminate.
    + injection Es as -> <-. rewrite Hc. constructor.
    + apply app_eq_cons in Es as [[-> ->]|(a' & -> & ->)].
      * apply nullable_lang in H1. rewrite H1. apply Re.lang_alt_r. now apply IH2.
      * destruct (Re.nullable r1); [apply Re.lang_alt_l|]; constructor; auto.
    + apply Re.lang_alt_l. now apply IH.
    + apply Re.lang_alt_r. now apply IH.
    + apply app_eq_cons in Es as [[-> ->]|(a' & -> & ->)].
      * now apply (IH2 c s).
      * constructor; auto.
Qed.

Lemma fullmatch_lang (r : Re.t) (s : string) : Re.fullmatch r s = true <-> Re.lang r s.
Proof.
  revert r. induction s as [|c s IH]; intros r; simpl.
  - apply nullable_lang.
  - rewrite IH. apply deriv_lang.
Qed.

Lemma prefix_match_lang (r : Re.t) (s : string) :
  Re.prefix_match r s = true <-> exists p q, s = (p ++ q)%string /\ Re.lang r p.
Proof.
  revert r. induction s as [|c s IH]; intros r; simpl.
  - rewrite orb_false_r, nullable_lang. split.
    + intros H. exists EmptyString, EmptyString. auto.
    + intros (p & q & E & H). symmetry in E. apply app_eq_nil in E as [-> _]. exact H.
  - rewrite orb_true_iff, nullable_lang, IH. split.
    + intros [H|(p & q & -> & H)].
      * exists EmptyString, (String c s). auto.
      * exists (String c p), q. split; [reflexivity | now apply deriv_lang].
    + intros (p & q & E & H). symmetry in E.
      apply app_eq_cons in E as [[-> ->]|(a' & -> & ->)]; [now left|].
      right. exists a', q. split; [reflexivity | now apply deriv_lang].
Qed.

End ReFacts.

Module InstrumentFacts.

Import TextFacts ReFacts.

Lemma has_app (c : ascii) (a b : string) :
  PyText.has c (a ++ b) = PyText.has c a || PyText.has c b.
Proof.
  induction a as [|x a IH]; [reflexivity|].
  rewrite append_cons. simpl. now rewrite IH, orb_assoc.
Qed.

Lemma rev_app_app (a b acc : string) :
  String.rev_app (a ++ b) acc = String.rev_app b (String.rev_app a acc).
Proof.
  revert acc. induction a as [|x a IH]; intros acc; [reflexivity|].
  rewrite append_cons. simpl. apply IH.
Qed.

Lemma has_rev_app (c : ascii) (a acc : string) :
  PyText.has c (String.rev_app a acc) = PyText.has c a || PyText.has c acc.
Proof.
  revert acc. induction a as [|x a IH]; intros acc; [reflexivity|].
  simpl. rewrite IH. simpl. destruct (Ascii.eqb x c), (PyText.has c a); reflexivity.
Qed.

Lemma lang_lit (w s : string) : Re.lang (Re.lit w) s <-> s = w.
Proof.
  revert s. induction w as [|c w IH]; intros s; simpl.
  - split; [apply lang_eps_inv | intros ->; constructor].
  - split.
    + intros (s1 & s2 & -> & H1 & H2)%lang_cat_inv.
      apply lang_class_inv in H1 as (c' & -> & Hc). apply Ascii.eqb_eq in Hc as ->.
      apply IH in H2 as ->. reflexivity.
    + intros ->. change (String c w) with (String c EmptyString ++ w)%string.
      constructor; [constructor; apply Ascii.eqb_refl | now apply IH].
Qed.

Lemma lang_star_dot (s : string) :
  Re.lang (Re.Star Re.dot) s <-> PyText.has Re.newline s = false.
Proof.
  split.
  - remember (Re.Star Re.dot) as r eqn:Er. intros H. revert Er.
    induction H as [| | | | | |r s1 s2 H1 _ _ IH2]; intros Er; try discriminate; [reflexivity|].
    injection Er as ->. rewrite has_app, IH2 by reflexivity.
    apply lang_class_inv in H1 as (c & -> & Hc). simpl.
    apply negb_true_iff in Hc. now rewrite Hc.
  - induction s as [|c s IH]; simpl; [constructor|].
    intros (Hc & Hs)%orb_false_iff.
    change (String c s) with (String c EmptyString ++ s)%string.
    constructor; [|auto]. constructor. now rewrite Hc.
Qed.

Lemma lang_plus_dot (s : string) : Re.lang (Re.plus Re.dot) s <-> Re.line s = true.
Proof.
  unfold Re.plus, Re.line. split.
  - intros (s1 & s2 & -> & H1 & H2)%lang_cat_inv.
    apply lang_class_inv in H1 as (c & -> & Hc). apply lang_star_dot in H2.
    str_simpl. apply negb_true_iff in Hc. now rewrite Hc, H2.
  - destruct s as [|c s]; [discriminate|]. simpl.
    intros (Hc & Hs)%negb_true_iff%orb_false_iff.
    change (String c s) with (String c EmptyString ++ s)%string.
    constructor; [constructor; now rewrite Hc | now apply lang_star_dot].
Qed.

Lemma lang_some_then (rest : Re.t) (s : string) :
  Re.lang (Instruments.some_then rest) s
  <-> exists p t, s = (p ++ t)%string /\ Re.line p = true /\ Re.lang rest t.
Proof.
  unfold Instruments.some_then. split.
  - intros (p & t & -> & H1 & H2)%lang_cat_inv. apply lang_plus_dot in H1. eauto.
  - intros (p & t & -> & H1 & H2). constructor; [now apply lang_plus_dot | exact H2].
Qed.

Lemma match_end_lang (r : Re.t) (s : string) :
  Re.match_end r s = true
  <-> Re.lang r s \/ exists s', s = (s' ++ String Re.newline EmptyString)%string /\ Re.lang r s'.
Proof.
  unfold Re.match_end, Re.opt. rewrite fullmatch_lang. split.
  - intros (s1 & s2 & -> & H1 & H2)%lang_cat_inv.
    apply lang_alt_inv in H2 as [H2|H2].
    + apply lang_class_inv in H2 as (c & -> & Hc). apply Ascii.eqb_eq in Hc as <-. eauto.
    + apply lang_eps_inv in H2 as ->. rewrite append_nil_r. now left.
  - intros [H|(s' & -> & H)].
    + rewrite <- (append_nil_r s). constructor; [exact H|]. apply Re.lang_alt_r. constructor.
    + constructor; [exact H|]. apply Re.lang_alt_l. constructor. apply Ascii.eqb_refl.
Qed.

Lemma lang_call_put (s : string) :
  Re.lang (Re.one_of "CP") s -> s = "C"%string \/ s = "P"%string.
Proof.
  intros (c & -> & Hc)%lang_class_inv.
  change (Ascii.eqb "C" c || (Ascii.eqb "P" c || false) = true) in Hc.
  rewrite orb_false_r in Hc.
  apply orb_true_iff in Hc as [<-%Ascii.eqb_eq | <-%Ascii.eqb_eq]; auto.
Qed.

Lemma lang_one_of (w s : string) :
  Re.lang (Re.one_of w) s <-> exists c, s = String c EmptyString /\ PyText.has c w = true.
Proof.
  split; [apply lang_class_inv|]. intros (c & -> & Hc). now constructor.
Qed.

(** What a match says of the string, piece by piece. *)
Ltac lang_inv :=
  repeat match goal with
  | H : Re.match_end _ _ = true |- _ => apply match_end_lang in H as [H|(? & ? & H)]
  | H : Re.prefix_match _ _ = true |- _ => apply prefix_match_lang in H as (? & ? & ? & H)
  | H : Re.lang (Instruments.some_then _) _ |- _ => apply lang_some_then in H as (? & ? & ? & ? & H)
  | H : Re.lang (Re.lit _) _ |- _ => apply lang_lit in H
  | H : Re.lang (Re.one_of "CP") _ |- _ => apply lang_call_put in H as [H|H]
  | H : Re.lang (Re.one_of _) _ |- _ => apply lang_one_of in H as (? & ? & H)
  | H : Re.lang Re.Eps _ |- _ => apply lang_eps_inv in H
  | H : Re.lang (Re.Class _) _ |- _ => apply lang_class_inv in H as (? & ? & H)
  | H : Re.lang (Re.Cat _ _) _ |- _ => apply lang_cat_inv in H as (? & ? & ? & ? & H)
  | H : Re.lang (Re.Alt _ _) _ |- _ => apply lang_alt_inv in H as [H|H]
  | H : Re.lang Instruments.spot_quote_exp _ |- _ => unfold Instruments.spot_quote_exp in H
  end; subst.

(** Two spellings of a string are compared from the end. *)
Ltac from_the_end H :=
  apply (f_equal String.rev) in H; unfold String.rev in H;
  rewrite ?rev_app_app in H; cbn [String.rev_app] in H.

Lemma digit_plain (c : ascii) :
  Re.in_range "0" "9" c = true ->
  Ascii.eqb c "-" = false /\ Ascii.eqb c Re.newline = false /\ Re.in_range "A" "Z" c = false.
Proof. destruct c as [[] [] [] [] [] [] [] []]; vm_compute; intros; try discriminate; auto. Qed.

Lemma capital_plain (c : ascii) :
  Re.in_range "A" "Z" c = true ->
  Ascii.eqb c "-" = false /\ Ascii.eqb c Re.newline = false /\ Re.in_range "0" "9" c = false.
Proof. destruct c as [[] [] [] [] [] [] [] []]; vm_compute; intros; try discriminate; auto. Qed.

(** A date is one or two digits, three capital letters and two digits. *)
Lemma date_inv (d : string) :
  Re.fullmatch Instruments.date d = true ->
  exists a m x y z u v,
    d = String a (m ++ String x (String y (String z (String u (String v EmptyString)))))%string
    /\ Re.in_range "0" "9" a = true
    /\ (m = EmptyString \/ exists b, m = String b EmptyString /\ Re.in_range "0" "9" b = true)
    /\ Re.in_range "A" "Z" x = true /\ Re.in_range "A" "Z" y = true
    /\ Re.in_range "A" "Z" z = true
    /\ Re.in_range "0" "9" u = true /\ Re.in_range "0" "9" v = true.
Proof.
  intros H. apply fullmatch_lang in H.
  unfold Instruments.date, Re.rep_between, Re.rep, Re.rep_upto, Re.opt, Re.digit,
    Re.upper_letter in H.
  lang_inv.
  - eexists _, (String _ EmptyString), _, _, _, _, _. str_simpl.
    split; [reflexivity|]. repeat split; eauto.
  - eexists _, EmptyString, _, _, _, _, _. str_simpl.
    split; [reflexivity|]. repeat split; eauto.
Qed.

Lemma date_last (d : string) :
  Re.fullmatch Instruments.date d = true ->
  exists d0 v, d = (d0 ++ String v EmptyString)%string /\ Re.in_range "0" "9" v = true.
Proof.
  intros (a & m & x & y & z & u & v & -> & _ & _ & _ & _ & _ & _ & Hv)%date_inv.
  exists (String a (m ++ String x (String y (String z (String u EmptyString))))), v.
  split; [|exact Hv]. str_simpl. now rewrite append_assoc.
Qed.

Lemma date_first (d : string) :
  Re.fullmatch Instruments.date d = true ->
  exists a d1, d = String a d1 /\ Re.in_range "0" "9" a = true.
Proof.
  intros (a & m & x & y & z & u & v & -> & Ha & _)%date_inv. eauto.
Qed.

Lemma date_word (d : string) :
  Re.fullmatch Instruments.date d = true -> Instruments.word d = true.
Proof.
  intros (a & m & x & y & z & u & v & -> & Ha & Hm & Hx & Hy & Hz & Hu & Hv)%date_inv.
  apply digit_plain in Ha as (Ha1 & Ha2 & _), Hu as (Hu1 & Hu2 & _), Hv as (Hv1 & Hv2 & _).
  apply capital_plain in Hx as (Hx1 & Hx2 & _), Hy as (Hy1 & Hy2 & _), Hz as (Hz1 & Hz2 & _).
  unfold Instruments.word, Re.line.
  destruct Hm as [->|(b & -> & (Hb1 & Hb2 & _)%digit_plain)]; str_simpl;
    repeat match goal with E : Ascii.eqb _ _ = false |- _ => rewrite E; clear E end;
    reflexivity.
Qed.

Lemma word_inv (s : string) :
  Instruments.word s = true ->
  Re.line s = true /\ PyText.has "-" s = false /\ PyText.has Re.newline s = false
  /\ s <> EmptyString.
Proof.
  unfold Instruments.word, Re.line.
  intros ((Hn & Hl%negb_true_iff)%andb_true_iff & Hd%negb_true_iff)%andb_true_iff.
  rewrite Hn, Hl. repeat split; auto. now destruct s.
Qed.

Lemma line_inv (s : string) :
  Re.line s = true -> PyText.has Re.newline s = false /\ s <> EmptyString.
Proof.
  unfold Re.line. intros (Hn & Hl%negb_true_iff)%andb_true_iff. split; auto. now destruct s.
Qed.

Lemma line_app (a b : string) :
  Re.line a = true -> PyText.has Re.newline b = false -> Re.line (a ++ b) = true.
Proof.
  unfold Re.line. intros (Hn & Hl%negb_true_iff)%andb_true_iff Hb.
  rewrite has_app, Hl, Hb. destruct a; [discriminate | reflexivity].
Qed.


(** The equation of two spellings of a name is refuted from the end. *)
Ltac clash :=
  match goal with
  | E : @eq string _ _ |- _ =>
      from_the_end E; simplify_eq;
      first [ discriminate
            | match goal with
              | Hv : Re.in_range _ _ _ = true |- _ => vm_compute in Hv; discriminate
              | Hv : PyText.has _ _ = true |- _ => vm_compute in Hv; discriminate
              end ]
  end.

(** The test of the first branch left does not match. *)
Ltac no_match :=
  match goal with
  | |- (if ?m then _ else _) = _ =>
      let H := fresh "H" in
      destruct m eqn:H; [exfalso; lang_inv; clash | clear H]
  end.

Ltac this_match :=
  match goal with
  | |- (if ?m then _ else _) = _ =>
      let H := fresh "H" in
      assert (H : m = true); [|rewrite H; reflexivity]
  end.

Lemma swap_usdt_name (b q : string) :
  Re.line b = true -> q = "USDT"%string \/ q = "BUSD"%string ->
  Instruments.get_subject_by (b ++ "-" ++ q ++ "-PERPETUAL") = Some "SWAP_USDT"%string.
Proof.
  intros Hb Hq. unfold Instruments.get_subject_by. this_match.
  apply match_end_lang. left. apply lang_some_then.
  exists b, ("-" ++ q ++ "-PERPETUAL")%string. split; [reflexivity|]. split; [exact Hb|].
  apply fullmatch_lang. destruct Hq as [-> | ->]; reflexivity.
Qed.

Lemma swap_usdc_name (b : string) :
  Re.line b = true ->
  Instruments.get_subject_by (b ++ "USDC-PERPETUAL") = Some "SWAP_USDC"%string.
Proof.
  intros Hb. unfold Instruments.get_subject_by. no_match. this_match.
  apply match_end_lang. left. apply lang_some_then.
  exists b, "USDC-PERPETUAL"%string. split; [reflexivity|]. split; [exact Hb|].
  apply fullmatch_lang. reflexivity.
Qed.

Lemma spot_name (b q : string) :
  Re.line b = true -> q = "USDT"%string \/ q = "BTC"%string \/ q = "USDC"%string ->
  Instruments.get_subject_by (b ++ "-" ++ q) = Some "SPOT"%string.
Proof.
  intros Hb Hq. unfold Instruments.get_subject_by.
  destruct Hq as [-> | [-> | ->]]; do 6 no_match; this_match.
  all: apply match_end_lang; left; apply lang_some_then.
  all: eexists b, _; (split; [reflexivity|]); (split; [exact Hb|]).
  all: apply fullmatch_lang; reflexivity.
Qed.


Lemma split_at (sep : ascii) (a b : string) :
  PyText.split sep (a ++ String sep b) = (PyText.split sep a ++ PyText.split sep b)%list.
Proof.
  induction a as [|c a IH]; [simpl; now rewrite Ascii.eqb_refl|].
  rewrite append_cons. simpl. rewrite IH.
  destruct (Ascii.eqb c sep); [reflexivity|].
  destruct (split_cons sep a) as (x & xs & ->). reflexivity.
Qed.

Lemma rev_app_rev (a acc acc' : string) :
  String.rev_app (String.rev_app a acc) acc' = String.rev_app acc (a ++ acc')%string.
Proof.
  revert acc acc'. induction a as [|c a IH]; intros acc acc'; [reflexivity|].
  simpl. rewrite IH. reflexivity.
Qed.

Lemma append_inv_tail (a b c : string) : (a ++ c)%string = (b ++ c)%string -> a = b.
Proof.
  intros E. from_the_end E.
  assert (H : forall x y, String.rev_app c x = String.rev_app c y -> x = y).
  { clear. induction c as [|z c IH]; intros x y H; [exact H|].
    simpl in H. apply IH in H. now injection H. }
  apply H in E. apply (f_equal (fun s => String.rev_app s EmptyString)) in E.
  now rewrite !rev_app_rev, !append_nil_r in E.
Qed.

(** The equation of two spellings of a name is refuted by a dash that one
    side has and the other has not. *)
Ltac dash_clash Hb :=
  match goal with
  | E : @eq string _ _ |- _ =>
      from_the_end E; simplify_eq;
      match goal with
      | E' : String.rev_app _ _ = _ |- _ =>
          apply (f_equal (PyText.has "-")) in E'; rewrite has_rev_app, Hb in E'; discriminate
      end
  end.

Lemma swap_usd_name (b : string) :
  Instruments.word b = true ->
  (forall p, Re.line p = true -> b <> (p ++ "USDC")%string) ->
  Instruments.get_subject_by (b ++ "-PERPETUAL") = Some "SWAP_USD"%string.
Proof.
  intros (Hb & Hd & _)%word_inv Hc. unfold Instruments.get_subject_by.
  match goal with
  | |- (if ?m then _ else _) = _ =>
      let H := fresh "H" in destruct m eqn:H; [exfalso; lang_inv; dash_clash Hd | clear H]
  end.
  match goal with
  | |- (if ?m then _ else _) = _ =>
      let H := fresh "H" in destruct m eqn:H; [exfalso; lang_inv | clear H]
  end.
  - match goal with E : @eq string _ _, L : Re.line ?p = true |- _ =>
      apply (Hc p L); apply (append_inv_tail _ _ "-PERPETUAL"); rewrite E, append_assoc;
      reflexivity
    end.
  - clash.
  - this_match.
    apply match_end_lang. left. apply lang_some_then.
    exists b, "-PERPETUAL"%string. split; [reflexivity|]. split; [exact Hb|].
    apply fullmatch_lang. reflexivity.
Qed.

(** A perpetual is never taken for an option, a spot pair or a future. *)
Lemma perpetual_name (b : string) :
  Re.line b = true ->
  In (Instruments.get_subject_by (b ++ "-PERPETUAL"))
     [Some "SWAP_USDT"; Some "SWAP_USDC"; Some "SWAP_USD"]%string.
Proof.
  intros Hb. unfold Instruments.get_subject_by.
  destruct (Re.match_end _ _); [simpl; auto|].
  destruct (Re.match_end _ _); [simpl; auto|].
  assert (H : Re.match_end (Instruments.some_then (Re.lit "-PERPETUAL")) (b ++ "-PERPETUAL")
              = true).
  { apply match_end_lang. left. apply lang_some_then.
    exists b, "-PERPETUAL"%string. split; [reflexivity|]. split; [exact Hb|].
    apply fullmatch_lang. reflexivity. }
  rewrite H. simpl. auto.
Qed.


(** The equation of two spellings of a name is refuted by counting the
    pieces between the dashes. *)
Ltac pieces E :=
  apply (f_equal (PyText.split "-")) in E;
  rewrite ?append_assoc in E;
  repeat (rewrite ?append_cons, ?append_nil_l in E; simpl in E);
  simpl in E; repeat (rewrite split_at in E; simpl in E);
  repeat match type of E with
  | context [PyText.split "-" ?s] =>
      first [ rewrite (split_without "-" s) in E by assumption
            | let x := fresh "x" in
              let xs := fresh "xs" in
              let Es := fresh "Es" in
              destruct (split_cons "-" s) as (x & xs & Es); rewrite Es in E; clear Es ]
  end;
  simpl in E.

Ltac count_pieces :=
  repeat (cbn [app] in *; simplify_eq;
          try match goal with
              | E : _ = (?xs ++ _)%list |- _ => is_var xs; destruct xs
              | E : (?xs ++ _)%list = _ |- _ => is_var xs; destruct xs
              end);
  try match goal with H : Re.fullmatch _ _ = true |- _ => vm_compute in H; discriminate end.

Ltac pieces_clash :=
  idtac;
  match goal with
  | E : @eq string _ _ |- _ => pieces E; count_pieces; fail
  end.

(** The name ends with the last digit of its date. *)
Ltac digit_clash Hd :=
  let d0 := fresh "d0" in
  let v := fresh "v" in
  let Hv := fresh "Hv" in
  destruct (date_last _ Hd) as (d0 & v & -> & Hv); clash.

Ltac no_match_by tac :=
  match goal with
  | |- (if ?m then _ else _) = _ =>
      let H := fresh "H" in
      destruct m eqn:H; [exfalso; lang_inv; tac | clear H]
  end.

Ltac found p :=
  apply match_end_lang; left; apply lang_some_then;
  eexists p, _; (split; [reflexivity|]); (split; [assumption|]).

Lemma lang_cp (c : string) :
  c = "C"%string \/ c = "P"%string -> Re.lang (Re.Cat (Re.lit "-") (Re.one_of "CP")) ("-" ++ c).
Proof. intros [-> | ->]; apply fullmatch_lang; reflexivity. Qed.

Lemma option_usdt_name (b x c : string) :
  Re.line b = true -> Re.line x = true -> c = "C"%string \/ c = "P"%string ->
  Instruments.get_subject_by (b ++ "-USDT-" ++ x ++ "-" ++ c) = Some "OPTION_USDT"%string.
Proof.
  intros Hb Hx Hc. unfold Instruments.get_subject_by.
  destruct Hc as [-> | ->]; do 3 no_match; this_match.
  all: found b.
  all: constructor; [now apply lang_lit|]; apply lang_some_then.
  all: eexists x, _; (split; [reflexivity|]); (split; [assumption|]).
  all: apply lang_cp; auto.
Qed.


Ltac words :=
  repeat match goal with
  | H : Instruments.word _ = true |- _ => apply word_inv in H as (? & ? & ? & ?)
  end.

Lemma option_usdc_name (b d k c : string) :
  Instruments.word b = true -> Re.fullmatch Instruments.date d = true ->
  Instruments.word k = true -> c = "C"%string \/ c = "P"%string ->
  Instruments.get_subject_by (b ++ "-USDC-" ++ d ++ "-" ++ k ++ "-" ++ c)
  = Some "OPTION_USDC"%string.
Proof.
  intros Hb Hd Hk Hc. pose proof (date_word _ Hd) as Hw. words.
  unfold Instruments.get_subject_by.
  destruct Hc as [-> | ->]; do 3 no_match; no_match_by pieces_clash; this_match.
  all: found b.
  all: constructor; [now apply lang_lit|]; apply lang_some_then.
  all: eexists (d ++ "-" ++ k)%string, _.
  all: split; [now rewrite !append_assoc|].
  all: split; [apply line_app; [assumption | str_simpl; assumption]|].
  all: apply lang_cp; auto.
Qed.

Lemma option_name (b d k c : string) :
  Instruments.word b = true -> Re.fullmatch Instruments.date d = true ->
  Instruments.word k = true -> c = "C"%string \/ c = "P"%string ->
  Instruments.get_subject_by (b ++ "-" ++ d ++ "-" ++ k ++ "-" ++ c) = Some "OPTION"%string.
Proof.
  intros Hb Hd Hk Hc. pose proof (date_word _ Hd) as Hw. words.
  unfold Instruments.get_subject_by.
  destruct Hc as [-> | ->]; do 3 no_match; do 2 no_match_by pieces_clash; this_match.
  all: apply match_end_lang; left; apply lang_some_then.
  all: eexists (b ++ "-" ++ d ++ "-" ++ k)%string, _.
  all: split; [now rewrite !append_assoc|].
  all: split; [|apply lang_cp; auto].
  all: apply line_app; [assumption|]; str_simpl.
  all: rewrite has_app; str_simpl.
  all: repeat match goal with E : PyText.has _ _ = false |- _ => rewrite E; clear E end.
  all: reflexivity.
Qed.

Lemma future_usdc_name (b d : string) :
  Re.line b = true -> Re.fullmatch Instruments.date d = true ->
  Instruments.get_subject_by (b ++ "-USDC-" ++ d) = Some "FUTURE_USDC"%string.
Proof.
  intros Hb Hd. unfold Instruments.get_subject_by.
  do 7 no_match_by ltac:(digit_clash Hd). this_match.
  apply prefix_match_lang. exists (b ++ "-USDC-" ++ d)%string, EmptyString.
  split; [now rewrite append_nil_r|]. apply lang_some_then.
  eexists b, _. split; [reflexivity|]. split; [assumption|].
  constructor; [now apply lang_lit | now apply fullmatch_lang].
Qed.

Lemma future_usdt_name (b d : string) :
  Instruments.word b = true -> Re.fullmatch Instruments.date d = true ->
  Instruments.get_subject_by (b ++ "-USDT-" ++ d) = Some "FUTURE_USDT"%string.
Proof.
  intros Hb Hd. pose proof (date_word _ Hd) as Hw. words.
  unfold Instruments.get_subject_by.
  do 7 no_match_by ltac:(digit_clash Hd). no_match_by pieces_clash. this_match.
  apply prefix_match_lang. exists (b ++ "-USDT-" ++ d)%string, EmptyString.
  split; [now rewrite append_nil_r|]. apply lang_some_then.
  eexists b, _. split; [reflexivity|]. split; [assumption|].
  constructor; [now apply lang_lit | now apply fullmatch_lang].
Qed.

Lemma future_usd_name (b d : string) :
  Instruments.word b = true -> Re.fullmatch Instruments.date d = true ->
  Instruments.get_subject_by (b ++ "-" ++ d) = Some "FUTURE_USD"%string.
Proof.
  intros Hb Hd. pose proof (date_word _ Hd) as Hw. words.
  unfold Instruments.get_subject_by.
  do 7 no_match_by ltac:(digit_clash Hd). do 2 no_match_by pieces_clash. this_match.
  apply prefix_match_lang. exists (b ++ "-" ++ d)%string, EmptyString.
  split; [now rewrite append_nil_r|]. apply lang_some_then.
  eexists b, _. split; [reflexivity|]. split; [assumption|].
  constructor; [now apply lang_lit | now apply fullmatch_lang].
Qed.

Lemma capitals_no_dash (u : string) :
  Re.lang (Re.rep_between 2 4 Re.upper_letter) u -> PyText.has "-" u = false.
Proof.
  unfold Re.rep_between, Re.rep, Re.rep_upto, Re.opt, Re.upper_letter. intros H. lang_inv.
  all: repeat match goal with
       | Hc : Re.in_range "A" "Z" _ = true |- _ => apply capital_plain in Hc as (Hc & _ & _)
       end.
  all: str_simpl.
  all: repeat match goal with E : Ascii.eqb _ _ = false |- _ => rewrite E; clear E end.
  all: reflexivity.
Qed.

(** The test of [get_subject_by_v2] on the name of a future looks at the
    base only. *)
Lemma base_of_future (b d : string) :
  Instruments.word b = true -> Re.fullmatch Instruments.date d = true ->
  Re.match_end
    (Re.Cat (Re.rep_between 2 4 Re.upper_letter) (Re.Cat (Re.lit "-") Instruments.date))
    (b ++ "-" ++ d)
  = Re.fullmatch (Re.rep_between 2 4 Re.upper_letter) b.
Proof.
  intros Hb Hd. pose proof (date_word _ Hd) as Hw. words.
  destruct (Re.fullmatch (Re.rep_between 2 4 Re.upper_letter) b) eqn:Hu.
  - apply match_end_lang. left. constructor; [now apply fullmatch_lang|].
    constructor; [now apply lang_lit | now apply fullmatch_lang].
  - apply not_true_is_false. intros Hm. lang_inv.
    all: match goal with
         | Hc : Re.lang (Re.rep_between _ _ _) ?u |- _ =>
             pose proof (capitals_no_dash _ Hc); apply fullmatch_lang in Hc
         end.
    all: match goal with E : @eq string _ _ |- _ => pieces E; count_pieces end.
    all: congruence.
Qed.

Lemma v2_future_usd_name (b d : string) :
  Instruments.word b = true -> Re.fullmatch Instruments.date d = true ->
  Instruments.get_subject_by_v2 (b ++ "-" ++ d)
  = if Re.fullmatch (Re.rep_between 2 4 Re.upper_letter) b
    then Some "FUTURE_USD"%string else None.
Proof.
  intros Hb Hd. unfold Instruments.get_subject_by_v2.
  rewrite future_usd_name, base_of_future by assumption.
  now destruct (Re.fullmatch _ b).
Qed.

Lemma v2_other (name s : string) :
  Instruments.get_subject_by name = Some s -> s <> "FUTURE_USD"%string ->
  Instruments.get_subject_by_v2 name = Some s.
Proof.
  intros E Hs. unfold Instruments.get_subject_by_v2. rewrite E.
  destruct (String.eqb_spec s "FUTURE_USD"); [contradiction | reflexivity].
Qed.


Lemma date_prefix (d : string) :
  Re.fullmatch Instruments.date d = true -> Re.prefix_match Instruments.date d = true.
Proof.
  intros Hd. apply prefix_match_lang. exists d, EmptyString.
  split; [now rewrite append_nil_r | now apply fullmatch_lang].
Qed.

Lemma date_not (d s : string) :
  Re.fullmatch Instruments.date d = true -> Re.fullmatch Instruments.date s = false ->
  String.eqb d s = false.
Proof. intros Hd Hs. destruct (String.eqb_spec d s) as [->|]; congruence. Qed.

(** The pieces of the documented names. *)
Ltac name_pieces :=
  unfold Instruments.parse_ee_instrument;
  rewrite ?append_assoc;
  repeat (rewrite ?append_cons, ?append_nil_l; simpl);
  repeat (rewrite split_at; simpl);
  repeat match goal with
  | |- context [PyText.split "-" ?s] => rewrite (split_without "-" s) by assumption
  end;
  simpl.

Lemma parse_swap_usd (b : string) :
  PyText.has "-" b = false ->
  Instruments.parse_ee_instrument (b ++ "-PERPETUAL")
  = Some (Instruments.ee (b ++ "-PERPETUAL") "SWAP_USD" b "USD").
Proof. intros Hb. name_pieces. reflexivity. Qed.

Lemma parse_swap (b q : string) :
  PyText.has "-" b = false -> PyText.has "-" q = false ->
  Instruments.parse_ee_instrument (b ++ "-" ++ q ++ "-PERPETUAL")
  = Some (Instruments.ee (b ++ "-" ++ q ++ "-PERPETUAL")
            (if String.eqb q "USDC" then "SWAP_USDC" else "SWAP_USDT") b q).
Proof.
  intros Hb Hq. name_pieces. rewrite ?append_assoc. str_simpl.
  now destruct (String.eqb q "USDC").
Qed.

Lemma parse_spot (b q : string) :
  PyText.has "-" b = false -> q = "USDT"%string \/ q = "BTC"%string \/ q = "USDC"%string ->
  Instruments.parse_ee_instrument (b ++ "-" ++ q)
  = Some (Instruments.ee (b ++ "-" ++ q) "SPOT" b q).
Proof. intros Hb [-> | [-> | ->]]; name_pieces; reflexivity. Qed.

Lemma parse_future_usd (b d : string) :
  PyText.has "-" b = false -> Re.fullmatch Instruments.date d = true ->
  Instruments.parse_ee_instrument (b ++ "-" ++ d)
  = Some (Instruments.ee (b ++ "-" ++ d) "FUTURE_USD" b "USD").
Proof.
  intros Hb Hd. pose proof (date_word _ Hd) as Hw. words. name_pieces.
  rewrite (date_not d "PERPETUAL"), date_prefix by (assumption || reflexivity).
  reflexivity.
Qed.

Lemma parse_future (b q d : string) :
  PyText.has "-" b = false -> PyText.has "-" q = false ->
  Re.fullmatch Instruments.date d = true ->
  Instruments.parse_ee_instrument (b ++ "-" ++ q ++ "-" ++ d)
  = Some (Instruments.ee (b ++ "-" ++ q ++ "-" ++ d) "FUTURE_USDT" b q).
Proof.
  intros Hb Hq Hd. pose proof (date_word _ Hd) as Hw. words. name_pieces.
  rewrite (date_not d "PERPETUAL") by (assumption || reflexivity).
  rewrite ?append_assoc. str_simpl. reflexivity.
Qed.

Lemma parse_option (b d k c : string) :
  PyText.has "-" b = false -> PyText.has "-" d = false -> PyText.has "-" k = false ->
  c = "C"%string \/ c = "P"%string ->
  Instruments.parse_ee_instrument (b ++ "-" ++ d ++ "-" ++ k ++ "-" ++ c)
  = Some (Instruments.ee (b ++ "-" ++ d ++ "-" ++ k ++ "-" ++ c) "OPTION" b b).
Proof.
  intros Hb Hd Hk [-> | ->]; name_pieces; rewrite ?append_assoc; str_simpl; reflexivity.
Qed.

Lemma parse_option_quoted (b q d k c : string) :
  PyText.has "-" b = false -> PyText.has "-" d = false -> PyText.has "-" k = false ->
  q = "USDT"%string \/ q = "USDC"%string -> c = "C"%string \/ c = "P"%string ->
  Instruments.parse_ee_instrument (b ++ "-" ++ q ++ "-" ++ d ++ "-" ++ k ++ "-" ++ c)
  = Some (Instruments.ee (b ++ "-" ++ q ++ "-" ++ d ++ "-" ++ k ++ "-" ++ c)
            ("OPTION_" ++ q) b q).
Proof.
  intros Hb Hd Hk [-> | ->] [-> | ->]; name_pieces; rewrite ?append_assoc; str_simpl;
    reflexivity.
Qed.


(** The last piece of a string that ends with a word ends with that word. *)
Lemma split_tail (sep : ascii) (a w : string) :
  PyText.has sep w = false ->
  exists l x, PyText.split sep (a ++ w) = (l ++ [(x ++ w)%string])%list.
Proof.
  intros Hw. induction a as [|c a (l & x & IH)].
  - exists [], EmptyString. now rewrite append_nil_l, split_without.
  - rewrite append_cons. simpl. rewrite IH. destruct (Ascii.eqb c sep).
    + now exists (EmptyString :: l), x.
    + destruct l as [|y l]; simpl.
      * now exists [], (String c x).
      * now exists (String c y :: l), x.
Qed.

Lemma swap_other_quote_name (b q : string) :
  Instruments.word b = true -> Instruments.word q = true ->
  q <> "USDT"%string -> q <> "BUSD"%string -> (forall p, q <> (p ++ "USDC")%string) ->
  Instruments.get_subject_by (b ++ "-" ++ q ++ "-PERPETUAL") = Some "SWAP_USD"%string.
Proof.
  intros Hb Hq H1 H2 H3. pose proof Hq as (Hl & _)%word_inv. words.
  unfold Instruments.get_subject_by.
  no_match_by ltac:(idtac; match goal with
                          | E : @eq string _ _ |- _ => pieces E; count_pieces; fail
                          end).
  match goal with
  | |- (if ?m then _ else _) = _ =>
      let H := fresh "H" in destruct m eqn:H; [exfalso; lang_inv | clear H]
  end.
  - match goal with E : _ = (?x ++ "USDC-PERPETUAL")%string |- _ =>
      assert (E' : ((b ++ "-" ++ q) ++ "-PERPETUAL" = (x ++ "USDC") ++ "-PERPETUAL")%string)
        by (rewrite !append_assoc; exact E);
      apply append_inv_tail in E'; apply (f_equal (PyText.split "-")) in E';
      rewrite append_cons, append_nil_l, split_at, !split_without in E' by assumption;
      destruct (split_tail "-" x "USDC" eq_refl) as (l & x0 & El); rewrite El in E'
    end.
    count_pieces. now apply (H3 x0).
  - clash.
  - this_match. apply match_end_lang. left. apply lang_some_then.
    exists (b ++ "-" ++ q)%string, "-PERPETUAL"%string.
    split; [now rewrite !append_assoc|]. split; [|now apply lang_lit].
    apply line_app; [assumption|]. str_simpl. assumption.
Qed.

(** The subjects that [get_subject_by] gives are in upper case. *)
Lemma subject_in_range (name s : string) :
  Instruments.get_subject_by name = Some s -> In s Instruments.subjects.
Proof.
  unfold Instruments.get_subject_by.
  repeat match goal with
         | |- (if ?m then _ else _) = _ -> _ => destruct m
         end; intros [= <-] || discriminate; simpl; tauto.
Qed.

Lemma subject_upper (name s : string) :
  Instruments.get_subject_by name = Some s -> PyStr.upper s = s.
Proof.
  intros H%subject_in_range. simpl in H.
  repeat destruct H as [<-|H]; try reflexivity. contradiction.
Qed.

Lemma date_upper (d : string) :
  Re.fullmatch Instruments.date d = true -> PyStr.upper d = d.
Proof.
  assert (Hdigit : forall c, Re.in_range "0" "9" c = true -> PyStr.upper_ascii c = c).
  { intros c. destruct c as [[] [] [] [] [] [] [] []]; vm_compute; congruence. }
  assert (Hcap : forall c, Re.in_range "A" "Z" c = true -> PyStr.upper_ascii c = c).
  { intros c. destruct c as [[] [] [] [] [] [] [] []]; vm_compute; congruence. }
  intros (a & m & x & y & z & u & v & -> & Ha & Hm & Hx & Hy & Hz & Hu & Hv)%date_inv.
  simpl. rewrite upper_app. simpl.
  rewrite (Hdigit a), (Hcap x), (Hcap y), (Hcap z), (Hdigit u), (Hdigit v) by assumption.
  destruct Hm as [-> | (c & -> & Hc)]; simpl; [reflexivity|]. now rewrite (Hdigit c).
Qed.

Lemma before_dash_app (b rest : string) :
  PyText.has "-" b = false -> PyStr.before_dash (b ++ String "-" rest) = b.
Proof.
  intros Hb. induction b as [|c b IH]; [reflexivity|].
  simpl in Hb. apply orb_false_iff in Hb as [Hc Hb].
  rewrite append_cons. simpl. now rewrite Hc, IH.
Qed.

End InstrumentFacts.

Import ReFacts InstrumentFacts.

(** X18.  [get_subject_by] gives the names of the documented forms their
    subject: for a base, a date and a strike without dash or newline, the
    perpetual, spot, future and option names of the base are classified as
    the table in [parse_ee_instrument] says.  A name [b-PERPETUAL] is a
    coin-margined swap unless [b] itself ends with [USDC]. *)
Theorem get_subject_by_documented_names (b d k c : string) :
  Instruments.word b = true ->
  Re.fullmatch Instruments.date d = true ->
  Instruments.word k = true ->
  c = "C"%string \/ c = "P"%string ->
  Instruments.get_subject_by (b ++ "-USDT-PERPETUAL") = Some "SWAP_USDT"%string
  /\ Instruments.get_subject_by (b ++ "-USDC-PERPETUAL") = Some "SWAP_USDC"%string
  /\ ((forall p, Re.line p = true -> b <> (p ++ "USDC")%string) ->
      Instruments.get_subject_by (b ++ "-PERPETUAL") = Some "SWAP_USD"%string)
  /\ Instruments.get_subject_by (b ++ "-USDT") = Some "SPOT"%string
  /\ Instruments.get_subject_by (b ++ "-BTC") = Some "SPOT"%string
  /\ Instruments.get_subject_by (b ++ "-USDC") = Some "SPOT"%string
  /\ Instruments.get_subject_by (b ++ "-" ++ d) = Some "FUTURE_USD"%string
  /\ Instruments.get_subject_by (b ++ "-USDT-" ++ d) = Some "FUTURE_USDT"%string
  /\ Instruments.get_subject_by (b ++ "-USDC-" ++ d) = Some "FUTURE_USDC"%string
  /\ Instruments.get_subject_by (b ++ "-" ++ d ++ "-" ++ k ++ "-" ++ c) = Some "OPTION"%string
  /\ Instruments.get_subject_by (b ++ "-USDT-" ++ d ++ "-" ++ k ++ "-" ++ c)
     = Some "OPTION_USDT"%string
  /\ Instruments.get_subject_by (b ++ "-USDC-" ++ d ++ "-" ++ k ++ "-" ++ c)
     = Some "OPTION_USDC"%string.
Proof.
  intros Hb Hd Hk Hc.
  pose proof Hb as (Hl & _ & Hn & _)%word_inv.
  pose proof Hk as (Hkl & _ & Hkn & _)%word_inv.
  pose proof (date_word _ Hd) as (Hdl & _ & Hdn & _)%word_inv.
  split; [apply (swap_usdt_name b "USDT"); auto|].
  split.
  { assert (Hl' : Re.line (b ++ "-") = true) by (apply line_app; [assumption | reflexivity]).
    pose proof (swap_usdc_name _ Hl') as H. now rewrite append_assoc in H. }
  split; [intros Hc'; now apply swap_usd_name|].
  split; [apply (spot_name b "USDT"); auto|].
  split; [apply (spot_name b "BTC"); auto|].
  split; [apply (spot_name b "USDC"); auto|].
  split; [now apply future_usd_name|].
  split; [now apply future_usdt_name|].
  split; [now apply future_usdc_name|].
  split; [now apply option_name|].
  split; [|now apply option_usdc_name].
  assert (Hx : Re.line (d ++ "-" ++ k) = true).
  { apply line_app; [assumption|]. str_simpl. assumption. }
  pose proof (option_usdt_name b _ c Hl Hx Hc) as H. now rewrite !append_assoc in H.
Qed.

(** X18 on BTC, the date 29APR22 and the strike 50000. *)
Lemma get_subject_by_documented_names_witness :
  Instruments.word "BTC" = true
  /\ Re.fullmatch Instruments.date "29APR22" = true
  /\ Instruments.word "50000" = true
  /\ Instruments.get_subject_by "BTC-USDT-29APR22" = Some "FUTURE_USDT"%string
  /\ Instruments.get_subject_by "BTC-29APR22-50000-C" = Some "OPTION"%string.
Proof.
  do 3 (split; [reflexivity|]).
  pose proof (get_subject_by_documented_names "BTC" "29APR22" "50000" "C"
                eq_refl eq_refl eq_refl (or_introl eq_refl)) as H.
  split; apply H.
Defined.

(** X19.  A name that ends with [-PERPETUAL] is a swap, never an option,
    a spot pair or a future.  It is a USDC swap as soon as [USDC] stands
    before [-PERPETUAL], with or without a dash before it, a USDT swap for
    the quotes [USDT] and [BUSD], and a coin-margined swap for any other
    quote. *)
Theorem perpetual_is_a_swap (b q : string) :
  Re.line b = true ->
  In (Instruments.get_subject_by (b ++ "-PERPETUAL"))
     [Some "SWAP_USDT"; Some "SWAP_USDC"; Some "SWAP_USD"]%string
  /\ Instruments.get_subject_by (b ++ "USDC-PERPETUAL") = Some "SWAP_USDC"%string
  /\ Instruments.get_subject_by (b ++ "-BUSD-PERPETUAL") = Some "SWAP_USDT"%string
  /\ (Instruments.word b = true -> Instruments.word q = true ->
      q <> "USDT"%string -> q <> "BUSD"%string -> (forall p, q <> (p ++ "USDC")%string) ->
      Instruments.get_subject_by (b ++ "-" ++ q ++ "-PERPETUAL") = Some "SWAP_USD"%string).
Proof.
  intros Hb.
  split; [now apply perpetual_name|].
  split; [now apply swap_usdc_name|].
  split; [apply (swap_usdt_name b "BUSD"); auto|].
  apply swap_other_quote_name.
Qed.

(** X19 on BTC and the quote USD. *)
Lemma perpetual_is_a_swap_witness :
  Re.line "BTC" = true
  /\ Instruments.get_subject_by "BTCUSDC-PERPETUAL" = Some "SWAP_USDC"%string
  /\ Instruments.get_subject_by "BTC-USD-PERPETUAL" = Some "SWAP_USD"%string.
Proof.
  split; [reflexivity|].
  pose proof (perpetual_is_a_swap "BTC" "USD" eq_refl) as (_ & H2 & _ & H4).
  split; [exact H2|].
  apply H4; try reflexivity; try discriminate.
  intros p E. apply (f_equal String.rev) in E. unfold String.rev in E.
  rewrite rev_app_app in E. discriminate.
Defined.

(** X20.  [get_subject_by_v2] differs from [get_subject_by] on coin-margined
    futures only: the name [b-date] keeps its subject when [b] is two to
    six capital letters and loses it otherwise.  Every other answer of
    [get_subject_by] is passed on. *)
Theorem get_subject_by_v2_checks_the_base (b d : string) :
  Instruments.word b = true ->
  Re.fullmatch Instruments.date d = true ->
  Instruments.get_subject_by_v2 (b ++ "-" ++ d)
  = (if Re.fullmatch (Re.rep_between 2 4 Re.upper_letter) b
     then Some "FUTURE_USD"%string else None)
  /\ (forall name, Instruments.get_subject_by name <> Some "FUTURE_USD"%string ->
      Instruments.get_subject_by_v2 name = Instruments.get_subject_by name).
Proof.
  intros Hb Hd. split; [now apply v2_future_usd_name|].
  intros name Hs. destruct (Instruments.get_subject_by name) as [s|] eqn:E.
  - apply v2_other; [exact E | congruence].
  - unfold Instruments.get_subject_by_v2. now rewrite E.
Qed.

(** X20 on a base in small letters. *)
Lemma get_subject_by_v2_checks_the_base_witness :
  Instruments.word "btc" = true
  /\ Re.fullmatch Instruments.date "27MAY22" = true
  /\ Instruments.get_subject_by "btc-27MAY22" = Some "FUTURE_USD"%string
  /\ Instruments.get_subject_by_v2 "btc-27MAY22" = None.
Proof.
  do 3 (split; [reflexivity|]).
  apply (get_subject_by_v2_checks_the_base "btc" "27MAY22" eq_refl eq_refl).
Defined.

(** X21.  [parse_ee_instrument] reads the names of its documented table
    as the table says: subject, base and quote are those of the row, for
    any base, date and strike without a dash. *)
Theorem parse_ee_instrument_documented_names (b d k c : string) :
  PyText.has "-" b = false ->
  Re.fullmatch Instruments.date d = true ->
  PyText.has "-" k = false ->
  c = "C"%string \/ c = "P"%string ->
  let parsed name subject quote :=
    Instruments.parse_ee_instrument name = Some (Instruments.ee name subject b quote) in
  parsed (b ++ "-USDT-PERPETUAL")%string "SWAP_USDT"%string "USDT"%string
  /\ parsed (b ++ "-USDC-PERPETUAL")%string "SWAP_USDC"%string "USDC"%string
  /\ parsed (b ++ "-PERPETUAL")%string "SWAP_USD"%string "USD"%string
  /\ parsed (b ++ "-BTC")%string "SPOT"%string "BTC"%string
  /\ parsed (b ++ "-" ++ d)%string "FUTURE_USD"%string "USD"%string
  /\ parsed (b ++ "-USDT-" ++ d)%string "FUTURE_USDT"%string "USDT"%string
  /\ parsed (b ++ "-" ++ d ++ "-" ++ k ++ "-" ++ c)%string "OPTION"%string b
  /\ parsed (b ++ "-USDT-" ++ d ++ "-" ++ k ++ "-" ++ c)%string "OPTION_USDT"%string
       "USDT"%string
  /\ parsed (b ++ "-USDC-" ++ d ++ "-" ++ k ++ "-" ++ c)%string "OPTION_USDC"%string
       "USDC"%string.
Proof.
  intros Hb Hd Hk Hc parsed. subst parsed. cbv beta.
  pose proof (date_word _ Hd) as (_ & Hdd & _)%word_inv.
  split; [apply (parse_swap b "USDT"); auto|].
  split; [apply (parse_swap b "USDC"); auto|].
  split; [now apply parse_swap_usd|].
  split; [apply (parse_spot b "BTC"); auto|].
  split; [now apply parse_future_usd|].
  split; [apply (parse_future b "USDT"); auto|].
  split; [now apply parse_option|].
  split; [apply (parse_option_quoted b "USDT"); auto | apply (parse_option_quoted b "USDC"); auto].
Qed.

(** X21 on a row of the table. *)
Lemma parse_ee_instrument_documented_names_witness :
  PyText.has "-" "FIL" = false
  /\ Re.fullmatch Instruments.date "8APR22" = true
  /\ PyText.has "-" "45000" = false
  /\ Instruments.parse_ee_instrument "FIL-8APR22"
     = Some (Instruments.ee "FIL-8APR22" "FUTURE_USD" "FIL" "USD").
Proof.
  do 3 (split; [reflexivity|]).
  apply (parse_ee_instrument_documented_names "FIL" "8APR22" "45000" "C"
           eq_refl eq_refl eq_refl (or_introl eq_refl)).
Defined.

(** X22.  The two classifiers of [tools/instruments.py] do not agree on
    every name.  A future quoted in USDC is [FUTURE_USDC] for
    [get_subject_by] and [FUTURE_USDT] for [parse_ee_instrument]; a
    perpetual whose base ends with [USDC] is a USDC swap for the first and a
    coin-margined swap for the second; a perpetual with a quote other than
    [USDT], [BUSD] or one ending with [USDC] is a coin-margined swap for the
    first and a USDT swap for the second. *)
Theorem classifiers_differ (b q d : string) :
  Instruments.word b = true ->
  Re.fullmatch Instruments.date d = true ->
  let subject_of name := option_map Instruments.subject (Instruments.parse_ee_instrument name) in
  (Instruments.get_subject_by (b ++ "-USDC-" ++ d) = Some "FUTURE_USDC"%string
   /\ subject_of (b ++ "-USDC-" ++ d)%string = Some "FUTURE_USDT"%string)
  /\ (Instruments.get_subject_by (b ++ "USDC-PERPETUAL") = Some "SWAP_USDC"%string
      /\ subject_of (b ++ "USDC-PERPETUAL")%string = Some "SWAP_USD"%string)
  /\ (Instruments.word q = true ->
      q <> "USDT"%string -> q <> "BUSD"%string -> (forall p, q <> (p ++ "USDC")%string) ->
      Instruments.get_subject_by (b ++ "-" ++ q ++ "-PERPETUAL") = Some "SWAP_USD"%string
      /\ subject_of (b ++ "-" ++ q ++ "-PERPETUAL")%string = Some "SWAP_USDT"%string).
Proof.
  intros Hb Hd subject_of. subst subject_of. cbv beta.
  pose proof Hb as (Hl & Hbd & _)%word_inv.
  split; [|split].
  - split; [now apply future_usdc_name|].
    exact (f_equal (option_map Instruments.subject) (parse_future b "USDC" d Hbd eq_refl Hd)).
  - split; [now apply swap_usdc_name|].
    assert (Hb' : PyText.has "-" (b ++ "USDC") = false) by (rewrite has_app, Hbd; reflexivity).
    pose proof (parse_swap_usd _ Hb') as H. rewrite append_assoc in H.
    exact (f_equal (option_map Instruments.subject) H).
  - intros Hq H1 H2 H3. split; [now apply swap_other_quote_name|].
    pose proof Hq as (_ & Hqd & _)%word_inv.
    rewrite parse_swap by assumption. simpl.
    destruct (String.eqb_spec q "USDC") as [->|]; [|reflexivity].
    exfalso. now apply (H3 EmptyString).
Qed.

(** X22 on a future of BTC quoted in USDC. *)
Lemma classifiers_differ_witness :
  Instruments.word "BTC" = true
  /\ Re.fullmatch Instruments.date "29APR22" = true
  /\ Instruments.get_subject_by "BTC-USDC-29APR22" = Some "FUTURE_USDC"%string
  /\ option_map Instruments.subject (Instruments.parse_ee_instrument "BTC-USDC-29APR22")
     = Some "FUTURE_USDT"%string.
Proof.
  do 2 (split; [reflexivity|]).
  apply (classifiers_differ "BTC" "USD" "29APR22" eq_refl eq_refl).
Defined.

(** X23.  With [get_subject_by] of [tools/instruments.py], the key under
    which the strategy looks up the spot book [b-USDT] and the future book
    [b-date] of a currency [b] in capital letters is the topic under which
    the spider caches that book, and it has the form that
    [get_arbitrage_ranks] expects.  A name in capital letters that
    [get_subject_by] knows is found under its topic; a name that it does not
    know never is. *)
Theorem strategy_keys_are_spider_topics (E : Environment) (b d : string) :
  Instruments.word b = true ->
  PyStr.upper b = b ->
  Re.fullmatch Instruments.date d = true ->
  let key := @OrderBookManager.orderbook_key (with_instruments E) in
  let topic := @BaseWSClient.build_topic (with_instruments E) in
  key (b ++ "-USDT")%string
    = ("EXECUTE_ENGINE.SPIDER.OKEX.SPOT." ++ b ++ "." ++ b ++ "-USDT.BOOK")%string
  /\ topic (b ++ "-USDT")%string = key (b ++ "-USDT")%string
  /\ key (b ++ "-" ++ d)%string
     = ("EXECUTE_ENGINE.SPIDER.OKEX.FUTURE_USD." ++ b ++ "." ++ b ++ "-" ++ d ++ ".BOOK")%string
  /\ topic (b ++ "-" ++ d)%string = key (b ++ "-" ++ d)%string
  /\ (forall name, PyStr.upper name = name ->
      (key name = topic name <-> Instruments.get_subject_by name <> None)).
Proof.
  intros Hb Hu Hd key topic. subst key topic.
  pose proof Hb as (Hl & Hbd & _)%word_inv.
  assert (Hiff : forall name, PyStr.upper name = name ->
            (@OrderBookManager.orderbook_key (with_instruments E) name
             = @BaseWSClient.build_topic (with_instruments E) name
             <-> Instruments.get_subject_by name <> None)).
  { intros name Hn. rewrite (@key_is_topic_iff (with_instruments E)).
    change (@get_subject_by (with_instruments E) name) with (Instruments.get_subject_by name).
    destruct (Instruments.get_subject_by name) as [s|] eqn:Es.
    - apply subject_upper in Es. simpl. split; [congruence | auto].
    - simpl. split; [intros [_ [=]] | congruence]. }
  assert (Hspot : Instruments.get_subject_by (b ++ "-USDT") = Some "SPOT"%string)
    by (apply (spot_name b "USDT"); auto).
  assert (Hfut : Instruments.get_subject_by (b ++ "-" ++ d) = Some "FUTURE_USD"%string)
    by now apply future_usd_name.
  assert (Hus : PyStr.upper (b ++ "-USDT") = (b ++ "-USDT")%string)
    by (apply upper_fixed_app; auto).
  assert (Hud : PyStr.upper (b ++ "-" ++ d) = (b ++ "-" ++ d)%string).
  { apply upper_fixed_app. split; [assumption|]. apply upper_fixed_app.
    split; [reflexivity | now apply date_upper]. }
  split.
  { rewrite orderbook_key_unfold.
    change (@get_subject_by (with_instruments E)) with Instruments.get_subject_by.
    rewrite Hspot. change (b ++ "-USDT")%string with (b ++ String "-" "USDT")%string at 1.
    rewrite before_dash_app by assumption. simpl PyStr.format_opt.
    rewrite !append_assoc. reflexivity. }
  split; [symmetry; apply Hiff; [assumption | congruence]|].
  split.
  { rewrite orderbook_key_unfold.
    change (@get_subject_by (with_instruments E)) with Instruments.get_subject_by.
    rewrite Hfut. change (b ++ "-" ++ d)%string with (b ++ String "-" d)%string at 1.
    rewrite before_dash_app by assumption. simpl PyStr.format_opt.
    rewrite !append_assoc. reflexivity. }
  split; [symmetry; apply Hiff; [assumption | congruence]|].
  exact Hiff.
Qed.

(** X23 on the two keys that [get_arbitrage_ranks] documents. *)
Lemma strategy_keys_are_spider_topics_witness :
  Instruments.word "ETC" = true
  /\ PyStr.upper "ETC" = "ETC"%string
  /\ Re.fullmatch Instruments.date "5APR24" = true
  /\ @OrderBookManager.orderbook_key (with_instruments Scenario.env) "ETC-USDT"
     = "EXECUTE_ENGINE.SPIDER.OKEX.SPOT.ETC.ETC-USDT.BOOK"%string
  /\ @OrderBookManager.orderbook_key (with_instruments Scenario.env) "ETC-5APR24"
     = "EXECUTE_ENGINE.SPIDER.OKEX.FUTURE_USD.ETC.ETC-5APR24.BOOK"%string.
Proof.
  do 3 (split; [reflexivity|]).
  pose proof (strategy_keys_are_spider_topics Scenario.env "ETC" "5APR24"
                eq_refl eq_refl eq_refl) as (H1 & _ & H3 & _).
  split; [exact H1 | exact H3].
Defined.

(** ** Client order ids *)
Module NumberFacts.

Import TextFacts InstrumentFacts.

Lemma length_app (a b : string) :
  String.length (a ++ b) = (String.length a + String.length b)%nat.
Proof. induction a as [|c a IH]; [reflexivity|]. rewrite append_cons. simpl. now rewrite IH. Qed.

Lemma substring_skip (a w : string) (m : nat) :
  String.substring (String.length a) m (a ++ w) = String.substring 0 m w.
Proof. induction a as [|c a IH]; [reflexivity|]. rewrite append_cons. simpl. exact IH. Qed.

Lemma last_two_app (a w : string) :
  String.length w = 2%nat -> Number.last_two (a ++ w) = w.
Proof.
  intros Hw. unfold Number.last_two. rewrite length_app, Hw.
  replace (String.length a + 2 - 2)%nat with (String.length a) by lia.
  rewrite substring_skip.
  destruct w as [|x [|y [|z w]]]; try discriminate. reflexivity.
Qed.

Lemma getitem_missing (key : string) (items : list (string * Z)) :
  ~ In key (map fst items) -> Number.getitem key items = inl KeyError.
Proof.
  induction items as [|[k v] items IH]; [reflexivity|]. simpl. intros Hnot.
  destruct (String.eqb_spec k key) as [->|_]; [exfalso; auto|]. apply IH. auto.
Qed.

(** The subject of an id that ends with the two digits of a prefix. *)
Lemma subject_of_id (a w subject : string) (prefix : Z) :
  String.length w = 2%nat -> Number.int w = inr prefix ->
  Number.REVERSE_SUBJECT_PREFIX_MAP !! prefix = Some subject ->
  Number.get_subject_by_order_id (a ++ w) = inr (Some subject).
Proof.
  intros Hw Hint Hrev. unfold Number.get_subject_by_order_id.
  now rewrite last_two_app, Hint, Hrev.
Qed.

End NumberFacts.

Import NumberFacts.

(** X24.  The client order id that [generate_order_id] makes for a
    subject ends with the prefix of the subject, and
    [get_subject_by_order_id] reads the subject back from it, whatever the
    clock reading; the same holds of the ids of [generate_sor_order_id].  A
    subject without a prefix makes both raise [KeyError]; of the subjects
    that [get_subject_by] gives, [FUTURE_USDC] is the one without a
    prefix. *)
Theorem order_id_carries_subject (ts : Z) :
  (forall subject, In subject (map fst Number.SUBJECT_PREFIX_MAPPING) ->
     exists order_id sor_id,
       Number.generate_order_id ts subject = inr order_id
       /\ Number.get_subject_by_order_id order_id = inr (Some subject)
       /\ Number.generate_sor_order_id ts subject = inr sor_id
       /\ Number.get_subject_by_order_id sor_id = inr (Some subject))
  /\ (forall subject, ~ In subject (map fst Number.SUBJECT_PREFIX_MAPPING) ->
        Number.generate_order_id ts subject = inl KeyError
        /\ Number.generate_sor_order_id ts subject = inl KeyError)
  /\ (forall name subject, Instruments.get_subject_by name = Some subject ->
        subject <> "FUTURE_USDC"%string ->
        In subject (map fst Number.SUBJECT_PREFIX_MAPPING))
  /\ ~ In "FUTURE_USDC"%string (map fst Number.SUBJECT_PREFIX_MAPPING).
Proof.
  split; [|split; [|split]].
  - intros subject Hin. simpl in Hin.
    repeat destruct Hin as [<-|Hin]; try contradiction.
    all: eexists _, _.
    all: split; [reflexivity|]; split; [|split; [reflexivity|]].
    all: rewrite <- append_assoc.
    all: eapply subject_of_id; [reflexivity | reflexivity | vm_compute; reflexivity].
  - intros subject Hnot. unfold Number.generate_order_id, Number.generate_sor_order_id.
    now rewrite getitem_missing.
  - intros name subject Hs Hne. apply subject_in_range in Hs. simpl in Hs. simpl.
    repeat destruct Hs as [<-|Hs]; try contradiction; tauto.
  - simpl. intros H. repeat destruct H as [H|H]; try discriminate. exact H.
Qed.
